(** * rtl8710b_ota.c: the single-image OTA update of the AmebaZ SDK

    A functional model of [components/sdk-ameba/soc/realtek/8711b/misc/rtl8710b_ota.c]
    (the [SERVER_LOCAL], [SINGLE_IMG_OTA_UPGRADE] flow) and the properties of
    its header parser, bank resolver, streaming writer, checksum verifier and
    commit step.

    Conventions.
    - [u32], [int]: C integers are [Z] with the wrap-around written out
      ([u32], [s32]).
    - Bytes are [Byte.byte]; multi-byte fields are little endian (Cortex-M).
    - A call whose C behaviour is undefined (a read outside the object a
      pointer designates, the use of an uninitialised local) yields [None].
    - The socket, the flash device and the boot ROM are an explicit [world]
      that every effectful function threads through. *)

From Stdlib.Strings Require Import Byte String.
From Stdlib Require Import ZArith List Bool Lia.
Import ListNotations.
Open Scope Z_scope.

(* ================================================================= *)
(** ** Machine integers and bytes *)

Module Word.

Definition modulus : Z := 2 ^ 32.

(** An unsigned 32-bit result: [u32], [uint32_t]. *)
Definition u32 (z : Z) : Z := z mod modulus.

(** A signed 32-bit result: [s32], [int]. *)
Definition s32 (z : Z) : Z :=
  let r := z mod modulus in
  if r <? 2 ^ 31 then r else r - modulus.

Definition byte_val (b : byte) : Z := Z.of_N (Byte.to_N b).

Definition byte_of_Z (z : Z) : byte :=
  match Byte.of_N (Z.to_N (z mod 256)) with
  | Some b => b
  | None => x00
  end.

(** A little-endian unsigned integer held in a few bytes. *)
Fixpoint le_val (bs : list byte) : Z :=
  match bs with
  | [] => 0
  | b :: r => byte_val b + 256 * le_val r
  end.

(** The four bytes of a [u32] in memory. *)
Definition le_bytes32 (z : Z) : list byte :=
  [byte_of_Z z; byte_of_Z (z / 256); byte_of_Z (z / 65536);
   byte_of_Z (z / 16777216)].

End Word.
Import Word.

(* ================================================================= *)
(** ** Undefined behaviour as [None] *)

Definition bind {A B : Type} (m : option A) (f : A -> option B) : option B :=
  match m with
  | Some a => f a
  | None => None
  end.

Notation "x <- m ;; k" := (bind m (fun x => k))
  (at level 61, m at next level, right associativity).
Notation "' p <- m ;; k" := (bind m (fun x => let 'p := x in k))
  (at level 61, p pattern, m at next level, right associativity).

(** [n] bytes of the object [bs] from offset [off]; outside the object
    the access is undefined. *)
Definition load_bytes (bs : list byte) (off : Z) (n : nat) : option (list byte) :=
  if (0 <=? off) && (off + Z.of_nat n <=? Z.of_nat (length bs))
  then Some (firstn n (skipn (Z.to_nat off) bs))
  else None.

Definition load32 (bs : list byte) (off : Z) : option Z :=
  option_map le_val (load_bytes bs off 4).

(** [strncmp(s1, s2, n)]: at most [n] characters are compared and the
    comparison stops behind a NUL; running off either object is undefined. *)
Fixpoint strncmp (s1 s2 : list byte) (n : nat) {struct n} : option Z :=
  match n with
  | O => Some 0
  | S n' =>
      match s1, s2 with
      | c1 :: t1, c2 :: t2 =>
          if Byte.eqb c1 c2
          then (if Byte.eqb c1 x00 then Some 0 else strncmp t1 t2 n')
          else Some (byte_val c1 - byte_val c2)
      | _, _ => None
      end
  end.

(* ================================================================= *)
(** ** The firmware container: rtl8710b_ota.h *)

(** [update_file_hdr]: the first 8 bytes of the container. *)
Record update_file_hdr := {
  FwVer : Z;
  HdrNum : Z
}.

(** Modelled from the spec: rtl8710b_ota.h, which declares
    [update_file_img_hdr], is not among the sources.  The wire format gives
    a 4-byte identifier tag followed by 32-bit fields: header length, image
    length, checksum, the offset of the image in the stream and the flash
    address, in all 24 bytes.  The source fixes the place of [ImgHdrLen]
    only (the second word of an image header, read by [recv_ota_file_hdr]
    from bytes 12..15 of the file). *)
Record update_file_img_hdr := {
  ImgId : list byte;
  ImgHdrLen : Z;
  ImgLen : Z;
  Checksum : Z;
  Offset : Z;
  FlashOffset : Z
}.

Definition sizeof_update_file_img_hdr : Z := 24.
Definition sizeof_update_file_hdr : Z := 8.

(** What [_memcpy(&hdr, p, sizeof(update_file_img_hdr))] leaves in [hdr]. *)
Definition decode_img_hdr (bs : list byte) : update_file_img_hdr :=
  {| ImgId := firstn 4 bs;
     ImgHdrLen := le_val (firstn 4 (skipn 4 bs));
     ImgLen := le_val (firstn 4 (skipn 8 bs));
     Checksum := le_val (firstn 4 (skipn 12 bs));
     Offset := le_val (firstn 4 (skipn 16 bs));
     FlashOffset := le_val (firstn 4 (skipn 20 bs)) |}.

Definition zero_img_hdr : update_file_img_hdr :=
  decode_img_hdr (repeat x00 24).

(** [update_ota_target_hdr]; [RdpStatus] is [ENABLE] ([true]) or
    [DISABLE] ([false]). *)
Record update_ota_target_hdr := {
  FileHdr : update_file_hdr;
  FileImgHdr : update_file_img_hdr;
  FileRdpHdr : update_file_img_hdr;
  RdpStatus : bool
}.

Definition set_RdpStatus (t : update_ota_target_hdr) (b : bool) :=
  {| FileHdr := FileHdr t; FileImgHdr := FileImgHdr t;
     FileRdpHdr := FileRdpHdr t; RdpStatus := b |}.

Definition set_FileImgHdr (t : update_ota_target_hdr) (h : update_file_img_hdr) :=
  {| FileHdr := FileHdr t; FileImgHdr := h;
     FileRdpHdr := FileRdpHdr t; RdpStatus := RdpStatus t |}.

Definition set_FileRdpHdr (t : update_ota_target_hdr) (h : update_file_img_hdr) :=
  {| FileHdr := FileHdr t; FileImgHdr := FileImgHdr t;
     FileRdpHdr := h; RdpStatus := RdpStatus t |}.

Definition set_FileHdr (t : update_ota_target_hdr) (h : update_file_hdr) :=
  {| FileHdr := h; FileImgHdr := FileImgHdr t;
     FileRdpHdr := FileRdpHdr t; RdpStatus := RdpStatus t |}.

(** [const update_file_img_id OtaImgId[2] = {{"OTA1"}, {"OTA2"}}] and
    [const u8 RdpImg[4] = "RDP"], with their terminating NUL. *)
Definition OtaImgId (index : Z) : list byte :=
  if index =? 0 then list_byte_of_string "OTA1" ++ [x00]
  else list_byte_of_string "OTA2" ++ [x00].

Definition RdpImg : list byte := list_byte_of_string "RDP" ++ [x00].

(* ================================================================= *)
(** ** Header parser: [get_ota_tartget_header] *)

(** The address [buf + 8 + ImgHdr->ImgHdrLen * i] as an offset into [buf]. *)
Definition entry_off (ImgHdrLen_ i : Z) : Z := 8 + u32 (ImgHdrLen_ * i).

(** The object seen through [pTempAddr]. *)
Definition entry_at (bs : list byte) (ImgHdrLen_ i : Z) : list byte :=
  skipn (Z.to_nat (entry_off ImgHdrLen_ i)) bs.

(** The body of [for(i = 0; i < FileHdr->HdrNum; i++)], entered with
    [n = HdrNum - i] iterations to go.  The result is the return value and
    the target header; [goto error] leaves the loop at once. *)
Fixpoint scan_headers (n : nat) (i : Z) (bs : list byte) (HdrNum_ ImgHdrLen_ : Z)
    (ImgId_ : list byte) (ImageFg : Z) (t : update_ota_target_hdr)
    : option (Z * update_ota_target_hdr) :=
  match n with
  | O => Some (1, t)
  | S n' =>
      let pTempAddr := entry_at bs ImgHdrLen_ i in
      c <- strncmp ImgId_ pTempAddr 4 ;;
      if c =? 0 then
        h <- load_bytes bs (entry_off ImgHdrLen_ i) (Z.to_nat sizeof_update_file_img_hdr) ;;
        scan_headers n' (i + 1) bs HdrNum_ ImgHdrLen_ ImgId_ 1
          (set_FileImgHdr t (decode_img_hdr h))
      else
        r <- strncmp RdpImg pTempAddr 3 ;;
        if r =? 0 then
          h <- load_bytes bs (entry_off ImgHdrLen_ i) (Z.to_nat sizeof_update_file_img_hdr) ;;
          scan_headers n' (i + 1) bs HdrNum_ ImgHdrLen_ ImgId_ 1
            (set_FileRdpHdr (set_RdpStatus t true) (decode_img_hdr h))
        else if (i =? u32 (HdrNum_ - 1)) && (ImageFg =? 0) then Some (0, t)
        else scan_headers n' (i + 1) bs HdrNum_ ImgHdrLen_ ImgId_ ImageFg t
  end.

(** [buf] is [None] for a null pointer. *)
Definition get_ota_tartget_header (buf : option (list byte)) (len : Z)
    (pOtaTgtHdr : update_ota_target_hdr) (ImgId_ : list byte)
    : option (Z * update_ota_target_hdr) :=
  let t := set_RdpStatus pOtaTgtHdr false in
  match buf with
  | None => Some (0, t)
  | Some bs =>
      if len <? sizeof_update_file_img_hdr + 8 then Some (0, t)
      else
        HdrNum_ <- load32 bs 4 ;;
        ImgHdrLen_ <- load32 bs 12 ;;
        if len <? u32 (HdrNum_ * ImgHdrLen_ + 8) then Some (0, t)
        else scan_headers (Z.to_nat HdrNum_) 0 bs HdrNum_ ImgHdrLen_ ImgId_ 0 t
  end.

(** The comparisons of the scan, as predicates on entry [i]. *)
Definition matches_target (bs : list byte) (ImgHdrLen_ : Z) (ImgId_ : list byte) (i : Z) : Prop :=
  strncmp ImgId_ (entry_at bs ImgHdrLen_ i) 4 = Some 0.

Definition matches_rdp (bs : list byte) (ImgHdrLen_ : Z) (i : Z) : Prop :=
  strncmp RdpImg (entry_at bs ImgHdrLen_ i) 3 = Some 0.

(* ================================================================= *)
(** ** The platform *)

(** The constants of the headers that are not among the sources
    (rtl8710b_ota.h, the flash layout, the build configuration).  Every
    definition below takes them as a parameter. *)
Record platform := {
  SPI_FLASH_BASE : Z;          (* where the flash is mapped *)
  OTA1_ADDR : Z;               (* address of bank 1 *)
  RDP_FLASH_ADDR : Z;          (* address of the RDP image *)
  OFFSET_DATA : Z;             (* flash offset of the system data: the bank-2 address *)
  IMAGE_HEADER_LEN : Z;        (* sizeof(IMAGE_HEADER) *)
  image_size_off : Z;          (* offsetof(IMAGE_HEADER, image_size) *)
  BUF_SIZE : Z;                (* size of the transfer buffer *)
  CONFIG_CUSTOM_SIGNATURE : bool;
  cus_sig_demo : list byte;    (* the 32 bytes of the custom signature *)
  cus_sig_demo_addr : Z        (* where the running image holds them *)
}.

Definition OTA2_DEFAULT_ADDR : Z := 0x08080000.

(** [OtaImgId] is indexed by the bank index. *)
Definition OTA_INDEX_1 : Z := 0.
Definition OTA_INDEX_2 : Z := 1.

(** [OTA_IMAG] and [RDP_IMAG], the [ImgId] of a download descriptor. *)
Inductive img_kind := OTA_IMAG | RDP_IMAG.

Definition img_kind_eqb (a b : img_kind) : bool :=
  match a, b with
  | OTA_IMAG, OTA_IMAG | RDP_IMAG, RDP_IMAG => true
  | _, _ => false
  end.

(* ================================================================= *)
(** ** The world: socket, flash, boot ROM *)

(** Modelled from the spec: the storage device ([erase], [write], [read]),
    the configuration slot and the bank switch are services outside the
    sources.  The flash is an array of bytes indexed by a 32-bit offset;
    erasing sets bytes to 0xFF, writing stores the bytes given. *)
Definition flash := Z -> byte.

Definition flash_set (fl : flash) (a : Z) (b : byte) : flash :=
  fun x => if x =? u32 a then b else fl x.

Fixpoint write_bytes (fl : flash) (a : Z) (d : list byte) : flash :=
  match d with
  | [] => fl
  | b :: r => write_bytes (flash_set fl a b) (a + 1) r
  end.

(** [flash_stream_read(&flash, a, n, buf)]: the [n] bytes from offset [a]. *)
Definition flash_stream_read (fl : flash) (a : Z) (n : nat) : list byte :=
  map (fun j => fl (u32 (a + Z.of_nat j))) (seq 0 n).

(** [HAL_READ32(SPI_FLASH_BASE, off)]. *)
Definition HAL_READ32 (fl : flash) (off : Z) : Z :=
  le_val (flash_stream_read fl off 4).

(** A 32-bit load from the memory-mapped flash at address [addr]. *)
Definition mem_read32 (P : platform) (fl : flash) (addr : Z) : Z :=
  HAL_READ32 fl (u32 (addr - SPI_FLASH_BASE P)).

(** Who issued a flash write. *)
Inductive origin :=
| ByImage (k : img_kind)       (* the streaming writer, for this image *)
| BySignature                  (* [change_ota_signature] *)
| BySysData.                   (* [ota_write_ota2_addr] *)

(** What the update does to the device, in the order it happens. *)
Inductive event :=
| EvErase (a : Z)                              (* [flash_erase_sector] *)
| EvEraseDword (a : Z)                         (* [FLASH_EreaseDwordsXIP(a, 1)] *)
| EvWrite (who : origin) (a : Z) (d : list byte)      (* a write that succeeded *)
| EvWriteFail (who : origin) (a : Z) (d : list byte)  (* a write that failed *)
| EvOtaChange (index : Z)                      (* [OTA_Change] *)
| EvReset.                                     (* [ota_platform_reset] *)

Definition apply_event (e : event) (fl : flash) : flash :=
  match e with
  | EvErase a => fun x => if x / 4096 =? u32 a / 4096 then xff else fl x
  | EvEraseDword a => write_bytes fl a [xff; xff; xff; xff]
  | EvWrite _ a d => write_bytes fl a d
  | EvWriteFail _ _ _ => fl
  | EvOtaChange _ => fl
  | EvReset => fl
  end.

(** The flash after the events [es], the oldest first. *)
Definition flash_after (es : list event) (fl : flash) : flash :=
  fold_left (fun f e => apply_event e f) es fl.

(** - [rx_data]: the bytes the peer sends before it closes the connection,
      as far as they are not read yet;
    - [flash0] and [log]: the flash at the start and the events since, the
      newest first;
    - [wfail]: which of the coming [flash_stream_write] calls fail. *)
Record world := {
  rx_data : list byte;
  flash0 : flash;
  log : list event;
  wfail : list bool
}.

Definition cur_flash (w : world) : flash := flash_after (rev (log w)) (flash0 w).

Definition emit (e : event) (w : world) : world :=
  {| rx_data := rx_data w; flash0 := flash0 w; log := e :: log w; wfail := wfail w |}.

Definition set_rx (d : list byte) (w : world) : world :=
  {| rx_data := d; flash0 := flash0 w; log := log w; wfail := wfail w |}.

Definition set_wfail (f : list bool) (w : world) : world :=
  {| rx_data := rx_data w; flash0 := flash0 w; log := log w; wfail := f |}.

(** [flash_stream_write(&flash, a, len, data)]: negative on failure. *)
Definition flash_stream_write (who : origin) (a : Z) (d : list byte) (w : world)
    : Z * world :=
  match wfail w with
  | true :: f => (-1, emit (EvWriteFail who a d) (set_wfail f w))
  | false :: f => (1, emit (EvWrite who a d) (set_wfail f w))
  | [] => (1, emit (EvWrite who a d) w)
  end.

Definition flash_erase_sector (a : Z) (w : world) : world := emit (EvErase a) w.

(** One call [read(socket, buf, max_len)].  The schedule entry [n] of the
    call says how the network behaves: negative, the call fails; otherwise
    it delivers at most [n] bytes.  The result is the return value, the
    bytes stored at [buf] and the data left. *)
Definition deliver (n max_len : Z) (data : list byte) : Z * list byte * list byte :=
  if n <? 0 then (-1, [], data)
  else
    let k := Z.to_nat (Z.min n max_len) in
    (Z.of_nat (length (firstn k data)), firstn k data, skipn k data).

(** [_memcpy(bs + off, d, |d|)]; outside the object it is undefined. *)
Definition store_bytes (bs : list byte) (off : Z) (d : list byte) : option (list byte) :=
  if (0 <=? off) && (off + Z.of_nat (length d) <=? Z.of_nat (length bs))
  then Some (firstn (Z.to_nat off) bs ++ d ++ skipn (Z.to_nat off + length d) bs)
  else None.

(** [load_bytes] for a length held in an [int]. *)
Definition load_bytesZ (bs : list byte) (off n : Z) : option (list byte) :=
  if n <? 0 then None else load_bytes bs off (Z.to_nat n).

(* ================================================================= *)
(** ** Bank resolver: [ota_write_ota2_addr], [ota_get_cur_index], [get_ota_address] *)

Definition ota_write_ota2_addr (P : platform) (ota_addr : Z) (w : world) : Z * world :=
  let data := HAL_READ32 (cur_flash w) (OFFSET_DATA P) in
  if negb (data =? 0xFFFFFFFF) && negb (data =? ota_addr) then
    (0, emit (EvWrite BySysData (OFFSET_DATA P) (le_bytes32 ota_addr))
          (emit (EvEraseDword (OFFSET_DATA P)) w))
  else (0, w).

Definition ota_get_cur_index (P : platform) : Z :=
  if u32 (cus_sig_demo_addr P) =? u32 (OTA1_ADDR P + IMAGE_HEADER_LEN P)
  then OTA_INDEX_1 else OTA_INDEX_2.

(** The bound [(u32)FlashImgDataHdr + FlashImgDataHdr->image_size +
    IMAGE_HEADER_LEN]: the end of bank 1's image, its data image and their
    headers, as read from the flash. *)
Definition ota1_image_end (P : platform) (fl : flash) : Z :=
  let OTA1Len := mem_read32 P fl (OTA1_ADDR P + image_size_off P) in
  let FlashImgDataHdr := u32 (OTA1_ADDR P + OTA1Len + IMAGE_HEADER_LEN P) in
  u32 (FlashImgDataHdr + mem_read32 P fl (FlashImgDataHdr + image_size_off P)
       + IMAGE_HEADER_LEN P).

(** The checks behind both branches: the address against the
    [FlashOffset] of the file, and against the all-ones value. *)
Definition check_ota_image_address (new_addr : Z) (pOtaTgtHdr : update_ota_target_hdr)
    (w : world) : Z * Z * world :=
  if negb (new_addr =? FlashOffset (FileImgHdr pOtaTgtHdr)) then (0, new_addr, w)
  else if new_addr =? 0xFFFFFFFF then (0, new_addr, w)
  else (1, new_addr, w).

(** The result is the return value, [*new_addr] and the world. *)
Definition get_ota_address (P : platform) (ota_target_index : Z) (new_addr : Z)
    (pOtaTgtHdr : update_ota_target_hdr) (w : world) : Z * Z * world :=
  let ota2_addr := HAL_READ32 (cur_flash w) (OFFSET_DATA P) in
  let '(ota2_addr, w) :=
    if ota2_addr =? 0xffffffff then
      let '(_, w') := ota_write_ota2_addr P OTA2_DEFAULT_ADDR w in
      (HAL_READ32 (cur_flash w') (OFFSET_DATA P), w')
    else (ota2_addr, w) in
  if negb (ota2_addr mod 4096 =? 0) then (0, new_addr, w)
  else if ota_target_index =? OTA_INDEX_2 then
    if (ota2_addr <? ota1_image_end P (cur_flash w))
       && (Z.land ota2_addr 0xfff =? 0)
    then (0, new_addr, w)
    else check_ota_image_address ota2_addr pOtaTgtHdr w
  else
    let new_addr := u32 (OTA1_ADDR P) in
    if ImgLen (FileImgHdr pOtaTgtHdr) >? u32 (ota2_addr - new_addr)
    then (0, new_addr, w)
    else check_ota_image_address new_addr pOtaTgtHdr w.

(* ================================================================= *)
(** ** Receiving the headers: [recv_file_info_from_server], [recv_ota_file_hdr] *)

(** One call of [read], given the schedule entry of the call ([None]: the
    peer has closed). *)
Definition read (entry : option Z) (max_len : Z) (w : world) : Z * list byte * world :=
  match entry with
  | None => (0, [], w)
  | Some n =>
      let '(r, d, rest) := deliver n max_len (rx_data w) in
      (r, d, set_rx rest w)
  end.

(** The loop the source repeats three times:
    [while(TempLen > 0) { read_bytes = read(socket, buf, TempLen); ... }]
    with [buf] at offset [pos] of [Recvbuf].  The boolean is [false] after
    [goto error]. *)
Fixpoint recv_loop (sched : list Z) (TempLen_ : Z) (Recvbuf : list byte) (pos : Z)
    (w : world) : option (bool * list byte * list Z * world) :=
  if TempLen_ >? 0 then
    match sched with
    | [] => Some (true, Recvbuf, [], w)
    | n :: sched' =>
        let '(read_bytes, d, w') := read (Some n) TempLen_ w in
        if read_bytes <? 0 then Some (false, Recvbuf, sched', w')
        else if read_bytes =? 0 then Some (true, Recvbuf, sched', w')
        else
          Recvbuf' <- store_bytes Recvbuf pos d ;;
          recv_loop sched' (u32 (TempLen_ - read_bytes)) Recvbuf' (pos + read_bytes) w'
    end
  else Some (true, Recvbuf, sched, w).

Definition recv_file_info_from_server (Recvbuf : list byte) (len : Z) (sched : list Z)
    (w : world) : option (Z * list byte * list Z * world) :=
  '(ok, b, s, w') <- recv_loop sched len Recvbuf 0 w ;;
  Some (if ok : bool then 1 else 0, b, s, w').

(** The result is the return value, the buffer, [*len], the target header,
    the schedule left and the world. *)
Definition recv_ota_file_hdr (Recvbuf : list byte) (len : Z)
    (pOtaTgtHdr : update_ota_target_hdr) (sched : list Z) (w : world)
    : option (Z * list byte * Z * update_ota_target_hdr * list Z * world) :=
  '(ok, b, s, w1) <- recv_loop sched 16 Recvbuf 0 w ;;
  if negb ok then Some (0, b, len, pOtaTgtHdr, s, w1)
  else
    FwVer_ <- load32 b 0 ;;
    HdrNum_ <- load32 b 4 ;;
    ImgHdrLen_ <- load32 b 12 ;;
    let t := set_FileHdr pOtaTgtHdr {| FwVer := FwVer_; HdrNum := HdrNum_ |} in
    '(ok2, b2, s2, w2) <- recv_loop s (u32 (HdrNum_ * ImgHdrLen_ - 8)) b 16 w1 ;;
    if negb ok2 then Some (0, b2, len, t, s2, w2)
    else Some (1, b2, u32 (HdrNum_ * ImgHdrLen_ + 8), t, s2, w2).

(* ================================================================= *)
(** ** Erasing the target: [erase_ota_target_flash] *)

Fixpoint erase_sectors (n : nat) (a i : Z) (w : world) : world :=
  match n with
  | O => w
  | S n' => erase_sectors n' a (i + 1) (flash_erase_sector (u32 (a + i * 4096)) w)
  end.

Definition erase_ota_target_flash (P : platform) (addr len : Z) (w : world) : world :=
  let NewImg2BlkSize := u32 (u32 (len - 1) / 4096 + 1) in
  erase_sectors (Z.to_nat NewImg2BlkSize) (addr - SPI_FLASH_BASE P) 0 w.

(* ================================================================= *)
(** ** Streaming writer: [download_new_fw_from_server] *)

(** [update_dw_info]. *)
Record update_dw_info := {
  DwImgId : img_kind;
  FlashAddr : Z;
  ImgOffset : Z;
  ImageLen : Z
}.

(** Lines 389-425: [ImageCnt], [DownloadInfo[0]] and [DownloadInfo[1]]. *)
Definition ota_dw_info (P : platform) (addr : Z) (t : update_ota_target_hdr) :=
  {| DwImgId := OTA_IMAG;
     FlashAddr := u32 (addr - SPI_FLASH_BASE P + 8);
     ImgOffset := Offset (FileImgHdr t);
     ImageLen := u32 (ImgLen (FileImgHdr t) - 8) |}.

Definition rdp_dw_info (P : platform) (t : update_ota_target_hdr) :=
  {| DwImgId := RDP_IMAG;
     FlashAddr := u32 (RDP_FLASH_ADDR P - SPI_FLASH_BASE P);
     ImgOffset := Offset (FileRdpHdr t);
     ImageLen := ImgLen (FileRdpHdr t) |}.

Definition zero_dw_info :=
  {| DwImgId := OTA_IMAG; FlashAddr := 0; ImgOffset := 0; ImageLen := 0 |}.

Definition arrange_download_info (P : platform) (addr : Z) (t : update_ota_target_hdr)
    : Z * update_dw_info * update_dw_info :=
  if RdpStatus t then
    if Offset (FileImgHdr t) <? Offset (FileRdpHdr t)
    then (2, ota_dw_info P addr t, rdp_dw_info P t)
    else (2, rdp_dw_info P t, ota_dw_info P addr t)
  else (1, ota_dw_info P addr t, zero_dw_info).

(** The images of the plan in the order of the loop [for(i = 0; i < ImageCnt; i++)]. *)
Definition download_plan (P : platform) (addr : Z) (t : update_ota_target_hdr)
    : list update_dw_info :=
  let '(ImageCnt, d0, d1) := arrange_download_info P addr t in
  firstn (Z.to_nat ImageCnt) [d0; d1].

(** The locals of the download that live across iterations. *)
Record dl_state := {
  buf : list byte;            (* the [BUF_SIZE] bytes at [alloc] *)
  read_bytes_buf : option Z;  (* [None] until it is assigned *)
  TempLen : Z;
  OtaFg : bool;
  SigCnt : Z;
  TempCnt : Z;
  signature : list byte;      (* the caller's array *)
  RemainBytes : Z;
  size : Z
}.

Definition set_buf (b : list byte) (rb : option Z) (tl : Z) (s : dl_state) :=
  {| buf := b; read_bytes_buf := rb; TempLen := tl; OtaFg := OtaFg s;
     SigCnt := SigCnt s; TempCnt := TempCnt s; signature := signature s;
     RemainBytes := RemainBytes s; size := size s |}.

Definition set_reached (tc : Z) (s : dl_state) :=
  {| buf := buf s; read_bytes_buf := read_bytes_buf s; TempLen := TempLen s;
     OtaFg := true; SigCnt := SigCnt s; TempCnt := tc; signature := signature s;
     RemainBytes := RemainBytes s; size := size s |}.

Definition set_sig (sc : Z) (sg : list byte) (s : dl_state) :=
  {| buf := buf s; read_bytes_buf := read_bytes_buf s; TempLen := TempLen s;
     OtaFg := OtaFg s; SigCnt := sc; TempCnt := TempCnt s; signature := sg;
     RemainBytes := RemainBytes s; size := size s |}.

Definition set_count (rem sz : Z) (s : dl_state) :=
  {| buf := buf s; read_bytes_buf := read_bytes_buf s; TempLen := TempLen s;
     OtaFg := OtaFg s; SigCnt := SigCnt s; TempCnt := TempCnt s;
     signature := signature s; RemainBytes := rem; size := sz |}.

(** After an image: [size = 0; OtaFg = 0]. *)
Definition next_image (s : dl_state) :=
  {| buf := buf s; read_bytes_buf := read_bytes_buf s; TempLen := TempLen s;
     OtaFg := false; SigCnt := SigCnt s; TempCnt := TempCnt s;
     signature := signature s; RemainBytes := RemainBytes s; size := 0 |}.

(** How the processing of a packet ends: at the end of the loop body or a
    [continue], or at [goto exit] behind a failed write. *)
Inductive packet_result :=
| PktNext (s : dl_state) (w : world)
| PktWriteFail (s : dl_state) (w : world).

(** Lines 503-514: the [read_bytes] bytes at [buf + off] go to the flash. *)
Definition dl_write (d : update_dw_info) (off read_bytes : Z) (s : dl_state) (w : world)
    : option packet_result :=
  let rem := s32 (RemainBytes s - read_bytes) in
  let read_bytes := if rem <? 0 then s32 (read_bytes - (- rem)) else read_bytes in
  data <- load_bytesZ (buf s) off read_bytes ;;
  let '(r, w') :=
    flash_stream_write (ByImage (DwImgId d)) (u32 (FlashAddr d + size s)) data w in
  if r <? 0 then Some (PktWriteFail (set_count rem (size s) s) w')
  else Some (PktNext (set_count rem (s32 (size s + read_bytes)) s) w').

(** Lines 460-515: the packet of [read_bytes] bytes in [buf], with
    [TempLen] counting it already. *)
Definition dl_packet (d : update_dw_info) (read_bytes : Z) (s : dl_state) (w : world)
    : option packet_result :=
  if TempLen s >? ImgOffset d then
    if negb (OtaFg s) then
      let tc := u32 (TempLen s - ImgOffset d) in
      let s := set_reached tc s in
      match DwImgId d with
      | OTA_IMAG =>
          let sc := if tc <? 8 then tc else 8 in
          src <- load_bytesZ (buf s) (read_bytes - tc) sc ;;
          sg <- store_bytes (signature s) 0 src ;;
          let s := set_sig sc sg s in
          if (sc <? 8) || (u32 (tc - 8) =? 0) then Some (PktNext s w)
          else dl_write d (read_bytes - tc + 8) (s32 (tc - 8)) s w
      | RDP_IMAG => dl_write d (read_bytes - tc) (s32 tc) s w
      end
    else
      match DwImgId d with
      | OTA_IMAG =>
          if SigCnt s <? 8 then
            if u32 read_bytes <? u32 (8 - SigCnt s) then
              src <- load_bytesZ (buf s) 0 read_bytes ;;
              sg <- store_bytes (signature s) (SigCnt s) src ;;
              Some (PktNext (set_sig (u32 (SigCnt s + read_bytes)) sg s) w)
            else
              src <- load_bytesZ (buf s) 0 (8 - SigCnt s) ;;
              sg <- store_bytes (signature s) (SigCnt s) src ;;
              let off := 8 - SigCnt s in
              let read_bytes := s32 (read_bytes - (8 - SigCnt s)) in
              let s := set_sig 8 sg s in
              if read_bytes =? 0 then Some (PktNext s w)
              else dl_write d off read_bytes s w
          else dl_write d 0 read_bytes s w
      | RDP_IMAG => dl_write d 0 read_bytes s w
      end
  else Some (PktNext s w).

(** The two ways past [while(RemainBytes > 0)]: its condition, or the
    [break] behind a read of length 0. *)
Inductive loop_exit := LoopDone | LoopEof.

Inductive image_result :=
| ImgNext (how : loop_exit) (s : dl_state) (sched : list Z) (w : world)
| ImgReadErr (s : dl_state) (sched : list Z) (w : world)
| ImgWriteFail (s : dl_state) (sched : list Z) (w : world).

(** [alloc] after [memset(buf, 0, BUF_SIZE)] and a read that stored [d]. *)
Definition fill_buf (P : platform) (d : list byte) : list byte :=
  d ++ repeat x00 (Z.to_nat (BUF_SIZE P) - length d).

(** The iterations of the [while] that read from the socket ([IncFg = 0]). *)
Fixpoint dl_reads (P : platform) (d : update_dw_info) (sched : list Z) (s : dl_state)
    (w : world) : option image_result :=
  if RemainBytes s >? 0 then
    match sched with
    | [] =>
        Some (ImgNext LoopEof (set_buf (fill_buf P []) (read_bytes_buf s) (TempLen s) s) [] w)
    | n :: sched' =>
        let '(read_bytes, data, w') := read (Some n) (BUF_SIZE P) w in
        if read_bytes =? 0 then
          Some (ImgNext LoopEof
                  (set_buf (fill_buf P data) (read_bytes_buf s) (TempLen s) s) sched' w')
        else if read_bytes <? 0 then
          Some (ImgReadErr
                  (set_buf (fill_buf P data) (read_bytes_buf s) (TempLen s) s) sched' w')
        else
          let s := set_buf (fill_buf P data) (Some read_bytes)
                     (u32 (TempLen s + read_bytes)) s in
          match dl_packet d read_bytes s w' with
          | Some (PktNext s' w'') => dl_reads P d sched' s' w''
          | Some (PktWriteFail s' w'') => Some (ImgWriteFail s' sched' w'')
          | None => None
          end
    end
  else Some (ImgNext LoopDone s sched w).

(** The [while] loop of image [d].  With [IncFg = 1] its first iteration
    takes the packet left in the buffer instead of reading; every later
    iteration reads. *)
Definition download_image (P : platform) (d : update_dw_info) (IncFg : bool)
    (sched : list Z) (s : dl_state) (w : world) : option image_result :=
  let s := set_count (s32 (ImageLen d)) (size s) s in
  if IncFg && (RemainBytes s >? 0) then
    read_bytes <- read_bytes_buf s ;;
    match dl_packet d read_bytes s w with
    | Some (PktNext s' w') => dl_reads P d sched s' w'
    | Some (PktWriteFail s' w') => Some (ImgWriteFail s' sched w')
    | None => None
    end
  else dl_reads P d sched s w.

(** What the download leaves: [OtaImgSize] ([None] while unassigned), how
    the loop of each image ended, the locals, the schedule and the world. *)
Definition dl_result : Type :=
  option Z * list (img_kind * loop_exit) * dl_state * list Z * world.

(** [for(i = 0; i < ImageCnt; i++)] over the images of the plan, up to the
    label [exit]. *)
Fixpoint download_images (P : platform) (plan : list update_dw_info) (IncFg : bool)
    (OtaImgSize : option Z) (exits : list (img_kind * loop_exit))
    (sched : list Z) (s : dl_state) (w : world) : option dl_result :=
  match plan with
  | [] => Some (OtaImgSize, exits, s, sched, w)
  | d :: plan' =>
      r <- download_image P d IncFg sched s w ;;
      match r with
      | ImgReadErr s' sched' w' => Some (Some (-1), exits, s', sched', w')
      | ImgWriteFail s' sched' w' => Some (OtaImgSize, exits, s', sched', w')
      | ImgNext how s' sched' w' =>
          let OtaImgSize :=
            match DwImgId d with
            | OTA_IMAG => Some (size s')
            | RDP_IMAG => OtaImgSize
            end in
          download_images P plan' true OtaImgSize (exits ++ [(DwImgId d, how)])
            sched' (next_image s') w'
      end
  end.

Definition dl_init (P : platform) (t : update_ota_target_hdr) (sig : list byte) : dl_state :=
  {| buf := fill_buf P [];
     read_bytes_buf := None;
     TempLen := u32 (HdrNum (FileHdr t) * ImgHdrLen (FileImgHdr t) + sizeof_update_file_hdr);
     OtaFg := false; SigCnt := 0; TempCnt := 0;
     signature := sig; RemainBytes := 0; size := 0 |}.

Definition download_core (P : platform) (addr : Z) (sched : list Z)
    (t : update_ota_target_hdr) (sig : list byte) (w : world) : option dl_result :=
  download_images P (download_plan P addr t) false None [] sched (dl_init P t sig) w.

(** The result is the return value, the caller's [signature], the schedule
    left and the world.  Returning [OtaImgSize] before it is assigned is
    undefined. *)
Definition download_new_fw_from_server (P : platform) (addr : Z) (sched : list Z)
    (t : update_ota_target_hdr) (sig : list byte) (w : world)
    : option (Z * list byte * list Z * world) :=
  '(OtaImgSize, _, s, sched', w') <- download_core P addr sched t sig w ;;
  ret <- OtaImgSize ;;
  Some (ret, signature s, sched', w').

(* ================================================================= *)
(** ** Checksum verifier: [verify_ota_checksum] *)

(** [checksum += b] for the bytes of a block, in [u32]. *)
Fixpoint add_bytes (acc : Z) (bs : list byte) : Z :=
  match bs with
  | [] => acc
  | b :: r => add_bytes (u32 (acc + byte_val b)) r
  end.

(** [strcmp]: [strncmp] without a bound. *)
Definition strcmp (s1 s2 : list byte) : option Z :=
  strncmp s1 s2 (S (length s1)).

(** [for(i=0;i<len;i+=BUF_SIZE)], reading blocks of at most [BUF_SIZE]
    bytes back from the flash.  [fuel] bounds the iterations: [i] can wrap
    around and the loop then need not end; [None] says that it did not end
    within [fuel] iterations. *)
Fixpoint checksum_blocks (fuel : nat) (P : platform) (fl : flash) (addr len i : Z)
    (flash_checksum : Z) : option Z :=
  if i <? len then
    match fuel with
    | O => None
    | S fuel' =>
        let rlen := if u32 (len - i) >? BUF_SIZE P then BUF_SIZE P else u32 (len - i) in
        let pTempbuf :=
          flash_stream_read fl (u32 (addr - SPI_FLASH_BASE P + i + 8)) (Z.to_nat rlen) in
        checksum_blocks fuel' P fl addr len (u32 (i + BUF_SIZE P))
          (add_bytes flash_checksum pTempbuf)
    end
  else Some flash_checksum.

(** [for(i = 0; i < FileRdpHdr.ImgLen; i++)], one byte a time, with [n]
    iterations to go. *)
Fixpoint rdp_checksum_loop (n : nat) (P : platform) (fl : flash) (i : Z)
    (rdp_checksum : Z) : Z :=
  match n with
  | O => rdp_checksum
  | S n' =>
      rdp_checksum_loop n' P fl (i + 1)
        (add_bytes rdp_checksum
           (flash_stream_read fl (u32 (RDP_FLASH_ADDR P - SPI_FLASH_BASE P + i)) 1))
  end.

(** The [CONFIG_CUSTOM_SIGNATURE] check: the 32 bytes behind the image
    header of the new image against [cus_sig_demo].  [OTF_Mask] is not
    modelled: the flash is read as it was written. *)
Definition custom_signature_differs (P : platform) (fl : flash) (addr : Z) : option bool :=
  if CONFIG_CUSTOM_SIGNATURE P then
    let read_custom_sig :=
      flash_stream_read fl (u32 (addr + IMAGE_HEADER_LEN P - SPI_FLASH_BASE P)) 32 in
    c <- strcmp read_custom_sig (cus_sig_demo P) ;;
    Some (negb (c =? 0))
  else Some false.

Definition verify_ota_checksum (fuel : nat) (P : platform) (addr len : Z)
    (signature_ : list byte) (pOtaTgtHdr : update_ota_target_hdr) (fl : flash)
    : option Z :=
  differs <- custom_signature_differs P fl addr ;;
  if differs : bool then Some 0
  else
    flash_checksum <- checksum_blocks fuel P fl addr len 0 0 ;;
    sig8 <- load_bytes signature_ 0 8 ;;
    let flash_checksum := add_bytes flash_checksum sig8 in
    let rdp_checksum :=
      if RdpStatus pOtaTgtHdr
      then rdp_checksum_loop (Z.to_nat (ImgLen (FileRdpHdr pOtaTgtHdr))) P fl 0 0
      else 0 in
    if negb (flash_checksum =? Checksum (FileImgHdr pOtaTgtHdr)) then Some 0
    else if RdpStatus pOtaTgtHdr
            && negb (rdp_checksum =? Checksum (FileRdpHdr pOtaTgtHdr)) then Some 0
    else Some 1.

(** The sum the claim speaks of: every byte of a list, modulo 2^32. *)
Definition byte_sum (bs : list byte) : Z :=
  u32 (fold_right (fun b acc => byte_val b + acc) 0 bs).

(** The written region: [len] bytes from flash offset [addr - SPI_FLASH_BASE + 8]. *)
Definition written_region (P : platform) (fl : flash) (addr len : Z) : list byte :=
  flash_stream_read fl (u32 (addr - SPI_FLASH_BASE P + 8)) (Z.to_nat len).

(** The RDP region over its declared length. *)
Definition rdp_region (P : platform) (fl : flash) (t : update_ota_target_hdr) : list byte :=
  flash_stream_read fl (u32 (RDP_FLASH_ADDR P - SPI_FLASH_BASE P))
    (Z.to_nat (ImgLen (FileRdpHdr t))).

(* ================================================================= *)
(** ** Commit: [change_ota_signature] *)

Definition change_ota_signature (P : platform) (addr : Z) (signature_ : list byte)
    (ota_target_index : Z) (w : world) : option (Z * world) :=
  sig8 <- load_bytes signature_ 0 8 ;;
  let '(r, w') :=
    flash_stream_write BySignature (u32 (addr - SPI_FLASH_BASE P)) sig8 w in
  if r <? 0 then Some (0, w')
  else Some (1, emit (EvOtaChange ota_target_index) w').

(* ================================================================= *)
(** ** The update task: [ota_update_single_img_local_task] *)

(** What the task finds when it starts: whether the buffer, the socket and
    the connection can be had, and what the fresh buffer holds. *)
Record task_env := {
  alloc_ok : bool;
  socket_ok : bool;
  connect_ok : bool;
  alloc_junk : list byte
}.

(** Steps 1 to 3 and the bank resolver end at [update_ota_exit] or with the
    bank, its address and the target header. *)
Inductive prologue_result :=
| Abort (w : world)
| Proceed (ota_target_index NewImg2Addr : Z) (OtaTargetHdr : update_ota_target_hdr)
    (sched : list Z) (w : world).

Definition zero_target_hdr : update_ota_target_hdr :=
  {| FileHdr := {| FwVer := 0; HdrNum := 0 |}; FileImgHdr := zero_img_hdr;
     FileRdpHdr := zero_img_hdr; RdpStatus := false |}.

Definition ota_update_prologue (P : platform) (env : task_env) (sched : list Z)
    (w : world) : option prologue_result :=
  if negb (alloc_ok env) then Some (Abort w)
  else if negb (socket_ok env) then Some (Abort w)
  else if negb (connect_ok env) then Some (Abort w)
  else
    let ota_target_index :=
      if ota_get_cur_index P =? OTA_INDEX_1 then OTA_INDEX_2 else OTA_INDEX_1 in
    '(ok, _, sched1, w1) <- recv_file_info_from_server (repeat x00 12) 12 sched w ;;
    if ok =? 0 then Some (Abort w1)
    else
      '(ok, alloc, RevHdrLen, t, sched2, w2) <-
        recv_ota_file_hdr (alloc_junk env) 0 zero_target_hdr sched1 w1 ;;
      if ok =? 0 then Some (Abort w2)
      else
        '(ok, t) <- get_ota_tartget_header (Some alloc) RevHdrLen t
                      (OtaImgId ota_target_index) ;;
        if ok =? 0 then Some (Abort w2)
        else
          let '(ok, NewImg2Addr, w3) := get_ota_address P ota_target_index 0 t w2 in
          if ok =? 0 then Some (Abort w3)
          else Some (Proceed ota_target_index NewImg2Addr t sched2 w3).

(** The fuel that lets the block loop of the verifier end for every length
    the task passes. *)
Definition verify_fuel (P : platform) (len : Z) : nat :=
  S (Z.to_nat (len / BUF_SIZE P)).

(** Step 4: the target region is erased, and the RDP sector when there is
    an RDP image. *)
Definition erase_targets (P : platform) (NewImg2Addr : Z)
    (OtaTargetHdr : update_ota_target_hdr) (w : world) : world :=
  let NewImg2Len := ImgLen (FileImgHdr OtaTargetHdr) in
  let w := erase_ota_target_flash P NewImg2Addr NewImg2Len w in
  if RdpStatus OtaTargetHdr
  then flash_erase_sector (u32 (RDP_FLASH_ADDR P - SPI_FLASH_BASE P)) w
  else w.

(** Step 6, behind a download that returned [size_] and [sig]; the result
    is [ret]. *)
Definition verify_and_commit (P : platform) (ota_target_index NewImg2Addr : Z)
    (OtaTargetHdr : update_ota_target_hdr) (size_ : Z) (sig : list byte) (w : world)
    : option (Z * world) :=
  v <- verify_ota_checksum (verify_fuel P (u32 size_)) P NewImg2Addr (u32 size_) sig
         OtaTargetHdr (cur_flash w) ;;
  if negb (v =? 0) then
    '(c, w') <- change_ota_signature P NewImg2Addr sig ota_target_index w ;;
    if c =? 0 then Some (-1, w') else Some (0, w')
  else Some (-1, flash_erase_sector (u32 (NewImg2Addr - SPI_FLASH_BASE P)) w).

(** Steps 4 to 6; the result is [ret]. *)
Definition ota_update_finish (P : platform) (ota_target_index NewImg2Addr : Z)
    (OtaTargetHdr : update_ota_target_hdr) (sched : list Z) (w : world)
    : option (Z * world) :=
  let w := erase_targets P NewImg2Addr OtaTargetHdr w in
  '(size_, sig, _, w) <-
    download_new_fw_from_server P NewImg2Addr sched OtaTargetHdr (repeat x00 9) w ;;
  if (size_ <? 0) || negb (u32 size_ =? u32 (ImgLen (FileImgHdr OtaTargetHdr) - 8))
  then Some (-1, w)
  else verify_and_commit P ota_target_index NewImg2Addr OtaTargetHdr size_ sig w.

(** The task: [ret] and the world it leaves; step 7 resets the device. *)
Definition ota_update_single_img_local_task (P : platform) (env : task_env)
    (sched : list Z) (w : world) : option (Z * world) :=
  r <- ota_update_prologue P env sched w ;;
  match r with
  | Abort w' => Some (-1, w')
  | Proceed ota_target_index NewImg2Addr t sched' w' =>
      '(ret, w'') <- ota_update_finish P ota_target_index NewImg2Addr t sched' w' ;;
      if ret =? 0 then Some (ret, emit EvReset w'') else Some (ret, w'')
  end.

(* ================================================================= *)
(** ** What the claims speak of *)

(** A header block the parser can scan: [len] bytes are in the buffer, the
    [HdrNum_] headers of [ImgHdrLen_] bytes each fit in them, and a header is
    as long as [update_file_img_hdr] at least. *)
Definition header_block_ok (bs : list byte) (len HdrNum_ ImgHdrLen_ : Z) : Prop :=
  load32 bs 4 = Some HdrNum_ /\ load32 bs 12 = Some ImgHdrLen_ /\
  sizeof_update_file_img_hdr + 8 <= len /\ len <= Z.of_nat (length bs) /\
  len < 2 ^ 32 /\
  sizeof_update_file_img_hdr <= ImgHdrLen_ /\
  HdrNum_ * ImgHdrLen_ + 8 <= len.

(** The tag is a C string or has the four characters the scan compares. *)
Definition tag_ok (tag : list byte) : Prop :=
  (4 <= length tag)%nat \/ In x00 tag.

(* ================================================================= *)
(** ** Concrete inputs *)

(** An image header as it is sent. *)
Definition img_hdr_bytes (tag : string) (ImgHdrLen_ ImgLen_ Checksum_ Offset_ FlashOffset_ : Z)
    : list byte :=
  list_byte_of_string tag ++ le_bytes32 ImgHdrLen_ ++ le_bytes32 ImgLen_
  ++ le_bytes32 Checksum_ ++ le_bytes32 Offset_ ++ le_bytes32 FlashOffset_.

(** A file header that declares no image header, in a buffer of 32 bytes. *)
Definition empty_container : list byte :=
  le_bytes32 1 ++ le_bytes32 0 ++ repeat x00 24.

(** The layout of the AmebaZ as the SDK headers have it, for the examples;
    the theorems hold for every platform. *)
Definition amebaz : platform :=
  {| SPI_FLASH_BASE := 0x08000000;
     OTA1_ADDR := 0x0800B000;
     RDP_FLASH_ADDR := 0x080FF000;
     OFFSET_DATA := 0x9000;
     IMAGE_HEADER_LEN := 0x20;
     image_size_off := 8;
     BUF_SIZE := 512;
     CONFIG_CUSTOM_SIGNATURE := true;
     cus_sig_demo := list_byte_of_string "Customer Signature-modelxxx" ++ repeat x00 5;
     cus_sig_demo_addr := 0x0800B020 |}.

(** A flash that is erased all over. *)
Definition erased_flash : flash := fun _ => xff.

(** A flash with bank 1 in place (an image of 0x1000 bytes and a data image
    of 0x100 bytes behind it) and a system data slot that holds [slot]. *)
Definition bank1_flash (slot : Z) : flash :=
  write_bytes
    (write_bytes
       (write_bytes erased_flash 0xB008 (le_bytes32 0x1000))
       0xC028 (le_bytes32 0x100))
    0x9000 (le_bytes32 slot).

Definition world_of (fl : flash) (data : list byte) : world :=
  {| rx_data := data; flash0 := fl; log := []; wfail := [] |}.

(** A target header whose primary image is declared for bank 2 at
    0x08080000. *)
Definition bank2_target_hdr : update_ota_target_hdr :=
  {| FileHdr := {| FwVer := 1; HdrNum := 1 |};
     FileImgHdr := decode_img_hdr (img_hdr_bytes "OTA2" 24 108 0 32 0x08080000);
     FileRdpHdr := zero_img_hdr;
     RdpStatus := false |}.

(** A target header with both images, the RDP image ahead in the stream. *)
Definition both_target_hdr : update_ota_target_hdr :=
  {| FileHdr := {| FwVer := 1; HdrNum := 2 |};
     FileImgHdr := decode_img_hdr (img_hdr_bytes "OTA2" 24 108 0 72 0x08080000);
     FileRdpHdr := decode_img_hdr (img_hdr_bytes "RDP" 24 16 0 56 0x080FF000);
     RdpStatus := true |}.


Definition sig_only_hdr : update_ota_target_hdr :=
  {| FileHdr := {| FwVer := 1; HdrNum := 1 |};
     FileImgHdr := decode_img_hdr (img_hdr_bytes "OTA2" 24 8 0 32 0x08080000);
     FileRdpHdr := zero_img_hdr;
     RdpStatus := false |}.

(** The 40 bytes a server sends for a header block of 0x08000001 headers
    of 32 bytes each: the product is 2^32 + 32. *)
Definition wrap_header : list byte :=
  le_bytes32 1 ++ le_bytes32 0x08000001
  ++ img_hdr_bytes "OTA2" 32 108 0 40 0x08080000 ++ repeat x00 8.

(** The sum of the bytes of a list, not yet reduced. *)
Definition sumZ (bs : list byte) : Z :=
  fold_right (fun b acc => byte_val b + acc) 0 bs.

(** The custom signature check of the verifier returns: the check is
    compiled out, or [cus_sig_demo] is a string within its 32 bytes. *)
Definition custom_signature_ok (P : platform) : Prop :=
  CONFIG_CUSTOM_SIGNATURE P = true -> In x00 (firstn 32 (cus_sig_demo P)).

(** A flash that holds the 100 payload bytes of an image at bank 2, the
    custom signature among them. *)
Definition demo_payload : list byte :=
  repeat "001"%byte 24 ++ cus_sig_demo amebaz ++ repeat "002"%byte 44.

Definition demo_signature : list byte := list_byte_of_string "81958711" ++ [x00].

Definition demo_flash : flash := write_bytes (bank1_flash 0x08080000) 0x80008 demo_payload.

Definition demo_checksum : Z := byte_sum (demo_payload ++ firstn 8 demo_signature).

(** A target header with the checksum of the demonstration image. *)
Definition demo_target_hdr : update_ota_target_hdr :=
  {| FileHdr := {| FwVer := 1; HdrNum := 1 |};
     FileImgHdr := decode_img_hdr (img_hdr_bytes "OTA2" 24 108 demo_checksum 32 0x08080000);
     FileRdpHdr := zero_img_hdr;
     RdpStatus := false |}.

(** The transfer buffer has a size an [int] can hold. *)
Definition wf_platform (P : platform) : Prop := 0 < BUF_SIZE P < 2 ^ 31.

(** The writes of the streaming writer for one image, the newest first:
    each goes to the flash right behind the one before, from [base] on;
    the number is the count of bytes written. *)
Inductive image_writes (k : img_kind) (base : Z) : list event -> Z -> Prop :=
| iw_nil : image_writes k base [] 0
| iw_cons (es : list event) (n : Z) (d : list byte) :
    image_writes k base es n ->
    image_writes k base (EvWrite (ByImage k) (u32 (base + n)) d :: es)
      (n + Z.of_nat (length d)).

(** The successful writes of the streaming writer for image [k]. *)
Definition by_image (k : img_kind) (e : event) : bool :=
  match e with
  | EvWrite (ByImage k') _ _ => img_kind_eqb k k'
  | _ => false
  end.

Definition events_of (k : img_kind) (es : list event) : list event :=
  filter (by_image k) es.

(** What the locals of the download satisfy throughout. *)
Definition state_ok (P : platform) (s : dl_state) : Prop :=
  Z.of_nat (length (buf s)) = BUF_SIZE P /\
  (forall rb, read_bytes_buf s = Some rb -> 0 < rb <= BUF_SIZE P) /\
  0 <= SigCnt s <= 8 /\
  0 <= size s.

(** [size] and [RemainBytes] add up to the declared length of image [d]. *)
Definition accounted (d : update_dw_info) (s : dl_state) : Prop :=
  size s + Z.max 0 (RemainBytes s) = Z.max 0 (s32 (ImageLen d)) /\
  RemainBytes s < 2 ^ 31.

(** What a packet adds to the log: nothing, or one write of the image
    behind the bytes written so far. *)
Definition packet_effect (P : platform) (d : update_dw_info) (s : dl_state) (w : world)
    (r : packet_result) : Prop :=
  match r with
  | PktNext s' w' =>
      state_ok P s' /\ accounted d s' /\
      rx_data w' = rx_data w /\ flash0 w' = flash0 w /\
      buf s' = buf s /\ read_bytes_buf s' = read_bytes_buf s /\
      ((log w' = log w /\ size s' = size s) \/
       exists data,
         log w' = EvWrite (ByImage (DwImgId d)) (u32 (FlashAddr d + size s)) data :: log w /\
         size s' = size s + Z.of_nat (length data))
  | PktWriteFail s' w' =>
      rx_data w' = rx_data w /\ flash0 w' = flash0 w /\
      exists a data, log w' = EvWriteFail (ByImage (DwImgId d)) a data :: log w
  end.

(** What the loop of image [d], entered in world [w0], leaves behind:
    writes of the image one behind the other from [FlashAddr d], [size]
    bytes in all; the declared length when the loop ends by its condition,
    less when it ends at the end of the stream. *)
Definition image_effect (P : platform) (d : update_dw_info) (w0 : world)
    (r : image_result) : Prop :=
  exists es n,
    image_writes (DwImgId d) (FlashAddr d) es n /\
    0 <= n <= Z.max 0 (s32 (ImageLen d)) /\
    match r with
    | ImgNext how s' _ w' =>
        state_ok P s' /\ log w' = es ++ log w0 /\ flash0 w' = flash0 w0 /\
        size s' = n /\
        match how with
        | LoopDone => n = Z.max 0 (s32 (ImageLen d))
        | LoopEof => n < s32 (ImageLen d)
        end
    | ImgReadErr _ _ w' => log w' = es ++ log w0 /\ flash0 w' = flash0 w0
    | ImgWriteFail _ _ w' =>
        flash0 w' = flash0 w0 /\
        exists a data,
          log w' = EvWriteFail (ByImage (DwImgId d)) a data :: es ++ log w0
    end.

(** The events of the streaming writer: writes for an image, done or
    failed. *)
Definition is_image_event (e : event) : Prop :=
  match e with
  | EvWrite (ByImage _) _ _ | EvWriteFail (ByImage _) _ _ => True
  | _ => False
  end.

(** What a run of the download leaves behind for the images [d0] and [d1]
    (the second may be missing): the log grows by events of the streaming
    writer; the writes of each image go one behind the other from its flash
    address; [OtaImgSize] is -1 or the count of the bytes written for the
    primary image; the loop of an image that ended at the end of the stream
    wrote less than the image declares. *)
Definition images_effect (P : platform) (plan : list update_dw_info) (w : world)
    (res : dl_result) : Prop :=
  let '(osz, exits, s', _, w') := res in
  exists new,
    log w' = new ++ log w /\ flash0 w' = flash0 w /\
    Forall is_image_event new /\
    forall d, In d plan ->
      exists n,
        image_writes (DwImgId d) (FlashAddr d) (events_of (DwImgId d) new) n /\
        0 <= n <= Z.max 0 (s32 (ImageLen d)) /\
        (DwImgId d = OTA_IMAG -> forall ret, osz = Some ret -> ret = -1 \/ ret = n) /\
        (In (DwImgId d, LoopEof) exits -> n < s32 (ImageLen d)).

(** The stream of the demonstration: the signature and the 100 bytes of
    payload right behind the 32 bytes of headers. *)
Definition demo_stream : list byte := firstn 8 demo_signature ++ demo_payload.

(** Reads of 7 bytes each. *)
Definition reads_of_7 : list Z := repeat 7 20.

Definition demo_world (data : list byte) : world :=
  world_of (bank1_flash 0x08080000) data.

(** The erasures of step 4 and of the rollback. *)
Definition is_erase_event (e : event) : Prop :=
  match e with
  | EvErase _ => True
  | _ => False
  end.

(** No write for the RDP image among [es] touches the 8 bytes at [dst]. *)
Definition rdp_clear (dst : Z) (es : list event) : Prop :=
  forall a d j k,
    In (EvWrite (ByImage RDP_IMAG) a d) es ->
    0 <= j < Z.of_nat (length d) -> 0 <= k < 8 ->
    u32 (a + j) <> u32 (dst + k).

(** The 8 bytes at [dst] read as erased. *)
Definition erased_at (dst : Z) (fl : flash) : Prop :=
  forall k, 0 <= k < 8 -> fl (u32 (dst + k)) = xff.

(** How step 6 ends, on the flash [before] it: the download was rejected
    and nothing happens; or the verification fails and the first sector of
    the target is erased; or the verification succeeds and the signature is
    written at [dst], after which, and only if this write succeeds, the
    bank is switched. *)
Definition commit_shape (P : platform) (idx addr : Z) (t : update_ota_target_hdr)
    (ret : Z) (before : flash) (commit : list event) : Prop :=
  let dst := u32 (addr - SPI_FLASH_BASE P) in
  (commit = [] /\ ret = -1) \/
  (commit = [EvErase dst] /\ ret = -1 /\
   exists sz sig,
     verify_ota_checksum (verify_fuel P sz) P addr sz sig t before = Some 0) \/
  exists sz sig,
    verify_ota_checksum (verify_fuel P sz) P addr sz sig t before = Some 1 /\
    ((commit = [EvWriteFail BySignature dst (firstn 8 sig)] /\ ret = -1) \/
     (commit = [EvOtaChange idx; EvWrite BySignature dst (firstn 8 sig)] /\ ret = 0)).

(** The writes of the streaming writer for the primary image lie in the
    target region from its 9th byte on. *)
Definition ota_writes_in_payload (P : platform) (addr : Z) (t : update_ota_target_hdr)
    (es : list event) : Prop :=
  forall a d,
    In (EvWrite (ByImage OTA_IMAG) a d) es ->
    exists n,
      0 <= n /\
      n + Z.of_nat (length d) <= Z.max 0 (s32 (u32 (ImgLen (FileImgHdr t) - 8))) /\
      a = u32 (u32 (addr - SPI_FLASH_BASE P) + 8 + n).

(** The event leaves the 8 bytes at [dst] erased when they are. *)
Definition keeps_erased (dst : Z) (e : event) : Prop :=
  forall fl, erased_at dst fl -> erased_at dst (apply_event e fl).

(** The flash is mapped at a sector boundary and bank 1 starts at one. *)
Definition sector_aligned (P : platform) : Prop :=
  SPI_FLASH_BASE P mod 4096 = 0 /\ OTA1_ADDR P mod 4096 = 0.

(** The end of the commit-ordering claim as it is stated: whatever the
    update does before it writes the signature, the first 8 bytes of the
    target read as erased from the first erasure on. *)
Definition first_bytes_stay_erased (P : platform) (env : task_env) (sched : list Z)
    (w : world) : Prop :=
  forall ret w' idx addr t sched1 w1,
    ota_update_single_img_local_task P env sched w = Some (ret, w') ->
    ota_update_prologue P env sched w = Some (Proceed idx addr t sched1 w1) ->
    forall post pre,
      log w' = post ++ pre ++ log w -> pre <> [] ->
      (forall a d, ~ In (EvWrite BySignature a d) pre) ->
      erased_at (u32 (addr - SPI_FLASH_BASE P)) (flash_after (rev pre) (cur_flash w)).

(** The task finds a buffer, a socket and the server. *)
Definition env_ok : task_env :=
  {| alloc_ok := true; socket_ok := true; connect_ok := true;
     alloc_junk := repeat "165"%byte 512 |}.

(** What the server sends for the demonstration image: the file
    information, the file header, one image header, the image. *)
Definition demo_file : list byte :=
  repeat x00 12 ++ le_bytes32 1 ++ le_bytes32 1
  ++ img_hdr_bytes "OTA2" 24 108 demo_checksum 32 0x08080000
  ++ demo_stream.

(** A file with an RDP image of 16 bytes ahead of the primary image, both
    declared for flash address 0x080FF000, where the RDP image lives. *)
Definition rdp_file : list byte :=
  repeat x00 12 ++ le_bytes32 1 ++ le_bytes32 2
  ++ img_hdr_bytes "OTA2" 24 24 0 72 0x080FF000
  ++ (list_byte_of_string "RDP" ++ [x00] ++ le_bytes32 24 ++ le_bytes32 16
      ++ le_bytes32 0 ++ le_bytes32 56 ++ le_bytes32 0x080FF000)
  ++ (list_byte_of_string "81958711" ++ repeat "003"%byte 8)
  ++ (list_byte_of_string "81958711" ++ repeat "004"%byte 16).

(** Reads that deliver all that is asked for. *)
Definition full_reads : list Z := repeat 512 12.

(** [n] bytes of [l] from index [a]. *)
Definition slice (l : list byte) (a n : Z) : list byte :=
  firstn (Z.to_nat n) (skipn (Z.to_nat a) l).

(** The writes of the streaming writer for one image, the newest first,
    with what they write: the write at byte [n] of the image holds the
    bytes of the source [src] from index [n] on. *)
Inductive stream_writes (k : img_kind) (base : Z) (src : list byte)
    : list event -> Z -> Prop :=
| sw_nil : stream_writes k base src [] 0
| sw_cons (es : list event) (n : Z) (d : list byte) :
    stream_writes k base src es n ->
    d = slice src n (Z.of_nat (length d)) ->
    stream_writes k base src (EvWrite (ByImage k) (u32 (base + n)) d :: es)
      (n + Z.of_nat (length d)).

(** The bytes written by the successful writes of [es], in the order of
    the writes ([es] has the newest first). *)
Fixpoint payload_of (es : list event) : list byte :=
  match es with
  | [] => []
  | EvWrite _ _ d :: es' => payload_of es' ++ d
  | _ :: es' => payload_of es'
  end.

(** The schedule delivers all of [data]: every read is granted a byte at
    least, and the reads do not end before the data does. *)
Fixpoint covers (P : platform) (sched : list Z) (data : list byte) : Prop :=
  match sched with
  | [] => data = []
  | n :: sched' =>
      0 < n /\ covers P sched' (skipn (Z.to_nat (Z.min n (BUF_SIZE P))) data)
  end.

(** Read sizes that fragment [data]: positive, no more than the buffer
    takes, and summing to the length of [data]. *)
Definition fragments (P : platform) (sizes : list Z) (data : list byte) : Prop :=
  Forall (fun n => 0 < n <= BUF_SIZE P) sizes /\
  fold_right Z.add 0 sizes = Z.of_nat (length data).

(** The bytes ahead of the payload of an image that are not written: the
    signature of the primary image. *)
Definition sig_len (k : img_kind) : Z :=
  match k with
  | OTA_IMAG => 8
  | RDP_IMAG => 0
  end.

(** Image [d] lies in the stream [F] that follows the [T0] bytes of
    headers, and has a payload. *)
Definition image_in_stream (d : update_dw_info) (F : list byte) (T0 : Z) : Prop :=
  T0 <= ImgOffset d /\ 0 < ImageLen d /\
  ImgOffset d + sig_len (DwImgId d) + ImageLen d <= T0 + Z.of_nat (length F).

(** Where the download of image [d] stands when [p] bytes of [F] have
    been taken: before the image nothing is written; in the image the
    signature bytes met so far are in [signature] and the payload bytes
    met so far, up to the declared length, are written. *)
Definition phase (d : update_dw_info) (F : list byte) (T0 : Z) (sig0 : list byte)
    (p : Z) (s : dl_state) (es : list event) : Prop :=
  let q := ImgOffset d - T0 in
  let h := sig_len (DwImgId d) in
  let c := Z.max 0 (p - q - h) in
  length (signature s) = length sig0 /\
  if OtaFg s then
    q < p /\ size s = Z.min (ImageLen d) c /\ RemainBytes s = ImageLen d - c /\
    stream_writes (DwImgId d) (FlashAddr d) (skipn (Z.to_nat (q + h)) F) es (size s) /\
    match DwImgId d with
    | OTA_IMAG =>
        SigCnt s = Z.min 8 (p - q) /\
        firstn (Z.to_nat (SigCnt s)) (signature s) = slice F q (SigCnt s)
    | RDP_IMAG => signature s = sig0
    end
  else
    p <= q /\ size s = 0 /\ RemainBytes s = ImageLen d /\ es = [] /\
    (DwImgId d = RDP_IMAG -> signature s = sig0).

(** The buffer holds the packet that ends at [p]: the [rb] bytes of [F]
    before [p]. *)
Definition packet_at (P : platform) (F : list byte) (T0 : Z) (p rb : Z)
    (s : dl_state) : Prop :=
  0 < rb <= BUF_SIZE P /\ 0 <= p - rb /\ p <= Z.of_nat (length F) /\
  TempLen s = T0 + p /\
  buf s = fill_buf P (slice F (p - rb) rb) /\
  read_bytes_buf s = Some rb.

(** The count of the bytes of headers ahead of the bytes the download
    reads: the start of [TempLen]. *)
Definition headers_len (t : update_ota_target_hdr) : Z :=
  u32 (HdrNum (FileHdr t) * ImgHdrLen (FileImgHdr t) + sizeof_update_file_hdr).

(** The images the target header declares lie in the stream [F] behind
    the headers, one after the other, and the primary image has a payload
    behind its signature. *)
Definition container_in_stream (t : update_ota_target_hdr) (F : list byte) : Prop :=
  let T0 := headers_len t in
  let i := FileImgHdr t in
  let r := FileRdpHdr t in
  T0 + Z.of_nat (length F) < 2 ^ 31 /\
  T0 <= Offset i /\ 8 < ImgLen i /\ Offset i + ImgLen i <= T0 + Z.of_nat (length F) /\
  (RdpStatus t = true ->
   T0 <= Offset r /\ 0 < ImgLen r /\ Offset r + ImgLen r <= T0 + Z.of_nat (length F) /\
   (Offset i < Offset r -> Offset i + ImgLen i <= Offset r) /\
   (Offset r <= Offset i -> Offset r + ImgLen r <= Offset i)).

(** The events between the worlds [w] and [w'], the newest first. *)
Definition new_events (w w' : world) : list event :=
  firstn (length (log w') - length (log w)) (log w').

(** The bytes written for image [k] between [w] and [w'], in the order
    of the writes. *)
Definition written (k : img_kind) (w w' : world) : list byte :=
  payload_of (events_of k (new_events w w')).

(** Reads of one byte each, and a read of the 8 bytes of the signature
    followed by a read of the payload. *)
Definition reads_of_1 : list Z := repeat 1 108.

Definition reads_8_then_100 : list Z := [8; 100].

(** The verifier takes the image [img] (signature and payload): the sum
    of its bytes is the checksum of the primary header and, in a build
    with [CONFIG_CUSTOM_SIGNATURE], the 32 bytes behind its image header
    are the custom signature. *)
Definition image_accepted (P : platform) (t : update_ota_target_hdr)
    (img : list byte) : Prop :=
  byte_sum img = Checksum (FileImgHdr t) /\
  (CONFIG_CUSTOM_SIGNATURE P = true ->
   strcmp (slice img (IMAGE_HEADER_LEN P) 32) (cus_sig_demo P) = Some 0).

(** Two worlds that differ in how the coming writes end: in the first the
    next write fails, in the second every write succeeds. *)
Definition fails_next (w w0 : world) : Prop :=
  rx_data w = rx_data w0 /\ flash0 w = flash0 w0 /\ log w = log w0 /\
  (exists f, wfail w = true :: f) /\ wfail w0 = [].

(* ================================================================= *)
(** ** HTTP update: [parse_http_response] *)

(** [s[i]]; an access outside the object is undefined. *)
Definition byte_at (bs : list byte) (i : Z) : option byte :=
  if 0 <=? i then nth_error bs (Z.to_nat i) else None.

(** [isspace] in the C locale. *)
Definition isspace (b : byte) : bool :=
  (byte_val b =? 32) || ((9 <=? byte_val b) && (byte_val b <=? 13)).

Definition digit_of (b : byte) : option Z :=
  if (48 <=? byte_val b) && (byte_val b <=? 57) then Some (byte_val b - 48) else None.

(** [atoi]: white space, a sign, digits up to the first character that is
    none (the NUL at the latest).  Running off the object is undefined,
    and so is a value an [int] cannot hold. *)
Fixpoint atoi_skip (s : list byte) : option (list byte) :=
  match s with
  | [] => None
  | b :: r => if isspace b then atoi_skip r else Some s
  end.

Fixpoint atoi_digits (s : list byte) (acc : Z) : option Z :=
  match s with
  | [] => None
  | b :: r =>
      match digit_of b with
      | Some d => atoi_digits r (10 * acc + d)
      | None => Some acc
      end
  end.

Definition atoi (s : list byte) : option Z :=
  s1 <- atoi_skip s ;;
  match s1 with
  | [] => None
  | b :: r =>
      let '(neg, ds) :=
        if Byte.eqb b "-" then (true, r)
        else if Byte.eqb b "+" then (false, r)
        else (false, s1) in
      v <- atoi_digits ds 0 ;;
      let v := if neg : bool then - v else v in
      if (- 2 ^ 31 <=? v) && (v <? 2 ^ 31) then Some v else None
  end.

(** Modelled from the spec: [http_response_result_t] is declared in
    rtl8710b_ota.h, which is not among the sources, and the spec leaves the
    HTTP framing out.  The fields are the ones [parse_http_response] and
    [http_update_ota] use, the integers taken as [uint32_t]; [body] and
    [header_bak] are pointers: [body] an offset into the response, and
    [header_bak] the block it points to ([None] for [NULL]). *)
Record http_response_result_t := {
  status_code : Z;
  header_len : Z;
  body : option Z;
  body_len : Z;
  header_bak : option (list byte);
  parse_status : Z
}.

(** [memset(&rsp_result, 0, sizeof(rsp_result))]. *)
Definition zero_result : http_response_result_t :=
  {| status_code := 0; header_len := 0; body := None; body_len := 0;
     header_bak := None; parse_status := 0 |}.

Definition set_status_code (v : Z) (r : http_response_result_t) :=
  {| status_code := v; header_len := header_len r; body := body r;
     body_len := body_len r; header_bak := header_bak r;
     parse_status := parse_status r |}.

Definition set_parse_status (v : Z) (r : http_response_result_t) :=
  {| status_code := status_code r; header_len := header_len r; body := body r;
     body_len := body_len r; header_bak := header_bak r; parse_status := v |}.

Definition set_body_len (v : Z) (r : http_response_result_t) :=
  {| status_code := status_code r; header_len := header_len r; body := body r;
     body_len := v; header_bak := header_bak r; parse_status := parse_status r |}.

Definition set_header_bak (b : option (list byte)) (r : http_response_result_t) :=
  {| status_code := status_code r; header_len := header_len r; body := body r;
     body_len := body_len r; header_bak := b; parse_status := parse_status r |}.

(** [parse_status = 4; header_len = header_end; body = response + header_end]. *)
Definition set_header_end (header_end : Z) (r : http_response_result_t) :=
  {| status_code := status_code r; header_len := header_end;
     body := Some header_end; body_len := body_len r;
     header_bak := header_bak r; parse_status := 4 |}.

(** The first loop: the indices of the first and of the second space
    among the first [response_len] bytes ([p], [q]; 0 when there is none),
    entered at index [i] with [m] spaces seen and [n] bytes to go. *)
Fixpoint scan_status (n : nat) (i p m : Z) (response : list byte) : option (Z * Z) :=
  match n with
  | O => Some (p, 0)
  | S n' =>
      c <- byte_at response i ;;
      if Byte.eqb c " " then
        let m := u32 (m + 1) in
        if 1 =? m then scan_status n' (u32 (i + 1)) i m response
        else if 2 =? m then Some (p, i)
        else scan_status n' (u32 (i + 1)) p m response
      else scan_status n' (u32 (i + 1)) p m response
  end.

(** [response[i] == '\r' && response[i+1] == '\n'], and the same for the
    four characters of the end of the header; [&&] does not read on behind
    a character that differs. *)
Definition crlf_at (response : list byte) (i : Z) : option bool :=
  c0 <- byte_at response i ;;
  if negb (Byte.eqb c0 "013") then Some false
  else
    c1 <- byte_at response (u32 (i + 1)) ;;
    Some (Byte.eqb c1 "010").

Definition header_end_at (response : list byte) (i : Z) : option bool :=
  c0 <- byte_at response i ;;
  if negb (Byte.eqb c0 "013") then Some false
  else
    c1 <- byte_at response (u32 (i + 1)) ;;
    if negb (Byte.eqb c1 "010") then Some false
    else
      c2 <- byte_at response (u32 (i + 2)) ;;
      if negb (Byte.eqb c2 "013") then Some false
      else
        c3 <- byte_at response (u32 (i + 3)) ;;
        Some (Byte.eqb c3 "010").

(** The loop of the third stage: [header_end] when the end of the header
    is among the first [response_len] bytes. *)
Fixpoint find_header_end (n : nat) (i : Z) (response : list byte) : option (option Z) :=
  match n with
  | O => Some None
  | S n' =>
      e <- header_end_at response i ;;
      if e : bool then Some (Some (u32 (i + 4)))
      else find_header_end n' (u32 (i + 1)) response
  end.

(** [strlen]: the index of the first NUL of the object; undefined when it
    has none. *)
Fixpoint strlen (s : list byte) : option Z :=
  match s with
  | [] => None
  | b :: r => if Byte.eqb b x00 then Some 0 else option_map Z.succ (strlen r)
  end.

(** Lines 1316-1318, 1362-1364 and 1368-1370: the last [HEADER_BAK_LEN]
    bytes of the response are kept in a fresh block of [HEADER_BAK_LEN + 1]
    bytes; [HEADER_BAK_LEN] is a constant of rtl8710b_ota.h, and
    [response] is the buffer from its start, as in both calls.  [junk] is what [ota_update_malloc] returns: the block as it
    comes from the heap, or [None] for [NULL]; [memset] clears as many
    bytes as [strlen] counts in the fresh block. *)
Definition save_header_bak (HEADER_BAK_LEN : Z) (junk : option (list byte))
    (response : list byte) (response_len : Z) : option (list byte) :=
  block <- junk ;;
  if negb (Z.of_nat (length block) =? HEADER_BAK_LEN + 1) then None
  else
    k <- strlen block ;;
    let block := repeat x00 (Z.to_nat k) ++ skipn (Z.to_nat k) block in
    tail <- load_bytesZ response (response_len - HEADER_BAK_LEN) HEADER_BAK_LEN ;;
    store_bytes block 0 tail.

(** [!memcmp(response + p, s, strlen(s))]. *)
Definition memcmp_eq (response : list byte) (p : Z) (s : string) : option bool :=
  d <- load_bytes response p (String.length s) ;;
  Some (if list_eq_dec Byte.byte_eq_dec d (list_byte_of_string s) then true else false).

(** [while (j1 < q && (response[j1] == ':' || response[j1] == ' ')) ++j1]. *)
Fixpoint skip_separators (n : nat) (j1 q : Z) (response : list byte) : option Z :=
  match n with
  | O => Some j1
  | S n' =>
      if u32 j1 <? q then
        c <- byte_at response j1 ;;
        if Byte.eqb c ":" || Byte.eqb c " "
        then skip_separators n' (s32 (j1 + 1)) q response
        else Some j1
      else Some j1
  end.

(** [while (j2 > j1 && response[j2] == ' ') --j2]. *)
Fixpoint trim_spaces (n : nat) (j1 j2 : Z) (response : list byte) : option Z :=
  match n with
  | O => Some j2
  | S n' =>
      if j2 >? j1 then
        c <- byte_at response j2 ;;
        if Byte.eqb c " " then trim_spaces n' j1 (s32 (j2 - 1)) response
        else Some j2
      else Some j2
  end.

(** Lines 1335-1340: the value of a Content-Length line that starts at
    [p] and ends at [q]; it goes through [len_buf], 12 bytes. *)
Definition content_length_value (response : list byte) (p q : Z) : option Z :=
  let j1 := s32 (u32 (p + 14)) in
  let j2 := s32 (u32 (q - 1)) in
  j1 <- skip_separators (Z.to_nat q) j1 q response ;;
  j2 <- trim_spaces (Z.to_nat q) j1 j2 response ;;
  let n := s32 (j2 - j1 + 1) in
  if (n <? 0) || (12 <? n) then None
  else
    d <- load_bytesZ response j1 n ;;
    v <- atoi (d ++ repeat x00 (12 - Z.to_nat n)) ;;
    Some (u32 v).

(** Lines 1333-1342: what the line from [p] to the CR at [q] does to the
    result; its value counts when it starts with one of the two spellings. *)
Definition content_length_line (response : list byte) (p q : Z)
    (r : http_response_result_t) : option http_response_result_t :=
  m1 <- memcmp_eq response p "CONTENT-LENGTH" ;;
  m2 <- (if m1 : bool then Some true
         else memcmp_eq response p "Content-Length") ;;
  if m2 : bool then
    v <- content_length_value response p q ;;
    Some (set_parse_status 2 (set_body_len v r))
  else Some r.

(** How the loop of the last stage ends: at the end of the response, at
    the end of the header, or with [return -1]. *)
Inductive cl_exit :=
| ClEnd (r : http_response_result_t)
| ClHeaderEnd (r : http_response_result_t)
| ClFail (r : http_response_result_t).

(** The loop of the last stage, entered at index [i] with the line that
    starts at [p] and [n] bytes to go. *)
Fixpoint content_length_loop (n : nat) (i p : Z) (response : list byte)
    (r : http_response_result_t) : option cl_exit :=
  match n with
  | O => Some (ClEnd r)
  | S n' =>
      eol <- crlf_at response i ;;
      '(p, r) <-
        (if eol : bool then
           r <- content_length_line response p i r ;;
           Some (u32 (i + 2), r)
         else Some (p, r)) ;;
      e <- header_end_at response i ;;
      if e : bool then
        if parse_status r =? 2 then Some (ClHeaderEnd (set_header_end (u32 (i + 4)) r))
        else Some (ClFail r)
      else content_length_loop n' (u32 (i + 1)) p response r
  end.

(** The first stage, lines 1274-1300: the status code.  [inl] is a
    [return]. *)
Definition status_stage (response : list byte) (response_len : Z)
    (result : http_response_result_t)
    : option (Z * http_response_result_t + http_response_result_t) :=
  '(p, q) <- scan_status (Z.to_nat response_len) 0 0 0 response ;;
  if (p =? 0) || (q =? 0) || negb (u32 (q - p) =? 4) then Some (inl (-1, result))
  else
    status <- load_bytes response (p + 1) 3 ;;
    code <- atoi (status ++ [x00]) ;;
    let result := set_status_code (u32 code) result in
    if status_code result =? 200 then Some (inr (set_parse_status 1 result))
    else Some (inl (-1, result)).

(** The second stage, lines 1303-1320: the end of a header whose
    Content-Length is known. *)
Definition header_end_stage (HEADER_BAK_LEN : Z) (junk : option (list byte))
    (response : list byte) (response_len : Z) (result : http_response_result_t)
    : option http_response_result_t :=
  e <- find_header_end (Z.to_nat response_len) 0 response ;;
  match e with
  | Some header_end => Some (set_header_end header_end result)
  | None =>
      bak <- save_header_bak HEADER_BAK_LEN junk response response_len ;;
      Some (set_header_bak (Some bak) result)
  end.

(** The third stage, lines 1323-1372: Content-Length and the end of the
    header. *)
Definition content_length_stage (HEADER_BAK_LEN : Z) (junk : option (list byte))
    (response : list byte) (response_len : Z) (result : http_response_result_t)
    : option (Z * http_response_result_t) :=
  x <- content_length_loop (Z.to_nat response_len) 0 0 response result ;;
  match x with
  | ClFail result => Some (-1, result)
  | ClHeaderEnd result => Some (s32 (parse_status result), result)
  | ClEnd result =>
      if 1 =? parse_status result then
        bak <- save_header_bak HEADER_BAK_LEN junk response response_len ;;
        let result := set_header_bak (Some bak) result in
        Some (s32 (parse_status result), result)
      else if 2 =? parse_status result then
        let result := set_parse_status 3 result in
        bak <- save_header_bak HEADER_BAK_LEN junk response response_len ;;
        let result := set_header_bak (Some bak) result in
        Some (s32 (parse_status result), result)
      else Some (s32 (parse_status result), result)
  end.

(** The result is the return value and [*result].  [junk] is the block
    [ota_update_malloc] hands out, should the call ask for one. *)
Definition parse_http_response (HEADER_BAK_LEN : Z) (junk : option (list byte))
    (response : list byte) (response_len : Z) (result : http_response_result_t)
    : option (Z * http_response_result_t) :=
  st <- (if 0 =? parse_status result
         then status_stage response response_len result
         else Some (inr result)) ;;
  match st with
  | inl ret => Some ret
  | inr result =>
      result <- (if 3 =? parse_status result
                 then header_end_stage HEADER_BAK_LEN junk response response_len result
                 else Some result) ;;
      if 1 =? parse_status result
      then content_length_stage HEADER_BAK_LEN junk response response_len result
      else Some (s32 (parse_status result), result)
  end.


(** *** Well-formed responses *)

Definition CR : byte := "013".
Definition LF : byte := "010".
Definition crlf : list byte := [CR; LF].

(** A response header: the status line and the header lines, each closed
    by CR LF, and the empty line. *)
Definition header_block (status_line : list byte) (lines : list (list byte)) : list byte :=
  status_line ++ crlf ++ concat (map (fun l => l ++ crlf) lines) ++ crlf.

(** A line of the header: not empty, and no CR inside. *)
Definition header_line (l : list byte) : Prop :=
  l <> [] /\ Forall (fun c => c <> CR) l.

(** The line starts with one of the two spellings the parser knows. *)
Definition is_content_length (l : list byte) : bool :=
  (if list_eq_dec Byte.byte_eq_dec (firstn 14 l) (list_byte_of_string "CONTENT-LENGTH")
   then true else false)
  || (if list_eq_dec Byte.byte_eq_dec (firstn 14 l) (list_byte_of_string "Content-Length")
      then true else false).

Definition is_digit (c : byte) : Prop := 48 <= byte_val c <= 57.

(** The number a string of decimal digits denotes. *)
Definition dec_val (ds : list byte) : Z :=
  fold_left (fun acc c => 10 * acc + (byte_val c - 48)) ds 0.

(** The lines of a header, each closed by CR LF. *)
Definition lines_text (lines : list (list byte)) : list byte :=
  concat (map (fun l => l ++ crlf) lines).

(** The effect of the lines of a header in turn, the first one at [p]. *)
Fixpoint lines_effect (response : list byte) (p : Z) (lines : list (list byte))
    (r : http_response_result_t) : option http_response_result_t :=
  match lines with
  | [] => Some r
  | l :: ls =>
      r' <- content_length_line response p (p + Z.of_nat (length l)) r ;;
      lines_effect response (p + Z.of_nat (length l) + 2) ls r'
  end.

(* ================================================================= *)
(** ** HTTP update: [restore_ota_file_hdr], [http_read_socket],
    [update_ota_prepare_addr], [update_ota_http_connect_server] *)

(** The loop of [restore_ota_file_hdr],
    [while(TempLen) { read_bytes = recv(socketid, buf, TempLen, 0); ... }],
    with [buf] at offset [pos] of the buffer.  [TempLen] is an [int], the
    length [recv] takes a [size_t]; behind the schedule the peer has
    closed.  The boolean is [false] after [return -1]. *)
Fixpoint restore_loop (sched : list Z) (TempLen : Z) (alloc : list byte) (pos : Z)
    (w : world) : option (bool * list byte * list Z * world) :=
  if TempLen =? 0 then Some (true, alloc, sched, w)
  else
    match sched with
    | [] => Some (true, alloc, [], w)
    | n :: sched' =>
        let '(read_bytes, d, w') := read (Some n) (u32 TempLen) w in
        if read_bytes <? 0 then Some (false, alloc, sched', w')
        else if read_bytes =? 0 then Some (true, alloc, sched', w')
        else
          alloc' <- store_bytes alloc pos d ;;
          restore_loop sched' (s32 (TempLen - read_bytes)) alloc' (pos + read_bytes) w'
    end.

(** The result is the return value, the buffer, the schedule left and the
    world.  After the loop [writelen = len; writelen -= len]. *)
Definition restore_ota_file_hdr (writelen len : Z) (alloc : list byte) (pos : Z)
    (sched : list Z) (w : world) : option (Z * list byte * list Z * world) :=
  if writelen <? len then
    '(ok, alloc', sched', w') <-
      restore_loop sched (s32 (len - writelen)) alloc pos w ;;
    if ok : bool then Some (0, alloc', sched', w')
    else Some (-1, alloc', sched', w')
  else Some (s32 (writelen - len), alloc, sched, w).

(** [http_read_socket(socket, recevie_buf, buf_len)], [recevie_buf] being
    the buffer from its start and [entry] the schedule entry of the call to
    [recv] ([None]: the peer has closed).  The result is the return value,
    the buffer and the world. *)
Definition http_read_socket (socket : Z) (recevie_buf : list byte) (buf_len : Z)
    (entry : option Z) (w : world) : option (Z * list byte * world) :=
  if socket <? 0 then Some (-1, recevie_buf, w)
  else
    zeros <- (if buf_len <? 0 then None
              else Some (repeat x00 (Z.to_nat buf_len))) ;;
    b0 <- store_bytes recevie_buf 0 zeros ;;
    let '(bytes_rcvd, d, w') := read entry buf_len w in
    if bytes_rcvd <=? 0 then Some (-2, b0, w')
    else
      b1 <- store_bytes b0 0 d ;;
      Some (bytes_rcvd, b1, w').

(** The constants of rtl8710b_ota.h and of the flash layout that only the
    HTTP update uses. *)
Record http_consts := {
  OTA2_ADDR : Z;
  HEADER_BAK_LEN : Z
}.

(** The result is the return value, [http_ota_target_index] and the
    world; the global keeps its value [http_ota_target_index] when the
    address is not aligned. *)
Definition update_ota_prepare_addr (C : http_consts) (P : platform)
    (http_ota_target_index : Z) (w : world) : Z * Z * world :=
  let ota2_addr := u32 (OTA2_ADDR C) in
  if negb (ota2_addr mod 4096 =? 0) then (0xFFFFFFFF, http_ota_target_index, w)
  else
    let ota2_addr :=
      if ota2_addr <=? u32 (OTA2_ADDR C) then u32 (OTA2_ADDR C) else ota2_addr in
    let http_ota_target_index :=
      if ota_get_cur_index P =? OTA_INDEX_1 then OTA_INDEX_2 else OTA_INDEX_1 in
    if http_ota_target_index =? OTA_INDEX_2 then
      if (ota2_addr >? ota1_image_end P (cur_flash w))
         && (Z.land ota2_addr 0xfff =? 0)
      then
        let '(_, w') := ota_write_ota2_addr P ota2_addr w in
        (ota2_addr, http_ota_target_index, w')
      else (0xFFFFFFFF, http_ota_target_index, w)
    else (u32 (OTA1_ADDR P), http_ota_target_index, w).

(** What [http_update_ota] finds when it runs: what the allocator gives
    for the buffer (a block of [BUF_SIZE] bytes, or [None] for [NULL]),
    for the request and for the header backup of the [k]-th call of
    [parse_http_response]; what [socket], [gethostbyname] and [connect] answer;
    what [write] returns for the request; and what the local
    [http_ota_target_hdr] and the global [http_ota_target_index] hold at
    entry. *)
Record http_env := {
  http_alloc : option (list byte);
  http_sock : Z;
  http_host_found : bool;
  http_connect : Z;
  http_request : bool;
  http_write : Z;
  http_bak : nat -> option (list byte);
  http_hdr0 : update_ota_target_hdr;
  http_index0 : Z
}.

(** The socket, or -1. *)
Definition update_ota_http_connect_server (env : http_env) : Z :=
  if http_sock env <? 0 then -1
  else if negb (http_host_found env) then -1
  else if http_connect env <? 0 then -1
  else http_sock env.

(* ================================================================= *)
(** ** HTTP update: [http_update_ota] *)

(** How the loop that reads the header ends: at [update_ota_exit], with
    the header parsed, or not at all (no branch of the loop is taken when
    the parse status is 2). *)
Inductive header_result :=
| HeaderExit (sched : list Z) (w : world)
| HeaderDone (alloc : list byte) (idx : Z) (rsp_result : http_response_result_t)
    (sched : list Z) (w : world)
| HeaderSpin.

(** [while (3 >= rsp_result.parse_status)], lines 1546-1577; [k] counts
    the calls of [parse_http_response]. *)
Fixpoint http_read_header (C : http_consts) (P : platform) (env : http_env)
    (sched : list Z) (k : nat) (alloc : list byte) (idx : Z)
    (rsp_result : http_response_result_t) (w : world) {struct sched}
    : option header_result :=
  if negb (3 >=? parse_status rsp_result)
  then Some (HeaderDone alloc idx rsp_result sched w)
  else if 0 =? parse_status rsp_result then
    alloc <- store_bytes alloc 0 (repeat x00 (Z.to_nat (BUF_SIZE P))) ;;
    match sched with
    | [] => Some (HeaderExit [] w)
    | n :: sched' =>
        let '(read_bytes, d, w') := read (Some n) (BUF_SIZE P) w in
        if read_bytes <=? 0 then Some (HeaderExit sched' w')
        else
          alloc <- store_bytes alloc 0 d ;;
          let idx := u32 read_bytes in
          '(ret, rsp_result) <-
            parse_http_response (HEADER_BAK_LEN C) (http_bak env k) alloc idx
              zero_result ;;
          if ret =? -1 then Some (HeaderExit sched' w')
          else http_read_header C P env sched' (S k) alloc idx rsp_result w'
    end
  else if (1 =? parse_status rsp_result) || (3 =? parse_status rsp_result) then
    alloc <- store_bytes alloc 0 (repeat x00 (Z.to_nat (BUF_SIZE P))) ;;
    bak <- header_bak rsp_result ;;
    d0 <- load_bytesZ bak 0 (HEADER_BAK_LEN C) ;;
    alloc <- store_bytes alloc 0 d0 ;;
    let rsp_result := set_header_bak None rsp_result in
    if BUF_SIZE P - HEADER_BAK_LEN C <? 0 then None
    else
      match sched with
      | [] => Some (HeaderExit [] w)
      | n :: sched' =>
          let '(read_bytes, d, w') :=
            read (Some n) (BUF_SIZE P - HEADER_BAK_LEN C) w in
          if read_bytes <=? 0 then Some (HeaderExit sched' w')
          else
            alloc <- store_bytes alloc (HEADER_BAK_LEN C) d ;;
            let idx := u32 (read_bytes + HEADER_BAK_LEN C) in
            '(ret, rsp_result) <-
              parse_http_response (HEADER_BAK_LEN C) (http_bak env k) alloc
                (u32 (read_bytes + HEADER_BAK_LEN C)) rsp_result ;;
            if ret =? -1 then Some (HeaderExit sched' w')
            else http_read_header C P env sched' (S k) alloc idx rsp_result w'
      end
  else Some HeaderSpin.

(** How a stage of the update ends: at [update_ota_exit], or with what the
    next stage takes over. *)
Inductive stage (A : Type) :=
| StageExit (w : world)
| StageNext (a : A) (sched : list Z) (w : world).

Arguments StageExit {A} w.
Arguments StageNext {A} a sched w.

(** Lines 1586-1615: the rest of the file header is read behind the first
    packet, and the entry of the target bank is looked up.  The result is
    the buffer, [writelen] and the target header.  [memcpy] fills the first
    8 bytes of [FileImgHdr] only. *)
Definition http_file_header (env : http_env) (http_ota_target_index : Z)
    (alloc : list byte) (idx : Z) (rsp_result : http_response_result_t)
    (sched : list Z) (w : world)
    : option (stage (list byte * Z * update_ota_target_hdr)) :=
  let header_len_ := header_len rsp_result in
  let writelen := s32 (u32 (idx - header_len_)) in
  '(writelen, alloc, sched, w) <- restore_ota_file_hdr writelen 16 alloc idx sched w ;;
  if writelen <? 0 then Some (StageExit w)
  else
    FwVer_ <- load32 alloc header_len_ ;;
    HdrNum_ <- load32 alloc (header_len_ + 4) ;;
    ImgId_ <- load_bytes alloc (header_len_ + 8) 4 ;;
    ImgHdrLen_ <- load32 alloc (header_len_ + 12) ;;
    let t := set_FileHdr (http_hdr0 env) {| FwVer := FwVer_; HdrNum := HdrNum_ |} in
    let h := FileImgHdr (http_hdr0 env) in
    let t := set_FileImgHdr t
               {| ImgId := ImgId_; ImgHdrLen := ImgHdrLen_; ImgLen := ImgLen h;
                  Checksum := Checksum h; Offset := Offset h;
                  FlashOffset := FlashOffset h |} in
    let templen := s32 (u32 (HdrNum_ * ImgHdrLen_ - 8)) in
    '(writelen, alloc, sched, w) <-
      restore_ota_file_hdr writelen templen alloc (header_len_ + 16 + writelen)
        sched w ;;
    if writelen <? 0 then Some (StageExit w)
    else
      let RevHdrLen := s32 (u32 (HdrNum_ * ImgHdrLen_ + 8)) in
      '(ok, t) <-
        get_ota_tartget_header (Some (skipn (Z.to_nat header_len_) alloc))
          (u32 RevHdrLen) t (OtaImgId http_ota_target_index) ;;
      if ok =? 0 then Some (StageExit w)
      else Some (StageNext (alloc, writelen, t) sched w).

(** [while (SigCnt < 8)], lines 1665-1673: the rest of the signature is
    read through the front of the buffer.  The result is the buffer,
    [writelen], [SigCnt] and the signature. *)
Fixpoint http_signature_loop (sched : list Z) (server_socket : Z) (alloc : list byte)
    (writelen SigCnt : Z) (http_signature : list byte) (w : world)
    : option (stage (list byte * Z * Z * list byte)) :=
  if SigCnt <? 8 then
    '(writelen, alloc, w) <-
      http_read_socket server_socket alloc (s32 (u32 (8 - SigCnt)))
        (hd_error sched) w ;;
    if writelen <? 0 then Some (StageExit w)
    else
      d <- load_bytesZ alloc 0 writelen ;;
      http_signature <- store_bytes http_signature SigCnt d ;;
      match sched with
      | [] => None  (* not reached: without an entry the call has returned -2 *)
      | _ :: sched' =>
          http_signature_loop sched' server_socket alloc writelen
            (u32 (SigCnt + writelen)) http_signature w
      end
  else Some (StageNext (alloc, writelen, SigCnt, http_signature) sched w).

(** [while (RemainBytes)], lines 1688-1713: the packets behind the first
    one of the image.  The result is the buffer, [writelen],
    [ota_total_len] and [http_size]; [RemainBytes] is 0 behind the loop. *)
Fixpoint http_packets (sched : list Z) (P : platform) (server_socket address : Z)
    (alloc : list byte) (writelen ota_total_len RemainBytes http_size : Z) (w : world)
    : option (stage (list byte * Z * Z * Z)) :=
  if RemainBytes =? 0
  then Some (StageNext (alloc, writelen, ota_total_len, http_size) sched w)
  else
    '(writelen, alloc, w) <-
      http_read_socket server_socket alloc (BUF_SIZE P) (hd_error sched) w ;;
    if writelen <? 0 then Some (StageExit w)
    else
      let ota_total_len := s32 (ota_total_len + writelen) in
      let RemainBytes := s32 (RemainBytes - writelen) in
      let '(writelen, RemainBytes) :=
        if RemainBytes <=? 0
        then (s32 (writelen - s32 (- RemainBytes)), 0)
        else (writelen, RemainBytes) in
      d <- load_bytesZ alloc 0 (u32 writelen) ;;
      let '(r, w) :=
        flash_stream_write (ByImage OTA_IMAG) (u32 (address + http_size)) d w in
      if r <? 0 then Some (StageExit w)
      else
        let http_size := s32 (http_size + writelen) in
        match sched with
        | [] => None  (* not reached, as above *)
        | _ :: sched' =>
            http_packets sched' P server_socket address alloc writelen
              ota_total_len RemainBytes http_size w
        end.

(** The body of [if (ota_total_len > Offset)], lines 1654-1714: the first
    packet that reaches the image, then the packets behind it.  [buf] is
    the offset of [buf] in the buffer.  The result is the signature and
    [http_size]. *)
Definition http_image (P : platform) (server_socket address : Z)
    (t : update_ota_target_hdr) (alloc : list byte)
    (buf writelen ota_total_len RemainBytes http_size : Z)
    (http_signature : list byte) (sched : list Z) (w : world)
    : option (stage (list byte * Z)) :=
  let TempCnt := u32 (ota_total_len - Offset (FileImgHdr t)) in
  let SigCnt := if TempCnt <? 8 then TempCnt else 8 in
  d <- load_bytesZ alloc (buf + writelen - TempCnt) SigCnt ;;
  http_signature <- store_bytes http_signature 0 d ;;
  first <-
    (if (SigCnt <? 8) || (u32 (TempCnt - 8) =? 0) then
       s <- http_signature_loop sched server_socket alloc writelen SigCnt
              http_signature w ;;
       match s with
       | StageExit w => Some (StageExit w)
       | StageNext (alloc, writelen, _, http_signature) sched w =>
           let ota_total_len := s32 (u32 (ota_total_len + u32 (8 - TempCnt))) in
           Some (StageNext (alloc, writelen, ota_total_len, RemainBytes, http_size,
                            http_signature) sched w)
       end
     else
       d <- load_bytesZ alloc (buf + writelen - TempCnt + 8) (u32 (TempCnt - 8)) ;;
       let '(r, w) :=
         flash_stream_write (ByImage OTA_IMAG) (u32 (address + http_size)) d w in
       if r <? 0 then Some (StageExit w)
       else
         let http_size := s32 (u32 (http_size + u32 (TempCnt - 8))) in
         let RemainBytes := s32 (RemainBytes - http_size) in
         Some (StageNext (alloc, writelen, ota_total_len, RemainBytes, http_size,
                          http_signature) sched w)) ;;
  match first with
  | StageExit w => Some (StageExit w)
  | StageNext (alloc, writelen, ota_total_len, RemainBytes, http_size, http_signature)
      sched w =>
      s <- http_packets sched P server_socket address alloc writelen ota_total_len
             RemainBytes http_size w ;;
      match s with
      | StageExit w => Some (StageExit w)
      | StageNext (_, _, _, http_size) sched w =>
          Some (StageNext (http_signature, http_size) sched w)
      end
  end.

(** [do { ... } while (RemainBytes)], lines 1653-1725: packets are read
    until one reaches the image.  The result is the signature and
    [http_size]. *)
Fixpoint http_download (sched : list Z) (P : platform) (server_socket address : Z)
    (t : update_ota_target_hdr) (alloc : list byte)
    (buf writelen ota_total_len RemainBytes http_size : Z)
    (http_signature : list byte) (w : world) {struct sched}
    : option (stage (list byte * Z)) :=
  if u32 ota_total_len >? Offset (FileImgHdr t) then
    http_image P server_socket address t alloc buf writelen ota_total_len
      RemainBytes http_size http_signature sched w
  else if RemainBytes =? 0
  then Some (StageNext (http_signature, http_size) sched w)
  else
    '(writelen, alloc, w) <-
      http_read_socket server_socket alloc (BUF_SIZE P) (hd_error sched) w ;;
    if writelen <? 0 then Some (StageExit w)
    else
      let ota_total_len := s32 (ota_total_len + writelen) in
      match sched with
      | [] => None  (* not reached, as above *)
      | _ :: sched' =>
          http_download sched' P server_socket address t alloc 0 writelen
            ota_total_len RemainBytes http_size http_signature w
      end.

(** Lines 1617-1725: the length check for bank 1, the erasure of the
    target and the download.  The loop that erases is the one of
    [erase_ota_target_flash], but for its counter, an [int]: [i * 4096]
    is undefined from 2^19 on.  [OTF_Mask] is not modelled.  The result is
    the signature and [http_size]. *)
Definition http_erase_and_download (C : http_consts) (P : platform)
    (server_socket http_ota_target_index NewImg2Addr : Z)
    (alloc : list byte) (idx : Z) (rsp_result : http_response_result_t)
    (writelen : Z) (t : update_ota_target_hdr) (sched : list Z) (w : world)
    : option (stage (list byte * Z)) :=
  let HdrNum_ := HdrNum (FileHdr t) in
  let ImgHdrLen_ := ImgHdrLen (FileImgHdr t) in
  let NewImg2Len := ImgLen (FileImgHdr t) in
  if (http_ota_target_index =? OTA_INDEX_1)
     && (ImgLen (FileImgHdr t) >? u32 (OTA2_ADDR C - OTA1_ADDR P))
  then Some (StageExit w)
  else if 2 ^ 19 <? u32 (u32 (NewImg2Len - 1) / 4096 + 1) then None
  else
    let w := erase_ota_target_flash P NewImg2Addr NewImg2Len w in
    let address := u32 (NewImg2Addr - SPI_FLASH_BASE P + 8) in
    let templen := s32 (u32 (HdrNum_ * ImgHdrLen_ + 8)) in
    let RemainBytes := s32 (u32 (ImgLen (FileImgHdr t) - 8)) in
    let writelen :=
      if writelen >? 0 then s32 (u32 (idx - header_len rsp_result)) else templen in
    let buf := header_len rsp_result in
    let ota_total_len := s32 (0 + writelen) in
    http_download sched P server_socket address t alloc buf writelen ota_total_len
      RemainBytes 0 (repeat x00 9) w.

(** Lines 1730-1745: the checksum, the signature and the return value. *)
Definition http_verify (P : platform) (http_ota_target_index NewImg2Addr : Z)
    (t : update_ota_target_hdr) (http_size : Z) (http_signature : list byte)
    (w : world) : option (Z * world) :=
  v <- verify_ota_checksum (verify_fuel P (u32 http_size)) P NewImg2Addr
         (u32 http_size) http_signature t (cur_flash w) ;;
  if negb (v =? 0) then
    '(_, w') <- change_ota_signature P NewImg2Addr http_signature
                  http_ota_target_index w ;;
    Some (0, w')
  else Some (-1, flash_erase_sector (u32 (NewImg2Addr - SPI_FLASH_BASE P)) w).

(** What a call of [http_update_ota] comes to: it returns [ret], or it
    stays in the loop that reads the header. *)
Inductive http_result :=
| HttpReturn (ret : Z) (w : world)
| HttpHang.

Definition http_update_ota (C : http_consts) (P : platform) (env : http_env)
    (sched : list Z) (w : world) : option http_result :=
  match http_alloc env with
  | None => Some (HttpReturn (-1) w)
  | Some alloc =>
      let server_socket := update_ota_http_connect_server env in
      if negb (Z.of_nat (length alloc) =? BUF_SIZE P) then None
      else if server_socket =? -1 then Some (HttpReturn (-1) w)
      else
        let '(NewImg2Addr, http_ota_target_index, w) :=
          update_ota_prepare_addr C P (http_index0 env) w in
        if NewImg2Addr =? 0xFFFFFFFF then Some (HttpReturn (-1) w)
        else if negb (http_request env) then None
        else
          let ret := http_write env in
          if ret <? 0 then Some (HttpReturn ret w)
          else
            h <- http_read_header C P env sched 0 alloc 0 zero_result w ;;
            match h with
            | HeaderSpin => Some HttpHang
            | HeaderExit _ w => Some (HttpReturn ret w)
            | HeaderDone alloc idx rsp_result sched w =>
                if 0 =? body_len rsp_result then Some (HttpReturn ret w)
                else
                  f <- http_file_header env http_ota_target_index alloc idx
                         rsp_result sched w ;;
                  match f with
                  | StageExit w => Some (HttpReturn ret w)
                  | StageNext (alloc, writelen, t) sched w =>
                      d <- http_erase_and_download C P server_socket
                             http_ota_target_index NewImg2Addr alloc idx rsp_result
                             writelen t sched w ;;
                      match d with
                      | StageExit w => Some (HttpReturn ret w)
                      | StageNext (http_signature, http_size) _ w =>
                          '(ret, w) <- http_verify P http_ota_target_index NewImg2Addr
                                         t http_size http_signature w ;;
                          Some (HttpReturn ret w)
                      end
                  end
            end
  end.

(** How an HTTP update that has sent its request ends, on the flash
    [before] and with [n] bytes of the image written: it leaves for a
    failure with the value [write] gave; or the verification of these
    bytes fails, and the first sector of the target is erased; or it
    succeeds, the signature is written at [dst] and, only if this write
    succeeds, the bank is switched: the return value is 0 in both cases. *)
Definition http_commit_shape (P : platform) (env : http_env) (idx addr : Z)
    (n : Z) (ret : Z) (before : flash) (commit : list event) : Prop :=
  let dst := u32 (addr - SPI_FLASH_BASE P) in
  (commit = [] /\ ret = http_write env) \/
  (commit = [EvErase dst] /\ ret = -1 /\
   exists sig t,
     verify_ota_checksum (verify_fuel P (u32 n)) P addr (u32 n) sig t before
     = Some 0) \/
  exists sig t,
    verify_ota_checksum (verify_fuel P (u32 n)) P addr (u32 n) sig t before
    = Some 1 /\
    ret = 0 /\
    (commit = [EvWriteFail BySignature dst (firstn 8 sig)] \/
     commit = [EvOtaChange idx; EvWrite BySignature dst (firstn 8 sig)]).

(** The constants of the AmebaZ for the HTTP update, and a run that finds
    a buffer, a socket and the server, and whose request is sent. *)
Definition amebaz_http : http_consts :=
  {| OTA2_ADDR := 0x08080000; HEADER_BAK_LEN := 32 |}.

Definition http_env_ok : http_env :=
  {| http_alloc := Some (repeat "165"%byte 512); http_sock := 3;
     http_host_found := true; http_connect := 0; http_request := true;
     http_write := 40; http_bak := fun _ => Some (repeat x00 33);
     http_hdr0 := zero_target_hdr; http_index0 := OTA_INDEX_2 |}.

(** What the server answers for the demonstration image: the header of
    the response, then the file header, one image header and the image. *)
Definition http_demo_response : list byte :=
  header_block (list_byte_of_string "HTTP/1.1 200 OK")
    [list_byte_of_string "Server: x"; list_byte_of_string "Content-Length: 140"]
  ++ le_bytes32 1 ++ le_bytes32 1
  ++ img_hdr_bytes "OTA2" 24 108 demo_checksum 32 0x08080000
  ++ demo_stream.

(* ================================================================= *)
(** * Properties *)

(** ** Words and bytes *)

Lemma byte_val_range (b : byte) : 0 <= byte_val b < 256.
Proof.
  unfold byte_val. pose proof (Byte.to_N_bounded b). lia.
Qed.

Lemma le_val_range (bs : list byte) : 0 <= le_val bs < 256 ^ Z.of_nat (length bs).
Proof.
  induction bs as [|b r IH].
  - simpl. lia.
  - cbn [le_val length]. rewrite Nat2Z.inj_succ, Z.pow_succ_r by lia.
    pose proof (byte_val_range b). lia.
Qed.

Lemma u32_range (z : Z) : 0 <= u32 z < 2 ^ 32.
Proof. unfold u32, modulus. apply Z.mod_pos_bound. lia. Qed.

Lemma u32_small (z : Z) : 0 <= z < 2 ^ 32 -> u32 z = z.
Proof. intros H. unfold u32, modulus. apply Z.mod_small. exact H. Qed.

Lemma load_bytes_length (bs : list byte) (off : Z) (n : nat) (d : list byte) :
  load_bytes bs off n = Some d -> length d = n.
Proof.
  unfold load_bytes. destruct (_ && _) eqn:E; [|discriminate].
  intros [= <-]. apply andb_true_iff in E. destruct E as [E1 E2].
  apply Z.leb_le in E1, E2.
  rewrite length_firstn, length_skipn. lia.
Qed.

Lemma load_bytes_defined (bs : list byte) (off : Z) (n : nat) :
  0 <= off -> off + Z.of_nat n <= Z.of_nat (length bs) ->
  exists d, load_bytes bs off n = Some d.
Proof.
  intros H1 H2. unfold load_bytes.
  apply Z.leb_le in H1, H2. rewrite H1, H2. simpl. eauto.
Qed.

Lemma load32_range (bs : list byte) (off v : Z) :
  load32 bs off = Some v -> 0 <= v < 2 ^ 32.
Proof.
  unfold load32. destruct (load_bytes bs off 4) as [d|] eqn:E; [|discriminate].
  intros [= <-]. apply load_bytes_length in E.
  pose proof (le_val_range d) as H. rewrite E in H. exact H.
Qed.

Lemma load32_defined (bs : list byte) (off : Z) :
  0 <= off -> off + 4 <= Z.of_nat (length bs) ->
  exists v, load32 bs off = Some v.
Proof.
  intros H1 H2. unfold load32.
  destruct (load_bytes_defined bs off 4 H1) as [d ->]; [lia|]. simpl. eauto.
Qed.

(* ----------------------------------------------------------------- *)
(** ** Header parser *)

(** C10: for every non-null buffer of [len] bytes, [len] at least
    [sizeof(update_file_img_hdr) + 8], whose file header declares
    [HdrNum = 0], [get_ota_tartget_header] returns 1 with the RDP flag
    cleared and no image header copied: the loop body, and with it the
    no-match check, never runs. *)
Theorem empty_container_parses (bs : list byte) (len : Z)
    (t : update_ota_target_hdr) (ImgId_ : list byte) :
  sizeof_update_file_img_hdr + 8 <= len ->
  len <= Z.of_nat (length bs) ->
  load32 bs 4 = Some 0 ->
  get_ota_tartget_header (Some bs) len t ImgId_ = Some (1, set_RdpStatus t false).
Proof.
  intros Hlen Hbuf Hnum. unfold get_ota_tartget_header.
  unfold sizeof_update_file_img_hdr in *.
  destruct (len <? 24 + 8) eqn:E; [apply Z.ltb_lt in E; lia|].
  rewrite Hnum. cbn [bind].
  destruct (load32_defined bs 12) as [l ->]; [lia|lia|]. cbn [bind].
  replace (u32 (0 * l + 8)) with 8 by reflexivity.
  destruct (len <? 8) eqn:E8; [apply Z.ltb_lt in E8; lia|].
  reflexivity.
Qed.

Lemma strncmp_defined (s1 s2 : list byte) (n : nat) :
  (n <= length s2)%nat -> (n <= length s1)%nat \/ In x00 s1 ->
  exists c, strncmp s1 s2 n = Some c.
Proof.
  revert s1 s2. induction n as [|n IH]; intros s1 s2 H2 H1.
  - exists 0. reflexivity.
  - destruct s2 as [|c2 t2]; [simpl in H2; lia|].
    destruct s1 as [|c1 t1].
    + destruct H1 as [H1|[]]. simpl in H1. lia.
    + cbn [strncmp]. destruct (Byte.eqb c1 c2); [|eauto].
      destruct (Byte.eqb c1 x00) eqn:E0; [eauto|].
      apply IH.
      * simpl in H2. lia.
      * destruct H1 as [H1|[H1|H1]].
        -- left. simpl in H1. lia.
        -- subst c1. rewrite (Byte.byte_dec_lb eq_refl) in E0. discriminate.
        -- now right.
Qed.

(** Without a NUL among the characters compared, [strncmp] is the
    comparison of the [n]-byte prefixes. *)
Lemma strncmp_exact (s1 s2 : list byte) (n : nat) :
  (n <= length s1)%nat -> ~ In x00 (firstn n s1) ->
  (strncmp s1 s2 n = Some 0 <-> firstn n s2 = firstn n s1).
Proof.
  revert s1 s2. induction n as [|n IH]; intros s1 s2 H1 Hz.
  - simpl. tauto.
  - destruct s1 as [|c1 t1]; [simpl in H1; lia|].
    destruct s2 as [|c2 t2].
    + cbn. split; discriminate.
    + cbn [strncmp firstn] in *.
      destruct (Byte.eqb c1 c2) eqn:E.
      * apply Byte.byte_dec_bl in E. subst c2.
        destruct (Byte.eqb c1 x00) eqn:E0.
        { apply Byte.byte_dec_bl in E0. subst c1. exfalso. apply Hz. now left. }
        rewrite IH; [|simpl in H1; lia|intros Hin; apply Hz; now right].
        split; [intros ->; reflexivity|intros [= ->]; reflexivity].
      * split.
        -- intros [= H0]. exfalso.
           assert (Byte.to_N c1 = Byte.to_N c2) as Hn
             by (unfold byte_val in H0; lia).
           assert (Some c1 = Some c2) as Hs
             by (rewrite <- (Byte.of_to_N c1), <- (Byte.of_to_N c2), Hn; reflexivity).
           injection Hs as ->. rewrite (Byte.byte_dec_lb eq_refl) in E. discriminate.
        -- intros [= -> _]. rewrite (Byte.byte_dec_lb eq_refl) in E. discriminate.
Qed.

Section Scan.

Variables (bs : list byte) (N L : Z) (tag : list byte).

Let mt := matches_target bs L tag.
Let mr := matches_rdp bs L.

Ltac scan_step H c Ec :=
  cbn [scan_headers] in H; unfold bind in H;
  destruct (strncmp tag (entry_at bs L _) 4) as [c|] eqn:Ec; [|discriminate H].

Lemma last_index (n : nat) (i : Z) :
  0 <= i -> i + Z.of_nat (S n) = N -> N < 2 ^ 32 ->
  ((i =? u32 (N - 1)) = true <-> n = O).
Proof.
  intros Hi Hn HN. rewrite u32_small by lia. rewrite Z.eqb_eq. lia.
Qed.

Lemma scan_ret (n : nat) : forall i fg t ret t',
  scan_headers n i bs N L tag fg t = Some (ret, t') -> ret = 0 \/ ret = 1.
Proof.
  induction n as [|n IH]; intros i fg t ret t' H.
  - injection H as <- <-. now right.
  - scan_step H c Ec.
    destruct (c =? 0).
    + destruct (load_bytes _ _ _); [|discriminate]. eauto.
    + destruct (strncmp RdpImg _ 3) as [r|]; [|discriminate].
      destruct (r =? 0).
      * destruct (load_bytes _ _ _); [|discriminate]. eauto.
      * destruct (_ && _); [injection H as <- <-; now left|eauto].
Qed.

(** The scan fails exactly when it has an entry to look at, nothing was
    matched before and no entry matches either tag. *)
Lemma scan_fail_iff (n : nat) : forall i fg t ret t',
  scan_headers n i bs N L tag fg t = Some (ret, t') ->
  0 <= i -> i + Z.of_nat n = N -> N < 2 ^ 32 ->
  (ret = 0 <->
   fg = 0 /\ (0 < n)%nat /\ forall j, i <= j < N -> ~ mt j /\ ~ mr j).
Proof.
  induction n as [|n IH]; intros i fg t ret t' H Hi Hn HN.
  - injection H as <- <-. split; [discriminate|]. intros (_ & F & _). lia.
  - scan_step H c Ec.
    destruct (c =? 0) eqn:E0.
    + apply Z.eqb_eq in E0. subst c.
      destruct (load_bytes _ _ _); [|discriminate].
      apply IH in H; [|lia|lia|lia]. split.
      * intros R. apply H in R. destruct R as [R _]. discriminate.
      * intros (_ & _ & F). destruct (F i) as [F1 _]; [lia|]. now elim F1.
    + apply Z.eqb_neq in E0.
      assert (~ mt i) as Hmt by (unfold mt, matches_target; rewrite Ec; congruence).
      destruct (strncmp RdpImg _ 3) as [r|] eqn:Er; [|discriminate].
      destruct (r =? 0) eqn:R0.
      * apply Z.eqb_eq in R0. subst r.
        destruct (load_bytes _ _ _); [|discriminate].
        apply IH in H; [|lia|lia|lia]. split.
        -- intros R. apply H in R. destruct R as [R _]. discriminate.
        -- intros (_ & _ & F). destruct (F i) as [_ F2]; [lia|]. now elim F2.
      * apply Z.eqb_neq in R0.
        assert (~ mr i) as Hmr by (unfold mr, matches_rdp; rewrite Er; congruence).
        destruct ((i =? u32 (N - 1)) && (fg =? 0)) eqn:Elast.
        -- injection H as <- <-. apply andb_true_iff in Elast.
           destruct Elast as [E1 E2]. apply Z.eqb_eq in E2.
           apply (last_index n i Hi Hn HN) in E1. subst n.
           split; [|reflexivity]. intros _. split; [exact E2|]. split; [lia|].
           intros j Hj. assert (j = i) as -> by lia. now split.
        -- apply IH in H; [|lia|lia|lia]. rewrite H. split.
           ++ intros (F0 & Fn & F). split; [exact F0|]. split; [lia|].
              intros j Hj. destruct (Z.eq_dec j i) as [->|Hne]; [now split|].
              apply F. lia.
           ++ intros (F0 & _ & F). split; [exact F0|]. split.
              ** apply andb_false_iff in Elast. destruct Elast as [E1|E2].
                 --- destruct n; [|lia]. exfalso.
                     assert ((i =? u32 (N - 1)) = true) as E by
                       (apply (last_index 0 i Hi Hn HN); reflexivity).
                     congruence.
                 --- apply Z.eqb_neq in E2. contradiction.
              ** intros j Hj. apply F. lia.
Qed.

(** The RDP flag is set exactly by an entry that matches "RDP" and was not
    taken for the target. *)
Lemma scan_rdp_flag (n : nat) : forall i fg t ret t',
  scan_headers n i bs N L tag fg t = Some (ret, t') ->
  0 <= i -> i + Z.of_nat n = N -> N < 2 ^ 32 ->
  (RdpStatus t' = true <->
   RdpStatus t = true \/ exists j, i <= j < N /\ ~ mt j /\ mr j).
Proof.
  induction n as [|n IH]; intros i fg t ret t' H Hi Hn HN.
  - injection H as <- <-. split; [now left|]. intros [R|(j & Hj & _)]; [exact R|lia].
  - scan_step H c Ec.
    destruct (c =? 0) eqn:E0.
    + apply Z.eqb_eq in E0. subst c.
      destruct (load_bytes _ _ _); [|discriminate].
      apply IH in H; [|lia|lia|lia]. rewrite H. cbn [RdpStatus set_FileImgHdr].
      split; (intros [R|(j & Hj & F1 & F2)]; [now left|right]).
      * exists j. split; [lia|]. now split.
      * exists j. split; [|now split].
        destruct (Z.eq_dec j i) as [->|Hne]; [|lia].
        elim F1. exact Ec.
    + apply Z.eqb_neq in E0.
      assert (~ mt i) as Hmt by (unfold mt, matches_target; rewrite Ec; congruence).
      destruct (strncmp RdpImg _ 3) as [r|] eqn:Er; [|discriminate].
      destruct (r =? 0) eqn:R0.
      * apply Z.eqb_eq in R0. subst r.
        destruct (load_bytes _ _ _); [|discriminate].
        apply IH in H; [|lia|lia|lia]. rewrite H.
        cbn [RdpStatus set_FileRdpHdr set_RdpStatus].
        split; intros _; [|now left]. right. exists i. split; [lia|]. now split.
      * apply Z.eqb_neq in R0.
        assert (~ mr i) as Hmr by (unfold mr, matches_rdp; rewrite Er; congruence).
        destruct ((i =? u32 (N - 1)) && (fg =? 0)) eqn:Elast.
        -- injection H as <- <-. split; [now left|].
           intros [R|(j & Hj & F1 & F2)]; [exact R|].
           apply andb_true_iff in Elast. destruct Elast as [E1 _].
           apply (last_index n i Hi Hn HN) in E1. subst n.
           assert (j = i) as -> by lia. contradiction.
        -- apply IH in H; [|lia|lia|lia]. rewrite H.
           split; (intros [R|(j & Hj & F1 & F2)]; [now left|right]).
           ++ exists j. split; [lia|]. now split.
           ++ exists j. split; [|now split].
              destruct (Z.eq_dec j i) as [->|Hne]; [contradiction|lia].
Qed.

(** [FileImgHdr] holds the last entry that matches the target tag. *)
Lemma scan_target_copy (n : nat) : forall i fg t ret t',
  scan_headers n i bs N L tag fg t = Some (ret, t') ->
  0 <= i -> i + Z.of_nat n = N -> N < 2 ^ 32 ->
  ((forall j, i <= j < N -> ~ mt j) -> FileImgHdr t' = FileImgHdr t) /\
  (forall j, i <= j < N -> mt j -> (forall k, j < k < N -> ~ mt k) ->
     exists h, load_bytes bs (entry_off L j) (Z.to_nat sizeof_update_file_img_hdr) = Some h
               /\ FileImgHdr t' = decode_img_hdr h).
Proof.
  induction n as [|n IH]; intros i fg t ret t' H Hi Hn HN.
  - injection H as <- <-. split; [reflexivity|]. intros j Hj. lia.
  - scan_step H c Ec.
    destruct (c =? 0) eqn:E0.
    + apply Z.eqb_eq in E0. subst c.
      destruct (load_bytes _ _ _) as [h|] eqn:Eh; [|discriminate].
      apply IH in H; [|lia|lia|lia]. destruct H as [H1 H2]. split.
      * intros F. destruct (F i); [lia|exact Ec].
      * intros j Hj Mj Last. destruct (Z.eq_dec j i) as [->|Hne].
        -- exists h. split; [exact Eh|]. rewrite H1; [reflexivity|].
           intros k Hk. apply Last. lia.
        -- apply H2; [lia|exact Mj|exact Last].
    + apply Z.eqb_neq in E0.
      assert (~ mt i) as Hmt by (unfold mt, matches_target; rewrite Ec; congruence).
      assert (forall t0 t0', FileImgHdr t0 = FileImgHdr t ->
                (((forall j, i + 1 <= j < N -> ~ mt j) -> FileImgHdr t0' = FileImgHdr t0) /\
                 (forall j, i + 1 <= j < N -> mt j -> (forall k, j < k < N -> ~ mt k) ->
                    exists h, load_bytes bs (entry_off L j)
                                (Z.to_nat sizeof_update_file_img_hdr) = Some h
                              /\ FileImgHdr t0' = decode_img_hdr h)) ->
                ((forall j, i <= j < N -> ~ mt j) -> FileImgHdr t0' = FileImgHdr t) /\
                (forall j, i <= j < N -> mt j -> (forall k, j < k < N -> ~ mt k) ->
                   exists h, load_bytes bs (entry_off L j)
                               (Z.to_nat sizeof_update_file_img_hdr) = Some h
                             /\ FileImgHdr t0' = decode_img_hdr h)) as Step.
      { intros t0 t0' E [H1 H2]. split.
        - intros F. rewrite H1, E; [reflexivity|]. intros j Hj. apply F. lia.
        - intros j Hj Mj Last. destruct (Z.eq_dec j i) as [->|Hne]; [contradiction|].
          apply H2; [lia|exact Mj|exact Last]. }
      destruct (strncmp RdpImg _ 3) as [r|] eqn:Er; [|discriminate].
      destruct (r =? 0) eqn:R0.
      * destruct (load_bytes _ _ _) as [h|] eqn:Eh; [|discriminate].
        apply IH in H; [|lia|lia|lia]. eapply Step; [|exact H]. reflexivity.
      * destruct ((i =? u32 (N - 1)) && (fg =? 0)) eqn:Elast.
        -- injection H as <- <-. split; [reflexivity|].
           intros j Hj Mj _. exfalso.
           apply andb_true_iff in Elast. destruct Elast as [E1 _].
           apply (last_index n i Hi Hn HN) in E1. subst n.
           assert (j = i) as -> by lia. contradiction.
        -- apply IH in H; [|lia|lia|lia]. eapply Step; [|exact H]. reflexivity.
Qed.

(** [FileRdpHdr] holds the last entry that was taken for the RDP image. *)
Lemma scan_rdp_copy (n : nat) : forall i fg t ret t',
  scan_headers n i bs N L tag fg t = Some (ret, t') ->
  0 <= i -> i + Z.of_nat n = N -> N < 2 ^ 32 ->
  ((forall j, i <= j < N -> ~ (~ mt j /\ mr j)) -> FileRdpHdr t' = FileRdpHdr t) /\
  (forall j, i <= j < N -> ~ mt j -> mr j ->
     (forall k, j < k < N -> ~ (~ mt k /\ mr k)) ->
     exists h, load_bytes bs (entry_off L j) (Z.to_nat sizeof_update_file_img_hdr) = Some h
               /\ FileRdpHdr t' = decode_img_hdr h).
Proof.
  induction n as [|n IH]; intros i fg t ret t' H Hi Hn HN.
  - injection H as <- <-. split; [reflexivity|]. intros j Hj. lia.
  - scan_step H c Ec.
    assert (forall t0 t0', FileRdpHdr t0 = FileRdpHdr t -> ~ (~ mt i /\ mr i) ->
              (((forall j, i + 1 <= j < N -> ~ (~ mt j /\ mr j)) ->
                FileRdpHdr t0' = FileRdpHdr t0) /\
               (forall j, i + 1 <= j < N -> ~ mt j -> mr j ->
                  (forall k, j < k < N -> ~ (~ mt k /\ mr k)) ->
                  exists h, load_bytes bs (entry_off L j)
                              (Z.to_nat sizeof_update_file_img_hdr) = Some h
                            /\ FileRdpHdr t0' = decode_img_hdr h)) ->
              ((forall j, i <= j < N -> ~ (~ mt j /\ mr j)) ->
               FileRdpHdr t0' = FileRdpHdr t) /\
              (forall j, i <= j < N -> ~ mt j -> mr j ->
                 (forall k, j < k < N -> ~ (~ mt k /\ mr k)) ->
                 exists h, load_bytes bs (entry_off L j)
                             (Z.to_nat sizeof_update_file_img_hdr) = Some h
                           /\ FileRdpHdr t0' = decode_img_hdr h)) as Step.
    { intros t0 t0' E Hno [H1 H2]. split.
      - intros F. rewrite H1, E; [reflexivity|]. intros j Hj. apply F. lia.
      - intros j Hj Mj Rj Last. destruct (Z.eq_dec j i) as [->|Hne].
        + elim Hno. now split.
        + apply H2; [lia|exact Mj|exact Rj|exact Last]. }
    destruct (c =? 0) eqn:E0.
    + apply Z.eqb_eq in E0. subst c.
      destruct (load_bytes _ _ _) as [h|] eqn:Eh; [|discriminate].
      apply IH in H; [|lia|lia|lia]. eapply Step; [reflexivity| |exact H].
      intros [F _]. apply F. exact Ec.
    + apply Z.eqb_neq in E0.
      assert (~ mt i) as Hmt by (unfold mt, matches_target; rewrite Ec; congruence).
      destruct (strncmp RdpImg _ 3) as [r|] eqn:Er; [|discriminate].
      destruct (r =? 0) eqn:R0.
      * apply Z.eqb_eq in R0. subst r.
        destruct (load_bytes _ _ _) as [h|] eqn:Eh; [|discriminate].
        apply IH in H; [|lia|lia|lia]. destruct H as [H1 H2]. split.
        -- intros F. destruct (F i); [lia|]. now split.
        -- intros j Hj Mj Rj Last. destruct (Z.eq_dec j i) as [->|Hne].
           ++ exists h. split; [exact Eh|]. rewrite H1; [reflexivity|].
              intros k Hk. apply Last. lia.
           ++ apply H2; [lia|exact Mj|exact Rj|exact Last].
      * apply Z.eqb_neq in R0.
        assert (~ mr i) as Hmr by (unfold mr, matches_rdp; rewrite Er; congruence).
        destruct ((i =? u32 (N - 1)) && (fg =? 0)) eqn:Elast.
        -- injection H as <- <-. split; [reflexivity|].
           intros j Hj Mj Rj _. exfalso.
           apply andb_true_iff in Elast. destruct Elast as [E1 _].
           apply (last_index n i Hi Hn HN) in E1. subst n.
           assert (j = i) as -> by lia. contradiction.
        -- apply IH in H; [|lia|lia|lia]. eapply Step; [reflexivity| |exact H].
           intros [_ F]. contradiction.
Qed.

(** The scan returns when every entry lies in the buffer and the tag is a
    string or has four characters. *)
Lemma scan_defined (n : nat) : forall i fg t,
  0 <= i -> i + Z.of_nat n = N ->
  (forall j, 0 <= j < N ->
     entry_off L j + sizeof_update_file_img_hdr <= Z.of_nat (length bs)) ->
  (4 <= length tag)%nat \/ In x00 tag ->
  exists ret t', scan_headers n i bs N L tag fg t = Some (ret, t').
Proof.
  induction n as [|n IH]; intros i fg t Hi Hn Hin Htag.
  - simpl. eauto.
  - assert (0 <= entry_off L i) as Hoff
      by (unfold entry_off; pose proof (u32_range (L * i)); lia).
    specialize (Hin i ltac:(lia)) as Hi24. unfold sizeof_update_file_img_hdr in *.
    assert (4 <= length (entry_at bs L i))%nat as Hlen
      by (unfold entry_at; rewrite length_skipn; lia).
    cbn [scan_headers]. unfold bind, sizeof_update_file_img_hdr.
    destruct (strncmp_defined tag (entry_at bs L i) 4 Hlen Htag) as [c ->].
    destruct (load_bytes_defined bs (entry_off L i) (Z.to_nat 24) Hoff) as [h ->]; [lia|].
    destruct (c =? 0); [apply IH; [lia|lia|exact Hin|exact Htag]|].
    destruct (strncmp_defined RdpImg (entry_at bs L i) 3) as [r ->];
      [lia|left; simpl; lia|].
    destruct (r =? 0); [apply IH; [lia|lia|exact Hin|exact Htag]|].
    destruct (_ && _); [eauto|apply IH; [lia|lia|exact Hin|exact Htag]].
Qed.

End Scan.

Lemma byte_eqb_false_val (c1 c2 : byte) :
  Byte.eqb c1 c2 = false -> byte_val c1 - byte_val c2 <> 0.
Proof.
  intros E H0.
  assert (Byte.to_N c1 = Byte.to_N c2) as Hn by (unfold byte_val in H0; lia).
  assert (Some c1 = Some c2) as Hs
    by (rewrite <- (Byte.of_to_N c1), <- (Byte.of_to_N c2), Hn; reflexivity).
  injection Hs as ->. rewrite (Byte.byte_dec_lb eq_refl) in E. discriminate.
Qed.

(** An entry that matches both tags shows that the target tag begins with
    "RDP". *)
Lemma both_match_tag (tag e : list byte) :
  strncmp tag e 4 = Some 0 -> strncmp RdpImg e 3 = Some 0 ->
  strncmp RdpImg tag 3 = Some 0.
Proof.
  intros Ht Hr.
  apply (strncmp_exact RdpImg e 3) in Hr;
    [|simpl; lia|simpl; intros [F|[F|[F|[]]]]; discriminate].
  apply (strncmp_exact RdpImg tag 3);
    [simpl; lia|simpl; intros [F|[F|[F|[]]]]; discriminate|].
  destruct e as [|e1 [|e2 [|e3 e']]]; try discriminate Hr.
  cbn in Hr. injection Hr as -> -> ->.
  assert (forall (c x : byte) (k : option Z) (d : Z),
            (if Byte.eqb c x then k else Some (byte_val c - byte_val x)) = Some d ->
            d = 0 -> c = x /\ k = Some d) as Step.
  { intros c x k d H D. destruct (Byte.eqb c x) eqn:E.
    - apply Byte.byte_dec_bl in E. now split.
    - injection H as H. subst d. now apply byte_eqb_false_val in E. }
  destruct tag as [|c1 tag]; [discriminate Ht|]. cbn [strncmp] in Ht.
  apply Step in Ht; [|reflexivity]. destruct Ht as [-> Ht]. cbn in Ht.
  destruct tag as [|c2 tag]; [discriminate Ht|]. cbn [strncmp] in Ht.
  apply Step in Ht; [|reflexivity]. destruct Ht as [-> Ht]. cbn in Ht.
  destruct tag as [|c3 tag]; [discriminate Ht|]. cbn [strncmp] in Ht.
  apply Step in Ht; [|reflexivity]. destruct Ht as [-> Ht]. reflexivity.
Qed.

(** Behind its two length checks the parser is the scan of the entries. *)
Lemma get_ota_tartget_header_scan (bs : list byte) (len N L : Z)
    (t : update_ota_target_hdr) (tag : list byte) :
  sizeof_update_file_img_hdr + 8 <= len ->
  load32 bs 4 = Some N -> load32 bs 12 = Some L -> u32 (N * L + 8) <= len ->
  get_ota_tartget_header (Some bs) len t tag =
  scan_headers (Z.to_nat N) 0 bs N L tag 0 (set_RdpStatus t false).
Proof.
  intros Hlen HN HL Htot. unfold get_ota_tartget_header.
  destruct (len <? sizeof_update_file_img_hdr + 8) eqn:E; [apply Z.ltb_lt in E; lia|].
  rewrite HN, HL. cbn [bind].
  destruct (len <? u32 (N * L + 8)) eqn:E2; [apply Z.ltb_lt in E2; lia|].
  reflexivity.
Qed.

Lemma header_block_entries (bs : list byte) (len N L : Z) :
  header_block_ok bs len N L ->
  0 <= N < 2 ^ 32 /\ u32 (N * L + 8) = N * L + 8 /\
  forall j, 0 <= j < N ->
    entry_off L j + sizeof_update_file_img_hdr <= Z.of_nat (length bs).
Proof.
  intros (HN & HL & Hlen & Hbuf & H32 & H24 & Htot).
  unfold sizeof_update_file_img_hdr in *.
  pose proof (load32_range _ _ _ HN) as RN.
  split; [exact RN|]. split.
  - apply u32_small. nia.
  - intros j Hj. unfold entry_off. rewrite u32_small by nia. nia.
Qed.

(** Witness of [empty_container_parses]: the 32-byte buffer whose file
    header declares no image header. *)
Lemma empty_container_parses_witness :
  (sizeof_update_file_img_hdr + 8 <= 32 /\
   32 <= Z.of_nat (length empty_container) /\
   load32 empty_container 4 = Some 0) /\
  get_ota_tartget_header (Some empty_container) 32 zero_target_hdr (OtaImgId OTA_INDEX_2)
  = Some (1, set_RdpStatus zero_target_hdr false).
Proof.
  assert (sizeof_update_file_img_hdr + 8 <= 32) as H1 by (vm_compute; discriminate).
  assert (32 <= Z.of_nat (length empty_container)) as H2 by (vm_compute; discriminate).
  assert (load32 empty_container 4 = Some 0) as H3 by reflexivity.
  split; [auto|].
  exact (empty_container_parses empty_container 32 zero_target_hdr
           (OtaImgId OTA_INDEX_2) H1 H2 H3).
Defined.

(** What does hold of the failure conditions of the parser: it returns 0
    for a null or short buffer, for a header block longer than [len] (the
    size as the code computes it, in 32 bits) and, when there is an entry
    at all, when no entry matches either tag; it returns 1 when some entry
    of a header block that is in the buffer matches. *)
Lemma header_parser_failure_conditions (len : Z) (t : update_ota_target_hdr)
    (tag : list byte) :
  get_ota_tartget_header None len t tag = Some (0, set_RdpStatus t false) /\
  (forall bs, len < sizeof_update_file_img_hdr + 8 ->
     get_ota_tartget_header (Some bs) len t tag = Some (0, set_RdpStatus t false)) /\
  (forall bs N L, load32 bs 4 = Some N -> load32 bs 12 = Some L ->
     len < u32 (N * L + 8) ->
     get_ota_tartget_header (Some bs) len t tag = Some (0, set_RdpStatus t false)) /\
  (forall bs N L, header_block_ok bs len N L -> tag_ok tag ->
     exists ret t', get_ota_tartget_header (Some bs) len t tag = Some (ret, t') /\
       (ret = 0 <->
        0 < N /\ forall j, 0 <= j < N ->
                   ~ matches_target bs L tag j /\ ~ matches_rdp bs L j) /\
       ((exists j, 0 <= j < N /\ (matches_target bs L tag j \/ matches_rdp bs L j)) ->
        ret = 1)).
Proof.
  split; [reflexivity|]. split; [|split].
  - intros bs H. unfold get_ota_tartget_header.
    apply Z.ltb_lt in H. rewrite H. reflexivity.
  - intros bs N L HN HL H. unfold get_ota_tartget_header.
    rewrite HN, HL. cbn [bind]. apply Z.ltb_lt in H. rewrite H.
    destruct (len <? sizeof_update_file_img_hdr + 8); reflexivity.
  - intros bs N L Hok Htag.
    destruct (header_block_entries _ _ _ _ Hok) as (RN & Hu & Hin).
    destruct Hok as (HN & HL & Hlen & Hbuf & H32 & H24 & Htot).
    rewrite (get_ota_tartget_header_scan bs len N L t tag Hlen HN HL) by lia.
    destruct (scan_defined bs N L tag (Z.to_nat N) 0 0 (set_RdpStatus t false))
      as (ret & t' & Hscan); [lia|lia|exact Hin|exact Htag|].
    exists ret, t'. split; [exact Hscan|].
    pose proof (scan_fail_iff bs N L tag _ _ _ _ _ _ Hscan) as Hf.
    specialize (Hf ltac:(lia) ltac:(lia) ltac:(lia)).
    assert (ret = 0 <->
            0 < N /\ forall j, 0 <= j < N ->
                       ~ matches_target bs L tag j /\ ~ matches_rdp bs L j) as Hiff.
    { rewrite Hf. split.
      - intros (_ & Hn & F). split; [lia|exact F].
      - intros (Hn & F). split; [reflexivity|]. split; [lia|exact F]. }
    split; [exact Hiff|].
    intros (j & Hj & Hm).
    destruct (scan_ret bs N L tag _ _ _ _ _ _ Hscan) as [R|R]; [|exact R].
    apply Hiff in R. destruct R as [_ F]. destruct (F j Hj) as [F1 F2].
    destruct Hm; contradiction.
Qed.

(** The scan behind the two length checks, for a header block whose
    entries lie in the buffer. *)
Lemma parser_scan_facts (bs : list byte) (len N L : Z)
    (t : update_ota_target_hdr) (tag : list byte) :
  sizeof_update_file_img_hdr + 8 <= len ->
  load32 bs 4 = Some N -> load32 bs 12 = Some L -> u32 (N * L + 8) <= len ->
  (forall j, 0 <= j < N ->
     entry_off L j + sizeof_update_file_img_hdr <= Z.of_nat (length bs)) ->
  tag_ok tag ->
  exists ret t',
    get_ota_tartget_header (Some bs) len t tag = Some (ret, t') /\
    (ret = 0 <->
     0 < N /\ forall j, 0 <= j < N ->
                ~ matches_target bs L tag j /\ ~ matches_rdp bs L j) /\
    ((exists j, 0 <= j < N /\ (matches_target bs L tag j \/ matches_rdp bs L j)) ->
     ret = 1) /\
    (RdpStatus t' = true <->
     exists j, 0 <= j < N /\ ~ matches_target bs L tag j /\ matches_rdp bs L j) /\
    (forall j, 0 <= j < N -> matches_target bs L tag j ->
       (forall k, j < k < N -> ~ matches_target bs L tag k) ->
       exists h,
         load_bytes bs (entry_off L j) (Z.to_nat sizeof_update_file_img_hdr) = Some h
         /\ FileImgHdr t' = decode_img_hdr h) /\
    (forall j, 0 <= j < N -> ~ matches_target bs L tag j -> matches_rdp bs L j ->
       (forall k, j < k < N -> ~ (~ matches_target bs L tag k /\ matches_rdp bs L k)) ->
       exists h,
         load_bytes bs (entry_off L j) (Z.to_nat sizeof_update_file_img_hdr) = Some h
         /\ FileRdpHdr t' = decode_img_hdr h).
Proof.
  intros Hlen HN HL Htot Hin Htag.
  pose proof (load32_range _ _ _ HN) as RN.
  rewrite (get_ota_tartget_header_scan bs len N L t tag Hlen HN HL Htot).
  destruct (scan_defined bs N L tag (Z.to_nat N) 0 0 (set_RdpStatus t false))
    as (ret & t' & Hscan); [lia|lia|exact Hin|exact Htag|].
  exists ret, t'. split; [exact Hscan|].
  pose proof (scan_fail_iff bs N L tag _ _ _ _ _ _ Hscan) as Hf.
  specialize (Hf ltac:(lia) ltac:(lia) ltac:(lia)).
  assert (ret = 0 <->
          0 < N /\ forall j, 0 <= j < N ->
                     ~ matches_target bs L tag j /\ ~ matches_rdp bs L j) as Hiff.
  { rewrite Hf. split.
    - intros (_ & Hn & F). split; [lia|exact F].
    - intros (Hn & F). split; [reflexivity|]. split; [lia|exact F]. }
  split; [exact Hiff|]. split.
  { intros (j & Hj & Hm).
    destruct (scan_ret bs N L tag _ _ _ _ _ _ Hscan) as [R|R]; [|exact R].
    apply Hiff in R. destruct R as [_ F]. destruct (F j Hj) as [F1 F2].
    destruct Hm; contradiction. }
  pose proof (scan_rdp_flag bs N L tag _ _ _ _ _ _ Hscan
                ltac:(lia) ltac:(lia) ltac:(lia)) as Hflag.
  cbn [RdpStatus set_RdpStatus] in Hflag.
  split.
  { rewrite Hflag. split; [intros [F|F]; [discriminate|exact F]|now right]. }
  destruct (scan_target_copy bs N L tag _ _ _ _ _ _ Hscan
              ltac:(lia) ltac:(lia) ltac:(lia)) as [_ Htc].
  destruct (scan_rdp_copy bs N L tag _ _ _ _ _ _ Hscan
              ltac:(lia) ltac:(lia) ltac:(lia)) as [_ Hrc].
  split; [exact Htc|exact Hrc].
Qed.


(** The failure conditions for the length both callers pass,
    [HdrNum * ImgHdrLen + 8] as computed in 32 bits, and a header block
    whose entries lie in the buffer: the parser returns 0 exactly when
    that length is below one image header plus 8 or no entry matches
    either tag.  An empty container is refused here, its length being 8. *)
Lemma header_parser_as_called (bs : list byte) (len N L : Z)
    (t : update_ota_target_hdr) (tag : list byte) :
  load32 bs 4 = Some N -> load32 bs 12 = Some L -> len = u32 (N * L + 8) ->
  (forall j, 0 <= j < N ->
     entry_off L j + sizeof_update_file_img_hdr <= Z.of_nat (length bs)) ->
  tag_ok tag ->
  exists ret t',
    get_ota_tartget_header (Some bs) len t tag = Some (ret, t') /\
    (ret = 0 \/ ret = 1) /\
    (ret = 0 <->
     len < sizeof_update_file_img_hdr + 8 \/
     forall j, 0 <= j < N ->
       ~ matches_target bs L tag j /\ ~ matches_rdp bs L j).
Proof.
  intros HN HL Hlen Hin Htag.
  pose proof (load32_range _ _ _ HN) as RN.
  destruct (Z_lt_ge_dec len (sizeof_update_file_img_hdr + 8)) as [Hshort|Hlong].
  - exists 0, (set_RdpStatus t false). split.
    + unfold get_ota_tartget_header. apply Z.ltb_lt in Hshort. rewrite Hshort.
      reflexivity.
    + split; [now left|]. split; [now left|reflexivity].
  - destruct (parser_scan_facts bs len N L t tag ltac:(lia) HN HL ltac:(lia) Hin Htag)
      as (ret & t' & Hrun & Hiff & Hone & _).
    exists ret, t'. split; [exact Hrun|].
    assert (0 < N) as HNpos.
    { destruct (Z.eq_dec N 0) as [->|]; [|lia].
      rewrite Z.mul_0_l in Hlen. change (u32 (0 + 8)) with 8 in Hlen.
      unfold sizeof_update_file_img_hdr in Hlong. lia. }
    split.
    + unfold get_ota_tartget_header in Hrun.
      destruct (len <? _); [injection Hrun as <- _; now left|].
      rewrite HN, HL in Hrun. cbn [bind] in Hrun.
      destruct (len <? _); [injection Hrun as <- _; now left|].
      exact (scan_ret _ _ _ _ _ _ _ _ _ _ Hrun).
    + rewrite Hiff. split.
      * intros [_ F]. now right.
      * intros [F|F]; [lia|]. split; [exact HNpos|exact F].
Qed.

(** An entry beyond the buffer is read before the scan can end. *)
Lemma scan_headers_beyond (bs : list byte) (N L : Z) (tag : list byte) (j : Z) :
  N < 2 ^ 32 -> entry_at bs L j = [] ->
  forall (n : nat) (i fg : Z) (t : update_ota_target_hdr),
    0 <= i <= j -> j < N -> i + Z.of_nat n = N ->
    scan_headers n i bs N L tag fg t = None.
Proof.
  intros HN Hj. induction n as [|n IH]; intros i fg t Hi HjN Hn.
  - exfalso. lia.
  - cbn [scan_headers]. unfold bind.
    destruct (Z.eq_dec i j) as [->|Hne].
    + rewrite Hj. destruct tag; reflexivity.
    + destruct (strncmp tag (entry_at bs L i) 4) as [c|]; [|reflexivity].
      destruct (c =? 0).
      * destruct (load_bytes _ _ _); [|reflexivity]. apply IH; lia.
      * destruct (strncmp RdpImg (entry_at bs L i) 3) as [r|]; [|reflexivity].
        destruct (r =? 0).
        -- destruct (load_bytes _ _ _); [|reflexivity]. apply IH; lia.
        -- replace (i =? u32 (N - 1)) with false
             by (symmetry; apply Z.eqb_neq; rewrite u32_small by lia; lia).
           cbn [andb]. apply IH; lia.
Qed.

(** C7, where the code leaves it: the size of the header block is
    computed in 32 bits, [HdrNum * ImgHdrLen + 8], and the product can
    wrap around.  Then both length checks pass although the block the
    header declares is longer than [len]: the parser does not refuse it,
    its scan runs and reads an entry that lies beyond the buffer
    (undefined behaviour, [None]) before it can return. *)
Theorem header_size_check_wraps (bs : list byte) (len N L : Z)
    (t : update_ota_target_hdr) (tag : list byte) (j : Z) :
  load32 bs 4 = Some N -> load32 bs 12 = Some L ->
  sizeof_update_file_img_hdr + 8 <= len -> u32 (N * L + 8) <= len ->
  len <= Z.of_nat (length bs) ->
  0 <= j < N -> Z.of_nat (length bs) <= entry_off L j ->
  len < N * L + 8 /\
  get_ota_tartget_header (Some bs) len t tag = None.
Proof.
  intros HN HL Hlen Htot Hbuf Hj Hout.
  pose proof (load32_range _ _ _ HN) as RN.
  pose proof (load32_range _ _ _ HL) as RL.
  split.
  - unfold entry_off in Hout. unfold sizeof_update_file_img_hdr in Hlen.
    assert (u32 (L * j) <= L * j) as Hle
      by (unfold u32, modulus; apply Z.mod_le; nia).
    assert (0 < L) as HLpos.
    { destruct (Z.eq_dec L 0) as [->|]; [|lia].
      rewrite Z.mul_0_l in Hout. change (u32 0) with 0 in Hout. lia. }
    nia.
  - rewrite (get_ota_tartget_header_scan bs len N L t tag Hlen HN HL Htot).
    apply (scan_headers_beyond bs N L tag j); try lia.
    unfold entry_at. apply skipn_all2. lia.
Qed.

(** Witness of [header_size_check_wraps]: a server declares 0x08000001
    headers of 32 bytes each.  [recv_ota_file_hdr] takes the product for
    32, reads 40 bytes into the buffer of 512 and passes 40 on as the
    length; the parser then scans until the 17th entry, which lies behind
    the buffer. *)
Lemma header_size_check_wraps_witness :
  exists b t s w',
    recv_ota_file_hdr (alloc_junk env_ok) 0 zero_target_hdr [512; 512]
      (world_of erased_flash wrap_header) = Some (1, b, 40, t, s, w') /\
    40 < 0x08000001 * 32 + 8 /\
    get_ota_tartget_header (Some b) 40 t (OtaImgId OTA_INDEX_2) = None.
Proof.
  eexists _, _, _, _. split; [vm_compute; reflexivity|].
  apply (header_size_check_wraps _ 40 0x08000001 32 _ (OtaImgId OTA_INDEX_2) 16).
  - reflexivity.
  - reflexivity.
  - vm_compute. intros H. discriminate H.
  - vm_compute. intros H. discriminate H.
  - vm_compute. intros H. discriminate H.
  - lia.
  - vm_compute. intros H. discriminate H.
Defined.

(** The tags the callers pass, [OtaImgId[0]] and [OtaImgId[1]], are C
    strings that do not begin with "RDP". *)
Lemma OtaImgId_not_rdp (index : Z) :
  tag_ok (OtaImgId index) /\ strncmp RdpImg (OtaImgId index) 3 <> Some 0.
Proof.
  unfold OtaImgId. destruct (index =? 0).
  - split; [left; cbn; lia|vm_compute; discriminate].
  - split; [left; cbn; lia|vm_compute; discriminate].
Qed.

(** Among the entries below [N] that have a decidable property, there is a
    last one when there is one at all. *)
Lemma last_entry_with (Q : Z -> Prop) (N : Z) :
  (forall j, Q j \/ ~ Q j) ->
  (exists j, 0 <= j < N /\ Q j) ->
  exists j, 0 <= j < N /\ Q j /\ forall k, j < k < N -> ~ Q k.
Proof.
  intros Hdec (j0 & Hj0 & HQ0).
  assert (Hgen : forall n : nat, forall M, Z.of_nat n = M -> M <= N ->
            (exists j, N - M <= j < N /\ Q j /\ forall k, j < k < N -> ~ Q k)
            \/ forall k, N - M <= k < N -> ~ Q k).
  { induction n as [|n IH]; intros M HM HMN.
    - right. intros k Hk. lia.
    - destruct (IH (M - 1) ltac:(lia) ltac:(lia)) as [(j & Hj & HQ & Hl)|Hnone].
      + left. exists j. split; [lia|]. split; assumption.
      + destruct (Hdec (N - M)) as [HQ|HnQ].
        * left. exists (N - M). split; [lia|]. split; [exact HQ|].
          intros k Hk. apply Hnone. lia.
        * right. intros k Hk. destruct (Z.eq_dec k (N - M)) as [->|];
            [exact HnQ|apply Hnone; lia]. }
  destruct (Hgen (Z.to_nat N) N ltac:(lia) ltac:(lia)) as [(j & Hj & HQ & Hl)|Hnone].
  - exists j. split; [lia|]. split; assumption.
  - exfalso. apply (Hnone j0); [lia|exact HQ0].
Qed.

Lemma option_Z_eq_dec (a b : option Z) : a = b \/ a <> b.
Proof.
  destruct a as [x|], b as [y|]; try (right; discriminate); [|now left].
  destruct (Z.eq_dec x y) as [->|H]; [now left|right; intros [= E]; auto].
Qed.

(** C8: independent tag matching.  Over a header block that passes the two
    length checks and whose entries lie in the buffer, and for a target tag
    that does not begin with "RDP" (the tags the callers pass, "OTA1" and
    "OTA2", are such: [OtaImgId_not_rdp]), the scan visits every entry and
    does not stop at a match: the last entry that matches the target tag
    on its 4 bytes is copied to [FileImgHdr], the last entry that matches
    "RDP" on its 3 bytes is copied to [FileRdpHdr], wherever the two stand
    among the [HdrNum] entries, so that each of the two is found when it
    is present; and the secondary-present flag is set if and only if some
    entry matches "RDP".  The scan returns 1 as soon as some entry
    matches. *)
Theorem independent_tag_matching (bs : list byte) (len N L : Z)
    (t : update_ota_target_hdr) (tag : list byte) :
  sizeof_update_file_img_hdr + 8 <= len ->
  load32 bs 4 = Some N -> load32 bs 12 = Some L -> u32 (N * L + 8) <= len ->
  (forall j, 0 <= j < N ->
     entry_off L j + sizeof_update_file_img_hdr <= Z.of_nat (length bs)) ->
  tag_ok tag -> strncmp RdpImg tag 3 <> Some 0 ->
  exists ret t',
    get_ota_tartget_header (Some bs) len t tag = Some (ret, t') /\
    (RdpStatus t' = true <-> exists j, 0 <= j < N /\ matches_rdp bs L j) /\
    (forall j, 0 <= j < N -> matches_target bs L tag j ->
       (forall k, j < k < N -> ~ matches_target bs L tag k) ->
       exists h,
         load_bytes bs (entry_off L j) (Z.to_nat sizeof_update_file_img_hdr) = Some h
         /\ FileImgHdr t' = decode_img_hdr h) /\
    (forall j, 0 <= j < N -> matches_rdp bs L j ->
       (forall k, j < k < N -> ~ matches_rdp bs L k) ->
       exists h,
         load_bytes bs (entry_off L j) (Z.to_nat sizeof_update_file_img_hdr) = Some h
         /\ FileRdpHdr t' = decode_img_hdr h) /\
    ((exists j, 0 <= j < N /\ matches_target bs L tag j) ->
     exists j h,
       0 <= j < N /\ matches_target bs L tag j /\
       load_bytes bs (entry_off L j) (Z.to_nat sizeof_update_file_img_hdr) = Some h
       /\ FileImgHdr t' = decode_img_hdr h) /\
    ((exists j, 0 <= j < N /\ matches_rdp bs L j) ->
     exists j h,
       0 <= j < N /\ matches_rdp bs L j /\
       load_bytes bs (entry_off L j) (Z.to_nat sizeof_update_file_img_hdr) = Some h
       /\ FileRdpHdr t' = decode_img_hdr h) /\
    ((exists j, 0 <= j < N /\ (matches_target bs L tag j \/ matches_rdp bs L j)) ->
     ret = 1).
Proof.
  intros Hlen HN HL Htot Hin Htag Hne.
  destruct (parser_scan_facts bs len N L t tag Hlen HN HL Htot Hin Htag)
    as (ret & t' & Hrun & _ & Hone & Hflag & Htc & Hrc).
  assert (Hexcl : forall j, matches_rdp bs L j -> ~ matches_target bs L tag j).
  { intros j Hr Ht. apply Hne. exact (both_match_tag _ _ Ht Hr). }
  assert (Hrc' : forall j, 0 <= j < N -> matches_rdp bs L j ->
            (forall k, j < k < N -> ~ matches_rdp bs L k) ->
            exists h,
              load_bytes bs (entry_off L j) (Z.to_nat sizeof_update_file_img_hdr)
              = Some h /\ FileRdpHdr t' = decode_img_hdr h).
  { intros j Hj Hr Hlast. apply (Hrc j Hj (Hexcl j Hr) Hr).
    intros k Hk [_ Hrk]. exact (Hlast k Hk Hrk). }
  exists ret, t'. split; [exact Hrun|]. split.
  { rewrite Hflag. split.
    - intros (j & Hj & _ & Hr). eauto.
    - intros (j & Hj & Hr). exists j. split; [exact Hj|]. split; [auto|exact Hr]. }
  split; [exact Htc|]. split; [exact Hrc'|]. split; [|split; [|exact Hone]].
  - intros Hex.
    destruct (last_entry_with (matches_target bs L tag) N
                (fun j => option_Z_eq_dec _ _) Hex) as (j & Hj & Hm & Hlast).
    destruct (Htc j Hj Hm Hlast) as (h & Hh & Hc). exists j, h. auto.
  - intros Hex.
    destruct (last_entry_with (matches_rdp bs L) N
                (fun j => option_Z_eq_dec _ _) Hex) as (j & Hj & Hm & Hlast).
    destruct (Hrc' j Hj Hm Hlast) as (h & Hh & Hc). exists j, h. auto.
Qed.

(** Witness of [independent_tag_matching]: a block of two headers, the
    target "OTA2" first and "RDP" second; both are found. *)
Lemma independent_tag_matching_witness :
  exists t',
    get_ota_tartget_header (Some (skipn 12 rdp_file)) 56 zero_target_hdr
      (OtaImgId OTA_INDEX_2) = Some (1, t') /\
    RdpStatus t' = true /\
    ImgId (FileImgHdr t') = list_byte_of_string "OTA2" /\
    ImgId (FileRdpHdr t') = list_byte_of_string "RDP" ++ [x00].
Proof.
  destruct (independent_tag_matching (skipn 12 rdp_file) 56 2 24 zero_target_hdr
              (OtaImgId OTA_INDEX_2))
    as (ret & t' & Hrun & Hflag & Htc & Hrc & _ & _ & Hone).
  - vm_compute. intros H. discriminate H.
  - reflexivity.
  - reflexivity.
  - vm_compute. intros H. discriminate H.
  - intros j Hj. assert (j = 0 \/ j = 1) as [-> | ->] by lia;
      vm_compute; intros H; discriminate H.
  - apply OtaImgId_not_rdp.
  - apply OtaImgId_not_rdp.
  - assert (matches_target (skipn 12 rdp_file) 24 (OtaImgId OTA_INDEX_2) 0) as M0
      by (vm_compute; reflexivity).
    assert (matches_rdp (skipn 12 rdp_file) 24 1) as M1 by (vm_compute; reflexivity).
    assert (~ matches_target (skipn 12 rdp_file) 24 (OtaImgId OTA_INDEX_2) 1) as N1
      by (vm_compute; intros H; discriminate H).
    assert (ret = 1) as -> by (apply Hone; exists 0; split; [lia|left; exact M0]).
    exists t'. split; [exact Hrun|]. split.
    + apply Hflag. exists 1. split; [lia|exact M1].
    + split.
      * destruct (Htc 0 ltac:(lia) M0) as (h & Hh & ->).
        { intros k Hk. assert (k = 1) as -> by lia. exact N1. }
        vm_compute in Hh. injection Hh as <-. reflexivity.
      * destruct (Hrc 1 ltac:(lia) M1) as (h & Hh & ->).
        { intros k Hk. lia. }
        vm_compute in Hh. injection Hh as <-. reflexivity.
Defined.

(* ----------------------------------------------------------------- *)
(** ** Download plan *)

(** C9: with a secondary image the plan has the two descriptors in the
    order of their stream offsets, the image with the smaller offset first;
    without one it has the primary descriptor only.  The primary descriptor
    has the declared length minus 8 and the target address plus 8 (as a
    flash offset); the secondary descriptor has its declared length as it
    is. *)
Theorem download_plan_order (P : platform) (addr : Z) (t : update_ota_target_hdr) :
  let ota := ota_dw_info P addr t in
  let rdp := rdp_dw_info P t in
  (RdpStatus t = false -> download_plan P addr t = [ota]) /\
  (RdpStatus t = true -> Offset (FileImgHdr t) < Offset (FileRdpHdr t) ->
   download_plan P addr t = [ota; rdp]) /\
  (RdpStatus t = true -> Offset (FileRdpHdr t) < Offset (FileImgHdr t) ->
   download_plan P addr t = [rdp; ota]) /\
  (forall d0 d1, download_plan P addr t = [d0; d1] -> ImgOffset d0 <= ImgOffset d1) /\
  (DwImgId ota = OTA_IMAG /\ ImgOffset ota = Offset (FileImgHdr t) /\
   ImageLen ota = u32 (ImgLen (FileImgHdr t) - 8) /\
   FlashAddr ota = u32 (addr - SPI_FLASH_BASE P + 8)) /\
  (DwImgId rdp = RDP_IMAG /\ ImgOffset rdp = Offset (FileRdpHdr t) /\
   ImageLen rdp = ImgLen (FileRdpHdr t) /\
   FlashAddr rdp = u32 (RDP_FLASH_ADDR P - SPI_FLASH_BASE P)).
Proof.
  cbv zeta. unfold download_plan, arrange_download_info.
  split; [intros ->; reflexivity|].
  split; [intros -> H; apply Z.ltb_lt in H; rewrite H; reflexivity|].
  split.
  { intros -> H. destruct (Offset (FileImgHdr t) <? Offset (FileRdpHdr t)) eqn:E;
      [apply Z.ltb_lt in E; lia|reflexivity]. }
  split; [|split; repeat split].
  intros d0 d1. destruct (RdpStatus t); [|discriminate].
  destruct (Offset (FileImgHdr t) <? Offset (FileRdpHdr t)) eqn:E;
    intros [= <- <-]; cbn [ImgOffset ota_dw_info rdp_dw_info].
  - apply Z.ltb_lt in E. lia.
  - apply Z.ltb_ge in E. lia.
Qed.

(** Witness of [download_plan_order]: the RDP image at offset 56, the
    primary image at offset 72. *)
Lemma download_plan_order_witness :
  RdpStatus both_target_hdr = true /\
  Offset (FileRdpHdr both_target_hdr) < Offset (FileImgHdr both_target_hdr) /\
  download_plan amebaz 0x08080000 both_target_hdr
  = [rdp_dw_info amebaz both_target_hdr; ota_dw_info amebaz 0x08080000 both_target_hdr].
Proof.
  assert (RdpStatus both_target_hdr = true) as H1 by reflexivity.
  assert (Offset (FileRdpHdr both_target_hdr) < Offset (FileImgHdr both_target_hdr))
    as H2 by (vm_compute; reflexivity).
  split; [exact H1|]. split; [exact H2|].
  exact (proj1 (proj2 (proj2 (download_plan_order amebaz 0x08080000 both_target_hdr)))
           H1 H2).
Defined.

(* ----------------------------------------------------------------- *)
(** ** Bank resolver *)

Lemma check_ota_image_address_success (a : Z) (t : update_ota_target_hdr)
    (w : world) (a' : Z) (w' : world) :
  check_ota_image_address a t w = (1, a', w') ->
  a' = a /\ w' = w /\ a = FlashOffset (FileImgHdr t) /\ a <> 0xFFFFFFFF.
Proof.
  unfold check_ota_image_address.
  destruct (a =? FlashOffset (FileImgHdr t)) eqn:E1; cbn [negb]; [|discriminate].
  destruct (a =? 0xFFFFFFFF) eqn:E2; [discriminate|].
  intros [= <- <-]. apply Z.eqb_eq in E1. apply Z.eqb_neq in E2. auto.
Qed.

(** An unset slot stays unset: [ota_write_ota2_addr] writes only over a
    slot that holds another address. *)
Lemma ota_write_ota2_addr_unset (P : platform) (ota_addr : Z) (w : world) :
  HAL_READ32 (cur_flash w) (OFFSET_DATA P) = 0xFFFFFFFF ->
  ota_write_ota2_addr P ota_addr w = (0, w).
Proof.
  intros H. unfold ota_write_ota2_addr. rewrite H. reflexivity.
Qed.




(** C5, where the code leaves it: when the slot reads 0xFFFFFFFF,
    [ota_write_ota2_addr] writes nothing (its guard takes the unset slot out
    together with the slot that holds the address already), the slot reads
    0xFFFFFFFF again, and [get_ota_address] fails at the alignment check
    with the flash untouched.  The default address is never written. *)
Theorem unset_slot_is_not_provisioned (P : platform) (idx a0 : Z)
    (t : update_ota_target_hdr) (w : world) :
  HAL_READ32 (cur_flash w) (OFFSET_DATA P) = 0xFFFFFFFF ->
  ota_write_ota2_addr P OTA2_DEFAULT_ADDR w = (0, w) /\
  HAL_READ32 (cur_flash (snd (ota_write_ota2_addr P OTA2_DEFAULT_ADDR w))) (OFFSET_DATA P)
  = 0xFFFFFFFF /\
  get_ota_address P idx a0 t w = (0, a0, w).
Proof.
  intros H. pose proof (ota_write_ota2_addr_unset P OTA2_DEFAULT_ADDR w H) as Hw.
  split; [exact Hw|]. split; [rewrite Hw; exact H|].
  unfold get_ota_address. rewrite H, Hw.
  replace (4294967295 =? 4294967295) with true by reflexivity.
  cbv beta iota zeta. rewrite H.
  replace (4294967295 mod 4096 =? 0) with false by (vm_compute; reflexivity).
  reflexivity.
Qed.

(** Witness of [unset_slot_is_not_provisioned]: a device whose system data
    is erased; bank 2 cannot be resolved. *)
Lemma unset_slot_is_not_provisioned_witness :
  HAL_READ32 (cur_flash (world_of (bank1_flash 0xFFFFFFFF) [])) (OFFSET_DATA amebaz)
  = 0xFFFFFFFF /\
  get_ota_address amebaz OTA_INDEX_2 0 bank2_target_hdr
    (world_of (bank1_flash 0xFFFFFFFF) [])
  = (0, 0, world_of (bank1_flash 0xFFFFFFFF) []).
Proof.
  assert (HAL_READ32 (cur_flash (world_of (bank1_flash 0xFFFFFFFF) []))
            (OFFSET_DATA amebaz) = 0xFFFFFFFF) as H by (vm_compute; reflexivity).
  split; [exact H|].
  exact (proj2 (proj2 (unset_slot_is_not_provisioned amebaz OTA_INDEX_2 0
                         bank2_target_hdr _ H))).
Defined.

(* ----------------------------------------------------------------- *)
(** ** Checksum verifier *)

Lemma u32_idem (z : Z) : u32 (u32 z) = u32 z.
Proof. unfold u32, modulus. apply Z.mod_mod. lia. Qed.

Lemma u32_add_l (a b : Z) : u32 (u32 a + b) = u32 (a + b).
Proof. unfold u32, modulus. apply Zplus_mod_idemp_l. Qed.

Lemma u32_add_r (a b : Z) : u32 (a + u32 b) = u32 (a + b).
Proof. unfold u32, modulus. apply Zplus_mod_idemp_r. Qed.

Lemma sumZ_app (a b : list byte) : sumZ (a ++ b) = sumZ a + sumZ b.
Proof.
  unfold sumZ. induction a as [|x a IH]; cbn [fold_right app]; [reflexivity|].
  rewrite IH. lia.
Qed.

Lemma byte_sum_sumZ (bs : list byte) : byte_sum bs = u32 (sumZ bs).
Proof. reflexivity. Qed.

(** The running sum of the loop is the sum of the block, modulo 2^32. *)
Lemma add_bytes_sum (bs : list byte) : forall acc,
  0 <= acc < 2 ^ 32 -> add_bytes acc bs = u32 (acc + sumZ bs).
Proof.
  induction bs as [|b r IH]; intros acc Hacc.
  - cbn. rewrite Z.add_0_r, u32_small by exact Hacc. reflexivity.
  - cbn [add_bytes]. rewrite IH by apply u32_range.
    rewrite u32_add_l. f_equal. cbn [sumZ fold_right]. fold (sumZ r). lia.
Qed.

Lemma flash_stream_read_u32 (fl : flash) (a : Z) (n : nat) :
  flash_stream_read fl (u32 a) n = flash_stream_read fl a n.
Proof.
  unfold flash_stream_read. apply map_ext. intros j. now rewrite u32_add_l.
Qed.

Lemma map_seq_shift {A : Type} (f : nat -> A) (n m : nat) : forall s,
  map f (seq (s + n) m) = map (fun j => f (j + n)%nat) (seq s m).
Proof.
  induction m as [|m IH]; intros s; [reflexivity|].
  cbn [seq map]. f_equal. exact (IH (S s)).
Qed.

Lemma flash_stream_read_app (fl : flash) (a : Z) (n m : nat) :
  flash_stream_read fl a (n + m) =
  flash_stream_read fl a n ++ flash_stream_read fl (a + Z.of_nat n) m.
Proof.
  unfold flash_stream_read. rewrite seq_app, map_app. f_equal.
  rewrite (map_seq_shift _ n m 0). apply map_ext. intros j. f_equal. f_equal. lia.
Qed.

(** The block loop sums the region, whatever the block size, when [i]
    cannot wrap around and the fuel covers the blocks. *)
Lemma checksum_blocks_sum (P : platform) (fl : flash) (addr len : Z) :
  0 < BUF_SIZE P -> len + BUF_SIZE P <= 2 ^ 32 ->
  forall (fuel : nat) (i acc : Z),
    0 <= i -> 0 <= acc < 2 ^ 32 -> len - i <= Z.of_nat fuel * BUF_SIZE P ->
    checksum_blocks fuel P fl addr len i acc =
    Some (u32 (acc + sumZ (flash_stream_read fl (addr - SPI_FLASH_BASE P + 8 + i)
                             (Z.to_nat (len - i))))).
Proof.
  intros HB Hlen. induction fuel as [|fuel IH]; intros i acc Hi Hacc Hfuel.
  - cbn [checksum_blocks].
    destruct (i <? len) eqn:E; [apply Z.ltb_lt in E; lia|].
    replace (Z.to_nat (len - i)) with O by lia.
    cbn. rewrite Z.add_0_r, u32_small by exact Hacc. reflexivity.
  - cbn [checksum_blocks]. destruct (i <? len) eqn:E.
    + apply Z.ltb_lt in E.
      rewrite (u32_small (len - i)) by lia.
      rewrite (u32_small (i + BUF_SIZE P)) by lia.
      rewrite flash_stream_read_u32.
      rewrite IH; [|lia|rewrite add_bytes_sum by exact Hacc; apply u32_range|lia].
      f_equal. rewrite add_bytes_sum by exact Hacc. rewrite u32_add_l.
      f_equal. rewrite <- Z.add_assoc. f_equal.
      replace (addr - SPI_FLASH_BASE P + i + 8) with (addr - SPI_FLASH_BASE P + 8 + i)
        by lia.
      destruct (len - i >? BUF_SIZE P) eqn:Eb.
      * rewrite Z.gtb_ltb in Eb. apply Z.ltb_lt in Eb.
        replace (Z.to_nat (len - i))
          with (Z.to_nat (BUF_SIZE P) + Z.to_nat (len - (i + BUF_SIZE P)))%nat by lia.
        rewrite flash_stream_read_app, sumZ_app. rewrite Z2Nat.id by lia.
        f_equal. f_equal. f_equal. lia.
      * rewrite Z.gtb_ltb in Eb. apply Z.ltb_ge in Eb.
        replace (Z.to_nat (len - (i + BUF_SIZE P))) with O by lia.
        cbn. lia.
    + apply Z.ltb_ge in E. replace (Z.to_nat (len - i)) with O by lia.
      cbn. rewrite Z.add_0_r, u32_small by exact Hacc. reflexivity.
Qed.

Lemma rdp_checksum_loop_sum (P : platform) (fl : flash) : forall (n : nat) (i acc : Z),
  0 <= acc < 2 ^ 32 ->
  rdp_checksum_loop n P fl i acc =
  u32 (acc + sumZ (flash_stream_read fl (RDP_FLASH_ADDR P - SPI_FLASH_BASE P + i) n)).
Proof.
  induction n as [|n IH]; intros i acc Hacc.
  - cbn. rewrite Z.add_0_r, u32_small by exact Hacc. reflexivity.
  - cbn [rdp_checksum_loop]. rewrite flash_stream_read_u32.
    rewrite IH by (rewrite add_bytes_sum by exact Hacc; apply u32_range).
    rewrite add_bytes_sum by exact Hacc. rewrite u32_add_l. f_equal.
    rewrite <- Z.add_assoc. f_equal.
    change (S n) with (1 + n)%nat. rewrite flash_stream_read_app, sumZ_app.
    f_equal. f_equal. f_equal. lia.
Qed.

Lemma strncmp_defined_nul (n : nat) : forall s1 s2,
  In x00 (firstn (length s1) s2) -> exists c, strncmp s1 s2 n = Some c.
Proof.
  induction n as [|n IH]; intros s1 s2 H; [exists 0; reflexivity|].
  destruct s1 as [|c1 t1]; [destruct H|].
  destruct s2 as [|c2 t2]; [destruct H|].
  cbn [strncmp]. destruct (Byte.eqb c1 c2) eqn:E; [|eauto].
  destruct (Byte.eqb c1 x00) eqn:E0; [eauto|].
  apply IH. cbn in H. destruct H as [H|H]; [|exact H].
  apply Byte.byte_dec_bl in E. subst c2 c1.
  rewrite (Byte.byte_dec_lb eq_refl) in E0. discriminate.
Qed.

Lemma custom_signature_defined (P : platform) (fl : flash) (addr : Z) :
  custom_signature_ok P -> exists d, custom_signature_differs P fl addr = Some d.
Proof.
  intros Hok. unfold custom_signature_differs.
  destruct (CONFIG_CUSTOM_SIGNATURE P) eqn:E; [|eauto].
  specialize (Hok E). unfold strcmp.
  match goal with |- context [strncmp ?a ?b ?n] =>
    destruct (strncmp_defined_nul n a b) as [c ->] end.
  - unfold flash_stream_read. rewrite length_map, length_seq. exact Hok.
  - cbn [bind]. eauto.
Qed.

(** C4: the verifier sums, modulo 2^32, every byte it reads back from the
    written region ([len] bytes from [addr + 8]) and the 8 bytes of the
    signature; it returns 1 only if this sum is the checksum declared in
    the primary header and, with a secondary image, the sum of the RDP
    region over its declared length is the checksum of the RDP header;
    either mismatch makes it return 0.  (With [CONFIG_CUSTOM_SIGNATURE] the
    custom signature of the new image has to be right as well.) *)
Theorem verify_ota_checksum_sums (P : platform) (addr len : Z) (sig : list byte)
    (t : update_ota_target_hdr) (fl : flash) :
  0 < BUF_SIZE P -> 0 <= len -> len + BUF_SIZE P <= 2 ^ 32 ->
  (8 <= length sig)%nat -> custom_signature_ok P ->
  exists r,
    verify_ota_checksum (verify_fuel P len) P addr len sig t fl = Some r /\
    (r = 0 \/ r = 1) /\
    (r = 1 <->
     custom_signature_differs P fl addr = Some false /\
     byte_sum (written_region P fl addr len ++ firstn 8 sig) = Checksum (FileImgHdr t) /\
     (RdpStatus t = true -> byte_sum (rdp_region P fl t) = Checksum (FileRdpHdr t))) /\
    (byte_sum (written_region P fl addr len ++ firstn 8 sig) <> Checksum (FileImgHdr t)
     -> r = 0) /\
    (RdpStatus t = true -> byte_sum (rdp_region P fl t) <> Checksum (FileRdpHdr t)
     -> r = 0).
Proof.
  intros HB Hlen0 Hlen Hsig Hcus.
  destruct (custom_signature_defined P fl addr Hcus) as [d Hd].
  unfold verify_ota_checksum. rewrite Hd. cbn [bind].
  assert (len - 0 <= Z.of_nat (verify_fuel P len) * BUF_SIZE P) as Hfuel.
  { unfold verify_fuel. rewrite Nat2Z.inj_succ, Z2Nat.id by (apply Z.div_pos; lia).
    pose proof (Z.mod_pos_bound len (BUF_SIZE P) HB).
    pose proof (Z.div_mod len (BUF_SIZE P) ltac:(lia)). nia. }
  rewrite (checksum_blocks_sum P fl addr len HB Hlen _ 0 0 ltac:(lia) ltac:(lia) Hfuel).
  cbn [bind]. rewrite Z.add_0_l, Z.add_0_r, Z.sub_0_r.
  destruct (load_bytes_defined sig 0 8) as [s8 Hs8]; [lia|lia|].
  rewrite Hs8. cbn [bind].
  assert (s8 = firstn 8 sig) as -> by
    (unfold load_bytes in Hs8; destruct (_ && _); [|discriminate];
     injection Hs8 as <-; reflexivity).
  rewrite add_bytes_sum by apply u32_range. rewrite u32_add_l, <- sumZ_app.
  rewrite rdp_checksum_loop_sum by lia. rewrite Z.add_0_l, Z.add_0_r.
  fold (written_region P fl addr len). unfold written_region at 1.
  rewrite <- flash_stream_read_u32. fold (written_region P fl addr len).
  fold (rdp_region P fl t). unfold rdp_region at 1.
  rewrite <- flash_stream_read_u32. fold (rdp_region P fl t).
  rewrite <- !byte_sum_sumZ.
  set (s := byte_sum (written_region P fl addr len ++ firstn 8 sig)).
  set (rs := byte_sum (rdp_region P fl t)).
  destruct d.
  { exists 0. split; [reflexivity|]. split; [now left|].
    split; [|auto]. split; [discriminate|]. intros [F _]. discriminate. }
  destruct (s =? Checksum (FileImgHdr t)) eqn:Es; cbn [negb].
  - apply Z.eqb_eq in Es. destruct (RdpStatus t) eqn:Er; cbn [andb].
    + destruct (rs =? Checksum (FileRdpHdr t)) eqn:Ers; cbn [negb].
      * apply Z.eqb_eq in Ers. exists 1. split; [reflexivity|]. split; [now right|].
        split; [tauto|]. split; intros; contradiction.
      * apply Z.eqb_neq in Ers. exists 0. split; [reflexivity|]. split; [now left|].
        split; [|auto]. split; [discriminate|]. intros (_ & _ & F). now elim Ers; apply F.
    + exists 1. split; [reflexivity|]. split; [now right|].
      split; [|split; [intros; contradiction|discriminate]].
      split; [|reflexivity]. intros _. repeat split; [exact Es|discriminate].
  - apply Z.eqb_neq in Es. exists 0. split; [reflexivity|]. split; [now left|].
    split; [|auto]. split; [discriminate|]. intros (_ & F & _). contradiction.
Qed.

Lemma amebaz_custom_signature_ok : custom_signature_ok amebaz.
Proof.
  intros _. vm_compute. repeat first [left; reflexivity | right].
Qed.

(** Witness of [verify_ota_checksum_sums]: the demonstration image in
    bank 2 verifies. *)
Lemma verify_ota_checksum_sums_witness :
  (0 < BUF_SIZE amebaz /\ 0 <= 100 /\ 100 + BUF_SIZE amebaz <= 2 ^ 32 /\
   (8 <= length demo_signature)%nat /\ custom_signature_ok amebaz) /\
  verify_ota_checksum (verify_fuel amebaz 100) amebaz 0x08080000 100 demo_signature
    demo_target_hdr demo_flash = Some 1.
Proof.
  assert (0 < BUF_SIZE amebaz) as H1 by reflexivity.
  assert (0 <= 100) as H2 by lia.
  assert (100 + BUF_SIZE amebaz <= 2 ^ 32) as H3 by (vm_compute; discriminate).
  assert (8 <= length demo_signature)%nat as H4 by (vm_compute; lia).
  pose proof amebaz_custom_signature_ok as H5.
  split; [auto|].
  destruct (verify_ota_checksum_sums amebaz 0x08080000 100 demo_signature
              demo_target_hdr demo_flash H1 H2 H3 H4 H5) as (r & Hrun & _ & Hiff & _).
  rewrite Hrun. f_equal. apply Hiff.
  split; [vm_compute; reflexivity|]. split; [vm_compute; reflexivity|]. discriminate.
Defined.

(* ----------------------------------------------------------------- *)
(** ** Streaming writer: byte accounting *)

Lemma s32_small (z : Z) : - 2 ^ 31 <= z < 2 ^ 31 -> s32 z = z.
Proof.
  intros H. unfold s32, modulus. cbv zeta.
  destruct (Z_lt_le_dec z 0) as [Hn|Hp].
  - replace (z mod 2 ^ 32) with (z + 2 ^ 32)
      by (apply Z.mod_unique with (-1); lia).
    destruct (z + 2 ^ 32 <? 2 ^ 31) eqn:E; [apply Z.ltb_lt in E; lia|lia].
  - rewrite Z.mod_small by lia.
    destruct (z <? 2 ^ 31) eqn:E; [reflexivity|apply Z.ltb_ge in E; lia].
Qed.

Lemma s32_range (z : Z) : - 2 ^ 31 <= s32 z < 2 ^ 31.
Proof.
  unfold s32, modulus. cbv zeta.
  pose proof (Z.mod_pos_bound z (2 ^ 32) ltac:(lia)).
  destruct (z mod 2 ^ 32 <? 2 ^ 31) eqn:E;
    [apply Z.ltb_lt in E|apply Z.ltb_ge in E]; lia.
Qed.

Lemma deliver_spec (n max_len : Z) (data : list byte) (r : Z) (d rest : list byte) :
  deliver n max_len data = (r, d, rest) ->
  data = d ++ rest /\
  ((n < 0 /\ r = -1 /\ d = []) \/
   (0 <= n /\ r = Z.of_nat (length d) /\
    d = firstn (Z.to_nat (Z.min n max_len)) data)).
Proof.
  unfold deliver. destruct (n <? 0) eqn:E.
  - apply Z.ltb_lt in E. intros [= <- <- <-]. split; [reflexivity|]. left. auto.
  - apply Z.ltb_ge in E. intros [= <- <- <-].
    split; [symmetry; apply firstn_skipn|]. right. auto.
Qed.

Lemma fill_buf_length (P : platform) (d : list byte) :
  0 <= BUF_SIZE P -> Z.of_nat (length d) <= BUF_SIZE P ->
  Z.of_nat (length (fill_buf P d)) = BUF_SIZE P.
Proof.
  intros H0 H. unfold fill_buf. rewrite length_app, repeat_length. lia.
Qed.

Lemma load_bytesZ_spec (bs : list byte) (off n : Z) (d : list byte) :
  load_bytesZ bs off n = Some d ->
  0 <= n /\ 0 <= off /\ off + n <= Z.of_nat (length bs) /\
  Z.of_nat (length d) = n /\ d = firstn (Z.to_nat n) (skipn (Z.to_nat off) bs).
Proof.
  unfold load_bytesZ. destruct (n <? 0) eqn:En; [discriminate|].
  apply Z.ltb_ge in En. intros H. pose proof (load_bytes_length _ _ _ _ H) as Hl.
  unfold load_bytes in H. destruct (_ && _) eqn:E; [|discriminate].
  apply andb_true_iff in E. destruct E as [E1 E2]. apply Z.leb_le in E1, E2.
  injection H as <-. repeat split; try lia.
Qed.

Lemma store_bytes_length (bs : list byte) (off : Z) (d bs' : list byte) :
  store_bytes bs off d = Some bs' -> length bs' = length bs.
Proof.
  unfold store_bytes. destruct (_ && _) eqn:E; [|discriminate].
  apply andb_true_iff in E. destruct E as [E1 E2]. apply Z.leb_le in E1, E2.
  intros [= <-]. rewrite !length_app, length_firstn, length_skipn. lia.
Qed.

Lemma flash_stream_write_spec (who : origin) (a : Z) (d : list byte) (w : world)
    (r : Z) (w' : world) :
  flash_stream_write who a d w = (r, w') ->
  rx_data w' = rx_data w /\ flash0 w' = flash0 w /\
  ((r = 1 /\ log w' = EvWrite who a d :: log w) \/
   (r = -1 /\ log w' = EvWriteFail who a d :: log w)).
Proof.
  unfold flash_stream_write. destruct (wfail w) as [|[|] f]; intros [= <- <-];
    cbn; auto.
Qed.

Lemma state_ok_set_count (P : platform) (s : dl_state) (rem sz : Z) :
  state_ok P s -> 0 <= sz -> state_ok P (set_count rem sz s).
Proof. intros (H1 & H2 & H3 & H4) Hsz. unfold state_ok. cbn. auto. Qed.

Lemma state_ok_set_sig (P : platform) (s : dl_state) (sc : Z) (sg : list byte) :
  state_ok P s -> 0 <= sc <= 8 -> state_ok P (set_sig sc sg s).
Proof. intros (H1 & H2 & H3 & H4) Hsc. unfold state_ok. cbn. auto. Qed.

Lemma state_ok_set_reached (P : platform) (s : dl_state) (tc : Z) :
  state_ok P s -> state_ok P (set_reached tc s).
Proof. intros (H1 & H2 & H3 & H4). unfold state_ok. cbn. auto. Qed.

Lemma state_ok_next_image (P : platform) (s : dl_state) :
  state_ok P s -> state_ok P (next_image s).
Proof.
  intros (H1 & H2 & H3 & H4). unfold state_ok. cbn.
  split; [exact H1|]. split; [exact H2|]. split; [exact H3|lia].
Qed.

Section Accounting.

Variable P : platform.
Hypothesis HP : wf_platform P.
Variable d : update_dw_info.

Let k := DwImgId d.
Let L := s32 (ImageLen d).

Lemma dl_write_effect (off rb : Z) (s : dl_state) (w : world) (r : packet_result) :
  state_ok P s -> accounted d s -> 0 < RemainBytes s ->
  (0 <= off -> 0 <= rb /\ off + rb <= BUF_SIZE P) ->
  dl_write d off rb s w = Some r ->
  packet_effect P d s w r.
Proof.
  intros (Hbuf & Hrb & Hsc & Hsz) [Hacc Hrem31] Hrem Hoff. unfold dl_write. cbv zeta.
  fold L in Hacc.
  destruct (load_bytesZ (buf s) off _) as [data|] eqn:El; [|discriminate]. cbn [bind].
  apply load_bytesZ_spec in El. destruct El as (Hn & Ho & Hin & Hlen & _).
  destruct (Hoff Ho) as [Hrb1 Hrb2]. unfold wf_platform in HP.
  assert (s32 (RemainBytes s - rb) = RemainBytes s - rb) as Es
    by (apply s32_small; lia).
  rewrite Es in *.
  assert (Z.of_nat (length data) = Z.min rb (RemainBytes s)) as Hdata.
  { destruct (RemainBytes s - rb <? 0) eqn:E.
    - apply Z.ltb_lt in E. rewrite s32_small in Hlen by lia. lia.
    - apply Z.ltb_ge in E. lia. }
  assert (L = Z.max 0 L) as HL by lia.
  pose proof (s32_range (ImageLen d)) as HL31. fold L in HL31.
  destruct (flash_stream_write _ _ data w) as [ret w'] eqn:Ew.
  apply flash_stream_write_spec in Ew. destruct Ew as (Hrx & Hfl & Hlog).
  destruct (ret <? 0) eqn:Er; intros [= <-]; cbn [packet_effect].
  - apply Z.ltb_lt in Er. destruct Hlog as [[-> _]|[_ Hlog]]; [lia|].
    split; [exact Hrx|]. split; [exact Hfl|]. eauto.
  - apply Z.ltb_ge in Er. destruct Hlog as [[_ Hlog]|[-> _]]; [|lia].
    assert (s32 (size s + (if RemainBytes s - rb <? 0
                           then s32 (rb - - (RemainBytes s - rb)) else rb))
            = size s + Z.of_nat (length data)) as Esz.
    { destruct (RemainBytes s - rb <? 0) eqn:E.
      - apply Z.ltb_lt in E. rewrite (s32_small (rb - _)) by lia.
        rewrite s32_small by lia. lia.
      - apply Z.ltb_ge in E. rewrite s32_small by lia. lia. }
    rewrite Esz. cbn [packet_effect].
    split; [apply state_ok_set_count; [unfold state_ok; auto|lia]|].
    split; [unfold accounted; cbn [RemainBytes size set_count]; fold L; lia|].
    split; [exact Hrx|]. split; [exact Hfl|]. split; [reflexivity|].
    split; [reflexivity|]. right. exists data. auto.
Qed.

Lemma packet_effect_transfer (s1 s : dl_state) (w : world) (r : packet_result) :
  packet_effect P d s1 w r ->
  buf s1 = buf s -> read_bytes_buf s1 = read_bytes_buf s -> size s1 = size s ->
  packet_effect P d s w r.
Proof.
  intros H Hb Hr Hs. destruct r as [s' w'|s' w']; cbn [packet_effect] in *.
  - rewrite <- Hb, <- Hr, <- Hs. exact H.
  - exact H.
Qed.

Lemma packet_effect_skip (s1 s : dl_state) (w : world) :
  state_ok P s1 -> accounted d s1 ->
  buf s1 = buf s -> read_bytes_buf s1 = read_bytes_buf s -> size s1 = size s ->
  packet_effect P d s w (PktNext s1 w).
Proof.
  intros H1 H2 Hb Hr Hs. cbn [packet_effect].
  split; [exact H1|]. split; [exact H2|]. split; [reflexivity|].
  split; [reflexivity|]. split; [exact Hb|]. split; [exact Hr|]. left. now split.
Qed.

Lemma dl_packet_effect (read_bytes : Z) (s : dl_state) (w : world) (r : packet_result) :
  state_ok P s -> accounted d s -> 0 < RemainBytes s ->
  1 <= read_bytes <= BUF_SIZE P ->
  dl_packet d read_bytes s w = Some r ->
  packet_effect P d s w r.
Proof.
  intros Hok Hacc Hrem Hrb. unfold dl_packet. unfold wf_platform in HP.
  destruct (TempLen s >? ImgOffset d);
    [|intros [= <-]; apply packet_effect_skip; auto].
  destruct (OtaFg s); cbn [negb].
  - (* a later packet of the image *)
    assert (forall off rb r, (0 <= off -> 0 <= rb /\ off + rb <= BUF_SIZE P) ->
              dl_write d off rb s w = Some r -> packet_effect P d s w r) as Hw
      by (intros; eapply dl_write_effect; eauto).
    destruct (DwImgId d); [|apply Hw; lia].
    destruct (SigCnt s <? 8) eqn:Esc; [|apply Hw; lia].
    apply Z.ltb_lt in Esc. destruct Hok as (Hbuf & Hrbb & Hsc & Hsz).
    rewrite (u32_small read_bytes), (u32_small (8 - SigCnt s)) by lia.
    destruct (read_bytes <? 8 - SigCnt s) eqn:Elt.
    + apply Z.ltb_lt in Elt.
      destruct (load_bytesZ _ _ _) as [src|]; [|discriminate]. cbn [bind].
      destruct (store_bytes _ _ _) as [sg|]; [|discriminate]. cbn [bind].
      intros [= <-]. apply packet_effect_skip; try reflexivity.
      * apply state_ok_set_sig; [unfold state_ok; auto|].
        rewrite u32_small by lia. lia.
      * exact Hacc.
    + apply Z.ltb_ge in Elt.
      destruct (load_bytesZ _ _ _) as [src|]; [|discriminate]. cbn [bind].
      destruct (store_bytes _ _ _) as [sg|]; [|discriminate]. cbn [bind].
      rewrite s32_small by lia.
      assert (state_ok P (set_sig 8 sg s)) as Hok2
        by (apply state_ok_set_sig; [unfold state_ok; auto|lia]).
      destruct (read_bytes - (8 - SigCnt s) =? 0).
      * intros [= <-]. apply packet_effect_skip; try reflexivity; assumption.
      * intros H.
        refine (packet_effect_transfer (set_sig 8 sg s) s w r _ eq_refl eq_refl eq_refl).
        eapply dl_write_effect; [exact Hok2|exact Hacc|exact Hrem| |exact H]. lia.
  - (* the packet that reaches the image *)
    set (tc := u32 (TempLen s - ImgOffset d)).
    pose proof (u32_range (TempLen s - ImgOffset d)) as Htc. fold tc in Htc.
    assert (state_ok P (set_reached tc s)) as Hok1 by now apply state_ok_set_reached.
    destruct (DwImgId d).
    + cbn [buf set_reached signature].
      destruct (load_bytesZ (buf s) _ _) as [src|] eqn:El; [|discriminate]. cbn [bind].
      apply load_bytesZ_spec in El. destruct El as (_ & Hoff & _).
      destruct (store_bytes _ _ _) as [sg|]; [|discriminate]. cbn [bind].
      assert (state_ok P (set_sig (if tc <? 8 then tc else 8) sg (set_reached tc s)))
        as Hok2.
      { apply state_ok_set_sig; [exact Hok1|].
        destruct (tc <? 8) eqn:E; [apply Z.ltb_lt in E|]; lia. }
      destruct (((if tc <? 8 then tc else 8) <? 8) || (u32 (tc - 8) =? 0)) eqn:Ec.
      * intros [= <-]. apply packet_effect_skip; try reflexivity; assumption.
      * apply orb_false_iff in Ec. destruct Ec as [E8 _].
        destruct (tc <? 8) eqn:E; [apply Z.ltb_lt in E; apply Z.ltb_ge in E8; lia|].
        apply Z.ltb_ge in E.
        intros H.
        refine (packet_effect_transfer (set_sig 8 sg (set_reached tc s)) s w r _
                  eq_refl eq_refl eq_refl).
        eapply dl_write_effect; [exact Hok2|exact Hacc|exact Hrem| |exact H].
        intros _. rewrite s32_small by lia. lia.
    + intros H.
      refine (packet_effect_transfer (set_reached tc s) s w r _ eq_refl eq_refl eq_refl).
      eapply dl_write_effect; [exact Hok1|exact Hacc|exact Hrem| |exact H].
      intros Hoff. rewrite s32_small by lia. lia.
Qed.

End Accounting.

Lemma read_spec (n max_len : Z) (w : world) (r : Z) (data : list byte) (w' : world) :
  read (Some n) max_len w = (r, data, w') ->
  log w' = log w /\ flash0 w' = flash0 w /\ wfail w' = wfail w /\
  rx_data w = data ++ rx_data w' /\
  ((n < 0 /\ r = -1 /\ data = []) \/
   (0 <= n /\ r = Z.of_nat (length data) /\
    data = firstn (Z.to_nat (Z.min n max_len)) (rx_data w))).
Proof.
  unfold read. destruct (deliver n max_len (rx_data w)) as [[r0 d0] rest] eqn:E.
  intros [= <- <- <-]. apply deliver_spec in E. destruct E as [E1 E2].
  cbn. auto.
Qed.

Section AccountingLoop.

Variable P : platform.
Hypothesis HP : wf_platform P.
Variable d : update_dw_info.

Lemma state_ok_set_buf (s : dl_state) (data : list byte) (rb : option Z) (tl : Z) :
  state_ok P s -> Z.of_nat (length data) <= BUF_SIZE P ->
  (forall r, rb = Some r -> 0 < r <= BUF_SIZE P) ->
  state_ok P (set_buf (fill_buf P data) rb tl s).
Proof.
  intros (H1 & H2 & H3 & H4) Hd Hr. unfold state_ok. cbn.
  unfold wf_platform in HP.
  split; [apply fill_buf_length; lia|]. split; [exact Hr|]. auto.
Qed.

Lemma dl_reads_effect (w0 : world) : forall sched s w es r,
  state_ok P s -> accounted d s ->
  log w = es ++ log w0 -> flash0 w = flash0 w0 ->
  image_writes (DwImgId d) (FlashAddr d) es (size s) ->
  dl_reads P d sched s w = Some r ->
  image_effect P d w0 r.
Proof.
  unfold wf_platform in HP.
  induction sched as [|n sched IH]; intros s w es r Hok Hacc Hlog Hfl Hiw;
    cbn [dl_reads]; destruct (RemainBytes s >? 0) eqn:Erem.
  - rewrite Z.gtb_ltb in Erem. apply Z.ltb_lt in Erem.
    intros [= <-]. exists es, (size s). destruct Hacc as [Hacc ?].
    destruct Hok as (? & Hrb & ? & ?).
    split; [exact Hiw|]. split; [lia|].
    split; [apply state_ok_set_buf; [unfold state_ok; auto|cbn; lia|exact Hrb]|].
    cbn. repeat split; auto. lia.
  - rewrite Z.gtb_ltb in Erem. apply Z.ltb_ge in Erem.
    intros [= <-]. exists es, (size s). destruct Hacc as [Hacc ?].
    destruct Hok as (? & ? & ? & ?).
    split; [exact Hiw|]. split; [lia|]. split; [unfold state_ok; auto|].
    repeat split; auto. lia.
  - rewrite Z.gtb_ltb in Erem. apply Z.ltb_lt in Erem.
    destruct (read (Some n) (BUF_SIZE P) w) as [[rb data] w1] eqn:Er.
    apply read_spec in Er. destruct Er as (Hl1 & Hf1 & _ & _ & Hr).
    assert (Z.of_nat (length data) <= BUF_SIZE P) as Hdata.
    { destruct Hr as [(_ & _ & ->)|(_ & _ & ->)]; [cbn; lia|].
      rewrite length_firstn. lia. }
    assert (0 <= size s <= Z.max 0 (s32 (ImageLen d)) /\ size s < s32 (ImageLen d))
      as Hsz by (destruct Hacc, Hok as (? & ? & ? & ?); lia).
    destruct (rb =? 0) eqn:E0.
    { intros [= <-]. exists es, (size s).
      split; [exact Hiw|]. split; [lia|].
      split; [apply state_ok_set_buf; [exact Hok|exact Hdata|apply Hok]|].
      cbn. rewrite Hl1, Hf1. repeat split; auto. lia. }
    destruct (rb <? 0) eqn:En.
    { intros [= <-]. exists es, (size s).
      split; [exact Hiw|]. split; [lia|]. cbn. rewrite Hl1, Hf1. auto. }
    apply Z.eqb_neq in E0. apply Z.ltb_ge in En.
    destruct Hr as [(_ & -> & _)|(_ & Hrb & _)]; [lia|].
    set (s1 := set_buf (fill_buf P data) (Some rb) (u32 (TempLen s + rb)) s).
    assert (state_ok P s1) as Hok1.
    { apply state_ok_set_buf; [exact Hok|exact Hdata|]. intros r0 [= <-]. lia. }
    assert (accounted d s1) as Hacc1 by exact Hacc.
    destruct (dl_packet d rb s1 w1) as [[s2 w2|s2 w2]|] eqn:Ep; [| |discriminate].
    + apply (dl_packet_effect P HP d rb s1 w1 _ Hok1 Hacc1 Erem ltac:(lia)) in Ep.
      cbn [packet_effect] in Ep.
      destruct Ep as (Hok2 & Hacc2 & _ & Hf2 & _ & _ & Hw).
      destruct Hw as [[Hl2 Hs2]|(dat & Hl2 & Hs2)].
      * apply (IH s2 w2 es); auto; try congruence.
        rewrite Hs2. exact Hiw.
      * apply (IH s2 w2 (EvWrite (ByImage (DwImgId d)) (u32 (FlashAddr d + size s)) dat
                           :: es)); auto; try congruence.
        -- rewrite Hl2, Hl1, Hlog. reflexivity.
        -- rewrite Hs2. apply iw_cons. exact Hiw.
    + apply (dl_packet_effect P HP d rb s1 w1 _ Hok1 Hacc1 Erem ltac:(lia)) in Ep.
      cbn [packet_effect] in Ep. destruct Ep as (_ & Hf2 & a & dat & Hl2).
      intros [= <-]. exists es, (size s).
      split; [exact Hiw|]. split; [lia|]. cbn. split; [congruence|].
      exists a, dat. rewrite Hl2, Hl1, Hlog. reflexivity.
  - rewrite Z.gtb_ltb in Erem. apply Z.ltb_ge in Erem.
    intros [= <-]. exists es, (size s). destruct Hacc as [Hacc ?].
    destruct Hok as (? & ? & ? & ?).
    split; [exact Hiw|]. split; [lia|]. split; [unfold state_ok; auto|].
    repeat split; auto. lia.
Qed.

(** The loop of an image writes the image's bytes one write behind the
    other and counts them in [size]. *)
Lemma download_image_effect (IncFg : bool) (sched : list Z) (s : dl_state) (w : world)
    (r : image_result) :
  state_ok P s -> size s = 0 ->
  download_image P d IncFg sched s w = Some r ->
  image_effect P d w r.
Proof.
  intros Hok Hs0. unfold download_image. cbv zeta.
  set (s1 := set_count (s32 (ImageLen d)) (size s) s).
  assert (state_ok P s1) as Hok1 by (apply state_ok_set_count; [exact Hok|lia]).
  assert (accounted d s1) as Hacc1.
  { unfold accounted, s1. cbn. rewrite Hs0.
    pose proof (s32_range (ImageLen d)). lia. }
  assert (image_writes (DwImgId d) (FlashAddr d) [] (size s1)) as Hiw0
    by (unfold s1; cbn; rewrite Hs0; constructor).
  destruct (IncFg && (RemainBytes s1 >? 0)) eqn:Einc;
    [|apply (dl_reads_effect w sched s1 w []); auto].
  apply andb_true_iff in Einc. destruct Einc as [_ Erem].
  rewrite Z.gtb_ltb in Erem. apply Z.ltb_lt in Erem.
  destruct (read_bytes_buf s1) as [rb|] eqn:Erb; [|discriminate]. cbn [bind].
  assert (0 < rb <= BUF_SIZE P) as Hrb by (apply Hok1; exact Erb).
  destruct (dl_packet d rb s1 w) as [[s2 w2|s2 w2]|] eqn:Ep; [| |discriminate].
  - apply (dl_packet_effect P HP d rb s1 w _ Hok1 Hacc1 Erem ltac:(lia)) in Ep.
    cbn [packet_effect] in Ep.
    destruct Ep as (Hok2 & Hacc2 & _ & Hf2 & _ & _ & Hw).
    destruct Hw as [[Hl2 Hs2]|(dat & Hl2 & Hs2)].
    + apply (dl_reads_effect w sched s2 w2 []); auto. rewrite Hs2. exact Hiw0.
    + apply (dl_reads_effect w sched s2 w2
               [EvWrite (ByImage (DwImgId d)) (u32 (FlashAddr d + size s1)) dat]); auto.
      replace (size s2) with (0 + Z.of_nat (length dat))
        by (rewrite Hs2; unfold s1; cbn; lia).
      replace (size s1) with 0 by (unfold s1; cbn; lia).
      apply iw_cons. constructor.
  - apply (dl_packet_effect P HP d rb s1 w _ Hok1 Hacc1 Erem ltac:(lia)) in Ep.
    cbn [packet_effect] in Ep. destruct Ep as (_ & Hf2 & a & dat & Hl2).
    intros [= <-]. exists [], 0.
    split; [constructor|]. split; [lia|]. cbn. split; [exact Hf2|].
    exists a, dat. exact Hl2.
Qed.

End AccountingLoop.

Lemma img_kind_eqb_eq (a b : img_kind) : img_kind_eqb a b = true <-> a = b.
Proof. destruct a, b; cbn; split; congruence. Qed.

Lemma events_of_cons_write (k k' : img_kind) (a : Z) (d : list byte) (es : list event) :
  events_of k (EvWrite (ByImage k') a d :: es) =
  if img_kind_eqb k k' then EvWrite (ByImage k') a d :: events_of k es
  else events_of k es.
Proof. reflexivity. Qed.

Lemma image_writes_events (k : img_kind) (base : Z) (es : list event) (n : Z) :
  image_writes k base es n ->
  Forall is_image_event es /\ events_of k es = es /\
  (forall k', k' <> k -> events_of k' es = []) /\ 0 <= n.
Proof.
  induction 1 as [|es n d H (IH1 & IH2 & IH3 & IH4)].
  - repeat split; auto. lia.
  - split; [constructor; [exact I|exact IH1]|]. split; [|split; [|lia]].
    + rewrite events_of_cons_write.
      rewrite (proj2 (img_kind_eqb_eq k k) eq_refl), IH2. reflexivity.
    + intros k' Hk. rewrite events_of_cons_write.
      destruct (img_kind_eqb k' k) eqn:E; [apply img_kind_eqb_eq in E; contradiction|].
      now apply IH3.
Qed.

Lemma events_of_app (k : img_kind) (a b : list event) :
  events_of k (a ++ b) = events_of k a ++ events_of k b.
Proof. apply filter_app. Qed.

Section DownloadEffect.

Variable P : platform.
Hypothesis HP : wf_platform P.

Lemma one_image_effect (d0 : update_dw_info) (sched : list Z) (s : dl_state)
    (w : world) (res : dl_result) :
  state_ok P s -> size s = 0 ->
  download_images P [d0] false None [] sched s w = Some res ->
  images_effect P [d0] w res.
Proof.
  intros Hok Hs0. cbn [download_images]. unfold bind.
  destruct (download_image P d0 false sched s w) as [r|] eqn:E0; [|discriminate].
  apply (download_image_effect P HP d0 _ _ _ _ _ Hok Hs0) in E0.
  destruct E0 as (es & n & Hiw & Hn & Hr).
  destruct (image_writes_events _ _ _ _ Hiw) as (Hall & Hsame & Hother & _).
  destruct r as [how s1 sched1 w1|s1 sched1 w1|s1 sched1 w1]; intros [= <-];
    cbn [images_effect].
  - destruct Hr as (_ & Hlog & Hfl & Hsz & Hhow).
    exists es. repeat split; auto. intros d [<-|[]]. exists n.
    rewrite Hsame. repeat split; auto; try lia.
    + intros Hk ret. rewrite Hk. intros [= <-]. now right.
    + cbn. intros [[= ->]|[]]. exact Hhow.
  - destruct Hr as (Hlog & Hfl).
    exists es. repeat split; auto. intros d [<-|[]]. exists n.
    rewrite Hsame. repeat split; auto; try lia.
    + intros _ ret [= <-]. now left.
    + intros [].
  - destruct Hr as (Hfl & a & dat & Hlog).
    exists (EvWriteFail (ByImage (DwImgId d0)) a dat :: es).
    split; [exact Hlog|]. split; [exact Hfl|].
    split; [constructor; [exact I|exact Hall]|]. intros d [<-|[]]. exists n.
    change (events_of (DwImgId d0) (EvWriteFail (ByImage (DwImgId d0)) a dat :: es))
      with (events_of (DwImgId d0) es).
    rewrite Hsame. repeat split; auto; try lia.
    + intros _ ret [=].
    + intros [].
Qed.

Lemma two_images_effect (d0 d1 : update_dw_info) (sched : list Z) (s : dl_state)
    (w : world) (res : dl_result) :
  state_ok P s -> size s = 0 -> DwImgId d0 <> DwImgId d1 ->
  download_images P [d0; d1] false None [] sched s w = Some res ->
  images_effect P [d0; d1] w res.
Proof.
  intros Hok Hs0 Hne. cbn [download_images]. unfold bind.
  destruct (download_image P d0 false sched s w) as [r|] eqn:E0; [|discriminate].
  apply (download_image_effect P HP d0 _ _ _ _ _ Hok Hs0) in E0.
  destruct E0 as (es0 & n0 & Hiw0 & Hn0 & Hr0).
  destruct (image_writes_events _ _ _ _ Hiw0) as (Hall0 & Hsame0 & Hother0 & _).
  assert (0 <= 0 <= Z.max 0 (s32 (ImageLen d1))) as Hz by lia.
  assert (DwImgId d1 <> DwImgId d0) as Hne' by congruence.
  destruct r as [how0 s1 sched1 w1|s1 sched1 w1|s1 sched1 w1].
  2:{ (* the read fails in the first image *)
    intros [= <-]. cbn [images_effect]. destruct Hr0 as (Hlog & Hfl).
    exists es0. split; [exact Hlog|]. split; [exact Hfl|]. split; [exact Hall0|].
    intros d [<-|[<-|[]]].
    - exists n0. rewrite Hsame0. split; [exact Hiw0|]. split; [exact Hn0|].
      split; [intros _ ret [= <-]; now left|intros []].
    - exists 0. rewrite (Hother0 _ Hne'). split; [constructor|]. split; [exact Hz|].
      split; [intros _ ret [= <-]; now left|intros []]. }
  2:{ (* a write fails in the first image *)
    intros [= <-]. cbn [images_effect]. destruct Hr0 as (Hfl & a & dat & Hlog).
    exists (EvWriteFail (ByImage (DwImgId d0)) a dat :: es0).
    split; [exact Hlog|]. split; [exact Hfl|].
    split; [constructor; [exact I|exact Hall0]|].
    intros d [<-|[<-|[]]].
    - exists n0.
      change (events_of (DwImgId d0) (EvWriteFail (ByImage (DwImgId d0)) a dat :: es0))
        with (events_of (DwImgId d0) es0).
      rewrite Hsame0. split; [exact Hiw0|]. split; [exact Hn0|].
      split; [intros _ ret [=]|intros []].
    - exists 0.
      change (events_of (DwImgId d1) (EvWriteFail (ByImage (DwImgId d0)) a dat :: es0))
        with (events_of (DwImgId d1) es0).
      rewrite (Hother0 _ Hne'). split; [constructor|]. split; [exact Hz|].
      split; [intros _ ret [=]|intros []]. }
  destruct Hr0 as (Hok1 & Hlog1 & Hfl1 & Hsz1 & Hhow0).
  destruct (download_image P d1 true sched1 (next_image s1) w1) as [r|] eqn:E1;
    [|discriminate].
  apply (download_image_effect P HP d1 _ _ _ _ _
           (state_ok_next_image P s1 Hok1) eq_refl) in E1.
  destruct E1 as (es1 & n1 & Hiw1 & Hn1 & Hr1).
  destruct (image_writes_events _ _ _ _ Hiw1) as (Hall1 & Hsame1 & Hother1 & _).
  assert (events_of (DwImgId d0) (es1 ++ es0) = es0) as Ev0
    by (rewrite events_of_app, (Hother1 _ Hne), Hsame0; reflexivity).
  assert (events_of (DwImgId d1) (es1 ++ es0) = es1) as Ev1
    by (rewrite events_of_app, (Hother0 _ Hne'), Hsame1; apply app_nil_r).
  assert (Forall is_image_event (es1 ++ es0)) as Hall
    by (apply Forall_app; now split).
  assert (forall how, In (DwImgId d0, LoopEof) [(DwImgId d0, how0); (DwImgId d1, how)]
                      \/ In (DwImgId d0, LoopEof) [(DwImgId d0, how0)] ->
                      n0 < s32 (ImageLen d0)) as Heof0.
  { intros how. cbn. intros [[[= ->]|[[=]|[]]]|[[= ->]|[]]];
      try exact Hhow0; congruence. }
  destruct r as [how1 s2 sched2 w2|s2 sched2 w2|s2 sched2 w2]; intros [= <-];
    cbn [images_effect].
  - destruct Hr1 as (_ & Hlog2 & Hfl2 & Hsz2 & Hhow1).
    exists (es1 ++ es0). split; [rewrite Hlog2, Hlog1; apply app_assoc|].
    split; [congruence|]. split; [exact Hall|].
    intros d [<-|[<-|[]]].
    + exists n0. rewrite Ev0. split; [exact Hiw0|]. split; [exact Hn0|]. split.
      * intros Hk ret. rewrite Hk.
        destruct (DwImgId d1); [congruence|]. intros [= <-]. now right.
      * intros H. apply (Heof0 how1). now left.
    + exists n1. rewrite Ev1. split; [exact Hiw1|]. split; [exact Hn1|]. split.
      * intros Hk ret. rewrite Hk. cbn. intros [= <-]. now right.
      * cbn. intros [[=]|[[= ->]|[]]]; [congruence|exact Hhow1].
  - destruct Hr1 as (Hlog2 & Hfl2).
    exists (es1 ++ es0). split; [rewrite Hlog2, Hlog1; apply app_assoc|].
    split; [congruence|]. split; [exact Hall|].
    intros d [<-|[<-|[]]].
    + exists n0. rewrite Ev0. split; [exact Hiw0|]. split; [exact Hn0|]. split.
      * intros _ ret [= <-]. now left.
      * intros H. apply (Heof0 how0). now right.
    + exists n1. rewrite Ev1. split; [exact Hiw1|]. split; [exact Hn1|]. split.
      * intros _ ret [= <-]. now left.
      * cbn. intros [[=]|[]]. congruence.
  - destruct Hr1 as (Hfl2 & a & dat & Hlog2).
    exists (EvWriteFail (ByImage (DwImgId d1)) a dat :: es1 ++ es0).
    split; [rewrite Hlog2, Hlog1; cbn; f_equal; apply app_assoc|].
    split; [congruence|]. split; [constructor; [exact I|exact Hall]|].
    intros d [<-|[<-|[]]].
    + exists n0.
      change (events_of (DwImgId d0)
                (EvWriteFail (ByImage (DwImgId d1)) a dat :: es1 ++ es0))
        with (events_of (DwImgId d0) (es1 ++ es0)).
      rewrite Ev0. split; [exact Hiw0|]. split; [exact Hn0|]. split.
      * intros Hk ret. rewrite Hk. intros [= <-]. now right.
      * intros H. apply (Heof0 how0). now right.
    + exists n1.
      change (events_of (DwImgId d1)
                (EvWriteFail (ByImage (DwImgId d1)) a dat :: es1 ++ es0))
        with (events_of (DwImgId d1) (es1 ++ es0)).
      rewrite Ev1. split; [exact Hiw1|]. split; [exact Hn1|]. split.
      * intros Hk ret. destruct (DwImgId d0); [congruence|]. intros [=].
      * cbn. intros [[=]|[]]. congruence.
Qed.

(** The download as a whole, over the plan of the target header. *)
Lemma download_core_effect (addr : Z) (sched : list Z) (t : update_ota_target_hdr)
    (sig : list byte) (w : world) (res : dl_result) :
  download_core P addr sched t sig w = Some res ->
  images_effect P (download_plan P addr t) w res.
Proof.
  unfold wf_platform in HP.
  assert (state_ok P (dl_init P t sig)) as Hok.
  { unfold state_ok, dl_init. cbn [buf read_bytes_buf SigCnt size].
    split; [apply fill_buf_length; cbn; lia|].
    split; [intros rb [=]|]. lia. }
  unfold download_core, download_plan, arrange_download_info.
  destruct (RdpStatus t).
  - destruct (Offset (FileImgHdr t) <? Offset (FileRdpHdr t)); cbn [firstn Z.to_nat Pos.to_nat Pos.iter_op Nat.add];
      apply two_images_effect; auto; cbn; discriminate.
  - apply one_image_effect; auto.
Qed.

End DownloadEffect.

(* ----------------------------------------------------------------- *)
(** ** Byte accounting over the update *)

Lemma ota_dw_info_in_plan (P : platform) (addr : Z) (t : update_ota_target_hdr) :
  In (ota_dw_info P addr t) (download_plan P addr t).
Proof.
  unfold download_plan, arrange_download_info.
  destruct (RdpStatus t); [destruct (_ <? _)|];
    cbv [firstn Z.to_nat Pos.to_nat Pos.iter_op Nat.add In]; auto.
Qed.

(** C3: in an update that gets behind the download, the streaming writer
    has written the payload of the primary image one write behind the
    other from the target address plus 8, never more than the declared
    length minus 8 in all, and the download returns the count of these
    bytes or -1.  The task goes on to verify only if the count is the
    declared length minus 8: it returns 0 only then; when the loop of the
    primary image was left at the end of the stream the count is short and
    the task fails; and a download that returns anything but the declared
    length minus 8 ends the task with nothing more done to the flash. *)
Theorem byte_accounting (P : platform) (idx addr : Z) (t : update_ota_target_hdr)
    (sched : list Z) (w : world) (ret : Z) (w' : world) :
  wf_platform P ->
  ota_update_finish P idx addr t sched w = Some (ret, w') ->
  exists osz exits s sched' w2 new n,
    download_core P addr sched t (repeat x00 9) (erase_targets P addr t w)
    = Some (osz, exits, s, sched', w2) /\
    log w2 = new ++ log (erase_targets P addr t w) /\
    image_writes OTA_IMAG (u32 (addr - SPI_FLASH_BASE P + 8)) (events_of OTA_IMAG new) n /\
    0 <= n <= Z.max 0 (s32 (u32 (ImgLen (FileImgHdr t) - 8))) /\
    (osz = Some n \/ osz = Some (-1)) /\
    (ret = 0 -> osz = Some n /\ n = u32 (ImgLen (FileImgHdr t) - 8)) /\
    (In (OTA_IMAG, LoopEof) exits -> ret = -1) /\
    (osz <> Some (u32 (ImgLen (FileImgHdr t) - 8)) -> ret = -1 /\ w' = w2).
Proof.
  intros HP. unfold ota_update_finish, download_new_fw_from_server. cbv zeta.
  unfold bind at 1 2.
  destruct (download_core P addr sched t (repeat x00 9) (erase_targets P addr t w))
    as [[[[[osz exits] s] sched'] w2]|] eqn:Ed; [|discriminate].
  pose proof (download_core_effect P HP _ _ _ _ _ _ Ed) as He.
  cbn [images_effect] in He. destruct He as (new & Hlog & Hfl & _ & Himg).
  destruct (Himg _ (ota_dw_info_in_plan P addr t)) as (n & Hiw & Hn & Hret & Heof).
  cbn [DwImgId FlashAddr ImageLen ota_dw_info] in Hiw, Hn, Hret, Heof.
  specialize (Hret eq_refl).
  destruct osz as [sz|]; [|discriminate]. cbn [bind].
  pose proof (s32_range (u32 (ImgLen (FileImgHdr t) - 8))) as Hs32.
  pose proof (u32_range (ImgLen (FileImgHdr t) - 8)) as Hu32.
  assert (s32 (u32 (ImgLen (FileImgHdr t) - 8)) <= u32 (ImgLen (FileImgHdr t) - 8))
    as Hle.
  { unfold s32. cbv zeta. fold (u32 (u32 (ImgLen (FileImgHdr t) - 8))).
    rewrite u32_idem. destruct (_ <? _); unfold modulus; lia. }
  intros Hrun. exists (Some sz), exits, s, sched', w2, new, n.
  split; [reflexivity|]. split; [exact Hlog|]. split; [exact Hiw|].
  split; [exact Hn|].
  destruct (Hret sz eq_refl) as [-> | ->].
  - (* the download returned -1 *)
    cbn in Hrun. injection Hrun as <- <-.
    split; [now right|]. split; [discriminate|]. split; [reflexivity|]. auto.
  - split; [now left|].
    destruct ((n <? 0) || negb (u32 n =? u32 (ImgLen (FileImgHdr t) - 8))) eqn:Erej.
    + injection Hrun as <- <-.
      split; [discriminate|]. split; [reflexivity|]. auto.
    + apply orb_false_iff in Erej. destruct Erej as [_ Erej].
      apply negb_false_iff, Z.eqb_eq in Erej.
      rewrite (u32_small n) in Erej by lia.
      split; [auto|]. split; [intros H; apply Heof in H; lia|].
      intros Hne. congruence.
Qed.

(** Witness of [byte_accounting]: the demonstration image, streamed in
    reads of 7 bytes, is written, verified and committed. *)
Lemma byte_accounting_witness :
  wf_platform amebaz /\
  exists w', ota_update_finish amebaz OTA_INDEX_2 0x08080000 demo_target_hdr reads_of_7
               (demo_world demo_stream) = Some (0, w').
Proof.
  assert (wf_platform amebaz) as HP by (unfold wf_platform; cbn; lia).
  split; [exact HP|].
  destruct (ota_update_finish amebaz OTA_INDEX_2 0x08080000 demo_target_hdr reads_of_7
              (demo_world demo_stream)) as [[ret w']|] eqn:E.
  - exists w'. f_equal. f_equal.
    assert (option_map fst (ota_update_finish amebaz OTA_INDEX_2 0x08080000
                              demo_target_hdr reads_of_7 (demo_world demo_stream))
            = Some 0) as Hc by (vm_compute; reflexivity).
    rewrite E in Hc. cbn in Hc. injection Hc as Hc.
    destruct (byte_accounting amebaz OTA_INDEX_2 0x08080000 demo_target_hdr reads_of_7
                (demo_world demo_stream) ret w' HP E) as (osz & _).
    exact Hc.
  - exfalso.
    assert (option_map fst (ota_update_finish amebaz OTA_INDEX_2 0x08080000
                              demo_target_hdr reads_of_7 (demo_world demo_stream))
            = Some 0) as Hc by (vm_compute; reflexivity).
    rewrite E in Hc. discriminate Hc.
Defined.

(* ----------------------------------------------------------------- *)
(** ** Commit ordering *)

Lemma recv_loop_frame : forall sched TempLen_ Recvbuf pos w ok b s w',
  recv_loop sched TempLen_ Recvbuf pos w = Some (ok, b, s, w') ->
  log w' = log w /\ flash0 w' = flash0 w.
Proof.
  induction sched as [|n sched IH]; intros TempLen_ Recvbuf pos w ok b s w';
    cbn [recv_loop]; destruct (TempLen_ >? 0); try (intros [= _ _ _ <-]; auto; fail).
  destruct (read (Some n) TempLen_ w) as [[rb data] w1] eqn:Er.
  apply read_spec in Er. destruct Er as (Hl & Hf & _).
  destruct (rb <? 0); [intros [= _ _ _ <-]; auto|].
  destruct (rb =? 0); [intros [= _ _ _ <-]; auto|].
  unfold bind. destruct (store_bytes _ _ _); [|discriminate].
  intros H. apply IH in H. destruct H. split; congruence.
Qed.

Lemma get_ota_address_frame (P : platform) (idx a0 : Z) (t : update_ota_target_hdr)
    (w : world) (r a : Z) (w' : world) :
  get_ota_address P idx a0 t w = (r, a, w') -> w' = w.
Proof.
  unfold get_ota_address.
  assert (forall a1 r a w', check_ota_image_address a1 t w = (r, a, w') -> w' = w)
    as Hc.
  { intros a1 r1 a2 w1. unfold check_ota_image_address.
    destruct (negb _); [intros [= _ _ <-]; reflexivity|].
    destruct (_ =? _); intros [= _ _ <-]; reflexivity. }
  destruct (HAL_READ32 (cur_flash w) (OFFSET_DATA P) =? 0xffffffff) eqn:Eunset.
  - apply Z.eqb_eq in Eunset.
    rewrite (ota_write_ota2_addr_unset P OTA2_DEFAULT_ADDR w Eunset).
    destruct (negb _); [intros [= _ _ <-]; reflexivity|].
    destruct (idx =? OTA_INDEX_2).
    + destruct (_ && _); [intros [= _ _ <-]; reflexivity|apply Hc].
    + cbv zeta. destruct (_ >? _); [intros [= _ _ <-]; reflexivity|apply Hc].
  - destruct (negb _); [intros [= _ _ <-]; reflexivity|].
    destruct (idx =? OTA_INDEX_2).
    + destruct (_ && _); [intros [= _ _ <-]; reflexivity|apply Hc].
    + cbv zeta. destruct (_ >? _); [intros [= _ _ <-]; reflexivity|apply Hc].
Qed.

(** Steps 1 to 3 and the bank resolver leave the flash alone. *)
Lemma prologue_frame (P : platform) (env : task_env) (sched : list Z) (w : world)
    (r : prologue_result) :
  ota_update_prologue P env sched w = Some r ->
  match r with
  | Abort w' => log w' = log w /\ flash0 w' = flash0 w
  | Proceed _ _ _ _ w' => log w' = log w /\ flash0 w' = flash0 w
  end.
Proof.
  unfold ota_update_prologue.
  destruct (negb (alloc_ok env)); [intros [= <-]; auto|].
  destruct (negb (socket_ok env)); [intros [= <-]; auto|].
  destruct (negb (connect_ok env)); [intros [= <-]; auto|].
  cbv zeta. unfold recv_file_info_from_server, recv_ota_file_hdr, bind.
  destruct (recv_loop sched 12 _ 0 w) as [[[[ok1 b1] s1] w1]|] eqn:E1; [|discriminate].
  apply recv_loop_frame in E1. destruct E1 as [L1 F1].
  destruct ((if ok1 then 1 else 0) =? 0); [intros [= <-]; auto|].
  destruct (recv_loop s1 16 _ 0 w1) as [[[[ok2 b2] s2] w2]|] eqn:E2; [|discriminate].
  apply recv_loop_frame in E2. destruct E2 as [L2 F2].
  destruct (negb ok2).
  { cbn. intros [= <-]. split; congruence. }
  destruct (load32 b2 0); [|discriminate].
  destruct (load32 b2 4); [|discriminate].
  destruct (load32 b2 12); [|discriminate].
  destruct (recv_loop s2 _ b2 16 w2) as [[[[ok3 b3] s3] w3]|] eqn:E3; [|discriminate].
  apply recv_loop_frame in E3. destruct E3 as [L3 F3].
  assert (log w3 = log w /\ flash0 w3 = flash0 w) as H3 by (split; congruence).
  destruct (negb ok3); [cbn; intros [= <-]; exact H3|].
  cbn [Z.eqb].
  destruct (get_ota_tartget_header _ _ _ _) as [[ok4 t4]|]; [|discriminate].
  destruct (ok4 =? 0); [intros [= <-]; exact H3|].
  destruct (get_ota_address P _ 0 t4 w3) as [[ok5 a5] w5] eqn:E5.
  apply get_ota_address_frame in E5. subst w5.
  destruct (ok5 =? 0); intros [= <-]; exact H3.
Qed.

Lemma erase_sectors_log : forall n a i w,
  exists er, log (erase_sectors n a i w) = er ++ log w /\
             flash0 (erase_sectors n a i w) = flash0 w /\
             Forall is_erase_event er /\
             ((0 < n)%nat -> exists er', er = er' ++ [EvErase (u32 (a + i * 4096))]).
Proof.
  induction n as [|n IH]; intros a i w.
  - exists []. repeat split; auto. lia.
  - cbn [erase_sectors].
    destruct (IH a (i + 1) (flash_erase_sector (u32 (a + i * 4096)) w))
      as (er & Hl & Hf & Hall & _).
    exists (er ++ [EvErase (u32 (a + i * 4096))]).
    split; [rewrite Hl; cbn; now rewrite <- app_assoc|].
    split; [rewrite Hf; reflexivity|].
    split; [apply Forall_app; split; [exact Hall|repeat constructor]|].
    intros _. eauto.
Qed.

Lemma erase_targets_log (P : platform) (addr : Z) (t : update_ota_target_hdr) (w : world) :
  exists er, log (erase_targets P addr t w) = er ++ log w /\
             flash0 (erase_targets P addr t w) = flash0 w /\
             Forall is_erase_event er /\
             exists er', er = er' ++ [EvErase (u32 (addr - SPI_FLASH_BASE P))].
Proof.
  unfold erase_targets, erase_ota_target_flash. cbv zeta.
  set (n := Z.to_nat _).
  assert (0 < n)%nat as Hn.
  { unfold n. pose proof (u32_range (ImgLen (FileImgHdr t) - 1)) as H.
    assert (0 <= u32 (ImgLen (FileImgHdr t) - 1) / 4096 < 2 ^ 20) as Hd
      by (split; [apply Z.div_pos; lia|apply Z.div_lt_upper_bound; lia]).
    rewrite u32_small by lia. lia. }
  destruct (erase_sectors_log n (addr - SPI_FLASH_BASE P) 0 w)
    as (er & Hl & Hf & Hall & Hlast).
  destruct (Hlast Hn) as [er' Her]. rewrite Z.add_0_r in Her.
  destruct (RdpStatus t).
  - exists (EvErase (u32 (RDP_FLASH_ADDR P - SPI_FLASH_BASE P)) :: er).
    split; [cbn; now rewrite Hl|]. split; [exact Hf|].
    split; [constructor; [exact I|exact Hall]|].
    exists (EvErase (u32 (RDP_FLASH_ADDR P - SPI_FLASH_BASE P)) :: er').
    rewrite Her. reflexivity.
  - exists er. repeat split; auto. eauto.
Qed.

Lemma verify_ota_checksum_bool (fuel : nat) (P : platform) (addr len : Z)
    (sig : list byte) (t : update_ota_target_hdr) (fl : flash) (v : Z) :
  verify_ota_checksum fuel P addr len sig t fl = Some v -> v = 0 \/ v = 1.
Proof.
  unfold verify_ota_checksum, bind.
  destruct (custom_signature_differs P fl addr) as [[|]|]; [intros [= <-]; auto| |discriminate].
  destruct (checksum_blocks _ _ _ _ _ _ _); [|discriminate].
  destruct (load_bytes sig 0 8); [|discriminate].
  destruct (negb _); [intros [= <-]; auto|].
  destruct (_ && _); intros [= <-]; auto.
Qed.

Lemma flash_after_app (a b : list event) (fl : flash) :
  flash_after (a ++ b) fl = flash_after b (flash_after a fl).
Proof. apply fold_left_app. Qed.

Lemma write_bytes_other : forall d fl a x,
  (forall j, 0 <= j < Z.of_nat (length d) -> x <> u32 (a + j)) ->
  write_bytes fl a d x = fl x.
Proof.
  induction d as [|b r IH]; intros fl a x H; [reflexivity|].
  cbn [write_bytes]. rewrite IH.
  - unfold flash_set. destruct (x =? u32 a) eqn:E; [|reflexivity].
    apply Z.eqb_eq in E. exfalso. apply (H 0); [cbn [length]; lia|].
    now rewrite Z.add_0_r.
  - intros j Hj. replace (a + 1 + j) with (a + (1 + j)) by lia.
    apply H. cbn [length]. lia.
Qed.

Lemma flash_after_keeps (dst : Z) : forall es fl,
  (forall e, In e es -> keeps_erased dst e) ->
  erased_at dst fl -> erased_at dst (flash_after es fl).
Proof.
  induction es as [|e es IH]; intros fl Hk Hfl; [exact Hfl|].
  cbn. apply IH.
  - intros e' He'. apply Hk. now right.
  - apply (Hk e); [now left|exact Hfl].
Qed.

Lemma erase_keeps (dst a : Z) : keeps_erased dst (EvErase a).
Proof.
  intros fl Hfl k Hk. cbn. destruct (_ =? _); [reflexivity|]. now apply Hfl.
Qed.

Lemma erase_first (dst : Z) (fl : flash) :
  0 <= dst < 2 ^ 32 -> dst mod 4096 = 0 ->
  erased_at dst (apply_event (EvErase dst) fl).
Proof.
  intros Hd Hal k Hk. cbn.
  pose proof (Z.div_mod dst 4096 ltac:(lia)) as Hdm.
  assert (dst / 4096 < 2 ^ 20) by (apply Z.div_lt_upper_bound; lia).
  rewrite (u32_small dst) by lia. rewrite (u32_small (dst + k)) by lia.
  replace ((dst + k) / 4096) with (dst / 4096)
    by (apply Z.div_unique with (dst mod 4096 + k); lia).
  rewrite Z.eqb_refl. reflexivity.
Qed.

Lemma ota_write_keeps (dst n : Z) (d : list byte) :
  0 <= n -> n + Z.of_nat (length d) < 2 ^ 31 ->
  keeps_erased dst (EvWrite (ByImage OTA_IMAG) (u32 (dst + 8 + n)) d).
Proof.
  intros Hn Hlen fl Hfl k Hk. cbn [apply_event].
  rewrite write_bytes_other; [now apply Hfl|].
  intros j Hj E. rewrite u32_add_l in E. unfold u32, modulus in E.
  apply (f_equal (fun z => (z - (dst + k) mod 2 ^ 32) mod 2 ^ 32)) in E.
  rewrite Z.sub_diag, Z.mod_0_l in E by lia.
  rewrite <- Zminus_mod in E.
  replace (dst + 8 + n + j - (dst + k)) with (8 + n + j - k) in E by lia.
  rewrite Z.mod_small in E by lia. lia.
Qed.

Lemma rdp_write_keeps (dst a : Z) (d : list byte) :
  (forall j k, 0 <= j < Z.of_nat (length d) -> 0 <= k < 8 ->
               u32 (a + j) <> u32 (dst + k)) ->
  keeps_erased dst (EvWrite (ByImage RDP_IMAG) a d).
Proof.
  intros H fl Hfl k Hk. cbn [apply_event].
  rewrite write_bytes_other; [now apply Hfl|].
  intros j Hj E. apply (H j k Hj Hk). now symmetry.
Qed.

(** While the target is erased and the images are written, the first 8
    bytes of the target stay erased. *)
Lemma erased_before_commit (P : platform) (addr : Z) (t : update_ota_target_hdr)
    (dl er' : list event) (fl : flash) :
  let dst := u32 (addr - SPI_FLASH_BASE P) in
  dst mod 4096 = 0 ->
  Forall is_erase_event er' -> Forall is_image_event dl ->
  ota_writes_in_payload P addr t dl -> rdp_clear dst dl ->
  forall post pre, dl ++ er' ++ [EvErase dst] = post ++ pre -> pre <> [] ->
    erased_at dst (flash_after (rev pre) fl).
Proof.
  intros dst Hal Her Hdl Hota Hrdp post pre Hsplit Hne.
  destruct (exists_last Hne) as (pre' & e & ->).
  rewrite !app_assoc in Hsplit. apply app_inj_tail in Hsplit.
  destruct Hsplit as [Hsplit <-].
  rewrite rev_app_distr. cbn [rev app]. cbn [flash_after fold_left].
  apply flash_after_keeps; [|apply erase_first;
                              [apply u32_range|exact Hal]].
  intros e He. apply in_rev in He.
  assert (In e (dl ++ er')) as Hin by (rewrite Hsplit; apply in_or_app; now right).
  apply in_app_or in Hin. destruct Hin as [Hin|Hin].
  - pose proof (proj1 (Forall_forall _ _) Hdl e Hin) as Hev.
    destruct e as [| |[[|]| |] a d|[[|]| |] a d| |]; try contradiction.
    + destruct (Hota a d Hin) as (n & Hn & Hlen & ->).
      pose proof (s32_range (u32 (ImgLen (FileImgHdr t) - 8))).
      apply ota_write_keeps; lia.
    + apply rdp_write_keeps. intros j k Hj Hk. exact (Hrdp a d j k Hin Hj Hk).
    + intros fl0 H0. exact H0.
    + intros fl0 H0. exact H0.
  - pose proof (proj1 (Forall_forall _ _) Her e Hin) as Hev.
    destruct e; try contradiction. apply erase_keeps.
Qed.

Lemma image_writes_range (k : img_kind) (base : Z) (es : list event) (n : Z) :
  image_writes k base es n ->
  forall a d, In (EvWrite (ByImage k) a d) es ->
    exists m, 0 <= m /\ m + Z.of_nat (length d) <= n /\ a = u32 (base + m).
Proof.
  induction 1 as [|es n d0 H IH]; intros a d Hin; [destruct Hin|].
  destruct (image_writes_events _ _ _ _ H) as (_ & _ & _ & Hn).
  destruct Hin as [[= <- <-]|Hin].
  - exists n. repeat split; lia.
  - destruct (IH a d Hin) as (m & Hm & Hle & ->). exists m. repeat split; lia.
Qed.

Lemma cur_flash_extend (w w2 : world) (es : list event) :
  log w2 = es ++ log w -> flash0 w2 = flash0 w ->
  cur_flash w2 = flash_after (rev es) (cur_flash w).
Proof.
  intros Hl Hf. unfold cur_flash. rewrite Hl, Hf, rev_app_distr.
  apply flash_after_app.
Qed.

Lemma verify_and_commit_shape (P : platform) (idx addr : Z) (t : update_ota_target_hdr)
    (sz : Z) (sig : list byte) (w : world) (ret : Z) (w' : world) :
  verify_and_commit P idx addr t sz sig w = Some (ret, w') ->
  exists commit,
    log w' = commit ++ log w /\ flash0 w' = flash0 w /\
    commit_shape P idx addr t ret (cur_flash w) commit.
Proof.
  unfold verify_and_commit, bind.
  destruct (verify_ota_checksum _ P addr (u32 sz) sig t (cur_flash w)) as [v|] eqn:Ev;
    [|discriminate].
  destruct (verify_ota_checksum_bool _ _ _ _ _ _ _ _ Ev) as [-> | ->]; cbn [Z.eqb negb].
  - intros [= <- <-]. exists [EvErase (u32 (addr - SPI_FLASH_BASE P))].
    split; [reflexivity|]. split; [reflexivity|].
    right. left. split; [reflexivity|]. split; [reflexivity|]. eauto.
  - unfold change_ota_signature, bind.
    destruct (load_bytes sig 0 8) as [sig8|] eqn:El; [|discriminate].
    assert (sig8 = firstn 8 sig) as ->.
    { unfold load_bytes in El. destruct (_ && _); [|discriminate].
      injection El as <-. reflexivity. }
    destruct (flash_stream_write BySignature _ (firstn 8 sig) w) as [r w1] eqn:Ew.
    apply flash_stream_write_spec in Ew. destruct Ew as (_ & Hf & Hw).
    destruct Hw as [[-> Hl]|[-> Hl]]; cbn [Z.ltb Z.compare Z.eqb]; intros [= <- <-].
    + exists [EvOtaChange idx; EvWrite BySignature (u32 (addr - SPI_FLASH_BASE P))
                                 (firstn 8 sig)].
      split; [cbn; now rewrite Hl|]. split; [exact Hf|].
      right. right. exists (u32 sz), sig. split; [exact Ev|]. right. auto.
    + exists [EvWriteFail BySignature (u32 (addr - SPI_FLASH_BASE P)) (firstn 8 sig)].
      split; [cbn; now rewrite Hl|]. split; [exact Hf|].
      right. right. exists (u32 sz), sig. split; [exact Ev|]. left. auto.
Qed.

(** Steps 4 to 6 in the order they happen: the erasures, the writes of
    the streaming writer, the commit. *)
Lemma finish_shape (P : platform) (idx addr : Z) (t : update_ota_target_hdr)
    (sched : list Z) (w : world) (ret : Z) (w' : world) :
  wf_platform P ->
  ota_update_finish P idx addr t sched w = Some (ret, w') ->
  exists er' dl commit,
    let dst := u32 (addr - SPI_FLASH_BASE P) in
    log w' = commit ++ dl ++ (er' ++ [EvErase dst]) ++ log w /\
    flash0 w' = flash0 w /\
    Forall is_erase_event er' /\ Forall is_image_event dl /\
    ota_writes_in_payload P addr t dl /\
    commit_shape P idx addr t ret
      (flash_after (rev (dl ++ er' ++ [EvErase dst])) (cur_flash w)) commit.
Proof.
  intros HP. unfold ota_update_finish, download_new_fw_from_server. cbv zeta.
  unfold bind at 1 2.
  destruct (erase_targets_log P addr t w) as (er & Hle & Hfe & Hall & er' & ->).
  apply Forall_app in Hall. destruct Hall as [Hall _].
  destruct (download_core P addr sched t (repeat x00 9) (erase_targets P addr t w))
    as [[[[[osz exits] s] sched'] w2]|] eqn:Ed; [|discriminate].
  pose proof (download_core_effect P HP _ _ _ _ _ _ Ed) as He.
  cbn [images_effect] in He. destruct He as (dl & Hlog & Hfl & Hdl & Himg).
  destruct (Himg _ (ota_dw_info_in_plan P addr t)) as (n & Hiw & Hn & _).
  cbn [DwImgId FlashAddr ImageLen ota_dw_info] in Hiw, Hn.
  assert (ota_writes_in_payload P addr t dl) as Hota.
  { intros a d Hin.
    assert (In (EvWrite (ByImage OTA_IMAG) a d) (events_of OTA_IMAG dl)) as Hin'
      by (apply filter_In; split; [exact Hin|reflexivity]).
    destruct (image_writes_range _ _ _ _ Hiw a d Hin') as (m & Hm & Hle' & ->).
    exists m. split; [exact Hm|]. split; [lia|].
    replace (u32 (addr - SPI_FLASH_BASE P) + 8 + m)
      with (u32 (addr - SPI_FLASH_BASE P) + (8 + m)) by lia.
    rewrite !u32_add_l. f_equal. lia. }
  assert (log w2 = dl ++ (er' ++ [EvErase (u32 (addr - SPI_FLASH_BASE P))]) ++ log w)
    as Hlog2 by (rewrite Hlog, Hle; reflexivity).
  assert (flash0 w2 = flash0 w) as Hfl2 by congruence.
  destruct osz as [sz|]; [|discriminate]. cbn [bind].
  destruct ((sz <? 0) || negb (u32 sz =? u32 (ImgLen (FileImgHdr t) - 8))).
  - intros [= <- <-]. exists er', dl, []. cbv zeta.
    split; [exact Hlog2|]. split; [exact Hfl2|]. split; [exact Hall|].
    split; [exact Hdl|]. split; [exact Hota|]. left. auto.
  - intros Hc. apply verify_and_commit_shape in Hc.
    destruct Hc as (commit & Hl3 & Hf3 & Hshape).
    exists er', dl, commit. cbv zeta.
    split; [rewrite Hl3, Hlog2; reflexivity|]. split; [congruence|].
    split; [exact Hall|]. split; [exact Hdl|]. split; [exact Hota|].
    rewrite (cur_flash_extend w w2 (dl ++ er' ++ [EvErase (u32 (addr - SPI_FLASH_BASE P))]))
      in Hshape; [exact Hshape| |exact Hfl2].
    rewrite Hlog2, <- !app_assoc. reflexivity.
Qed.

Lemma get_ota_address_ret (P : platform) (idx a0 : Z) (t : update_ota_target_hdr)
    (w : world) (r a : Z) (w' : world) :
  get_ota_address P idx a0 t w = (r, a, w') -> r = 0 \/ r = 1.
Proof.
  unfold get_ota_address.
  assert (forall a1 r a w', check_ota_image_address a1 t w = (r, a, w') -> r = 0 \/ r = 1)
    as Hc.
  { intros a1 r1 a2 w1. unfold check_ota_image_address.
    destruct (negb _); [intros [= <- _ _]; auto|].
    destruct (_ =? _); intros [= <- _ _]; auto. }
  destruct (HAL_READ32 (cur_flash w) (OFFSET_DATA P) =? 0xffffffff) eqn:Eunset.
  - apply Z.eqb_eq in Eunset.
    rewrite (ota_write_ota2_addr_unset P OTA2_DEFAULT_ADDR w Eunset).
    destruct (negb _); [intros [= <- _ _]; auto|].
    destruct (idx =? OTA_INDEX_2).
    + destruct (_ && _); [intros [= <- _ _]; auto|apply Hc].
    + cbv zeta. destruct (_ >? _); [intros [= <- _ _]; auto|apply Hc].
  - destruct (negb _); [intros [= <- _ _]; auto|].
    destruct (idx =? OTA_INDEX_2).
    + destruct (_ && _); [intros [= <- _ _]; auto|apply Hc].
    + cbv zeta. destruct (_ >? _); [intros [= <- _ _]; auto|apply Hc].
Qed.

Lemma u32_mod_4096 (z : Z) : u32 z mod 4096 = z mod 4096.
Proof.
  unfold u32, modulus. apply Z.mod_mod_divide. exists (2 ^ 20). reflexivity.
Qed.

(** The address the bank resolver hands out is the start of a sector. *)
(** Where [get_ota_address] returns 1, the slot is aligned and the address
    is the one of the slot for bank 2, the one of bank 1 otherwise. *)
Lemma get_ota_address_aligned (P : platform) (idx a0 : Z)
    (t : update_ota_target_hdr) (w : world) (a : Z) (w' : world) :
  get_ota_address P idx a0 t w = (1, a, w') ->
  HAL_READ32 (cur_flash w) (OFFSET_DATA P) mod 4096 = 0 /\
  (idx = OTA_INDEX_2 -> a = HAL_READ32 (cur_flash w) (OFFSET_DATA P)) /\
  (idx <> OTA_INDEX_2 -> a = u32 (OTA1_ADDR P)).
Proof.
  unfold get_ota_address.
  destruct (HAL_READ32 (cur_flash w) (OFFSET_DATA P) =? 0xffffffff) eqn:Eunset.
  - apply Z.eqb_eq in Eunset.
    rewrite (ota_write_ota2_addr_unset P OTA2_DEFAULT_ADDR w Eunset).
    rewrite Eunset. cbv beta iota zeta.
    replace (4294967295 mod 4096 =? 0) with false by (vm_compute; reflexivity).
    cbn [negb]. discriminate.
  - destruct (HAL_READ32 (cur_flash w) (OFFSET_DATA P) mod 4096 =? 0) eqn:Eal;
      cbn [negb]; [|discriminate].
    apply Z.eqb_eq in Eal.
    destruct (idx =? OTA_INDEX_2) eqn:Eidx.
    + apply Z.eqb_eq in Eidx.
      destruct ((_ <? _) && _); [discriminate|].
      intros H. apply check_ota_image_address_success in H.
      destruct H as (-> & _). repeat split; auto. intros H. contradiction.
    + apply Z.eqb_neq in Eidx.
      destruct (ImgLen (FileImgHdr t) >? _); [discriminate|].
      intros H. apply check_ota_image_address_success in H.
      destruct H as (-> & _). repeat split; auto. intros H. contradiction.
Qed.

Lemma prologue_aligned (P : platform) (env : task_env) (sched : list Z) (w : world)
    (idx addr : Z) (t : update_ota_target_hdr) (sched1 : list Z) (w1 : world) :
  sector_aligned P ->
  ota_update_prologue P env sched w = Some (Proceed idx addr t sched1 w1) ->
  u32 (addr - SPI_FLASH_BASE P) mod 4096 = 0.
Proof.
  intros [Hbase Hota1]. unfold ota_update_prologue.
  destruct (negb (alloc_ok env)); [discriminate|].
  destruct (negb (socket_ok env)); [discriminate|].
  destruct (negb (connect_ok env)); [discriminate|].
  cbv zeta. unfold bind.
  destruct (recv_file_info_from_server _ _ _ _) as [[[[ok1 b1] s1] w2]|]; [|discriminate].
  destruct (ok1 =? 0); [discriminate|].
  destruct (recv_ota_file_hdr _ _ _ _ _) as [[[[[[ok2 b2] l2] t2] s2] w3]|]; [|discriminate].
  destruct (ok2 =? 0); [discriminate|].
  destruct (get_ota_tartget_header _ _ _ _) as [[ok4 t4]|]; [|discriminate].
  destruct (ok4 =? 0); [discriminate|].
  destruct (get_ota_address P _ 0 t4 w3) as [[ok5 a5] w5] eqn:E5.
  destruct (ok5 =? 0) eqn:E0; [discriminate|]. apply Z.eqb_neq in E0.
  destruct (get_ota_address_ret _ _ _ _ _ _ _ _ E5) as [-> | ->]; [contradiction|].
  intros [= <- <- <- <- <-].
  apply get_ota_address_aligned in E5.
  destruct E5 as (Hal & H2 & H1).
  assert (a5 mod 4096 = 0) as Ha.
  { match type of H2 with (?i = _ -> _) => destruct (Z.eq_dec i OTA_INDEX_2) as [E|E] end.
    - rewrite (H2 E). exact Hal.
    - rewrite (H1 E). rewrite u32_mod_4096. exact Hota1. }
  rewrite u32_mod_4096, Zminus_mod, Ha, Hbase. reflexivity.
Qed.

(** C1, as the code has it.  An update that does not stop before step 4
    erases the target, then lets the streaming writer write (the payload of
    the primary image from the target address plus 8 on), then commits:
    the 8 bytes of the signature go to the start of the target only after
    [verify_ota_checksum] has returned 1 on the flash as it is then, and
    the bank is switched only behind a signature write that succeeded.  As
    long as no write for the RDP image reaches the first 8 bytes of the
    target, these read as erased in every state from the first erasure up
    to the commit. *)
Theorem commit_ordering (P : platform) (env : task_env) (sched : list Z) (w : world)
    (ret : Z) (w' : world) :
  wf_platform P -> sector_aligned P ->
  ota_update_single_img_local_task P env sched w = Some (ret, w') ->
  flash0 w' = flash0 w /\
  ((ret = -1 /\ log w' = log w) \/
   exists idx addr t sched1 w1 er' dl commit,
     ota_update_prologue P env sched w = Some (Proceed idx addr t sched1 w1) /\
     let dst := u32 (addr - SPI_FLASH_BASE P) in
     log w' = (if ret =? 0 then [EvReset] else [])
              ++ commit ++ dl ++ (er' ++ [EvErase dst]) ++ log w /\
     Forall is_erase_event er' /\ Forall is_image_event dl /\
     ota_writes_in_payload P addr t dl /\
     commit_shape P idx addr t ret
       (flash_after (rev (dl ++ er' ++ [EvErase dst])) (cur_flash w)) commit /\
     (rdp_clear dst dl ->
      forall post pre, dl ++ er' ++ [EvErase dst] = post ++ pre -> pre <> [] ->
        erased_at dst (flash_after (rev pre) (cur_flash w)))).
Proof.
  intros HP Hal. unfold ota_update_single_img_local_task, bind.
  destruct (ota_update_prologue P env sched w) as [r|] eqn:Ep; [|discriminate].
  pose proof (prologue_frame _ _ _ _ _ Ep) as Hfr.
  destruct r as [w1|idx addr t sched1 w1].
  - intros [= <- <-]. destruct Hfr as [Hl Hf]. split; [exact Hf|]. left. auto.
  - destruct Hfr as [Hl Hf].
    pose proof (prologue_aligned _ _ _ _ _ _ _ _ _ Hal Ep) as Hdst.
    destruct (ota_update_finish P idx addr t sched1 w1) as [[ret2 w2]|] eqn:Ef;
      [|discriminate].
    destruct (finish_shape _ _ _ _ _ _ _ _ HP Ef)
      as (er' & dl & commit & Hlog & Hfl & Her & Hdl & Hota & Hshape).
    cbv zeta in Hlog, Hshape.
    assert (cur_flash w1 = cur_flash w) as Hcf by (unfold cur_flash; congruence).
    rewrite Hcf in Hshape. rewrite Hl in Hlog.
    intros Hret.
    assert (ret = ret2 /\ flash0 w' = flash0 w /\
            log w' = (if ret =? 0 then [EvReset] else []) ++ log w2) as (-> & Hf' & Hl').
    { destruct (ret2 =? 0) eqn:E; injection Hret as <- <-; rewrite E;
        cbn; repeat split; congruence. }
    split; [exact Hf'|]. right.
    exists idx, addr, t, sched1, w1, er', dl, commit.
    split; [reflexivity|]. cbv zeta.
    split; [rewrite Hl', Hlog; reflexivity|].
    split; [exact Her|]. split; [exact Hdl|]. split; [exact Hota|].
    split; [exact Hshape|].
    intros Hrdp post pre Hsplit Hne.
    exact (erased_before_commit P addr t dl er' (cur_flash w) Hdst Her Hdl Hota Hrdp
             post pre Hsplit Hne).
Qed.

Lemma amebaz_wf : wf_platform amebaz.
Proof. unfold wf_platform. cbn. lia. Qed.

Lemma amebaz_aligned : sector_aligned amebaz.
Proof. split; reflexivity. Qed.

(** Witness of [commit_ordering]: the demonstration file is received,
    written, verified and committed; the task returns 0. *)
Lemma commit_ordering_witness :
  wf_platform amebaz /\ sector_aligned amebaz /\
  exists w',
    ota_update_single_img_local_task amebaz env_ok full_reads (demo_world demo_file)
    = Some (0, w') /\
    flash0 w' = flash0 (demo_world demo_file).
Proof.
  split; [exact amebaz_wf|]. split; [exact amebaz_aligned|].
  destruct (ota_update_single_img_local_task amebaz env_ok full_reads
              (demo_world demo_file)) as [[ret w']|] eqn:E.
  - assert (option_map fst (ota_update_single_img_local_task amebaz env_ok full_reads
                              (demo_world demo_file)) = Some 0) as Hc
      by (vm_compute; reflexivity).
    rewrite E in Hc. cbn in Hc. injection Hc as ->.
    exists w'. split; [reflexivity|].
    exact (proj1 (commit_ordering amebaz env_ok full_reads (demo_world demo_file) 0 w'
                    amebaz_wf amebaz_aligned E)).
  - exfalso.
    assert (option_map fst (ota_update_single_img_local_task amebaz env_ok full_reads
                              (demo_world demo_file)) = Some 0) as Hc
      by (vm_compute; reflexivity).
    rewrite E in Hc. discriminate Hc.
Defined.

(** The end of C1 as it is stated fails: with bank 2 configured where the
    RDP image lives, the streaming writer puts the RDP image, which comes
    first in the stream, on the first bytes of the target, before the
    primary image is written, let alone verified. *)
Lemma first_bytes_written_by_rdp :
  ~ first_bytes_stay_erased amebaz env_ok full_reads
      (world_of (bank1_flash 0x080FF000) rdp_file).
Proof.
  intros H. set (w0 := world_of (bank1_flash 0x080FF000) rdp_file) in *.
  destruct (ota_update_single_img_local_task amebaz env_ok full_reads w0)
    as [[ret w']|] eqn:Et; [|vm_compute in Et; discriminate Et].
  destruct (ota_update_prologue amebaz env_ok full_reads w0)
    as [[w1|idx addr t sched1 w1]|] eqn:Ep;
    [vm_compute in Ep; discriminate Ep| |vm_compute in Ep; discriminate Ep].
  specialize (H ret w' idx addr t sched1 w1 Et Ep
                (firstn 2 (log w')) (skipn 2 (log w'))).
  assert (addr = 0x080FF000) as ->.
  { apply (f_equal (option_map (fun r => match r with
                                         | Proceed _ a _ _ _ => a
                                         | Abort _ => 0
                                         end))) in Ep.
    vm_compute in Ep. injection Ep as Ep. symmetry. exact Ep. }
  assert (option_map (fun r => log (snd r))
            (ota_update_single_img_local_task amebaz env_ok full_reads w0)
          = Some [EvErase 1044480;
                  EvWrite (ByImage OTA_IMAG) 1044488 (repeat "004"%byte 16);
                  EvWrite (ByImage RDP_IMAG) 1044480
                    (list_byte_of_string "81958711" ++ repeat "003"%byte 8);
                  EvErase 1044480; EvErase 1044480]) as Hl
    by (vm_compute; reflexivity).
  rewrite Et in Hl. cbn [option_map snd] in Hl. injection Hl as Hl.
  rewrite Hl in H.
  assert (erased_at (u32 (0x080FF000 - SPI_FLASH_BASE amebaz))
            (flash_after
               (rev (skipn 2
                  [EvErase 1044480;
                   EvWrite (ByImage OTA_IMAG) 1044488 (repeat "004"%byte 16);
                   EvWrite (ByImage RDP_IMAG) 1044480
                     (list_byte_of_string "81958711" ++ repeat "003"%byte 8);
                   EvErase 1044480; EvErase 1044480]))
               (cur_flash w0))) as He.
  { apply H.
    - reflexivity.
    - discriminate.
    - intros a d Hin. cbn in Hin.
      destruct Hin as [Hin|[Hin|[Hin|[]]]]; discriminate Hin. }
  specialize (He 0 ltac:(lia)). vm_compute in He. discriminate He.
Qed.

(* ----------------------------------------------------------------- *)
(** ** Streaming writer: what is written, whatever the fragmentation *)

Lemma slice_length (l : list byte) (a n : Z) :
  0 <= a -> 0 <= n -> a + n <= Z.of_nat (length l) ->
  Z.of_nat (length (slice l a n)) = n.
Proof.
  intros Ha Hn H. unfold slice. rewrite length_firstn, length_skipn. lia.
Qed.

Lemma slice_slice (l : list byte) (a n b m : Z) :
  0 <= a -> 0 <= b -> 0 <= m -> b + m <= n ->
  slice (slice l a n) b m = slice l (a + b) m.
Proof.
  intros Ha Hb Hm H. unfold slice.
  rewrite skipn_firstn_comm, firstn_firstn, skipn_skipn.
  f_equal; [lia|]. f_equal. lia.
Qed.

Lemma slice_app (l : list byte) (a n m : Z) :
  0 <= a -> 0 <= n -> 0 <= m ->
  slice l a n ++ slice l (a + n) m = slice l a (n + m).
Proof.
  intros Ha Hn Hm. unfold slice.
  replace (Z.to_nat (a + n)) with (Z.to_nat n + Z.to_nat a)%nat by lia.
  rewrite <- skipn_skipn.
  replace (Z.to_nat (n + m)) with (Z.to_nat n + Z.to_nat m)%nat by lia.
  generalize (skipn (Z.to_nat a) l) as x. generalize (Z.to_nat n) as i.
  induction i as [|i IH]; intros x; [reflexivity|].
  destruct x as [|b x]; [cbn; now rewrite firstn_nil|].
  cbn. f_equal. apply IH.
Qed.

Lemma slice_skipn (l : list byte) (a b n : Z) :
  0 <= a -> 0 <= b -> slice (skipn (Z.to_nat a) l) b n = slice l (a + b) n.
Proof.
  intros Ha Hb. unfold slice. rewrite skipn_skipn. f_equal. f_equal. lia.
Qed.

Lemma load_fill_buf (P : platform) (c : list byte) (off n : Z) :
  0 <= off -> 0 <= n -> off + n <= Z.of_nat (length c) ->
  Z.of_nat (length c) <= BUF_SIZE P ->
  load_bytesZ (fill_buf P c) off n = Some (slice c off n).
Proof.
  intros Ho Hn Hin Hc. unfold load_bytesZ, load_bytes.
  destruct (n <? 0) eqn:E; [apply Z.ltb_lt in E; lia|].
  rewrite fill_buf_length by lia.
  destruct (0 <=? off) eqn:E1; [|apply Z.leb_gt in E1; lia].
  destruct (off + Z.of_nat (Z.to_nat n) <=? BUF_SIZE P) eqn:E2;
    [|apply Z.leb_gt in E2; lia].
  cbn [andb]. f_equal. unfold fill_buf, slice.
  rewrite skipn_app, firstn_app.
  replace (Z.to_nat n - length (skipn (Z.to_nat off) c))%nat with O
    by (rewrite length_skipn; lia).
  cbn [firstn]. apply app_nil_r.
Qed.

(** Storing [src] in the signature behind the [sc] bytes that are there. *)
Lemma store_signature (sg src : list byte) (sc : Z) :
  0 <= sc -> sc + Z.of_nat (length src) <= Z.of_nat (length sg) ->
  exists sg',
    store_bytes sg sc src = Some sg' /\ length sg' = length sg /\
    firstn (Z.to_nat (sc + Z.of_nat (length src))) sg' = firstn (Z.to_nat sc) sg ++ src.
Proof.
  intros Hsc Hin. unfold store_bytes.
  destruct (0 <=? sc) eqn:E1; [|apply Z.leb_gt in E1; lia].
  destruct (sc + Z.of_nat (length src) <=? Z.of_nat (length sg)) eqn:E2;
    [|apply Z.leb_gt in E2; lia].
  cbn [andb]. eexists. split; [reflexivity|]. split.
  - rewrite !length_app, length_firstn, length_skipn. lia.
  - rewrite app_assoc, firstn_app.
    replace (Z.to_nat (sc + Z.of_nat (length src))
             - length (firstn (Z.to_nat sc) sg ++ src))%nat with O
      by (rewrite length_app, length_firstn; lia).
    cbn [firstn]. rewrite app_nil_r. apply firstn_all2.
    rewrite length_app, length_firstn. lia.
Qed.

Lemma stream_writes_image (k : img_kind) (base : Z) (src : list byte)
    (es : list event) (n : Z) :
  stream_writes k base src es n ->
  image_writes k base es n /\ payload_of es = slice src 0 n.
Proof.
  induction 1 as [|es n d H [IH1 IH2] Hd].
  - split; [constructor|reflexivity].
  - destruct (image_writes_events _ _ _ _ IH1) as (_ & _ & _ & Hn).
    split; [now constructor|].
    cbn [payload_of]. rewrite IH2. rewrite Hd at 1.
    rewrite <- (slice_app src 0 n) by lia. reflexivity.
Qed.

Lemma covers_fragments (P : platform) : forall sizes data,
  fragments P sizes data -> covers P sizes data.
Proof.
  induction sizes as [|n sizes IH]; intros data [Hall Hsum].
  - cbn in Hsum. destruct data; [reflexivity|cbn in Hsum; lia].
  - inversion Hall as [|? ? Hn Hall']; subst. cbn [fold_right] in Hsum.
    cbn [covers]. split; [lia|]. apply IH. split; [exact Hall'|].
    assert (0 <= fold_right Z.add 0 sizes) as Hpos.
    { clear -Hall'. induction Hall' as [|x l Hx _ IHl]; cbn; lia. }
    rewrite length_skipn. lia.
Qed.

Lemma sig_len_range (k : img_kind) : 0 <= sig_len k <= 8.
Proof. destruct k; cbn; lia. Qed.

Lemma firstn_self {A : Type} (k : nat) (l : list A) :
  firstn (length (firstn k l)) l = firstn k l.
Proof.
  rewrite length_firstn. destruct (Nat.le_gt_cases k (length l)) as [H|H].
  - now rewrite Nat.min_l.
  - rewrite Nat.min_r by lia. rewrite firstn_all, firstn_all2 by lia. reflexivity.
Qed.

Section Stream.
Variable P : platform.
Hypothesis HP : wf_platform P.
Variables (F : list byte) (T0 : Z).
Hypothesis HT0 : 0 <= T0.
Hypothesis Hlen : T0 + Z.of_nat (length F) < 2 ^ 31.

(** The write of the [n] bytes at the end of the packet that ends at [p],
    when [c0] bytes of the payload are written: the bytes of the payload
    from [c0] on go to the flash, as far as the image reaches. *)
Lemma dl_write_stream (d : update_dw_info) (p rb off n c0 : Z) (s : dl_state)
    (w : world) (es : list event) :
  image_in_stream d F T0 ->
  buf s = fill_buf P (slice F (p - rb) rb) ->
  0 < rb <= BUF_SIZE P -> 0 <= p - rb -> p <= Z.of_nat (length F) ->
  0 <= off -> 0 < n -> off + n = rb ->
  p - n = ImgOffset d - T0 + sig_len (DwImgId d) + c0 ->
  0 <= c0 < ImageLen d ->
  size s = c0 -> RemainBytes s = ImageLen d - c0 ->
  stream_writes (DwImgId d) (FlashAddr d)
    (skipn (Z.to_nat (ImgOffset d - T0 + sig_len (DwImgId d))) F) es c0 ->
  wfail w = [] ->
  exists data,
    dl_write d off n s w =
      Some (PktNext (set_count (ImageLen d - c0 - n) (Z.min (ImageLen d) (c0 + n)) s)
              (emit (EvWrite (ByImage (DwImgId d)) (u32 (FlashAddr d + c0)) data) w)) /\
    stream_writes (DwImgId d) (FlashAddr d)
      (skipn (Z.to_nat (ImgOffset d - T0 + sig_len (DwImgId d))) F)
      (EvWrite (ByImage (DwImgId d)) (u32 (FlashAddr d + c0)) data :: es)
      (Z.min (ImageLen d) (c0 + n)).
Proof.
  intros (Hq & HL & Hend) Hbuf Hrb Hp0 Hp Hoff Hn Hsum Hpos Hc Hsz Hrem Hsw Hwf.
  pose proof (sig_len_range (DwImgId d)) as Hh.
  unfold wf_platform in HP.
  set (L := ImageLen d) in *. set (q := ImgOffset d - T0) in *.
  set (h := sig_len (DwImgId d)) in *.
  set (n' := Z.min n (L - c0)).
  assert (Z.of_nat (length (slice F (p - rb) rb)) = rb) as Hsl
    by (apply slice_length; lia).
  exists (slice F (p - n) n').
  unfold dl_write. cbv zeta. rewrite Hrem, Hsz. fold L.
  rewrite (s32_small (L - c0 - n)) by lia.
  assert ((if L - c0 - n <? 0 then s32 (n - - (L - c0 - n)) else n) = n') as ->.
  { destruct (L - c0 - n <? 0) eqn:E;
      [apply Z.ltb_lt in E; rewrite s32_small by lia|apply Z.ltb_ge in E];
      unfold n'; lia. }
  rewrite Hbuf, load_fill_buf by (unfold n'; lia).
  rewrite slice_slice by (unfold n'; lia).
  replace (p - rb + off) with (p - n) by lia.
  cbn [bind]. unfold flash_stream_write. rewrite Hwf.
  cbv beta iota. change (1 <? 0) with false. cbv iota.
  rewrite s32_small by (unfold n'; lia).
  replace (c0 + n') with (Z.min L (c0 + n)) by (unfold n'; lia).
  split; [reflexivity|].
  assert (Z.of_nat (length (slice F (p - n) n')) = n') as Hdl
    by (apply slice_length; unfold n'; lia).
  replace (Z.min L (c0 + n)) with (c0 + Z.of_nat (length (slice F (p - n) n')))
    by (rewrite Hdl; unfold n'; lia).
  constructor; [exact Hsw|].
  rewrite Hdl, slice_skipn by lia. f_equal. lia.
Qed.

Lemma dl_packet_stream (d : update_dw_info) (sig0 : list byte) (p rb : Z)
    (s : dl_state) (w : world) (es l0 : list event) :
  image_in_stream d F T0 ->
  (8 <= length sig0)%nat ->
  packet_at P F T0 p rb s ->
  phase d F T0 sig0 (p - rb) s es ->
  p - rb < ImgOffset d - T0 + sig_len (DwImgId d) + ImageLen d ->
  log w = es ++ l0 -> wfail w = [] ->
  exists s' w' es',
    dl_packet d rb s w = Some (PktNext s' w') /\
    packet_at P F T0 p rb s' /\
    phase d F T0 sig0 p s' es' /\
    log w' = es' ++ l0 /\ wfail w' = [] /\
    rx_data w' = rx_data w /\ flash0 w' = flash0 w.
Proof.
  intros Him Hsig Hpk Hph Hlt Hlog Hwf.
  pose proof Hpk as (Hrb & Hp0 & Hp & HTL & Hbuf & Hrbb).
  pose proof Him as (Hq & HL & Hend).
  unfold wf_platform in HP.
  assert (Z.of_nat (length (slice F (p - rb) rb)) = rb) as Hsl
    by (apply slice_length; lia).
  destruct Hph as [Hsgl Hph].
  unfold dl_packet. rewrite HTL.
  destruct (T0 + p >? ImgOffset d) eqn:Ereach.
  2: { rewrite Z.gtb_ltb in Ereach; apply Z.ltb_ge in Ereach.
       exists s, w, es. split; [reflexivity|]. split; [exact Hpk|].
       split; [|auto].
       unfold phase. cbv zeta. split; [exact Hsgl|].
       destruct (OtaFg s); [lia|].
       destruct Hph as (_ & H1 & H2 & H3 & H4). repeat split; auto; lia. }
  apply Z.gtb_lt in Ereach.
  destruct (OtaFg s) eqn:EF; cbn [negb].
  - (* a packet in the image *)
    destruct Hph as (Hqp & Hsz & Hrem & Hsw & Hk).
    destruct (DwImgId d) eqn:Ek; cbn [sig_len] in *.
    + destruct Hk as [Hsc Hfs].
      destruct (SigCnt s <? 8) eqn:E8.
      * apply Z.ltb_lt in E8.
        assert (SigCnt s = p - rb - (ImgOffset d - T0)) as Hsc' by lia.
        rewrite !u32_small by lia.
        destruct (rb <? 8 - SigCnt s) eqn:Ers.
        -- apply Z.ltb_lt in Ers.
           rewrite Hbuf, load_fill_buf by lia. cbn [bind].
           destruct (store_signature (signature s) (slice F (p - rb + 0) rb) (SigCnt s))
             as (sg' & Hst & Hsl' & Hfn); [lia| rewrite Z.add_0_r, Hsl; lia |].
           rewrite Z.add_0_r in *.
           rewrite slice_slice by lia. rewrite Z.add_0_r. rewrite Hst. cbn [bind].
           eexists _, w, es. split; [reflexivity|].
           split; [exact Hpk|]. split; [|auto].
           unfold phase. cbv zeta. cbn [set_sig signature OtaFg size RemainBytes SigCnt].
           rewrite EF, Ek. cbn [sig_len].
           split; [congruence|]. split; [lia|].
           split; [rewrite Hsz; lia|]. split; [rewrite Hrem; lia|].
           split; [exact Hsw|]. split; [lia|].
           rewrite Hsl in Hfn. rewrite Hfn, Hfs.
           replace (p - rb) with (ImgOffset d - T0 + SigCnt s) by lia.
           rewrite slice_app by lia. reflexivity.
        -- apply Z.ltb_ge in Ers.
           rewrite Hbuf, load_fill_buf by lia. cbn [bind].
           destruct (store_signature (signature s) (slice F (p - rb + 0) (8 - SigCnt s))
                       (SigCnt s))
             as (sg' & Hst & Hsl' & Hfn);
             [lia| rewrite slice_length by lia; lia |].
           rewrite slice_length in Hfn by lia.
           rewrite Z.add_0_r in *.
           rewrite slice_slice by lia. rewrite Z.add_0_r. rewrite Hst. cbn [bind].
           rewrite s32_small by lia.
           assert (firstn (Z.to_nat 8) sg' = slice F (ImgOffset d - T0) 8) as Hsg8.
           { replace 8 with (SigCnt s + (8 - SigCnt s)) at 1 by lia.
             rewrite Hfn, Hfs.
             replace (p - rb) with (ImgOffset d - T0 + SigCnt s) by lia.
             rewrite slice_app by lia. f_equal. lia. }
           destruct (rb - (8 - SigCnt s) =? 0) eqn:Ez.
           ++ apply Z.eqb_eq in Ez.
              eexists _, w, es. split; [reflexivity|].
              split; [exact Hpk|]. split; [|auto].
              unfold phase. cbv zeta.
              cbn [set_sig signature OtaFg size RemainBytes SigCnt].
              rewrite EF, Ek. cbn [sig_len].
              split; [congruence|]. split; [lia|].
              split; [rewrite Hsz; lia|]. split; [rewrite Hrem; lia|].
              split; [exact Hsw|]. split; [lia|exact Hsg8].
           ++ apply Z.eqb_neq in Ez.
              destruct (dl_write_stream d p rb (8 - SigCnt s) (rb - (8 - SigCnt s)) 0
                          (set_sig 8 sg' s) w es) as (data & Hw & Hsw');
                try (rewrite ?Ek; cbn [set_sig buf size RemainBytes sig_len]; auto; lia).
              { rewrite Ek. cbn [sig_len]. replace (size s) with 0 in Hsw by lia.
                exact Hsw. }
              rewrite Ek in Hw, Hsw'. cbn [sig_len] in Hsw'.
              rewrite Hw. eexists _, _, (_ :: es). split; [reflexivity|].
              split; [exact Hpk|].
              split; [|cbn [emit log wfail rx_data flash0]; rewrite Hlog; repeat split; auto].
              unfold phase. cbv zeta.
              cbn [set_count set_sig signature OtaFg size RemainBytes SigCnt].
              rewrite EF, Ek. cbn [sig_len].
              split; [congruence|]. split; [lia|].
              split; [lia|]. split; [lia|].
              split; [exact Hsw'|]. split; [lia|exact Hsg8].
      * apply Z.ltb_ge in E8.
        destruct (dl_write_stream d p rb 0 rb (p - rb - (ImgOffset d - T0) - 8) s w es)
          as (data & Hw & Hsw');
          try (rewrite ?Ek; cbn [sig_len]; auto; lia).
        { rewrite Ek. cbn [sig_len].
          replace (size s) with (p - rb - (ImgOffset d - T0) - 8) in Hsw by lia.
          exact Hsw. }
        rewrite Ek in Hw, Hsw'. cbn [sig_len] in Hsw'.
        rewrite Hw. eexists _, _, (_ :: es). split; [reflexivity|].
        split; [exact Hpk|].
        split; [|cbn [emit log wfail rx_data flash0]; rewrite Hlog; repeat split; auto].
        unfold phase. cbv zeta.
        cbn [set_count signature OtaFg size RemainBytes SigCnt].
        rewrite EF, Ek. cbn [sig_len].
        split; [congruence|]. split; [lia|].
        split; [lia|]. split; [lia|].
        split; [|split; [lia|exact Hfs]].
        replace (Z.max 0 (p - (ImgOffset d - T0) - 8))
          with (p - rb - (ImgOffset d - T0) - 8 + rb) by lia.
        exact Hsw'.
    + destruct (dl_write_stream d p rb 0 rb (p - rb - (ImgOffset d - T0)) s w es)
        as (data & Hw & Hsw');
        try (rewrite ?Ek; cbn [sig_len]; auto; lia).
      { rewrite Ek. cbn [sig_len].
        replace (size s) with (p - rb - (ImgOffset d - T0)) in Hsw by lia.
        exact Hsw. }
      rewrite Ek in Hw, Hsw'. cbn [sig_len] in Hsw'.
      rewrite Hw. eexists _, _, (_ :: es). split; [reflexivity|].
      split; [exact Hpk|].
      split; [|cbn [emit log wfail rx_data flash0]; rewrite Hlog; repeat split; auto].
      unfold phase. cbv zeta.
      cbn [set_count signature OtaFg size RemainBytes SigCnt].
      rewrite EF, Ek. cbn [sig_len].
      split; [congruence|]. split; [lia|].
      split; [lia|]. split; [lia|].
      split; [|exact Hk].
      replace (Z.max 0 (p - (ImgOffset d - T0) - 0))
        with (p - rb - (ImgOffset d - T0) + rb) by lia.
      exact Hsw'.
  - (* the first packet that reaches the image *)
    destruct Hph as (Hqp & Hsz & Hrem & -> & Hk).
    rewrite (u32_small (T0 + p - ImgOffset d)) by lia.
    destruct (DwImgId d) eqn:Ek; cbn [sig_len] in *.
    + cbn [set_reached buf signature].
      set (tc := T0 + p - ImgOffset d) in *.
      set (sc := if tc <? 8 then tc else 8).
      assert (sc = Z.min tc 8) as Hsc
        by (unfold sc; destruct (tc <? 8) eqn:E;
            [apply Z.ltb_lt in E|apply Z.ltb_ge in E]; lia).
      rewrite Hbuf, load_fill_buf by lia. cbn [bind].
      rewrite slice_slice by lia.
      replace (p - rb + (rb - tc)) with (ImgOffset d - T0) by lia.
      destruct (store_signature (signature s) (slice F (ImgOffset d - T0) sc) 0)
        as (sg' & Hst & Hsl' & Hfn);
        [lia| rewrite slice_length by lia; lia |].
      rewrite slice_length in Hfn by lia. cbn [firstn Z.to_nat app] in Hfn.
      rewrite Z.add_0_l in Hfn.
      rewrite Hst. cbn [bind].
      destruct ((sc <? 8) || (u32 (tc - 8) =? 0)) eqn:Ec.
      * assert (tc <= 8) as Htc.
        { apply orb_true_iff in Ec. destruct Ec as [Ec|Ec];
            [apply Z.ltb_lt in Ec; lia|].
          apply Z.eqb_eq in Ec. destruct (Z_lt_le_dec tc 8); [lia|].
          rewrite u32_small in Ec by lia. lia. }
        eexists _, w, []. split; [reflexivity|].
        split; [exact Hpk|]. split; [|auto].
        unfold phase. cbv zeta.
        cbn [set_sig set_reached signature OtaFg size RemainBytes SigCnt].
        rewrite Ek. cbn [sig_len].
        split; [congruence|]. split; [lia|].
        split; [lia|]. split; [lia|].
        split; [rewrite Hsz; constructor|]. split; [lia|exact Hfn].
      * apply orb_false_iff in Ec. destruct Ec as [Ec Ec2]. apply Z.ltb_ge in Ec.
        apply Z.eqb_neq in Ec2. rewrite u32_small in Ec2 by lia.
        assert (8 < tc) as Htc by lia.
        rewrite s32_small by lia.
        destruct (dl_write_stream d p rb (rb - tc + 8) (tc - 8) 0
                    (set_sig sc sg' (set_reached tc s)) w [])
          as (data & Hw & Hsw');
          try (rewrite ?Ek;
               cbn [set_sig set_reached buf size RemainBytes sig_len]; auto; lia).
        { constructor. }
        rewrite Ek in Hw, Hsw'. cbn [sig_len] in Hsw'.
        rewrite Hw. eexists _, _, [_]. split; [reflexivity|].
        split; [exact Hpk|].
        split; [|cbn [emit log wfail rx_data flash0]; rewrite Hlog; repeat split; auto].
        unfold phase. cbv zeta.
        cbn [set_count set_sig set_reached signature OtaFg size RemainBytes SigCnt].
        rewrite Ek. cbn [sig_len].
        split; [congruence|]. split; [lia|].
        split; [lia|]. split; [lia|].
        split; [|split; [lia|exact Hfn]].
        replace (Z.max 0 (p - (ImgOffset d - T0) - 8)) with (0 + (tc - 8)) by lia.
        exact Hsw'.
    + cbn [set_reached buf signature].
      set (tc := T0 + p - ImgOffset d) in *.
      rewrite s32_small by lia.
      destruct (dl_write_stream d p rb (rb - tc) tc 0 (set_reached tc s) w [])
        as (data & Hw & Hsw');
        try (rewrite ?Ek; cbn [set_reached buf size RemainBytes sig_len]; auto; lia).
      { constructor. }
      rewrite Ek in Hw, Hsw'. cbn [sig_len] in Hsw'.
      rewrite Hw. eexists _, _, [_]. split; [reflexivity|].
      split; [exact Hpk|].
      split; [|cbn [emit log wfail rx_data flash0]; rewrite Hlog; repeat split; auto].
      unfold phase. cbv zeta.
      cbn [set_count set_reached signature OtaFg size RemainBytes SigCnt].
      rewrite Ek. cbn [sig_len].
      split; [congruence|]. split; [lia|].
      split; [lia|]. split; [lia|].
      split; [|auto].
      replace (Z.max 0 (p - (ImgOffset d - T0) - 0)) with (0 + tc) by lia.
      exact Hsw'.
Qed.

Lemma phase_running (d : update_dw_info) (sig0 : list byte) (p : Z) (s : dl_state)
    (es : list event) :
  image_in_stream d F T0 -> phase d F T0 sig0 p s es -> 0 < RemainBytes s ->
  p < ImgOffset d - T0 + sig_len (DwImgId d) + ImageLen d.
Proof.
  intros (Hq & HL & Hend) [_ Hph] Hrem.
  pose proof (sig_len_range (DwImgId d)).
  destruct (OtaFg s).
  - destruct Hph as (_ & _ & Hr & _). lia.
  - destruct Hph as (Hp & _). lia.
Qed.

Lemma phase_done (d : update_dw_info) (sig0 : list byte) (p : Z) (s : dl_state)
    (es : list event) :
  image_in_stream d F T0 -> phase d F T0 sig0 p s es -> RemainBytes s <= 0 ->
  ImgOffset d - T0 + sig_len (DwImgId d) + ImageLen d <= p /\
  size s = ImageLen d /\
  stream_writes (DwImgId d) (FlashAddr d)
    (skipn (Z.to_nat (ImgOffset d - T0 + sig_len (DwImgId d))) F) es (ImageLen d) /\
  match DwImgId d with
  | OTA_IMAG => firstn 8 (signature s) = slice F (ImgOffset d - T0) 8
  | RDP_IMAG => signature s = sig0
  end.
Proof.
  intros (Hq & HL & Hend) [_ Hph] Hrem.
  pose proof (sig_len_range (DwImgId d)).
  destruct (OtaFg s).
  - destruct Hph as (Hp & Hsz & Hr & Hsw & Hk).
    assert (size s = ImageLen d) as Hs by lia.
    split; [lia|]. split; [exact Hs|]. split; [rewrite <- Hs; exact Hsw|].
    destruct (DwImgId d); [|exact Hk].
    destruct Hk as [Hsc Hfs]. cbn [sig_len] in *.
    replace (SigCnt s) with 8 in Hfs by lia. exact Hfs.
  - destruct Hph as (_ & _ & Hr & _). lia.
Qed.

(** What is left of the stream behind a read. *)
Lemma skipn_read (n p : Z) :
  0 <= n -> 0 <= p ->
  skipn (Z.to_nat n) (skipn (Z.to_nat p) F)
  = skipn (Z.to_nat (p + Z.of_nat (length (firstn (Z.to_nat n) (skipn (Z.to_nat p) F))))) F.
Proof.
  intros Hn Hp. rewrite skipn_skipn, length_firstn, length_skipn.
  destruct (Z_le_gt_dec (p + n) (Z.of_nat (length F))) as [H|H].
  - f_equal. lia.
  - rewrite !skipn_all2 by lia. reflexivity.
Qed.

Lemma dl_reads_stream (d : update_dw_info) (sig0 : list byte) (l0 : list event) :
  image_in_stream d F T0 -> (8 <= length sig0)%nat ->
  forall (sched : list Z) (p : Z) (s : dl_state) (w : world) (es : list event),
    covers P sched (skipn (Z.to_nat p) F) ->
    0 <= p <= Z.of_nat (length F) ->
    rx_data w = skipn (Z.to_nat p) F -> TempLen s = T0 + p ->
    phase d F T0 sig0 p s es ->
    log w = es ++ l0 -> wfail w = [] ->
    (RemainBytes s <= 0 ->
     exists rb, packet_at P F T0 p rb s /\
                p - rb < ImgOffset d - T0 + sig_len (DwImgId d) + ImageLen d) ->
    exists s' sched' w' p' es' rb,
      dl_reads P d sched s w = Some (ImgNext LoopDone s' sched' w') /\
      covers P sched' (skipn (Z.to_nat p') F) /\
      rx_data w' = skipn (Z.to_nat p') F /\
      packet_at P F T0 p' rb s' /\
      p' - rb < ImgOffset d - T0 + sig_len (DwImgId d) + ImageLen d /\
      phase d F T0 sig0 p' s' es' /\ RemainBytes s' <= 0 /\
      log w' = es' ++ l0 /\ wfail w' = [] /\ flash0 w' = flash0 w.
Proof.
  intros Him Hsig. unfold wf_platform in HP.
  induction sched as [|n sched IH]; intros p s w es Hcov Hp Hrx HTL Hph Hlog Hwf Hcar.
  - cbn [dl_reads]. destruct (RemainBytes s >? 0) eqn:Er.
    + apply Z.gtb_lt in Er. pose proof (phase_running _ _ _ _ _ Him Hph Er) as Hlt.
      cbn [covers] in Hcov. destruct Him as (Hq & HL & Hend).
      apply (f_equal (@length byte)) in Hcov. rewrite length_skipn in Hcov.
      cbn [length] in Hcov. lia.
    + rewrite Z.gtb_ltb in Er. apply Z.ltb_ge in Er.
      destruct (Hcar Er) as (rb & Hpk & Hlt).
      exists s, [], w, p, es, rb.
      split; [reflexivity|]. split; [exact Hcov|]. split; [exact Hrx|].
      split; [exact Hpk|]. split; [exact Hlt|]. split; [exact Hph|]. auto.
  - cbn [dl_reads]. destruct (RemainBytes s >? 0) eqn:Er.
    + apply Z.gtb_lt in Er. pose proof (phase_running _ _ _ _ _ Him Hph Er) as Hlt.
      cbn [covers] in Hcov. destruct Hcov as [Hn Hcov].
      destruct (read (Some n) (BUF_SIZE P) w) as [[r data] w1] eqn:Ern.
      apply read_spec in Ern.
      destruct Ern as (Hl1 & Hf1 & Hw1 & Hrx1 & [(Hneg & _)|(_ & Hr & Hdata)]); [lia|].
      rewrite Hrx in Hdata.
      set (k := Z.min n (BUF_SIZE P)) in *.
      assert (0 < r <= BUF_SIZE P /\ p + r <= Z.of_nat (length F)) as Hrr.
      { pose proof Him as (Hq & HL & Hend). pose proof (sig_len_range (DwImgId d)).
        rewrite Hr, Hdata, length_firstn, length_skipn. lia. }
      assert (data = slice F p r) as Hsl.
      { rewrite Hr. unfold slice. rewrite Nat2Z.id. rewrite Hdata at 1.
        symmetry.
        rewrite Hdata at 1. now rewrite firstn_self. }
      destruct (r =? 0) eqn:E0; [apply Z.eqb_eq in E0; lia|].
      destruct (r <? 0) eqn:E1; [apply Z.ltb_lt in E1; lia|].
      rewrite HTL, (u32_small (T0 + p + r)) by lia.
      set (s1 := set_buf (fill_buf P data) (Some r) (T0 + p + r) s).
      destruct (dl_packet_stream d sig0 (p + r) r s1 w1 es l0 Him Hsig)
        as (s2 & w2 & es2 & Hpkt & Hpk2 & Hph2 & Hlog2 & Hwf2 & Hrx2 & Hf2);
        try congruence.
      { unfold packet_at. cbn [s1 set_buf TempLen buf read_bytes_buf].
        replace (p + r - r) with p by lia. rewrite Hsl.
        repeat split; auto; lia. }
      { replace (p + r - r) with p by lia. exact Hph. }
      { lia. }
      rewrite Hpkt.
      destruct (IH (p + r) s2 w2 es2)
        as (s' & sched' & w' & p' & es' & rb & Hrun & H1 & H2 & H3 & H4 & H5 & H6
            & H7 & H8 & H9); auto.
      * rewrite Hr, Hdata. rewrite <- skipn_read by lia. exact Hcov.
      * lia.
      * assert (rx_data w1 = skipn (Z.to_nat k) (skipn (Z.to_nat p) F)) as Hrest.
        { apply (app_inv_head data). rewrite <- Hrx1, Hrx, Hdata.
          symmetry. apply firstn_skipn. }
        rewrite Hrx2, Hrest, Hr, Hdata. apply skipn_read; lia.
      * apply Hpk2.
      * intros _. exists r. split; [exact Hpk2|]. lia.
      * exists s', sched', w', p', es', rb.
        split; [exact Hrun|]. split; [exact H1|]. split; [exact H2|].
        split; [exact H3|]. split; [exact H4|]. split; [exact H5|].
        split; [exact H6|]. split; [exact H7|]. split; [exact H8|]. congruence.
    + rewrite Z.gtb_ltb in Er. apply Z.ltb_ge in Er.
      destruct (Hcar Er) as (rb & Hpk & Hlt).
      exists s, (n :: sched), w, p, es, rb.
      split; [reflexivity|]. split; [exact Hcov|]. split; [exact Hrx|].
      split; [exact Hpk|]. split; [exact Hlt|]. split; [exact Hph|]. auto.
Qed.

Lemma download_image_stream (d : update_dw_info) (IncFg : bool) (sched : list Z)
    (p : Z) (s : dl_state) (w : world) :
  image_in_stream d F T0 -> (8 <= length (signature s))%nat ->
  covers P sched (skipn (Z.to_nat p) F) ->
  0 <= p <= Z.of_nat (length F) ->
  rx_data w = skipn (Z.to_nat p) F -> TempLen s = T0 + p ->
  OtaFg s = false -> size s = 0 -> wfail w = [] ->
  (if IncFg
   then exists rb, packet_at P F T0 p rb s /\ p - rb <= ImgOffset d - T0
   else p <= ImgOffset d - T0) ->
  exists s' sched' w' p' es' rb,
    download_image P d IncFg sched s w = Some (ImgNext LoopDone s' sched' w') /\
    covers P sched' (skipn (Z.to_nat p') F) /\
    rx_data w' = skipn (Z.to_nat p') F /\
    packet_at P F T0 p' rb s' /\
    p' - rb < ImgOffset d - T0 + sig_len (DwImgId d) + ImageLen d /\
    phase d F T0 (signature s) p' s' es' /\ RemainBytes s' <= 0 /\
    log w' = es' ++ log w /\ wfail w' = [] /\ flash0 w' = flash0 w.
Proof.
  intros Him Hsig Hcov Hp Hrx HTL HF Hsz Hwf Hstart.
  pose proof Him as (Hq & HL & Hend).
  pose proof (sig_len_range (DwImgId d)) as Hh.
  unfold download_image. cbv zeta.
  rewrite (s32_small (ImageLen d)) by lia.
  set (s0 := set_count (ImageLen d) (size s) s).
  assert (forall x, x <= ImgOffset d - T0 -> phase d F T0 (signature s) x s0 []) as HphA.
  { intros x Hx. unfold phase. cbv zeta. cbn [s0 set_count signature OtaFg size RemainBytes].
    rewrite HF. repeat split; auto. }
  destruct IncFg.
  - destruct Hstart as (rb & Hpk & Hle).
    change (RemainBytes s0) with (ImageLen d).
    destruct (ImageLen d >? 0) eqn:E;
      [|rewrite Z.gtb_ltb in E; apply Z.ltb_ge in E; lia].
    cbn [andb].
    change (read_bytes_buf s0) with (read_bytes_buf s).
    pose proof Hpk as (_ & _ & _ & _ & _ & Hrb). rewrite Hrb. cbn [bind].
    destruct (dl_packet_stream d (signature s) p rb s0 w [] (log w) Him Hsig)
      as (s2 & w2 & es2 & Hpkt & Hpk2 & Hph2 & Hlog2 & Hwf2 & Hrx2 & Hf2); auto.
    { lia. }
    rewrite Hpkt.
    destruct (dl_reads_stream d (signature s) (log w) Him Hsig sched p s2 w2 es2)
      as (s' & sched' & w' & p' & es' & rb' & Hrun & H1 & H2 & H3 & H4 & H5 & H6
          & H7 & H8 & H9); auto.
    + congruence.
    + apply Hpk2.
    + intros _. exists rb. split; [exact Hpk2|]. lia.
    + exists s', sched', w', p', es', rb'.
      split; [exact Hrun|]. split; [exact H1|]. split; [exact H2|].
      split; [exact H3|]. split; [exact H4|]. split; [exact H5|].
      split; [exact H6|]. split; [exact H7|]. split; [exact H8|]. congruence.
  - cbn [andb].
    destruct (dl_reads_stream d (signature s) (log w) Him Hsig sched p s0 w [])
      as (s' & sched' & w' & p' & es' & rb' & Hrun & H1 & H2 & H3 & H4 & H5 & H6
          & H7 & H8 & H9); auto.
    + cbn [s0 set_count RemainBytes]. intros; lia.
    + exists s', sched', w', p', es', rb'.
      split; [exact Hrun|]. split; [exact H1|]. split; [exact H2|].
      split; [exact H3|]. split; [exact H4|]. split; [exact H5|].
      split; [exact H6|]. split; [exact H7|]. split; [exact H8|]. exact H9.
Qed.

(** The images of a plan one after the other: the loop over an image
    ends with the image written; the next image starts at the packet the
    one before ended in. *)
Lemma download_images_one (d : update_dw_info) (IncFg : bool) (osz : option Z)
    (exits : list (img_kind * loop_exit)) (sched : list Z) (p : Z) (s : dl_state)
    (w : world) :
  image_in_stream d F T0 -> (8 <= length (signature s))%nat ->
  covers P sched (skipn (Z.to_nat p) F) ->
  0 <= p <= Z.of_nat (length F) ->
  rx_data w = skipn (Z.to_nat p) F -> TempLen s = T0 + p ->
  OtaFg s = false -> size s = 0 -> wfail w = [] ->
  (if IncFg
   then exists rb, packet_at P F T0 p rb s /\ p - rb <= ImgOffset d - T0
   else p <= ImgOffset d - T0) ->
  exists s' sched' w' es,
    download_images P [d] IncFg osz exits sched s w =
      Some (match DwImgId d with
            | OTA_IMAG => Some (ImageLen d)
            | RDP_IMAG => osz
            end, exits ++ [(DwImgId d, LoopDone)], s', sched', w') /\
    log w' = es ++ log w /\
    stream_writes (DwImgId d) (FlashAddr d)
      (skipn (Z.to_nat (ImgOffset d - T0 + sig_len (DwImgId d))) F) es (ImageLen d) /\
    match DwImgId d with
    | OTA_IMAG => firstn 8 (signature s') = slice F (ImgOffset d - T0) 8
    | RDP_IMAG => signature s' = signature s
    end.
Proof.
  intros Him Hsig Hcov Hp Hrx HTL HF Hsz Hwf Hstart.
  destruct (download_image_stream d IncFg sched p s w Him Hsig Hcov Hp Hrx HTL HF Hsz
              Hwf Hstart)
    as (s' & sched' & w' & p' & es' & rb' & Hrun & H1 & H2 & H3 & H4 & H5 & H6
        & H7 & H8 & H9).
  destruct (phase_done _ _ _ _ _ Him H5 H6) as (Hend & Hsize & Hsw & Hsg).
  exists (next_image s'), sched', w', es'.
  cbn [download_images]. rewrite Hrun. cbn [bind]. rewrite Hsize.
  split; [reflexivity|]. split; [exact H7|]. split; [exact Hsw|exact Hsg].
Qed.

Lemma download_images_two (d1 d2 : update_dw_info) (sched : list Z) (s : dl_state)
    (w : world) :
  image_in_stream d1 F T0 -> image_in_stream d2 F T0 ->
  DwImgId d1 <> DwImgId d2 ->
  ImgOffset d1 + sig_len (DwImgId d1) + ImageLen d1 <= ImgOffset d2 ->
  (8 <= length (signature s))%nat ->
  covers P sched F -> rx_data w = F -> TempLen s = T0 ->
  OtaFg s = false -> size s = 0 -> wfail w = [] ->
  exists osz exits s' sched' w' new,
    download_images P [d1; d2] false None [] sched s w
    = Some (osz, exits, s', sched', w') /\
    log w' = new ++ log w /\
    (forall d, d = d1 \/ d = d2 ->
       stream_writes (DwImgId d) (FlashAddr d)
         (skipn (Z.to_nat (ImgOffset d - T0 + sig_len (DwImgId d))) F)
         (events_of (DwImgId d) new) (ImageLen d) /\
       (DwImgId d = OTA_IMAG ->
        osz = Some (ImageLen d) /\
        firstn 8 (signature s') = slice F (ImgOffset d - T0) 8)).
Proof.
  intros Him1 Him2 Hne Hord Hsig Hcov Hrx HTL HF Hsz Hwf.
  pose proof Him1 as (Hq1 & _ & _).
  destruct (download_image_stream d1 false sched 0 s w Him1 Hsig)
    as (s1 & sched1 & w1 & p1 & es1 & rb1 & Hrun & H1 & H2 & H3 & H4 & H5 & H6
        & H7 & H8 & H9); auto; try lia.
  destruct (phase_done _ _ _ _ _ Him1 H5 H6) as (Hend & Hsize & Hsw1 & Hsg1).
  pose proof H5 as [Hsl1 _]. pose proof H3 as (Hrb1 & Hp0 & Hp1 & HTL1 & _).
  cbn [download_images]. rewrite Hrun. cbn [bind].
  destruct (download_images_one d2 true
              (match DwImgId d1 with
               | OTA_IMAG => Some (size s1)
               | RDP_IMAG => None
               end) ([] ++ [(DwImgId d1, LoopDone)]) sched1 p1 (next_image s1) w1 Him2)
    as (s2 & sched2 & w2 & es2 & Hrun2 & Hlog2 & Hsw2 & Hsg2); auto.
  - cbn [next_image signature]. lia.
  - lia.
  - exists rb1. split; [exact H3|]. lia.
  - cbn [download_images] in Hrun2. rewrite Hrun2.
    destruct (stream_writes_image _ _ _ _ _ Hsw1) as [Hiw1 _].
    destruct (stream_writes_image _ _ _ _ _ Hsw2) as [Hiw2 _].
    destruct (image_writes_events _ _ _ _ Hiw1) as (_ & He11 & He12 & _).
    destruct (image_writes_events _ _ _ _ Hiw2) as (_ & He21 & He22 & _).
    eexists _, _, s2, sched2, w2, (es2 ++ es1).
    split; [reflexivity|].
    split; [rewrite Hlog2, H7; apply app_assoc|].
    cbn [next_image signature] in Hsg2.
    intros d [-> | ->]; rewrite events_of_app.
    + rewrite He11, (He22 (DwImgId d1)) by exact Hne. cbn [app].
      split; [exact Hsw1|]. intros Hk. rewrite Hk in *.
      destruct (DwImgId d2); [congruence|].
      split; [congruence|]. rewrite Hsg2. exact Hsg1.
    + rewrite He21, (He12 (DwImgId d2)) by congruence. rewrite app_nil_r.
      split; [exact Hsw2|]. intros Hk. rewrite Hk in *.
      split; [reflexivity|exact Hsg2].
Qed.

End Stream.

Lemma new_events_app (w w' : world) (new : list event) :
  log w' = new ++ log w -> new_events w w' = new.
Proof.
  intros H. unfold new_events. rewrite H, length_app.
  replace (length new + length (log w) - length (log w))%nat with (length new) by lia.
  rewrite firstn_app, firstn_all, Nat.sub_diag. cbn [firstn]. apply app_nil_r.
Qed.

(** A download of a stream that holds the images, from reads that
    deliver it: the return value is the size of the payload, the
    signature holds the 8 bytes at the offset of the primary image, and
    the writes of each image hold its bytes of the stream. *)
Lemma download_streamed (P : platform) (addr : Z) (t : update_ota_target_hdr)
    (sig F : list byte) (sched : list Z) (w : world) :
  wf_platform P -> container_in_stream t F -> (8 <= length sig)%nat ->
  rx_data w = F -> wfail w = [] -> covers P sched F ->
  exists sg sched' w' new,
    download_new_fw_from_server P addr sched t sig w
    = Some (ImgLen (FileImgHdr t) - 8, sg, sched', w') /\
    firstn 8 sg = slice F (Offset (FileImgHdr t) - headers_len t) 8 /\
    log w' = new ++ log w /\
    stream_writes OTA_IMAG (u32 (addr - SPI_FLASH_BASE P + 8))
      (skipn (Z.to_nat (Offset (FileImgHdr t) - headers_len t + 8)) F)
      (events_of OTA_IMAG new) (ImgLen (FileImgHdr t) - 8) /\
    (if RdpStatus t
     then stream_writes RDP_IMAG (u32 (RDP_FLASH_ADDR P - SPI_FLASH_BASE P))
            (skipn (Z.to_nat (Offset (FileRdpHdr t) - headers_len t)) F)
            (events_of RDP_IMAG new) (ImgLen (FileRdpHdr t))
     else events_of RDP_IMAG new = []).
Proof.
  intros HP (Hlen & Hq & HL & Hend & Hrdp) Hsig Hrx Hwf Hcov.
  set (T0 := headers_len t) in *.
  assert (0 <= T0) as HT0 by (unfold T0, headers_len; apply u32_range).
  assert (u32 (ImgLen (FileImgHdr t) - 8) = ImgLen (FileImgHdr t) - 8) as HuL
    by (apply u32_small; lia).
  assert (image_in_stream (ota_dw_info P addr t) F T0) as Hota.
  { unfold image_in_stream. cbn [ota_dw_info ImgOffset ImageLen DwImgId sig_len].
    rewrite HuL. lia. }
  unfold download_new_fw_from_server, download_core, download_plan,
    arrange_download_info.
  destruct (RdpStatus t) eqn:Ers.
  - destruct (Hrdp eq_refl) as (Hrq & HrL & Hrend & Hord1 & Hord2).
    assert (image_in_stream (rdp_dw_info P t) F T0) as Hrdpi.
    { unfold image_in_stream. cbn [rdp_dw_info ImgOffset ImageLen DwImgId sig_len]. lia. }
    destruct (Offset (FileImgHdr t) <? Offset (FileRdpHdr t)) eqn:Eord;
      [apply Z.ltb_lt in Eord|apply Z.ltb_ge in Eord].
    + destruct (download_images_two P HP F T0 HT0 Hlen (ota_dw_info P addr t)
                  (rdp_dw_info P t) sched (dl_init P t sig) w Hota Hrdpi)
        as (osz & exits & s' & sched' & w' & new & Hrun & Hlog & Hboth);
        auto; try discriminate.
      { cbn [ota_dw_info rdp_dw_info ImgOffset ImageLen DwImgId sig_len].
        rewrite HuL. lia. }
      change (firstn (Z.to_nat 2) [ota_dw_info P addr t; rdp_dw_info P t])
        with [ota_dw_info P addr t; rdp_dw_info P t].
      rewrite Hrun. cbn [bind].
      destruct (Hboth _ (or_introl eq_refl)) as (Hsw1 & Hres).
      destruct (Hboth _ (or_intror eq_refl)) as (Hsw2 & _).
      destruct (Hres eq_refl) as (-> & Hsg).
      cbn [ota_dw_info rdp_dw_info ImgOffset ImageLen DwImgId sig_len FlashAddr] in *.
      rewrite HuL in *. cbn [bind].
      exists (signature s'), sched', w', new.
      rewrite Z.add_0_r in Hsw2. auto 10.
    + destruct (download_images_two P HP F T0 HT0 Hlen (rdp_dw_info P t)
                  (ota_dw_info P addr t) sched (dl_init P t sig) w Hrdpi Hota)
        as (osz & exits & s' & sched' & w' & new & Hrun & Hlog & Hboth);
        auto; try discriminate.
      { cbn [ota_dw_info rdp_dw_info ImgOffset ImageLen DwImgId sig_len]. lia. }
      change (firstn (Z.to_nat 2) [rdp_dw_info P t; ota_dw_info P addr t])
        with [rdp_dw_info P t; ota_dw_info P addr t].
      rewrite Hrun. cbn [bind].
      destruct (Hboth _ (or_intror eq_refl)) as (Hsw1 & Hres).
      destruct (Hboth _ (or_introl eq_refl)) as (Hsw2 & _).
      destruct (Hres eq_refl) as (-> & Hsg).
      cbn [ota_dw_info rdp_dw_info ImgOffset ImageLen DwImgId sig_len FlashAddr] in *.
      rewrite HuL in *. cbn [bind].
      exists (signature s'), sched', w', new.
      rewrite Z.add_0_r in Hsw2. auto 10.
  - change (firstn (Z.to_nat 1) [ota_dw_info P addr t; zero_dw_info])
      with [ota_dw_info P addr t].
    destruct (download_images_one P HP F T0 HT0 Hlen (ota_dw_info P addr t) false None []
                sched 0 (dl_init P t sig) w Hota)
      as (s' & sched' & w' & es & Hrun & Hlog & Hsw & Hsg); auto; try lia.
    { cbn [dl_init TempLen]. fold (headers_len t). fold T0. lia. }
    { cbn [ota_dw_info ImgOffset]. lia. }
    unfold bind at 1. rewrite Hrun.
    destruct (stream_writes_image _ _ _ _ _ Hsw) as [Hiw _].
    destruct (image_writes_events _ _ _ _ Hiw) as (_ & He & Hno & _).
    cbn [ota_dw_info rdp_dw_info ImgOffset ImageLen DwImgId sig_len FlashAddr] in *.
    rewrite HuL in *. cbn [bind].
    exists (signature s'), sched', w', es. rewrite He.
    split; [reflexivity|]. split; [exact Hsg|]. split; [exact Hlog|].
    split; [exact Hsw|apply Hno; discriminate].
Qed.

Lemma covers_ones (P : platform) (data : list byte) :
  0 < BUF_SIZE P -> covers P (repeat 1 (length data)) data.
Proof.
  intros HB. induction data as [|b data IH]; [reflexivity|].
  cbn [length repeat covers]. split; [lia|].
  replace (Z.min 1 (BUF_SIZE P)) with 1 by lia. exact IH.
Qed.

(** C2, as the code has it: signature-split invariance for an image
    with a payload.  Take a stream that holds the images of the container
    one after the other behind the headers, the primary image longer than
    its 8 signature bytes, and a flash whose writes succeed.  Whatever two
    sequences of reads deliver the stream (each read grants a byte at
    least, reads of one byte included; by [covers_fragments] any read sizes
    that fragment the stream do), both downloads return the declared
    length minus 8, leave the same 8 bytes in the signature, the 8 bytes
    of the stream at the offset of the primary image, and write the same
    bytes in the same order for each image: for the primary image the
    bytes of the stream from the ninth byte of the image on, one write
    right behind the other from the destination plus 8.  So no byte behind
    the eighth goes to the signature and none of the payload is lost,
    wherever the reads split the signature. *)
Theorem signature_split_invariance (P : platform) (addr : Z)
    (t : update_ota_target_hdr) (sig F : list byte) (sched1 sched2 : list Z)
    (w : world) :
  wf_platform P -> container_in_stream t F -> (8 <= length sig)%nat ->
  rx_data w = F -> wfail w = [] ->
  covers P sched1 F -> covers P sched2 F ->
  exists sg1 rest1 w1 sg2 rest2 w2,
    download_new_fw_from_server P addr sched1 t sig w
    = Some (ImgLen (FileImgHdr t) - 8, sg1, rest1, w1) /\
    download_new_fw_from_server P addr sched2 t sig w
    = Some (ImgLen (FileImgHdr t) - 8, sg2, rest2, w2) /\
    firstn 8 sg1 = slice F (Offset (FileImgHdr t) - headers_len t) 8 /\
    firstn 8 sg2 = firstn 8 sg1 /\
    written OTA_IMAG w w1
    = slice F (Offset (FileImgHdr t) - headers_len t + 8) (ImgLen (FileImgHdr t) - 8) /\
    written OTA_IMAG w w2 = written OTA_IMAG w w1 /\
    written RDP_IMAG w w2 = written RDP_IMAG w w1 /\
    image_writes OTA_IMAG (u32 (addr - SPI_FLASH_BASE P + 8))
      (events_of OTA_IMAG (new_events w w1)) (ImgLen (FileImgHdr t) - 8) /\
    image_writes OTA_IMAG (u32 (addr - SPI_FLASH_BASE P + 8))
      (events_of OTA_IMAG (new_events w w2)) (ImgLen (FileImgHdr t) - 8).
Proof.
  intros HP Hc Hsig Hrx Hwf Hcov1 Hcov2.
  destruct (download_streamed P addr t sig F sched1 w HP Hc Hsig Hrx Hwf Hcov1)
    as (sg1 & rest1 & w1 & new1 & Hrun1 & Hsg1 & Hlog1 & Hota1 & Hrdp1).
  destruct (download_streamed P addr t sig F sched2 w HP Hc Hsig Hrx Hwf Hcov2)
    as (sg2 & rest2 & w2 & new2 & Hrun2 & Hsg2 & Hlog2 & Hota2 & Hrdp2).
  exists sg1, rest1, w1, sg2, rest2, w2.
  unfold written. rewrite (new_events_app _ _ _ Hlog1), (new_events_app _ _ _ Hlog2).
  destruct (stream_writes_image _ _ _ _ _ Hota1) as [Hiw1 Hp1].
  destruct (stream_writes_image _ _ _ _ _ Hota2) as [Hiw2 Hp2].
  destruct Hc as (_ & Hq & HL & _).
  assert (0 <= headers_len t) as HT0 by (unfold headers_len; apply u32_range).
  split; [exact Hrun1|]. split; [exact Hrun2|]. split; [exact Hsg1|].
  split; [congruence|].
  split; [rewrite Hp1, slice_skipn by lia; f_equal; lia|].
  split; [congruence|].
  split; [|split; [exact Hiw1|exact Hiw2]].
  destruct (RdpStatus t).
  - destruct (stream_writes_image _ _ _ _ _ Hrdp1) as [_ Hr1].
    destruct (stream_writes_image _ _ _ _ _ Hrdp2) as [_ Hr2]. congruence.
  - rewrite Hrdp1, Hrdp2. reflexivity.
Qed.

(** Witness of [signature_split_invariance]: the demonstration stream,
    read as the 8 bytes of the signature and then the payload, and read
    byte by byte. *)
Lemma signature_split_invariance_witness :
  container_in_stream demo_target_hdr demo_stream /\
  covers amebaz reads_8_then_100 demo_stream /\
  covers amebaz reads_of_1 demo_stream /\
  exists sg1 rest1 w1 sg2 rest2 w2,
    download_new_fw_from_server amebaz 0x08080000 reads_8_then_100 demo_target_hdr
      (repeat x00 9) (demo_world demo_stream) = Some (100, sg1, rest1, w1) /\
    download_new_fw_from_server amebaz 0x08080000 reads_of_1 demo_target_hdr
      (repeat x00 9) (demo_world demo_stream) = Some (100, sg2, rest2, w2) /\
    firstn 8 sg1 = firstn 8 demo_signature /\
    firstn 8 sg2 = firstn 8 sg1 /\
    written OTA_IMAG (demo_world demo_stream) w1 = demo_payload /\
    written OTA_IMAG (demo_world demo_stream) w2
    = written OTA_IMAG (demo_world demo_stream) w1.
Proof.
  assert (container_in_stream demo_target_hdr demo_stream) as Hc.
  { vm_compute. repeat split; try discriminate. }
  assert (covers amebaz reads_8_then_100 demo_stream) as H1.
  { vm_compute. repeat split. }
  assert (covers amebaz reads_of_1 demo_stream) as H2.
  { apply (covers_ones amebaz demo_stream). reflexivity. }
  split; [exact Hc|]. split; [exact H1|]. split; [exact H2|].
  destruct (signature_split_invariance amebaz 0x08080000 demo_target_hdr (repeat x00 9)
              demo_stream reads_8_then_100 reads_of_1 (demo_world demo_stream))
    as (sg1 & rest1 & w1 & sg2 & rest2 & w2 & R1 & R2 & S1 & S2 & W1 & W2 & _).
  - unfold wf_platform. cbn. lia.
  - exact Hc.
  - cbn. lia.
  - reflexivity.
  - reflexivity.
  - exact H1.
  - exact H2.
  - exists sg1, rest1, w1, sg2, rest2, w2.
    split; [exact R1|]. split; [exact R2|]. split; [exact S1|]. split; [exact S2|].
    split; [exact W1|exact W2].
Defined.

(** C2 as it is stated fails: for an image of 8 bytes, the signature and
    no payload, [RemainBytes] starts at 0 and the loop of the image is
    never entered.  The 8 bytes of the signature wait in the stream, no
    read is made, the function returns 0, the declared length minus 8, and
    the caller's signature buffer is as it was: zeros, not the first 8
    bytes of the image. *)
Lemma signature_not_read_without_payload :
  ImgLen (FileImgHdr sig_only_hdr) = 8 /\
  Offset (FileImgHdr sig_only_hdr) = headers_len sig_only_hdr /\
  covers amebaz [8] (firstn 8 demo_signature) /\
  download_new_fw_from_server amebaz 0x08080000 [8] sig_only_hdr (repeat x00 9)
    (demo_world (firstn 8 demo_signature))
  = Some (0, repeat x00 9, [8], demo_world (firstn 8 demo_signature)) /\
  firstn 8 (repeat x00 9) <> firstn 8 demo_signature.
Proof.
  split; [vm_compute; reflexivity|]. split; [vm_compute; reflexivity|].
  split; [vm_compute; split; reflexivity|].
  split; [vm_compute; reflexivity|].
  vm_compute. intros H. discriminate H.
Qed.


(* ----------------------------------------------------------------- *)
(** ** Receiving: what arrives in the buffer *)

Lemma store_bytes_eq (bs d : list byte) (off : Z) :
  0 <= off -> off + Z.of_nat (length d) <= Z.of_nat (length bs) ->
  store_bytes bs off d
  = Some (firstn (Z.to_nat off) bs ++ d ++ skipn (Z.to_nat off + length d) bs).
Proof.
  intros H0 H1. unfold store_bytes.
  destruct (0 <=? off) eqn:E0; [|apply Z.leb_gt in E0; lia].
  destruct (off + Z.of_nat (length d) <=? Z.of_nat (length bs)) eqn:E1;
    [reflexivity|apply Z.leb_gt in E1; lia].
Qed.

(** A store behind a store: the bytes before stay, the two pieces lie
    side by side. *)
Lemma stored_twice (bs d1 d2 : list byte) (p : nat) :
  (p + length d1 + length d2 <= length bs)%nat ->
  let bs1 := firstn p bs ++ d1 ++ skipn (p + length d1) bs in
  firstn (p + length d1) bs1 ++ d2 ++ skipn (p + length d1 + length d2) bs1
  = firstn p bs ++ (d1 ++ d2) ++ skipn (p + length d1 + length d2) bs.
Proof.
  intros H bs1.
  assert (length (firstn p bs) = p) as Hp by (rewrite length_firstn; lia).
  assert (firstn (p + length d1) bs1 = firstn p bs ++ d1) as ->.
  { unfold bs1. rewrite app_assoc. rewrite firstn_app.
    replace (p + length d1 - length (firstn p bs ++ d1))%nat with O
      by (rewrite length_app, Hp; lia).
    cbn [firstn]. rewrite app_nil_r. apply firstn_all2.
    rewrite length_app, Hp. lia. }
  assert (skipn (p + length d1 + length d2) bs1
          = skipn (p + length d1 + length d2) bs) as ->.
  { unfold bs1. rewrite app_assoc, skipn_app.
    rewrite (skipn_all2 (firstn p bs ++ d1)) by (rewrite length_app, Hp; lia).
    cbn [app]. rewrite length_app, Hp, skipn_skipn. f_equal. lia. }
  rewrite <- !app_assoc. reflexivity.
Qed.

(** The receive loop, when no read fails: it stops when [need] bytes are
    in or the peer has closed, and says [true] in both cases; the bytes
    that came lie from [pos] on, the rest of the buffer is as it was. *)
Lemma recv_loop_received : forall (sched : list Z) (need : Z) (buf : list byte)
    (pos : Z) (w : world),
  Forall (fun n => 0 < n) sched ->
  0 <= need < 2 ^ 32 -> 0 <= pos -> pos + need <= Z.of_nat (length buf) ->
  let m := Z.min need (Z.of_nat (length (rx_data w))) in
  m <= Z.of_nat (length sched) ->
  exists k w',
    recv_loop sched need buf pos w
    = Some (true,
            firstn (Z.to_nat pos) buf ++ firstn (Z.to_nat m) (rx_data w)
            ++ skipn (Z.to_nat (pos + m)) buf,
            skipn k sched, w') /\
    (Z.of_nat (length (rx_data w)) >= need -> Z.of_nat k <= need) /\
    rx_data w' = skipn (Z.to_nat m) (rx_data w) /\
    log w' = log w /\ flash0 w' = flash0 w /\ wfail w' = wfail w.
Proof.
  induction sched as [|n sched IH]; intros need buf pos w Hpos Hneed Hp Hfit m Hm.
  - cbn [length] in Hm. assert (m = 0) as Hm0 by lia.
    exists O, w. rewrite Hm0. cbn [Z.to_nat firstn app skipn].
    rewrite Z.add_0_r, firstn_skipn.
    split; [cbn [recv_loop]; destruct (need >? 0); reflexivity|].
    repeat split; auto; lia.
  - cbn [recv_loop]. destruct (need >? 0) eqn:En.
    + apply Z.gtb_lt in En. inversion Hpos as [|? ? Hn Hpos']; subst.
      destruct (read (Some n) need w) as [[r d] w1] eqn:Er.
      apply read_spec in Er.
      destruct Er as (Hl1 & Hf1 & Hw1 & Hrx1 & [(Hneg & _)|(_ & Hr & Hd)]); [lia|].
      assert (r = Z.min (Z.min n need) (Z.of_nat (length (rx_data w)))) as Hrv
        by (rewrite Hr, Hd, length_firstn; lia).
      destruct (r <? 0) eqn:E1; [apply Z.ltb_lt in E1; lia|].
      assert (d = firstn (Z.to_nat r) (rx_data w)) as Hd'.
      { rewrite Hr, Nat2Z.id. rewrite Hd at 2. rewrite firstn_self. exact Hd. }
      assert (rx_data w1 = skipn (Z.to_nat r) (rx_data w)) as Hrest.
      { apply (app_inv_head d). rewrite <- Hrx1. rewrite Hd' at 1.
        symmetry. apply firstn_skipn. }
      destruct (r =? 0) eqn:E0.
      * apply Z.eqb_eq in E0.
        assert (m = 0) as Hm0 by (unfold m; lia).
        exists 1%nat, w1. rewrite Hm0. cbn [Z.to_nat firstn app skipn].
        rewrite Z.add_0_r, firstn_skipn.
        split; [reflexivity|]. split; [lia|].
        rewrite Hrest, E0. auto.
      * apply Z.eqb_neq in E0.
        rewrite store_bytes_eq by lia. cbn [bind].
        rewrite (u32_small (need - r)) by lia.
        set (buf1 := firstn (Z.to_nat pos) buf ++ d
                     ++ skipn (Z.to_nat pos + length d) buf).
        assert (length buf1 = length buf) as Hlen1.
        { unfold buf1. rewrite !length_app, length_firstn, length_skipn. lia. }
        destruct (IH (need - r) buf1 (pos + r) w1 Hpos') as (k & w' & Hrun & Hk & Hrx' & Hl' & Hf' & Hw');
          try lia.
        { rewrite Hrest, length_skipn. cbn [length] in Hm. unfold m in Hm. lia. }
        exists (S k), w'. cbn [skipn].
        rewrite Hrun. split.
        { f_equal. f_equal. f_equal. f_equal.
          rewrite Hrest, length_skipn.
          set (m' := Z.min (need - r)
                       (Z.of_nat (length (rx_data w) - Z.to_nat r))).
          assert (m = r + m') as -> by (unfold m, m'; lia).
          assert (firstn (Z.to_nat (r + m')) (rx_data w)
                  = d ++ firstn (Z.to_nat m') (skipn (Z.to_nat r) (rx_data w))) as ->.
          { rewrite Hd'. replace (Z.to_nat (r + m')) with (Z.to_nat r + Z.to_nat m')%nat
              by (unfold m'; lia).
            rewrite <- (firstn_skipn (Z.to_nat r) (rx_data w)) at 1.
            rewrite firstn_app, length_firstn.
            replace (Nat.min (Z.to_nat r) (length (rx_data w))) with (Z.to_nat r) by lia.
            rewrite firstn_firstn.
            replace (Nat.min (Z.to_nat r + Z.to_nat m') (Z.to_nat r)) with (Z.to_nat r) by lia.
            f_equal. f_equal. lia. }
          pose proof (stored_twice buf d
                        (firstn (Z.to_nat m') (skipn (Z.to_nat r) (rx_data w)))
                        (Z.to_nat pos)) as Hst.
          assert (length (firstn (Z.to_nat m') (skipn (Z.to_nat r) (rx_data w)))
                  = Z.to_nat m') as Hlm
            by (rewrite length_firstn, length_skipn; unfold m'; lia).
          rewrite Hlm in Hst. cbv zeta in Hst. fold buf1 in Hst.
          replace (Z.to_nat (pos + r)) with (Z.to_nat pos + length d)%nat by lia.
          replace (Z.to_nat (pos + r + m'))
            with (Z.to_nat pos + length d + Z.to_nat m')%nat by (unfold m'; lia).
          replace (Z.to_nat (pos + (r + m')))
            with (Z.to_nat pos + length d + Z.to_nat m')%nat by (unfold m'; lia).
          apply Hst. unfold m'. lia. }
        split; [intros Hge; rewrite Hrest, length_skipn in Hk; lia|].
        split.
        { rewrite Hrx', Hrest, skipn_skipn. f_equal. 
          rewrite length_skipn. unfold m. lia. }
        split; [congruence|]. split; congruence.
    + rewrite Z.gtb_ltb in En. apply Z.ltb_ge in En.
      assert (m = 0) as Hm0 by (unfold m; lia).
      exists O, w. rewrite Hm0. cbn [Z.to_nat firstn app skipn].
      rewrite Z.add_0_r, firstn_skipn.
      split; [reflexivity|]. repeat split; auto; lia.
Qed.

(** X1: [recv_file_info_from_server], when no read fails, returns 1 as
    soon as [len] bytes are in or the peer has closed, whichever comes
    first: an early close is not told from a full transfer.  The bytes
    that came lie at the front of the buffer, in the order of the stream;
    the rest of the buffer is as it was, and the stream is left behind the
    bytes taken. *)
Theorem recv_file_info_received (Recvbuf : list byte) (len : Z) (sched : list Z)
    (w : world) :
  Forall (fun n => 0 < n) sched ->
  0 <= len < 2 ^ 32 -> len <= Z.of_nat (length Recvbuf) ->
  let m := Z.min len (Z.of_nat (length (rx_data w))) in
  m <= Z.of_nat (length sched) ->
  exists sched' w',
    recv_file_info_from_server Recvbuf len sched w
    = Some (1, firstn (Z.to_nat m) (rx_data w) ++ skipn (Z.to_nat m) Recvbuf,
            sched', w') /\
    rx_data w' = skipn (Z.to_nat m) (rx_data w) /\
    log w' = log w /\ flash0 w' = flash0 w.
Proof.
  intros Hs Hlen Hfit m Hm.
  destruct (recv_loop_received sched len Recvbuf 0 w Hs Hlen ltac:(lia) ltac:(lia) Hm)
    as (k & w' & Hrun & _ & Hrx & Hl & Hf & _).
  exists (skipn k sched), w'. unfold recv_file_info_from_server.
  rewrite Hrun. cbn [bind]. fold m. rewrite Z.add_0_l. cbn [Z.to_nat firstn app].
  auto.
Qed.

(** Witness of [recv_file_info_received]: the peer closes after 5 of the
    12 bytes, and the call returns 1. *)
Lemma recv_file_info_received_witness :
  exists sched' w',
    recv_file_info_from_server (repeat x00 12) 12 [3; 4; 4; 4; 4]
      (world_of erased_flash (repeat x01 5))
    = Some (1, repeat x01 5 ++ repeat x00 7, sched', w') /\
    rx_data w' = [].
Proof.
  destruct (recv_file_info_received (repeat x00 12) 12 [3; 4; 4; 4; 4]
              (world_of erased_flash (repeat x01 5)))
    as (sched' & w' & Hrun & Hrx & _).
  - repeat constructor.
  - lia.
  - vm_compute. intros H. discriminate H.
  - vm_compute. intros H. discriminate H.
  - exists sched', w'. split; [exact Hrun|exact Hrx].
Defined.

(** The receive loop for any behaviour of the network: with [need] bytes
    of room behind [pos] no store leaves the buffer, the bytes outside
    that room stay, and [false] comes from a failed read only. *)
Lemma recv_loop_safe : forall (sched : list Z) (need : Z) (buf : list byte) (pos : Z)
    (w : world),
  0 <= need < 2 ^ 32 -> 0 <= pos -> pos + need <= Z.of_nat (length buf) ->
  exists ok b s w',
    recv_loop sched need buf pos w = Some (ok, b, s, w') /\
    length b = length buf /\
    firstn (Z.to_nat pos) b = firstn (Z.to_nat pos) buf /\
    skipn (Z.to_nat (pos + need)) b = skipn (Z.to_nat (pos + need)) buf /\
    (ok = false -> Exists (fun n => n < 0) sched) /\
    (Forall (fun n => 0 <= n) sched -> ok = true).
Proof.
  induction sched as [|n sched IH]; intros need buf pos w Hneed Hp Hfit.
  - exists true, buf, [], w. cbn [recv_loop]. destruct (need >? 0);
      repeat split; auto; discriminate.
  - cbn [recv_loop]. destruct (need >? 0) eqn:En.
    + apply Z.gtb_lt in En.
      destruct (read (Some n) need w) as [[r d] w1] eqn:Er.
      apply read_spec in Er.
      destruct Er as (_ & _ & _ & _ & [(Hneg & -> & ->)|(Hn & Hr & Hd)]).
      * exists false, buf, sched, w1. cbn. repeat split; auto.
        intros H. inversion H; subst. lia.
      * assert (0 <= r <= need) as Hrr by (rewrite Hr, Hd, length_firstn; lia).
        destruct (r <? 0) eqn:E1; [apply Z.ltb_lt in E1; lia|].
        destruct (r =? 0) eqn:E0.
        { exists true, buf, sched, w1. repeat split; auto. discriminate. }
        apply Z.eqb_neq in E0.
        rewrite store_bytes_eq by lia. cbn [bind].
        rewrite (u32_small (need - r)) by lia.
        set (buf1 := firstn (Z.to_nat pos) buf ++ d
                     ++ skipn (Z.to_nat pos + length d) buf).
        assert (length buf1 = length buf) as Hlen1.
        { unfold buf1. rewrite !length_app, length_firstn, length_skipn. lia. }
        destruct (IH (need - r) buf1 (pos + r) w1)
          as (ok & b & s & w' & Hrun & Hlb & Hfb & Hsb & Hok & Hall); try lia.
        exists ok, b, s, w'. split; [exact Hrun|]. split; [congruence|].
        assert (length (firstn (Z.to_nat pos) buf) = Z.to_nat pos) as Hfp
          by (rewrite length_firstn; lia).
        split.
        { apply (f_equal (firstn (Z.to_nat pos))) in Hfb.
          rewrite !firstn_firstn in Hfb.
          replace (Nat.min (Z.to_nat pos) (Z.to_nat (pos + r))) with (Z.to_nat pos)
            in Hfb by lia.
          rewrite Hfb. unfold buf1. rewrite firstn_app, Hfp, Nat.sub_diag.
          cbn [firstn]. rewrite app_nil_r. rewrite firstn_firstn. f_equal. lia. }
        split.
        { replace (pos + r + (need - r)) with (pos + need) in Hsb by lia.
          rewrite Hsb. unfold buf1. rewrite app_assoc, skipn_app.
          rewrite skipn_all2 by (rewrite length_app, Hfp; lia).
          cbn [app]. rewrite length_app, Hfp, skipn_skipn. f_equal. lia. }
        split; [intros H; right; auto|].
        intros H. inversion H; subst. auto.
    + exists true, buf, (n :: sched), w. repeat split; auto. discriminate.
Qed.

(** X2: whatever the network does, [recv_file_info_from_server] on a
    buffer of [len] bytes at least stores inside the first [len] bytes
    only; it returns 0 or 1, and 0 only if a read has failed: when the
    first read fails it returns 0 with the buffer untouched. *)
Theorem recv_file_info_safe (Recvbuf : list byte) (len : Z) (sched : list Z)
    (w : world) :
  0 <= len < 2 ^ 32 -> len <= Z.of_nat (length Recvbuf) ->
  exists ret b s w',
    recv_file_info_from_server Recvbuf len sched w = Some (ret, b, s, w') /\
    length b = length Recvbuf /\
    skipn (Z.to_nat len) b = skipn (Z.to_nat len) Recvbuf /\
    (ret = 0 \/ ret = 1) /\
    (ret = 0 -> Exists (fun n => n < 0) sched) /\
    (forall n rest, sched = n :: rest -> n < 0 -> 0 < len ->
       ret = 0 /\ b = Recvbuf) /\
    log w' = log w /\ flash0 w' = flash0 w.
Proof.
  intros Hlen Hfit.
  destruct (recv_loop_safe sched len Recvbuf 0 w Hlen ltac:(lia) ltac:(lia))
    as (ok & b & s & w' & Hrun & Hlb & _ & Hsb & Hok & _).
  destruct (recv_loop_frame _ _ _ _ _ _ _ _ _ Hrun) as [Hl Hf].
  exists (if ok then 1 else 0), b, s, w'. unfold recv_file_info_from_server.
  rewrite Hrun. cbn [bind]. split; [reflexivity|]. split; [exact Hlb|].
  split; [exact Hsb|]. split; [destruct ok; auto|].
  split; [destruct ok; [discriminate|auto]|]. split; [|auto].
  intros n rest -> Hn Hpos. cbn [recv_loop] in Hrun.
  destruct (len >? 0) eqn:E; [|rewrite Z.gtb_ltb in E; apply Z.ltb_ge in E; lia].
  unfold read, deliver in Hrun.
  destruct (n <? 0) eqn:En; [|apply Z.ltb_ge in En; lia].
  cbn in Hrun. injection Hrun as <- <- _ _. auto.
Qed.

(** Witness of [recv_file_info_safe]: the second read fails. *)
Lemma recv_file_info_safe_witness :
  exists b s w',
    recv_file_info_from_server (repeat x00 12) 12 [4; -1]
      (world_of erased_flash (repeat x01 12))
    = Some (0, b, s, w') /\ length b = 12%nat.
Proof.
  destruct (recv_file_info_safe (repeat x00 12) 12 [4; -1]
              (world_of erased_flash (repeat x01 12)))
    as (ret & b & s & w' & Hrun & Hlb & _).
  - lia.
  - vm_compute. intros H. discriminate H.
  - assert (option_map (fun r => fst (fst (fst r)))
              (recv_file_info_from_server (repeat x00 12) 12 [4; -1]
                 (world_of erased_flash (repeat x01 12))) = Some 0) as Hc
      by (vm_compute; reflexivity).
    rewrite Hrun in Hc. cbn in Hc. injection Hc as ->.
    exists b, s, w'. split; [exact Hrun|exact Hlb].
Defined.

Lemma load32_prefix (data rest : list byte) (off v : Z) (k : nat) :
  load32 data off = Some v -> off + 4 <= Z.of_nat k -> (k <= length data)%nat ->
  load32 (firstn k data ++ rest) off = Some v.
Proof.
  unfold load32, load_bytes. intros H Hk Hl.
  destruct ((0 <=? off) && (off + Z.of_nat 4 <=? Z.of_nat (length data))) eqn:E;
    [|discriminate].
  apply andb_true_iff in E. destruct E as [E0 E1]. apply Z.leb_le in E0, E1.
  cbn [option_map] in H.
  assert (v = le_val (firstn 4 (skipn (Z.to_nat off) data))) as -> by congruence.
  clear H. rewrite length_app, length_firstn.
  destruct ((0 <=? off)
            && (off + Z.of_nat 4 <=? Z.of_nat (Nat.min k (length data) + length rest)))
    eqn:E; [|apply andb_false_iff in E; destruct E as [E|E]; apply Z.leb_gt in E; lia].
  cbn [option_map]. f_equal. f_equal.
  rewrite skipn_app, firstn_app.
  replace (4 - length (skipn (Z.to_nat off) (firstn k data)))%nat with O
    by (rewrite length_skipn, length_firstn; lia).
  rewrite firstn_O, app_nil_r.
  rewrite skipn_firstn_comm, firstn_firstn. f_equal. lia.
Qed.

(** X3: [recv_ota_file_hdr] on a stream that holds the header block and a
    buffer that takes it, when no read fails: with [HdrNum] and
    [ImgHdrLen] the second and the fourth word of the stream, it takes
    [HdrNum * ImgHdrLen + 8] bytes from the stream, no more, puts them at
    the front of the buffer, reports that count in [*len], copies [FwVer]
    and [HdrNum] to the target header and returns 1. *)
Theorem recv_ota_file_hdr_received (Recvbuf : list byte) (len0 : Z)
    (t : update_ota_target_hdr) (sched : list Z) (w : world) (FwVer_ HdrNum_ L_ : Z) :
  Forall (fun n => 0 < n) sched ->
  load32 (rx_data w) 0 = Some FwVer_ ->
  load32 (rx_data w) 4 = Some HdrNum_ ->
  load32 (rx_data w) 12 = Some L_ ->
  let N := HdrNum_ * L_ + 8 in
  16 <= N < 2 ^ 32 ->
  N <= Z.of_nat (length Recvbuf) -> N <= Z.of_nat (length (rx_data w)) ->
  N <= Z.of_nat (length sched) ->
  exists sched' w',
    recv_ota_file_hdr Recvbuf len0 t sched w
    = Some (1, firstn (Z.to_nat N) (rx_data w) ++ skipn (Z.to_nat N) Recvbuf, N,
            set_FileHdr t {| FwVer := FwVer_; HdrNum := HdrNum_ |}, sched', w') /\
    rx_data w' = skipn (Z.to_nat N) (rx_data w) /\
    log w' = log w /\ flash0 w' = flash0 w.
Proof.
  intros Hs H0 H4 H12 N HN Hbuf Hdata Hsched.
  destruct (recv_loop_received sched 16 Recvbuf 0 w Hs)
    as (k & w1 & Hrun1 & Hk & Hrx1 & Hl1 & Hf1 & _); try lia.
  cbv zeta in Hrun1, Hrx1.
  replace (Z.min 16 (Z.of_nat (length (rx_data w)))) with 16 in * by lia.
  specialize (Hk ltac:(lia)).
  unfold recv_ota_file_hdr. rewrite Hrun1. cbn [bind negb].
  change (Z.to_nat 0) with O. change (0 + 16) with 16.
  rewrite firstn_O. cbn [app].
  set (b1 := firstn (Z.to_nat 16) (rx_data w) ++ skipn (Z.to_nat 16) Recvbuf).
  unfold b1 at 1 2 3.
  rewrite (load32_prefix _ _ _ _ (Z.to_nat 16) H0),
    (load32_prefix _ _ _ _ (Z.to_nat 16) H4),
    (load32_prefix _ _ _ _ (Z.to_nat 16) H12) by lia.
  cbn [bind].
  replace (HdrNum_ * L_ - 8) with (N - 16) by (unfold N; lia).
  rewrite (u32_small (N - 16)) by lia. fold N. rewrite (u32_small N) by lia.
  assert (length b1 = length Recvbuf) as Hlb1
    by (unfold b1; rewrite length_app, length_firstn, length_skipn; lia).
  destruct (recv_loop_received (skipn k sched) (N - 16) b1 16 w1)
    as (k2 & w2 & Hrun2 & _ & Hrx2 & Hl2 & Hf2 & _); try lia.
  { apply Forall_forall. intros x Hx. rewrite Forall_forall in Hs. apply Hs.
    rewrite <- (firstn_skipn k sched). apply in_or_app. now right. }
  { rewrite length_skipn. lia. }
  rewrite Hrx1, length_skipn in Hrun2, Hrx2.
  replace (Z.min (N - 16) (Z.of_nat (length (rx_data w) - Z.to_nat 16))) with (N - 16)
    in * by lia.
  rewrite Hrun2. cbn [bind negb].
  exists (skipn k2 (skipn k sched)), w2. split.
  - f_equal. f_equal. f_equal. f_equal. f_equal.
    replace (16 + (N - 16)) with N by lia.
    assert (firstn (Z.to_nat 16) b1 = firstn (Z.to_nat 16) (rx_data w)) as ->.
    { unfold b1. rewrite firstn_app, firstn_firstn, length_firstn.
      replace (Z.to_nat 16 - Nat.min (Z.to_nat 16) (length (rx_data w)))%nat
        with O by lia.
      rewrite firstn_O, app_nil_r, Nat.min_id. reflexivity. }
    assert (skipn (Z.to_nat N) b1 = skipn (Z.to_nat N) Recvbuf) as ->.
    { unfold b1. rewrite skipn_app, length_firstn.
      rewrite skipn_all2 by (rewrite length_firstn; lia). cbn [app].
      rewrite skipn_skipn. f_equal. lia. }
    rewrite app_assoc. f_equal.
    rewrite <- (firstn_skipn (Z.to_nat 16) (firstn (Z.to_nat N) (rx_data w))).
    rewrite firstn_firstn, skipn_firstn_comm.
    replace (Nat.min (Z.to_nat 16) (Z.to_nat N)) with (Z.to_nat 16) by lia.
    replace (Z.to_nat N - Z.to_nat 16)%nat with (Z.to_nat (N - 16)) by lia.
    reflexivity.
  - split; [|split; congruence].
    rewrite Hrx2, skipn_skipn. f_equal. lia.
Qed.

(** Witness of [recv_ota_file_hdr_received]: the header block of the
    demonstration file, 32 bytes, in reads of 7 bytes. *)
Lemma recv_ota_file_hdr_received_witness :
  exists sched' w',
    recv_ota_file_hdr (alloc_junk env_ok) 0 zero_target_hdr (repeat 7 40)
      (world_of erased_flash (skipn 12 demo_file))
    = Some (1, firstn 32 (skipn 12 demo_file) ++ skipn 32 (alloc_junk env_ok), 32,
            set_FileHdr zero_target_hdr {| FwVer := 1; HdrNum := 1 |}, sched', w').
Proof.
  destruct (recv_ota_file_hdr_received (alloc_junk env_ok) 0 zero_target_hdr
              (repeat 7 40) (world_of erased_flash (skipn 12 demo_file)) 1 1 24)
    as (sched' & w' & Hrun & _).
  - apply Forall_forall. intros x Hx. apply repeat_spec in Hx. lia.
  - reflexivity.
  - reflexivity.
  - reflexivity.
  - lia.
  - vm_compute. intros H. discriminate H.
  - vm_compute. intros H. discriminate H.
  - vm_compute. intros H. discriminate H.
  - exists sched', w'. exact Hrun.
Defined.

(** The receive loop when more is asked for than the buffer has room for
    and the peer sends more than the room: a store leaves the buffer. *)
Lemma recv_loop_overrun : forall (sched : list Z) (need : Z) (buf : list byte)
    (pos : Z) (w : world),
  Forall (fun n => 0 < n) sched ->
  0 <= need < 2 ^ 32 -> 0 <= pos <= Z.of_nat (length buf) ->
  Z.of_nat (length buf) < pos + need ->
  Z.of_nat (length buf) - pos < Z.of_nat (length (rx_data w)) ->
  Z.of_nat (length buf) - pos < Z.of_nat (length sched) ->
  recv_loop sched need buf pos w = None.
Proof.
  induction sched as [|n sched IH]; intros need buf pos w Hs Hneed Hp Hover Hdata Hlen.
  - cbn [length] in Hlen. lia.
  - cbn [recv_loop]. destruct (need >? 0) eqn:En;
      [|rewrite Z.gtb_ltb in En; apply Z.ltb_ge in En; lia].
    inversion Hs as [|? ? Hn Hs']; subst.
    destruct (read (Some n) need w) as [[r d] w1] eqn:Er.
    apply read_spec in Er.
    destruct Er as (_ & _ & _ & Hrx1 & [(Hneg & _)|(_ & Hr & Hd)]); [lia|].
    assert (r = Z.min (Z.min n need) (Z.of_nat (length (rx_data w)))) as Hrv
      by (rewrite Hr, Hd, length_firstn; lia).
    destruct (r <? 0) eqn:E1; [apply Z.ltb_lt in E1; lia|].
    destruct (r =? 0) eqn:E0; [apply Z.eqb_eq in E0; lia|].
    apply Z.eqb_neq in E0.
    destruct (Z_le_gt_dec (pos + r) (Z.of_nat (length buf))) as [Hin|Hout].
    + rewrite store_bytes_eq by lia. cbn [bind].
      rewrite (u32_small (need - r)) by lia.
      apply IH; auto; try lia.
      * rewrite !length_app, length_firstn, length_skipn. lia.
      * rewrite !length_app, length_firstn, length_skipn. lia.
      * apply (f_equal (@length byte)) in Hrx1. rewrite length_app in Hrx1.
        rewrite !length_app, length_firstn, length_skipn. lia.
      * cbn [length] in Hlen.
        rewrite !length_app, length_firstn, length_skipn. lia.
    + unfold store_bytes.
      destruct (0 <=? pos); cbn [andb]; [|reflexivity].
      destruct (pos + Z.of_nat (length d) <=? Z.of_nat (length buf)) eqn:E;
        [apply Z.leb_le in E; lia|reflexivity].
Qed.

(** X4: [recv_ota_file_hdr] does not hold the header block it is told of
    against the buffer.  When the block announced ([HdrNum * ImgHdrLen + 8]
    bytes; with [HdrNum * ImgHdrLen] below 8 the count of the second loop
    wraps to nearly 2^32) does not fit the buffer and the peer sends more
    than the buffer takes, the bytes are stored past the end of the
    buffer: the behaviour is undefined. *)
Theorem recv_ota_file_hdr_overruns (Recvbuf : list byte) (len0 : Z)
    (t : update_ota_target_hdr) (sched : list Z) (w : world) (FwVer_ HdrNum_ L_ : Z) :
  Forall (fun n => 0 < n) sched ->
  load32 (rx_data w) 0 = Some FwVer_ ->
  load32 (rx_data w) 4 = Some HdrNum_ ->
  load32 (rx_data w) 12 = Some L_ ->
  16 <= Z.of_nat (length Recvbuf) ->
  Z.of_nat (length Recvbuf) < 16 + u32 (HdrNum_ * L_ - 8) ->
  Z.of_nat (length Recvbuf) < Z.of_nat (length (rx_data w)) ->
  Z.of_nat (length Recvbuf) < Z.of_nat (length sched) ->
  recv_ota_file_hdr Recvbuf len0 t sched w = None.
Proof.
  intros Hs H0 H4 H12 Hbuf Hover Hdata Hsched.
  destruct (recv_loop_received sched 16 Recvbuf 0 w Hs)
    as (k & w1 & Hrun1 & Hk & Hrx1 & Hl1 & Hf1 & _); try lia.
  cbv zeta in Hrun1, Hrx1.
  replace (Z.min 16 (Z.of_nat (length (rx_data w)))) with 16 in * by lia.
  specialize (Hk ltac:(lia)).
  unfold recv_ota_file_hdr. rewrite Hrun1. cbn [bind negb].
  change (Z.to_nat 0) with O. change (0 + 16) with 16.
  rewrite firstn_O. cbn [app].
  set (b1 := firstn (Z.to_nat 16) (rx_data w) ++ skipn (Z.to_nat 16) Recvbuf).
  unfold b1 at 1 2 3.
  rewrite (load32_prefix _ _ _ _ (Z.to_nat 16) H0),
    (load32_prefix _ _ _ _ (Z.to_nat 16) H4),
    (load32_prefix _ _ _ _ (Z.to_nat 16) H12) by lia.
  cbn [bind].
  assert (length b1 = length Recvbuf) as Hlb1
    by (unfold b1; rewrite length_app, length_firstn, length_skipn; lia).
  rewrite (recv_loop_overrun (skipn k sched) (u32 (HdrNum_ * L_ - 8)) b1 16 w1).
  - reflexivity.
  - apply Forall_forall. intros x Hx. rewrite Forall_forall in Hs. apply Hs.
    rewrite <- (firstn_skipn k sched). apply in_or_app. now right.
  - apply u32_range.
  - lia.
  - lia.
  - rewrite Hrx1, length_skipn. lia.
  - rewrite length_skipn. lia.
Qed.

(** Witness of [recv_ota_file_hdr_overruns]: a file header that announces
    no image header, followed by more bytes than the buffer has. *)
Lemma recv_ota_file_hdr_overruns_witness :
  recv_ota_file_hdr (alloc_junk env_ok) 0 zero_target_hdr (repeat 512 600)
    (world_of erased_flash (le_bytes32 1 ++ le_bytes32 0 ++ repeat x00 600))
  = None.
Proof.
  apply (recv_ota_file_hdr_overruns (alloc_junk env_ok) 0 zero_target_hdr
           (repeat 512 600)
           (world_of erased_flash (le_bytes32 1 ++ le_bytes32 0 ++ repeat x00 600))
           1 0 0).
  - apply Forall_forall. intros x Hx. apply repeat_spec in Hx. lia.
  - reflexivity.
  - reflexivity.
  - reflexivity.
  - vm_compute. intros H. discriminate H.
  - vm_compute. reflexivity.
  - vm_compute. reflexivity.
  - vm_compute. reflexivity.
Defined.

(* ----------------------------------------------------------------- *)
(** ** The flash: erasing, writing, reading back *)

Lemma cur_flash_emit (e : event) (w : world) :
  cur_flash (emit e w) = apply_event e (cur_flash w).
Proof.
  unfold cur_flash, emit, flash_after. cbn [log flash0 rev].
  rewrite fold_left_app. reflexivity.
Qed.

Lemma erase_sectors_keeps_erased : forall (n : nat) (a i : Z) (w : world) (x : Z),
  cur_flash w x = xff -> cur_flash (erase_sectors n a i w) x = xff.
Proof.
  induction n as [|n IH]; intros a i w x H; [exact H|].
  cbn [erase_sectors]. apply IH. unfold flash_erase_sector.
  rewrite cur_flash_emit. cbn [apply_event]. destruct (_ =? _); auto.
Qed.

Lemma erase_sectors_hit : forall (n : nat) (a i : Z) (w : world) (x : Z),
  (exists j, i <= j < i + Z.of_nat n /\ x / 4096 = u32 (a + j * 4096) / 4096) ->
  cur_flash (erase_sectors n a i w) x = xff.
Proof.
  induction n as [|n IH]; intros a i w x (j & Hj & Hx); [lia|].
  cbn [erase_sectors]. destruct (Z.eq_dec j i) as [->|Hne].
  - apply erase_sectors_keeps_erased. unfold flash_erase_sector.
    rewrite cur_flash_emit. cbn [apply_event].
    rewrite u32_idem, Hx, Z.eqb_refl. reflexivity.
  - apply IH. exists j. split; [lia|exact Hx].
Qed.

Lemma erase_sectors_miss : forall (n : nat) (a i : Z) (w : world) (x : Z),
  (forall j, i <= j < i + Z.of_nat n -> x / 4096 <> u32 (a + j * 4096) / 4096) ->
  cur_flash (erase_sectors n a i w) x = cur_flash w x.
Proof.
  induction n as [|n IH]; intros a i w x H; [reflexivity|].
  cbn [erase_sectors]. rewrite IH by (intros j Hj; apply H; lia).
  unfold flash_erase_sector. rewrite cur_flash_emit. cbn [apply_event].
  rewrite u32_idem.
  destruct (x / 4096 =? u32 (a + i * 4096) / 4096) eqn:E; [|reflexivity].
  apply Z.eqb_eq in E. exfalso. apply (H i); [lia|exact E].
Qed.

Lemma erase_sectors_count : forall (n : nat) (a i : Z) (w : world),
  length (log (erase_sectors n a i w)) = (n + length (log w))%nat.
Proof.
  induction n as [|n IH]; intros a i w; [reflexivity|].
  cbn [erase_sectors]. rewrite IH. unfold flash_erase_sector, emit.
  cbn [log length]. lia.
Qed.

(** X5: [erase_ota_target_flash] at a sector boundary erases the [len]
    bytes of the target, in [(len - 1) / 4096 + 1] sectors, and nothing
    outside these sectors. *)
Theorem erase_ota_target_flash_covers (P : platform) (addr len : Z) (w : world) :
  let a := u32 (addr - SPI_FLASH_BASE P) in
  let w' := erase_ota_target_flash P addr len w in
  a mod 4096 = 0 -> 0 < len -> a + len <= 2 ^ 32 ->
  (forall x, a <= x < a + len -> cur_flash w' x = xff) /\
  (forall x, x < a \/ a + 4096 * ((len - 1) / 4096 + 1) <= x ->
     cur_flash w' x = cur_flash w x) /\
  Z.of_nat (length (log w')) = (len - 1) / 4096 + 1 + Z.of_nat (length (log w)).
Proof.
  intros a w' Hal Hlen Hfit. unfold w', erase_ota_target_flash.
  pose proof (u32_range (addr - SPI_FLASH_BASE P)) as Ha. fold a in Ha.
  rewrite (u32_small (len - 1)) by lia.
  assert (0 <= (len - 1) / 4096 < 2 ^ 20) as Hq.
  { split; [apply Z.div_pos; lia|]. apply Z.div_lt_upper_bound; lia. }
  rewrite (u32_small ((len - 1) / 4096 + 1)) by lia.
  set (n := (len - 1) / 4096 + 1) in *.
  assert (4096 * (n - 1) <= len - 1 < 4096 * n) as Hn.
  { unfold n. pose proof (Z.div_mod (len - 1) 4096 ltac:(lia)).
    pose proof (Z.mod_pos_bound (len - 1) 4096 ltac:(lia)). lia. }
  assert (forall j, 0 <= j < n ->
            u32 (addr - SPI_FLASH_BASE P + j * 4096) / 4096 = a / 4096 + j) as Hsec.
  { intros j Hj. unfold a.
    rewrite <- u32_add_l. fold a. rewrite u32_small by lia.
    rewrite Z.div_add by lia. reflexivity. }
  split; [|split].
  - intros x Hx. apply erase_sectors_hit. exists ((x - a) / 4096).
    assert (0 <= (x - a) / 4096 < n) as Hj.
    { split; [apply Z.div_pos; lia|]. apply Z.div_lt_upper_bound; lia. }
    split; [lia|]. rewrite Hsec by exact Hj.
    replace x with (a + (x - a)) at 1 by lia.
    rewrite (Z.div_mod a 4096) at 1 by lia. rewrite Hal, Z.add_0_r.
    rewrite Z.mul_comm, Z.div_add_l by lia. reflexivity.
  - intros x Hx. apply erase_sectors_miss. intros j Hj.
    rewrite Z2Nat.id in Hj by lia. rewrite Hsec by lia.
    assert (a = 4096 * (a / 4096)) as Ha4
      by (pose proof (Z.div_mod a 4096 ltac:(lia)); lia).
    intros Heq. destruct Hx as [Hx|Hx].
    + assert (x / 4096 < a / 4096) by (apply Z.div_lt_upper_bound; lia). lia.
    + assert (a / 4096 + n <= x / 4096) by (apply Z.div_le_lower_bound; lia). lia.
  - rewrite erase_sectors_count. lia.
Qed.

(** Witness of [erase_ota_target_flash_covers]: the 108 bytes of the
    demonstration image at bank 2 take one sector. *)
Lemma erase_ota_target_flash_covers_witness :
  cur_flash (erase_ota_target_flash amebaz 0x08080000 108 (world_of demo_flash []))
    0x80008 = xff /\
  Z.of_nat (length (log (erase_ota_target_flash amebaz 0x08080000 108
                           (world_of demo_flash [])))) = 1.
Proof.
  destruct (erase_ota_target_flash_covers amebaz 0x08080000 108
              (world_of demo_flash [])) as (H1 & _ & H3).
  - reflexivity.
  - lia.
  - vm_compute. intros H. discriminate H.
  - split; [|exact H3].
    apply H1. vm_compute. split; [intros H; discriminate H|reflexivity].
Defined.

Lemma sector_of_u32 (y : Z) : u32 y / 4096 = (y / 4096) mod 2 ^ 20.
Proof.
  unfold u32, modulus. change (2 ^ 32) with (4096 * 2 ^ 20).
  rewrite Z.rem_mul_r by lia.
  rewrite Z.mul_comm, Z.div_add by lia.
  rewrite Z.div_small by (apply Z.mod_pos_bound; lia). reflexivity.
Qed.

(** X6: with [len = 0] the count of sectors wraps: [(len - 1) / 4096 + 1]
    is 2^20 in 32 bits, the loop erases 1048576 sectors, and every byte
    the flash has at a 32-bit offset reads erased afterwards, whatever the
    address. *)
Theorem erase_ota_target_flash_zero_length (P : platform) (addr : Z) (w : world)
    (x : Z) :
  0 <= x < 2 ^ 32 ->
  cur_flash (erase_ota_target_flash P addr 0 w) x = xff /\
  Z.of_nat (length (log (erase_ota_target_flash P addr 0 w)))
  = 1048576 + Z.of_nat (length (log w)).
Proof.
  intros Hx. unfold erase_ota_target_flash.
  replace (u32 (u32 (0 - 1) / 4096 + 1)) with 1048576 by (vm_compute; reflexivity).
  split; [|rewrite erase_sectors_count; lia].
  apply erase_sectors_hit.
  set (a := addr - SPI_FLASH_BASE P).
  exists ((x / 4096 - a / 4096) mod 2 ^ 20).
  pose proof (Z.mod_pos_bound (x / 4096 - a / 4096) (2 ^ 20) ltac:(lia)) as Hj.
  split; [lia|]. rewrite sector_of_u32.
  rewrite Z.div_add by lia. rewrite Zplus_mod_idemp_r.
  replace (a / 4096 + (x / 4096 - a / 4096)) with (x / 4096) by lia.
  symmetry. apply Z.mod_small.
  split; [apply Z.div_pos; lia|apply Z.div_lt_upper_bound; lia].
Qed.

(** Witness of [erase_ota_target_flash_zero_length]: the system data at
    offset 0x9000 is gone. *)
Lemma erase_ota_target_flash_zero_length_witness :
  cur_flash (erase_ota_target_flash amebaz 0x08080000 0 (world_of demo_flash []))
    0x9000 = xff.
Proof.
  apply (erase_ota_target_flash_zero_length amebaz 0x08080000
           (world_of demo_flash []) 0x9000).
  lia.
Defined.

Lemma byte_val_of_Z (z : Z) : byte_val (byte_of_Z z) = z mod 256.
Proof.
  unfold byte_val, byte_of_Z.
  pose proof (Z.mod_pos_bound z 256 ltac:(lia)) as Hz.
  destruct (Byte.of_N (Z.to_N (z mod 256))) as [b|] eqn:E.
  - apply Byte.to_of_N in E. rewrite E. lia.
  - apply Byte.of_N_None_iff in E. lia.
Qed.

(** The four bytes of a 32-bit value in memory give the value back. *)
Lemma le_val_le_bytes32 (v : Z) : 0 <= v < 2 ^ 32 -> le_val (le_bytes32 v) = v.
Proof.
  intros Hv. unfold le_bytes32. cbn [le_val]. rewrite !byte_val_of_Z.
  replace (v / 65536) with (v / 256 / 256)
    by (rewrite Z.div_div by lia; reflexivity).
  replace (v / 16777216) with (v / 256 / 256 / 256)
    by (rewrite Z.div_div, Z.div_div by lia; reflexivity).
  set (q1 := v / 256). set (q2 := q1 / 256). set (q3 := q2 / 256).
  pose proof (Z.div_mod v 256 ltac:(lia)) as H1. fold q1 in H1.
  pose proof (Z.div_mod q1 256 ltac:(lia)) as H2. fold q2 in H2.
  pose proof (Z.div_mod q2 256 ltac:(lia)) as H3. fold q3 in H3.
  assert (0 <= q1 < 2 ^ 24) as B1
    by (unfold q1; split; [apply Z.div_pos|apply Z.div_lt_upper_bound]; lia).
  assert (0 <= q2 < 2 ^ 16) as B2
    by (unfold q2; split; [apply Z.div_pos|apply Z.div_lt_upper_bound]; lia).
  assert (0 <= q3 < 2 ^ 8) as B3
    by (unfold q3; split; [apply Z.div_pos|apply Z.div_lt_upper_bound]; lia).
  rewrite (Z.mod_small q3) by lia. lia.
Qed.

Lemma u32_shift_ne (a k : Z) : 0 < k < 2 ^ 32 -> u32 a <> u32 (a + k).
Proof.
  intros Hk H. unfold u32, modulus in H.
  assert ((a + k - a) mod 2 ^ 32 = 0) as H0.
  { rewrite Zminus_mod, <- H, Z.sub_diag. reflexivity. }
  replace (a + k - a) with k in H0 by lia.
  rewrite Z.mod_small in H0 by lia. lia.
Qed.

(** What was written is read back. *)
Lemma flash_write_read : forall (d : list byte) (fl : flash) (a : Z),
  Z.of_nat (length d) <= 2 ^ 32 ->
  flash_stream_read (write_bytes fl a d) a (length d) = d.
Proof.
  induction d as [|b d IH]; intros fl a Hlen; [reflexivity|].
  cbn [length] in *. change (S (length d)) with (1 + length d)%nat.
  rewrite flash_stream_read_app. cbn [write_bytes].
  rewrite IH by lia. unfold flash_stream_read at 1. cbn [seq map app].
  rewrite Z.add_0_r. f_equal.
  rewrite write_bytes_other.
  - unfold flash_set. rewrite Z.eqb_refl. reflexivity.
  - intros j Hj. replace (a + 1 + j) with (a + (1 + j)) by lia.
    apply u32_shift_ne. lia.
Qed.

(** X7: [ota_write_ota2_addr] on a slot that holds an address: afterwards
    the slot reads [ota_addr]; nothing is done to the flash when it holds
    [ota_addr] already, and the slot is erased and written otherwise.  The
    return value is 0 in every case. *)
Theorem ota_write_ota2_addr_round_trip (P : platform) (ota_addr : Z) (w : world) :
  0 <= ota_addr < 2 ^ 32 ->
  HAL_READ32 (cur_flash w) (OFFSET_DATA P) <> 0xFFFFFFFF ->
  let r := ota_write_ota2_addr P ota_addr w in
  fst r = 0 /\
  HAL_READ32 (cur_flash (snd r)) (OFFSET_DATA P) = ota_addr /\
  (HAL_READ32 (cur_flash w) (OFFSET_DATA P) = ota_addr -> snd r = w) /\
  (HAL_READ32 (cur_flash w) (OFFSET_DATA P) <> ota_addr ->
   log (snd r) = EvWrite BySysData (OFFSET_DATA P) (le_bytes32 ota_addr)
                 :: EvEraseDword (OFFSET_DATA P) :: log w).
Proof.
  intros Ha Hset. cbv zeta. unfold ota_write_ota2_addr.
  destruct (HAL_READ32 (cur_flash w) (OFFSET_DATA P) =? 4294967295) eqn:E1;
    [apply Z.eqb_eq in E1; contradiction|].
  destruct (HAL_READ32 (cur_flash w) (OFFSET_DATA P) =? ota_addr) eqn:E2;
    cbn [negb andb fst snd].
  - apply Z.eqb_eq in E2. repeat split; auto. intros H. contradiction.
  - apply Z.eqb_neq in E2. split; [reflexivity|]. split; [|split].
    + rewrite !cur_flash_emit. cbn [apply_event]. unfold HAL_READ32.
      rewrite (flash_write_read (le_bytes32 ota_addr)) by (cbn; lia).
      apply le_val_le_bytes32. exact Ha.
    + intros H. contradiction.
    + intros _. reflexivity.
Qed.

(** Witness of [ota_write_ota2_addr_round_trip]: the slot holds
    0x08080000 and is set to 0x08090000. *)
Lemma ota_write_ota2_addr_round_trip_witness :
  HAL_READ32
    (cur_flash (snd (ota_write_ota2_addr amebaz 0x08090000
                       (world_of (bank1_flash 0x08080000) []))))
    (OFFSET_DATA amebaz) = 0x08090000.
Proof.
  destruct (ota_write_ota2_addr_round_trip amebaz 0x08090000
              (world_of (bank1_flash 0x08080000) [])) as (_ & H & _).
  - lia.
  - vm_compute. intros H. discriminate H.
  - exact H.
Defined.

(* ----------------------------------------------------------------- *)
(** ** Bank resolver and commit: more of what they do *)

(** X8: the conditions under which [get_ota_address] can return 1 are
    enough for it: an aligned bank-2 address in the slot; for bank 2, an
    address not below the end of bank 1 that is the [FlashOffset] of the
    file; for bank 1 (any index but [OTA_INDEX_2]), an image no longer than
    the gap between the banks and a [FlashOffset] that is the address of
    bank 1, not 0xFFFFFFFF.  The address returned is the [FlashOffset]. *)
Theorem get_ota_address_accepts (P : platform) (idx a0 : Z)
    (t : update_ota_target_hdr) (w : world) :
  let ota2_addr := HAL_READ32 (cur_flash w) (OFFSET_DATA P) in
  ota2_addr mod 4096 = 0 ->
  (idx = OTA_INDEX_2 ->
   ota1_image_end P (cur_flash w) <= ota2_addr /\
   ota2_addr = FlashOffset (FileImgHdr t)) ->
  (idx <> OTA_INDEX_2 ->
   ImgLen (FileImgHdr t) <= u32 (ota2_addr - u32 (OTA1_ADDR P)) /\
   u32 (OTA1_ADDR P) = FlashOffset (FileImgHdr t) /\
   u32 (OTA1_ADDR P) <> 0xFFFFFFFF) ->
  get_ota_address P idx a0 t w = (1, FlashOffset (FileImgHdr t), w).
Proof.
  cbv zeta. intros Hal H2 H1. unfold get_ota_address.
  set (s := HAL_READ32 (cur_flash w) (OFFSET_DATA P)) in *.
  assert (s <> 0xffffffff) as Hs.
  { intros E. rewrite E in Hal. vm_compute in Hal. discriminate Hal. }
  destruct (s =? 0xffffffff) eqn:E; [apply Z.eqb_eq in E; contradiction|].
  rewrite Hal. cbn [Z.eqb negb].
  destruct (idx =? OTA_INDEX_2) eqn:Ei.
  - apply Z.eqb_eq in Ei. destruct (H2 Ei) as [Hend Hoff].
    destruct (s <? ota1_image_end P (cur_flash w)) eqn:El;
      [apply Z.ltb_lt in El; lia|]. cbn [andb].
    unfold check_ota_image_address. rewrite <- Hoff, Z.eqb_refl. cbn [negb].
    destruct (s =? 4294967295) eqn:E'; [apply Z.eqb_eq in E'; contradiction|].
    reflexivity.
  - apply Z.eqb_neq in Ei. destruct (H1 Ei) as (Hgap & Hoff & Hne).
    destruct (ImgLen (FileImgHdr t) >? u32 (s - u32 (OTA1_ADDR P))) eqn:Eg;
      [apply Z.gtb_lt in Eg; lia|].
    unfold check_ota_image_address. rewrite <- Hoff, Z.eqb_refl. cbn [negb].
    destruct (u32 (OTA1_ADDR P) =? 4294967295) eqn:E';
      [apply Z.eqb_eq in E'; contradiction|].
    reflexivity.
Qed.

(** Witness of [get_ota_address_accepts]: bank 1 is resolved for an image
    of 0x1000 bytes declared at the address of bank 1. *)
Lemma get_ota_address_accepts_witness :
  get_ota_address amebaz OTA_INDEX_1 0
    {| FileHdr := {| FwVer := 1; HdrNum := 1 |};
       FileImgHdr := decode_img_hdr (img_hdr_bytes "OTA1" 24 0x1000 0 32 0x0800B000);
       FileRdpHdr := zero_img_hdr; RdpStatus := false |}
    (world_of (bank1_flash 0x08080000) [])
  = (1, 0x0800B000, world_of (bank1_flash 0x08080000) []).
Proof.
  apply (get_ota_address_accepts amebaz OTA_INDEX_1 0
           {| FileHdr := {| FwVer := 1; HdrNum := 1 |};
              FileImgHdr := decode_img_hdr
                              (img_hdr_bytes "OTA1" 24 0x1000 0 32 0x0800B000);
              FileRdpHdr := zero_img_hdr; RdpStatus := false |}
           (world_of (bank1_flash 0x08080000) [])).
  - vm_compute. reflexivity.
  - intros H. discriminate H.
  - intros _. vm_compute. split; [intros H; discriminate H|].
    split; [reflexivity|intros H; discriminate H].
Defined.

(** X9: [get_ota_address] returns 0 or 1 and never changes the flash: its
    one call of [ota_write_ota2_addr] is for a slot that reads 0xFFFFFFFF,
    and there that function writes nothing. *)
Theorem get_ota_address_never_writes (P : platform) (idx a0 : Z)
    (t : update_ota_target_hdr) (w : world) :
  snd (get_ota_address P idx a0 t w) = w /\
  (fst (fst (get_ota_address P idx a0 t w)) = 0 \/
   fst (fst (get_ota_address P idx a0 t w)) = 1).
Proof.
  destruct (get_ota_address P idx a0 t w) as [[r a] w'] eqn:E.
  cbn [fst snd]. split; [exact (get_ota_address_frame _ _ _ _ _ _ _ _ E)|].
  destruct (get_ota_address_ret _ _ _ _ _ _ _ _ E); auto.
Qed.

(* ----------------------------------------------------------------- *)
(** ** From the stream to the flash: a whole update *)

Lemma flash_stream_read_length (fl : flash) (a : Z) (n : nat) :
  length (flash_stream_read fl a n) = n.
Proof. unfold flash_stream_read. now rewrite length_map, length_seq. Qed.

Lemma flash_stream_read_ext (f g : flash) (a : Z) (n : nat) :
  (forall j, 0 <= j < Z.of_nat n -> f (u32 (a + j)) = g (u32 (a + j))) ->
  flash_stream_read f a n = flash_stream_read g a n.
Proof.
  intros H. unfold flash_stream_read. apply map_ext_in. intros j Hj.
  apply in_seq in Hj. apply H. lia.
Qed.

(** A part of what is read. *)
Lemma flash_stream_read_slice (fl : flash) (a k m : Z) (n : nat) :
  0 <= k -> 0 <= m -> k + m <= Z.of_nat n ->
  slice (flash_stream_read fl a n) k m = flash_stream_read fl (a + k) (Z.to_nat m).
Proof.
  intros Hk Hm Hn.
  replace n with (Z.to_nat k + (Z.to_nat m + (n - Z.to_nat k - Z.to_nat m)))%nat by lia.
  rewrite flash_stream_read_app, flash_stream_read_app. unfold slice.
  rewrite skipn_app, skipn_all2 by (rewrite flash_stream_read_length; lia).
  rewrite flash_stream_read_length, Nat.sub_diag. cbn [app skipn].
  rewrite firstn_app, flash_stream_read_length, Nat.sub_diag, firstn_O, app_nil_r.
  rewrite firstn_all2 by (rewrite flash_stream_read_length; lia).
  f_equal. lia.
Qed.

(** The writes of the streaming writer, read back: the flash holds the
    bytes of the source from the base on. *)
Lemma stream_writes_flash (k : img_kind) (base : Z) (src : list byte)
    (es : list event) (n : Z) :
  stream_writes k base src es n -> n <= 2 ^ 32 ->
  forall fl,
    flash_stream_read (flash_after (rev es) fl) base (Z.to_nat n) = slice src 0 n.
Proof.
  induction 1 as [|es n d H IH Hd]; intros Hn fl; [reflexivity|].
  destruct (stream_writes_image _ _ _ _ _ H) as [Hiw _].
  destruct (image_writes_events _ _ _ _ Hiw) as (_ & _ & _ & Hn0).
  cbn [rev]. rewrite flash_after_app. cbn [flash_after fold_left apply_event].
  replace (Z.to_nat (n + Z.of_nat (length d))) with (Z.to_nat n + length d)%nat by lia.
  rewrite flash_stream_read_app, Z2Nat.id by lia.
  rewrite <- (slice_app src 0 n (Z.of_nat (length d))) by lia. f_equal.
  - rewrite <- (IH ltac:(lia) fl). apply flash_stream_read_ext. intros j Hj.
    apply write_bytes_other. intros i Hi.
    rewrite u32_add_l.
    replace (base + n + i) with (base + j + (n - j + i)) by lia.
    apply u32_shift_ne. lia.
  - rewrite Z.add_0_l, <- Hd. rewrite <- (flash_stream_read_u32 _ (base + n)).
    apply flash_write_read. lia.
Qed.

Lemma byte_sum_app_comm (a b : list byte) : byte_sum (a ++ b) = byte_sum (b ++ a).
Proof. rewrite !byte_sum_sumZ, !sumZ_app. f_equal. lia. Qed.

(** The verifier without an RDP image, by what it reads. *)
Lemma verify_ota_checksum_primary (P : platform) (addr len : Z) (sig : list byte)
    (t : update_ota_target_hdr) (fl : flash) (d : bool) :
  0 < BUF_SIZE P -> 0 <= len -> len + BUF_SIZE P <= 2 ^ 32 ->
  (8 <= length sig)%nat -> RdpStatus t = false ->
  custom_signature_differs P fl addr = Some d ->
  verify_ota_checksum (verify_fuel P len) P addr len sig t fl
  = Some (if d then 0
          else if byte_sum (written_region P fl addr len ++ firstn 8 sig)
                  =? Checksum (FileImgHdr t)
               then 1 else 0).
Proof.
  intros HB Hlen0 Hlen Hsig Hrdp Hd.
  unfold verify_ota_checksum. rewrite Hd. cbn [bind]. destruct d; [reflexivity|].
  assert (len - 0 <= Z.of_nat (verify_fuel P len) * BUF_SIZE P) as Hfuel.
  { unfold verify_fuel. rewrite Nat2Z.inj_succ, Z2Nat.id by (apply Z.div_pos; lia).
    pose proof (Z.mod_pos_bound len (BUF_SIZE P) HB).
    pose proof (Z.div_mod len (BUF_SIZE P) ltac:(lia)). nia. }
  rewrite (checksum_blocks_sum P fl addr len HB Hlen _ 0 0 ltac:(lia) ltac:(lia) Hfuel).
  cbn [bind]. rewrite Z.add_0_l, Z.add_0_r, Z.sub_0_r.
  destruct (load_bytes_defined sig 0 8) as [s8 Hs8]; [lia|lia|].
  rewrite Hs8. cbn [bind].
  assert (s8 = firstn 8 sig) as -> by
    (unfold load_bytes in Hs8; destruct (_ && _); [|discriminate];
     injection Hs8 as <-; reflexivity).
  rewrite add_bytes_sum by apply u32_range. rewrite u32_add_l, <- sumZ_app.
  rewrite Hrdp. cbn [andb].
  fold (written_region P fl addr len). unfold written_region.
  rewrite flash_stream_read_u32. rewrite <- byte_sum_sumZ.
  destruct (_ =? _); reflexivity.
Qed.

Lemma erase_sectors_frame : forall (n : nat) (a i : Z) (w : world),
  rx_data (erase_sectors n a i w) = rx_data w /\
  wfail (erase_sectors n a i w) = wfail w.
Proof.
  induction n as [|n IH]; intros a i w; [auto|].
  cbn [erase_sectors]. destruct (IH a (i + 1) (flash_erase_sector (u32 (a + i * 4096)) w))
    as [-> ->]. auto.
Qed.

Lemma erase_targets_frame (P : platform) (addr : Z) (t : update_ota_target_hdr)
    (w : world) :
  rx_data (erase_targets P addr t w) = rx_data w /\
  wfail (erase_targets P addr t w) = wfail w.
Proof.
  unfold erase_targets, erase_ota_target_flash.
  destruct (RdpStatus t); cbn [flash_erase_sector emit rx_data wfail];
    apply erase_sectors_frame.
Qed.

(** The download of a file without RDP image, from a stream that holds
    the image and reads that deliver it, on a flash whose writes succeed. *)
Lemma download_streamed_primary (P : platform) (addr : Z) (t : update_ota_target_hdr)
    (sig F : list byte) (sched : list Z) (w : world) :
  wf_platform P -> container_in_stream t F -> (8 <= length sig)%nat ->
  RdpStatus t = false ->
  rx_data w = F -> wfail w = [] -> covers P sched F ->
  exists sg sched' w' es,
    download_new_fw_from_server P addr sched t sig w
    = Some (ImgLen (FileImgHdr t) - 8, sg, sched', w') /\
    (8 <= length sg)%nat /\
    firstn 8 sg = slice F (Offset (FileImgHdr t) - headers_len t) 8 /\
    log w' = es ++ log w /\ flash0 w' = flash0 w /\ wfail w' = [] /\
    stream_writes OTA_IMAG (u32 (addr - SPI_FLASH_BASE P + 8))
      (skipn (Z.to_nat (Offset (FileImgHdr t) - headers_len t + 8)) F)
      es (ImgLen (FileImgHdr t) - 8).
Proof.
  intros HP (Hlen & Hq & HL & Hend & _) Hsig Hrdp Hrx Hwf Hcov.
  set (T0 := headers_len t) in *.
  assert (0 <= T0) as HT0 by (unfold T0, headers_len; apply u32_range).
  assert (u32 (ImgLen (FileImgHdr t) - 8) = ImgLen (FileImgHdr t) - 8) as HuL
    by (apply u32_small; lia).
  assert (image_in_stream (ota_dw_info P addr t) F T0) as Hota.
  { unfold image_in_stream. cbn [ota_dw_info ImgOffset ImageLen DwImgId sig_len].
    rewrite HuL. lia. }
  unfold download_new_fw_from_server, download_core, download_plan,
    arrange_download_info. rewrite Hrdp.
  change (firstn (Z.to_nat 1) [ota_dw_info P addr t; zero_dw_info])
    with [ota_dw_info P addr t].
  destruct (download_image_stream P HP F T0 HT0 Hlen (ota_dw_info P addr t) false
              sched 0 (dl_init P t sig) w Hota)
    as (s' & sched' & w' & p' & es' & rb' & Hrun & H1 & H2 & H3 & H4 & H5 & H6
        & H7 & H8 & H9); auto; try lia.
  { cbn [dl_init TempLen]. fold (headers_len t). fold T0. lia. }
  { cbn [ota_dw_info ImgOffset]. lia. }
  destruct (phase_done F T0 _ _ _ _ _ Hota H5 H6) as (_ & Hsize & Hsw & Hsg).
  pose proof H5 as [Hsl _].
  cbn [download_images]. unfold bind at 2. rewrite Hrun.
  cbn [ota_dw_info ImgOffset ImageLen DwImgId sig_len FlashAddr dl_init signature
         download_images bind next_image] in *.
  rewrite Hsize, HuL in *. cbn [bind].
  exists (signature s'), sched', w', es'.
  split; [reflexivity|]. split; [lia|]. auto 10.
Qed.

Lemma flash_stream_read_u32_add (fl : flash) (a k : Z) (n : nat) :
  flash_stream_read fl (u32 a + k) n = flash_stream_read fl (a + k) n.
Proof.
  unfold flash_stream_read. apply map_ext. intros j.
  f_equal. rewrite <- Z.add_assoc, u32_add_l. f_equal. lia.
Qed.

Lemma strcmp_defined (s1 s2 : list byte) :
  In x00 (firstn (length s1) s2) -> exists c, strcmp s1 s2 = Some c.
Proof. intros H. unfold strcmp. now apply strncmp_defined_nul. Qed.

(** X10: a whole update from a good stream.  Take a file without RDP
    image whose primary image lies in the stream behind the headers, reads
    that deliver the stream, and a flash whose writes succeed.  Then steps
    4 to 6 end, and they end in one of two ways.  Either the image is one
    the verifier takes (byte sum and custom signature): the result is 0,
    the target reads back as the image of the stream, signature and
    payload, and the last two events are the write of the signature and
    the bank switch.  Or it is not: the result is -1, the first sector of
    the target is erased last, and the bank is not switched. *)
Theorem update_installs_image (P : platform) (idx addr : Z)
    (t : update_ota_target_hdr) (sched : list Z) (w : world) :
  wf_platform P -> custom_signature_ok P ->
  8 <= IMAGE_HEADER_LEN P -> IMAGE_HEADER_LEN P + 32 <= ImgLen (FileImgHdr t) ->
  RdpStatus t = false ->
  container_in_stream t (rx_data w) -> covers P sched (rx_data w) -> wfail w = [] ->
  let len := ImgLen (FileImgHdr t) in
  let img := slice (rx_data w) (Offset (FileImgHdr t) - headers_len t) len in
  let dst := u32 (addr - SPI_FLASH_BASE P) in
  exists ret w' dl,
    ota_update_finish P idx addr t sched w = Some (ret, w') /\
    Forall is_image_event dl /\
    ((ret = 0 /\ image_accepted P t img /\
      flash_stream_read (cur_flash w') dst (Z.to_nat len) = img /\
      log w' = EvOtaChange idx :: EvWrite BySignature dst (firstn 8 img)
               :: dl ++ log (erase_targets P addr t w)) \/
     (ret = -1 /\ ~ image_accepted P t img /\
      log w' = EvErase dst :: dl ++ log (erase_targets P addr t w))).
Proof.
  intros HP Hcus Hihl Hihl2 Hrdp Hc Hcov Hwf len img dst.
  pose proof Hc as (Hlen & Hq & HL & Hend & _).
  set (F := rx_data w) in *. set (off := Offset (FileImgHdr t) - headers_len t) in *.
  assert (0 <= headers_len t) as HT0 by (unfold headers_len; apply u32_range).
  fold len in HL, Hend, Hihl2.
  set (we := erase_targets P addr t w).
  destruct (erase_targets_frame P addr t w) as [Hrxe Hwfe]. fold we in Hrxe, Hwfe.
  destruct (download_streamed_primary P addr t (repeat x00 9) F sched we HP Hc)
    as (sg & sched' & wd & es & Hrun & Hsgl & Hsg & Hlog & Hfl0 & Hwfd & Hsw);
    auto; try congruence.
  { rewrite repeat_length. lia. }
  fold len off in Hrun, Hsg, Hsw.
  destruct (stream_writes_image _ _ _ _ _ Hsw) as [Hiw _].
  destruct (image_writes_events _ _ _ _ Hiw) as (Hev & _).
  unfold wf_platform in HP.
  set (mid := cur_flash wd).
  assert (mid = flash_after (rev es) (cur_flash we)) as Hmid
    by (apply cur_flash_extend; assumption).
  assert (flash_stream_read mid (u32 (addr - SPI_FLASH_BASE P + 8)) (Z.to_nat (len - 8))
          = slice F (off + 8) (len - 8)) as Hpay.
  { rewrite Hmid, (stream_writes_flash _ _ _ _ _ Hsw) by lia.
    rewrite slice_skipn by lia. f_equal. lia. }
  assert (img = firstn 8 sg ++ slice F (off + 8) (len - 8)) as Himg.
  { rewrite Hsg. unfold img. rewrite slice_app by lia. f_equal. lia. }
  assert (firstn 8 img = firstn 8 sg) as Hsig8.
  { rewrite Himg, firstn_app, firstn_firstn, length_firstn.
    replace (8 - Nat.min 8 (length sg))%nat with O by lia.
    rewrite firstn_O, app_nil_r. reflexivity. }
  (* the custom signature, as the verifier reads it *)
  assert (flash_stream_read mid (u32 (addr + IMAGE_HEADER_LEN P - SPI_FLASH_BASE P)) 32
          = slice img (IMAGE_HEADER_LEN P) 32) as Hcs.
  { rewrite flash_stream_read_u32.
    replace (addr + IMAGE_HEADER_LEN P - SPI_FLASH_BASE P)
      with (addr - SPI_FLASH_BASE P + 8 + (IMAGE_HEADER_LEN P - 8)) by lia.
    rewrite <- flash_stream_read_u32_add.
    change 32%nat with (Z.to_nat 32).
    rewrite <- (flash_stream_read_slice mid _ _ 32 (Z.to_nat (len - 8))) by lia.
    rewrite Hpay, slice_slice by lia. unfold img. rewrite slice_slice by lia.
    f_equal. lia. }
  destruct (custom_signature_defined P mid addr Hcus) as [d Hd].
  assert (d = false <->
          (CONFIG_CUSTOM_SIGNATURE P = true ->
           strcmp (slice img (IMAGE_HEADER_LEN P) 32) (cus_sig_demo P) = Some 0)) as Hdiff.
  { unfold custom_signature_differs in Hd.
    destruct (CONFIG_CUSTOM_SIGNATURE P) eqn:Ec.
    - rewrite Hcs in Hd.
      destruct (strcmp (slice img (IMAGE_HEADER_LEN P) 32) (cus_sig_demo P))
        as [c|]; [|discriminate].
      cbn [bind] in Hd. injection Hd as <-.
      destruct (c =? 0) eqn:E0; cbn [negb].
      + apply Z.eqb_eq in E0. subst c. tauto.
      + apply Z.eqb_neq in E0. split; [discriminate|].
        intros H. specialize (H eq_refl). congruence.
    - injection Hd as <-. split; [discriminate|reflexivity]. }
  (* the run *)
  unfold ota_update_finish. cbv zeta. fold we. rewrite Hrun. cbn [bind].
  destruct (len - 8 <? 0) eqn:En; [apply Z.ltb_lt in En; lia|]. cbn [orb].
  fold len. rewrite Z.eqb_refl. cbn [negb].
  unfold verify_and_commit. rewrite (u32_small (len - 8)) by lia. fold mid.
  rewrite (verify_ota_checksum_primary P addr (len - 8) sg t mid d)
    by (auto; lia).
  cbn [bind]. unfold written_region. rewrite Hpay.
  rewrite byte_sum_app_comm, <- Himg.
  destruct d.
  - (* the custom signature differs *)
    exists (-1), (flash_erase_sector (u32 (addr - SPI_FLASH_BASE P)) wd), es.
    cbn [Z.eqb negb]. split; [reflexivity|]. split; [exact Hev|]. right.
    split; [reflexivity|]. split.
    + intros [_ Hacc]. apply Hdiff in Hacc. discriminate Hacc.
    + cbn [flash_erase_sector emit log]. rewrite Hlog. reflexivity.
  - destruct (byte_sum img =? Checksum (FileImgHdr t)) eqn:Esum.
    + apply Z.eqb_eq in Esum. cbn [Z.eqb negb].
      unfold change_ota_signature.
      destruct (load_bytes_defined sg 0 8) as [s8 Hs8]; [lia|lia|].
      rewrite Hs8. cbn [bind].
      assert (s8 = firstn 8 sg) as -> by
        (unfold load_bytes in Hs8; destruct (_ && _); [|discriminate];
         injection Hs8 as <-; reflexivity).
      unfold flash_stream_write. rewrite Hwfd. cbn [Z.ltb Z.compare bind Z.eqb].
      eexists 0, _, es. split; [reflexivity|]. split; [exact Hev|]. left.
      split; [reflexivity|]. split; [split; [exact Esum|apply Hdiff; reflexivity]|].
      split.
      * rewrite !cur_flash_emit. cbn [apply_event]. fold mid. fold dst.
        replace (Z.to_nat len) with (8 + Z.to_nat (len - 8))%nat by lia.
        rewrite flash_stream_read_app. rewrite Himg. f_equal.
        -- assert (length (firstn 8 sg) = 8%nat) as Hl8
             by (rewrite length_firstn; lia).
           rewrite <- Hl8 at 2. apply flash_write_read. rewrite Hl8. lia.
        -- rewrite <- Hpay. change (Z.of_nat 8) with 8.
           rewrite (flash_stream_read_u32 mid (addr - SPI_FLASH_BASE P + 8)).
           rewrite <- (flash_stream_read_u32_add mid (addr - SPI_FLASH_BASE P) 8).
           fold dst.
           apply flash_stream_read_ext. intros j Hj.
           apply write_bytes_other. intros i Hi.
           rewrite length_firstn in Hi.
           replace (dst + 8 + j) with (dst + i + (8 - i + j)) by lia.
           intros E. symmetry in E. revert E. apply u32_shift_ne. lia.
      * cbn [emit log]. rewrite Hlog, Hsig8. reflexivity.
    + apply Z.eqb_neq in Esum. cbn [Z.eqb negb].
      exists (-1), (flash_erase_sector (u32 (addr - SPI_FLASH_BASE P)) wd), es.
      split; [reflexivity|]. split; [exact Hev|]. right.
      split; [reflexivity|]. split.
      * intros [Hacc _]. contradiction.
      * cbn [flash_erase_sector emit log]. rewrite Hlog. reflexivity.
Qed.

(** Witness of [update_installs_image]: the demonstration image, read in
    pieces of 7 bytes, ends up at bank 2. *)
Lemma update_installs_image_witness :
  exists w',
    ota_update_finish amebaz OTA_INDEX_2 0x08080000 demo_target_hdr reads_of_7
      (demo_world demo_stream) = Some (0, w') /\
    flash_stream_read (cur_flash w') 0x80000 108 = demo_stream.
Proof.
  assert (image_accepted amebaz demo_target_hdr demo_stream) as Hacc.
  { split; [vm_compute; reflexivity|]. intros _. vm_compute. reflexivity. }
  destruct (update_installs_image amebaz OTA_INDEX_2 0x08080000 demo_target_hdr
              reads_of_7 (demo_world demo_stream))
    as (ret & w' & dl & Hrun & _ & [(-> & _ & Hread & _)|(_ & Hno & _)]).
  - exact amebaz_wf.
  - exact amebaz_custom_signature_ok.
  - vm_compute. intros H. discriminate H.
  - vm_compute. intros H. discriminate H.
  - reflexivity.
  - vm_compute. repeat split; try discriminate.
  - vm_compute. repeat split.
  - reflexivity.
  - exists w'. split; [exact Hrun|exact Hread].
  - exfalso. apply Hno. exact Hacc.
Defined.

(* ----------------------------------------------------------------- *)
(** ** Streaming writer: how failures show *)

(** The reads of the loop of an image: what is left of the schedule is an
    end of it, and the loop leaves by [goto exit] for a failed read only
    when a read failed. *)
Lemma dl_reads_sched (P : platform) (d : update_dw_info) : forall sched s w r,
  dl_reads P d sched s w = Some r ->
  match r with
  | ImgNext _ _ sched' _ | ImgWriteFail _ sched' _ => exists k, sched' = skipn k sched
  | ImgReadErr _ sched' _ =>
      (exists k, sched' = skipn k sched) /\ Exists (fun n => n < 0) sched
  end.
Proof.
  induction sched as [|n sched IH]; intros s w r.
  - cbn [dl_reads]. destruct (RemainBytes s >? 0); intros [= <-]; now exists O.
  - cbn [dl_reads]. destruct (RemainBytes s >? 0); [|intros [= <-]; now exists O].
    destruct (read (Some n) (BUF_SIZE P) w) as [[rb data] w1] eqn:Er.
    apply read_spec in Er. destruct Er as (_ & _ & _ & _ & Hr).
    destruct (rb =? 0) eqn:E0; [intros [= <-]; now exists 1%nat|].
    destruct (rb <? 0) eqn:E1.
    + intros [= <-]. split; [now exists 1%nat|]. left.
      apply Z.ltb_lt in E1. destruct Hr as [(H & _)|(_ & H & _)]; lia.
    + destruct (dl_packet d rb _ w1) as [[s2 w2|s2 w2]|]; [| |discriminate].
      * intros H. apply IH in H.
        destruct r as [? ? sched' ?|? sched' ?|? sched' ?].
        -- destruct H as [k ->]. now exists (S k).
        -- destruct H as [[k ->] H]. split; [now exists (S k)|now right].
        -- destruct H as [k ->]. now exists (S k).
      * intros [= <-]. now exists 1%nat.
Qed.

Lemma download_image_sched (P : platform) (d : update_dw_info) (IncFg : bool)
    (sched : list Z) (s : dl_state) (w : world) (r : image_result) :
  download_image P d IncFg sched s w = Some r ->
  match r with
  | ImgNext _ _ sched' _ | ImgWriteFail _ sched' _ => exists k, sched' = skipn k sched
  | ImgReadErr _ sched' _ =>
      (exists k, sched' = skipn k sched) /\ Exists (fun n => n < 0) sched
  end.
Proof.
  unfold download_image. cbv zeta.
  destruct (IncFg && _).
  - destruct (read_bytes_buf _) as [rb|]; [|discriminate]. cbn [bind].
    destruct (dl_packet d rb _ w) as [[s2 w2|s2 w2]|]; [| |discriminate].
    + apply dl_reads_sched.
    + intros [= <-]. now exists O.
  - apply dl_reads_sched.
Qed.

Lemma Exists_skipn {A : Type} (Q : A -> Prop) (k : nat) (l : list A) :
  Exists Q (skipn k l) -> Exists Q l.
Proof.
  intros H. rewrite <- (firstn_skipn k l). apply Exists_app. now right.
Qed.

Lemma state_ok_dl_init (P : platform) (t : update_ota_target_hdr) (sig : list byte) :
  wf_platform P -> state_ok P (dl_init P t sig).
Proof.
  intros HP. unfold wf_platform in HP. unfold state_ok. cbn [dl_init buf read_bytes_buf SigCnt size].
  split; [apply fill_buf_length; cbn [length]; lia|].
  split; [discriminate|]. lia.
Qed.

Section ReadErrors.
Variable P : platform.
Hypothesis HP : wf_platform P.

Lemma download_images_negative : forall plan IncFg osz exits sched s w
    osz' exits' s' sched' w',
  state_ok P s -> size s = 0 ->
  (forall v, osz = Some v -> 0 <= v) ->
  download_images P plan IncFg osz exits sched s w
  = Some (osz', exits', s', sched', w') ->
  forall v, osz' = Some v -> v < 0 -> v = -1 /\ Exists (fun n => n < 0) sched.
Proof.
  induction plan as [|d plan IH];
    intros IncFg osz exits sched s w osz' exits' s' sched' w' Hok Hs0 Hosz.
  - cbn [download_images]. intros [= <- _ _ _ _] v Hv Hneg.
    specialize (Hosz v Hv). lia.
  - cbn [download_images]. unfold bind.
    destruct (download_image P d IncFg sched s w) as [r|] eqn:Ed; [|discriminate].
    pose proof (download_image_sched _ _ _ _ _ _ _ Ed) as Hsched.
    pose proof (download_image_effect P HP d _ _ _ _ _ Hok Hs0 Ed) as He.
    destruct He as (es & n & _ & Hn & He).
    destruct r as [how s1 sched1 w1|s1 sched1 w1|s1 sched1 w1].
    + destruct He as (Hok1 & _ & _ & Hsz1 & _). destruct Hsched as [k ->].
      intros Hrun v Hv Hneg.
      assert (forall v0,
                match DwImgId d with
                | OTA_IMAG => Some (size s1)
                | RDP_IMAG => osz
                end = Some v0 -> 0 <= v0) as Hosz1.
      { destruct (DwImgId d); [intros v0 [= <-]; lia|exact Hosz]. }
      destruct (IH _ _ _ _ _ _ _ _ _ _ _ (state_ok_next_image P s1 Hok1) eq_refl
                  Hosz1 Hrun v Hv Hneg) as [Hm1 Hex].
      split; [exact Hm1|]. exact (Exists_skipn _ _ _ Hex).
    + intros [= <- _ _ _ _] v [= <-] _. split; [reflexivity|apply Hsched].
    + intros [= <- _ _ _ _] v Hv Hneg. specialize (Hosz v Hv). lia.
Qed.

End ReadErrors.

(** [OtaImgSize] is left unassigned only behind a write that failed, as
    long as the plan has the primary image. *)
Lemma download_images_unassigned (P : platform) :
  wf_platform P ->
  forall plan IncFg osz exits sched s w exits' s' sched' w',
  state_ok P s -> size s = 0 ->
  download_images P plan IncFg osz exits sched s w
  = Some (None, exits', s', sched', w') ->
  (exists k a data es, log w' = EvWriteFail (ByImage k) a data :: es) \/
  (osz = None /\ Forall (fun d => DwImgId d = RDP_IMAG) plan).
Proof.
  intros HP.
  induction plan as [|d plan IH];
    intros IncFg osz exits sched s w exits' s' sched' w' Hok Hs0.
  - cbn [download_images]. intros [= -> _ _ _ _]. right. split; [reflexivity|constructor].
  - cbn [download_images]. unfold bind.
    destruct (download_image P d IncFg sched s w) as [r|] eqn:Ed; [|discriminate].
    pose proof (download_image_effect P HP d _ _ _ _ _ Hok Hs0 Ed) as He.
    destruct He as (es & n & _ & Hn & He).
    destruct r as [how s1 sched1 w1|s1 sched1 w1|s1 sched1 w1].
    + destruct He as (Hok1 & _ & _ & Hsz1 & _).
      intros Hrun.
      destruct (IH _ _ _ _ _ _ _ _ _ _ (state_ok_next_image P s1 Hok1) eq_refl Hrun)
        as [Hl|[Hosz Hall]]; [left; exact Hl|].
      destruct (DwImgId d) eqn:Ek; [discriminate Hosz|].
      right. split; [exact Hosz|]. constructor; assumption.
    + discriminate.
    + intros [= -> _ _ _ <-]. left.
      destruct He as (_ & a & data & Hl). eauto.
Qed.

Lemma download_plan_has_primary (P : platform) (addr : Z) (t : update_ota_target_hdr) :
  ~ Forall (fun d => DwImgId d = RDP_IMAG) (download_plan P addr t).
Proof.
  unfold download_plan, arrange_download_info.
  destruct (RdpStatus t); [destruct (_ <? _)|]; cbn [firstn Z.to_nat Pos.to_nat
    Pos.iter_op Init.Nat.add]; intros H.
  - apply Forall_cons_iff in H. destruct H as [H _]. discriminate H.
  - apply Forall_cons_iff in H. destruct H as [_ H].
    apply Forall_cons_iff in H. destruct H as [H _]. discriminate H.
  - apply Forall_cons_iff in H. destruct H as [H _]. discriminate H.
Qed.

(** X11: what [download_new_fw_from_server] returns.  At the label [exit]
    [OtaImgSize] is either unassigned, and then the last thing done was a
    flash write that failed, or assigned, and then it is negative only
    behind a read that failed, and is -1.  So a run in which no flash
    write fails returns a negative value only behind a failed read.  When
    the very first read fails, for a file without RDP image that declares
    a payload, the function returns -1 with the flash and the signature
    untouched. *)
Theorem download_negative_only_on_read_error (P : platform) (addr : Z)
    (sched : list Z) (t : update_ota_target_hdr) (sig : list byte) (w : world) :
  wf_platform P ->
  (forall OtaImgSize exits s sched' w',
     download_core P addr sched t sig w = Some (OtaImgSize, exits, s, sched', w') ->
     match OtaImgSize with
     | None => exists k a data es, log w' = EvWriteFail (ByImage k) a data :: es
     | Some ret => ret < 0 -> ret = -1 /\ Exists (fun n => n < 0) sched
     end) /\
  (forall ret sg sched' w',
     download_new_fw_from_server P addr sched t sig w = Some (ret, sg, sched', w') ->
     ret < 0 -> ret = -1 /\ Exists (fun n => n < 0) sched) /\
  (forall n rest,
     sched = n :: rest -> n < 0 -> RdpStatus t = false ->
     0 < s32 (u32 (ImgLen (FileImgHdr t) - 8)) ->
     exists w',
       download_new_fw_from_server P addr sched t sig w = Some (-1, sig, rest, w') /\
       log w' = log w /\ flash0 w' = flash0 w).
Proof.
  intros HP.
  assert (Hcore : forall OtaImgSize exits s sched' w',
     download_core P addr sched t sig w = Some (OtaImgSize, exits, s, sched', w') ->
     match OtaImgSize with
     | None => exists k a data es, log w' = EvWriteFail (ByImage k) a data :: es
     | Some ret => ret < 0 -> ret = -1 /\ Exists (fun n => n < 0) sched
     end).
  { intros osz exits s sched' w' Ed. unfold download_core in Ed.
    destruct osz as [v|].
    - intros Hneg.
      assert (forall v0 : Z, @None Z = Some v0 -> 0 <= v0) as Hnone
        by (intros v0 H0; discriminate H0).
      apply (download_images_negative P HP _ _ _ _ _ _ _ _ _ _ _ _
               (state_ok_dl_init P t sig HP) eq_refl Hnone Ed v eq_refl Hneg).
    - destruct (download_images_unassigned P HP _ _ _ _ _ _ _ _ _ _ _
                  (state_ok_dl_init P t sig HP) eq_refl Ed) as [H|[_ H]];
        [exact H|].
      exfalso. exact (download_plan_has_primary P addr t H). }
  split; [exact Hcore|]. split.
  - intros ret sg sched' w'. unfold download_new_fw_from_server, bind.
    destruct (download_core P addr sched t sig w)
      as [[[[[osz exits] s1] sched1] w1]|] eqn:Ed; [|discriminate].
    destruct osz as [v|]; [|discriminate]. intros [= <- _ _ _].
    exact (Hcore _ _ _ _ _ eq_refl).
  - intros n rest -> Hn Hrdp Hlen.
    unfold download_new_fw_from_server, download_core, download_plan,
      arrange_download_info. rewrite Hrdp.
    change (firstn (Z.to_nat 1) [ota_dw_info P addr t; zero_dw_info])
      with [ota_dw_info P addr t].
    cbn [download_images]. unfold download_image. cbv zeta. cbn [andb].
    cbn [dl_reads set_count RemainBytes ota_dw_info ImageLen].
    destruct (s32 (u32 (ImgLen (FileImgHdr t) - 8)) >? 0) eqn:E;
      [|rewrite Z.gtb_ltb in E; apply Z.ltb_ge in E; lia].
    unfold read, deliver. destruct (n <? 0) eqn:En; [|apply Z.ltb_ge in En; lia].
    cbn. eexists. split; [reflexivity|]. split; reflexivity.
Qed.

(** Witness of [download_negative_only_on_read_error]: the third read of
    the demonstration stream fails. *)
Lemma download_negative_only_on_read_error_witness :
  exists sg sched' w',
    download_new_fw_from_server amebaz 0x08080000 [7; 7; -1; 7] demo_target_hdr
      (repeat x00 9) (demo_world demo_stream) = Some (-1, sg, sched', w').
Proof.
  destruct (download_new_fw_from_server amebaz 0x08080000 [7; 7; -1; 7]
              demo_target_hdr (repeat x00 9) (demo_world demo_stream))
    as [[[[ret sg] sched'] w']|] eqn:E.
  - assert (option_map (fun r => fst (fst (fst r)))
              (download_new_fw_from_server amebaz 0x08080000 [7; 7; -1; 7]
                 demo_target_hdr (repeat x00 9) (demo_world demo_stream))
            = Some (-1)) as Hc by (vm_compute; reflexivity).
    rewrite E in Hc. cbn in Hc. injection Hc as Hc.
    exists sg, sched', w'.
    destruct (proj1 (proj2 (download_negative_only_on_read_error amebaz 0x08080000
                              [7; 7; -1; 7] demo_target_hdr (repeat x00 9)
                              (demo_world demo_stream) amebaz_wf))
                ret sg sched' w' E ltac:(lia)) as [-> _].
    reflexivity.
  - exfalso.
    assert (option_map (fun r => fst (fst (fst r)))
              (download_new_fw_from_server amebaz 0x08080000 [7; 7; -1; 7]
                 demo_target_hdr (repeat x00 9) (demo_world demo_stream))
            = Some (-1)) as Hc by (vm_compute; reflexivity).
    rewrite E in Hc. discriminate Hc.
Defined.

(** What a packet does depends on the world in its write only: the packet
    ends without a write, or it ends in the write of some bytes, or the
    behaviour is undefined. *)
Lemma dl_packet_cases (d : update_dw_info) (rb : Z) (s : dl_state) :
  (exists s1, forall w, dl_packet d rb s w = Some (PktNext s1 w)) \/
  (exists off n s1, forall w, dl_packet d rb s w = dl_write d off n s1 w) \/
  (forall w, dl_packet d rb s w = None).
Proof.
  unfold dl_packet.
  repeat match goal with
  | |- context [if ?c then _ else _] => destruct c
  | |- context [match DwImgId d with _ => _ end] => destruct (DwImgId d)
  | |- context [bind ?m _] => destruct m; cbn [bind]
  | |- _ => cbv beta iota zeta
  end;
  first [ left; eexists; intros; reflexivity
        | right; left; eexists _, _, _; intros; reflexivity
        | right; right; intros; reflexivity ].
Qed.

Lemma dl_write_fails (d : update_dw_info) (off n : Z) (s : dl_state) (w w0 : world) :
  fails_next w w0 ->
  match dl_write d off n s w0 with
  | Some (PktNext _ w0') =>
      length (log w0') = S (length (log w0)) /\
      exists s' w', dl_write d off n s w = Some (PktWriteFail s' w')
  | Some (PktWriteFail _ _) => False
  | None => dl_write d off n s w = None
  end.
Proof.
  intros (Hrx & Hf & Hl & (f & Hw) & Hw0). unfold dl_write. cbv zeta.
  destruct (load_bytesZ _ _ _) as [data|]; cbn [bind]; [|reflexivity].
  unfold flash_stream_write. rewrite Hw, Hw0.
  cbn [Z.ltb Z.compare emit log length]. split; [reflexivity|]. eauto.
Qed.

Lemma dl_packet_fails (d : update_dw_info) (rb : Z) (s : dl_state) (w w0 : world) :
  fails_next w w0 ->
  match dl_packet d rb s w0 with
  | Some (PktNext s' w0') =>
      (w0' = w0 /\ dl_packet d rb s w = Some (PktNext s' w)) \/
      (length (log w0') = S (length (log w0)) /\
       exists s'' w'', dl_packet d rb s w = Some (PktWriteFail s'' w''))
  | Some (PktWriteFail _ _) => False
  | None => dl_packet d rb s w = None
  end.
Proof.
  intros Hfn.
  destruct (dl_packet_cases d rb s) as [(s1 & H)|[(off & n & s1 & H)|H]].
  - rewrite (H w0), (H w). left. auto.
  - rewrite (H w0), (H w). pose proof (dl_write_fails d off n s1 w w0 Hfn) as Hd.
    destruct (dl_write d off n s1 w0) as [[s' w0'|s' w0']|]; auto.
  - rewrite (H w0), (H w). reflexivity.
Qed.

Lemma dl_write_log (d : update_dw_info) (off n : Z) (s : dl_state) (w : world)
    (r : packet_result) :
  dl_write d off n s w = Some r ->
  match r with
  | PktNext _ w' | PktWriteFail _ w' => (length (log w) <= length (log w'))%nat
  end.
Proof.
  unfold dl_write. cbv zeta.
  destruct (load_bytesZ _ _ _) as [data|]; cbn [bind]; [|discriminate].
  destruct (flash_stream_write _ _ _ _) as [r0 w'] eqn:E.
  apply flash_stream_write_spec in E. destruct E as (_ & _ & [(_ & H)|(_ & H)]);
    destruct (r0 <? 0); intros [= <-]; rewrite H; cbn [length]; lia.
Qed.

Lemma dl_packet_log (d : update_dw_info) (rb : Z) (s : dl_state) (w : world)
    (r : packet_result) :
  dl_packet d rb s w = Some r ->
  match r with
  | PktNext _ w' | PktWriteFail _ w' => (length (log w) <= length (log w'))%nat
  end.
Proof.
  destruct (dl_packet_cases d rb s) as [(s1 & H)|[(off & n & s1 & H)|H]];
    rewrite (H w).
  - intros [= <-]. lia.
  - apply dl_write_log.
  - discriminate.
Qed.

Lemma dl_reads_log (P : platform) (d : update_dw_info) : forall sched s w r,
  dl_reads P d sched s w = Some r ->
  match r with
  | ImgNext _ _ _ w' | ImgReadErr _ _ w' | ImgWriteFail _ _ w' =>
      (length (log w) <= length (log w'))%nat
  end.
Proof.
  induction sched as [|n sched IH]; intros s w r.
  - cbn [dl_reads]. destruct (RemainBytes s >? 0); intros [= <-]; lia.
  - cbn [dl_reads]. destruct (RemainBytes s >? 0); [|intros [= <-]; lia].
    destruct (read (Some n) (BUF_SIZE P) w) as [[rb data] w1] eqn:Er.
    apply read_spec in Er. destruct Er as (Hl & _).
    destruct (rb =? 0); [intros [= <-]; rewrite Hl; lia|].
    destruct (rb <? 0); [intros [= <-]; rewrite Hl; lia|].
    destruct (dl_packet d rb _ w1) as [[s2 w2|s2 w2]|] eqn:Ep; [| |discriminate].
    + apply dl_packet_log in Ep. intros H. apply IH in H.
      destruct r; rewrite <- Hl; lia.
    + apply dl_packet_log in Ep. intros [= <-]. rewrite <- Hl. exact Ep.
Qed.

(** The loop of an image on a flash whose next write fails, against the
    same loop on a flash that takes every write: when the second ends with
    something written, the first is left at the failed write. *)
Lemma dl_reads_fails (P : platform) (d : update_dw_info) : forall sched s w w0 how s' sched' w0',
  fails_next w w0 ->
  dl_reads P d sched s w0 = Some (ImgNext how s' sched' w0') ->
  (length (log w0) < length (log w0'))%nat ->
  exists s'' sched'' w'', dl_reads P d sched s w = Some (ImgWriteFail s'' sched'' w'').
Proof.
  induction sched as [|n sched IH]; intros s w w0 how s' sched' w0' Hfn.
  - cbn [dl_reads]. destruct (RemainBytes s >? 0); intros [= _ _ _ <-]; lia.
  - cbn [dl_reads]. destruct (RemainBytes s >? 0); [|intros [= _ _ _ <-]; lia].
    pose proof Hfn as (Hrx & Hf & Hl & (f & Hw) & Hw0).
    unfold read. rewrite Hrx.
    destruct (deliver n (BUF_SIZE P) (rx_data w0)) as [[rb data] rest].
    destruct (rb =? 0); [intros [= _ _ _ <-]; cbn; lia|].
    destruct (rb <? 0); [discriminate|].
    assert (fails_next (set_rx rest w) (set_rx rest w0)) as Hfn1.
    { unfold fails_next. cbn [set_rx rx_data flash0 log wfail]. eauto 6. }
    pose proof (dl_packet_fails d rb
                  (set_buf (fill_buf P data) (Some rb) (u32 (TempLen s + rb)) s)
                  _ _ Hfn1) as Hp.
    destruct (dl_packet d rb _ (set_rx rest w0)) as [[s2 w2|s2 w2]|];
      [|contradiction|discriminate].
    destruct Hp as [[-> Hp]|(_ & s'' & w'' & Hp)]; rewrite Hp.
    + intros Hrun Hlen. exact (IH _ _ _ _ _ _ _ Hfn1 Hrun Hlen).
    + intros _ _. eauto.
Qed.

(** X12: a failed flash write in the first image is not reported.  For a
    stream that holds the images, read to its end, on a flash whose first
    write fails, the function leaves at [goto exit] before [OtaImgSize] is
    assigned: the value it returns is that of an unassigned local (the
    behaviour is undefined). *)
Theorem download_write_failure_unassigned (P : platform) (addr : Z)
    (t : update_ota_target_hdr) (sig : list byte) (sched : list Z) (w : world)
    (f : list bool) :
  wf_platform P -> container_in_stream t (rx_data w) -> (8 <= length sig)%nat ->
  covers P sched (rx_data w) -> wfail w = true :: f ->
  download_new_fw_from_server P addr sched t sig w = None.
Proof.
  intros HP Hc Hsig Hcov Hwf.
  pose proof Hc as (Hlen & Hq & HL & Hend & Hrdp).
  set (F := rx_data w) in *. set (T0 := headers_len t) in *.
  assert (0 <= T0) as HT0 by (unfold T0, headers_len; apply u32_range).
  assert (u32 (ImgLen (FileImgHdr t) - 8) = ImgLen (FileImgHdr t) - 8) as HuL
    by (apply u32_small; lia).
  assert (image_in_stream (ota_dw_info P addr t) F T0) as Hota.
  { unfold image_in_stream. cbn [ota_dw_info ImgOffset ImageLen DwImgId sig_len].
    rewrite HuL. lia. }
  set (w0 := set_wfail [] w).
  assert (fails_next w w0) as Hfn
    by (unfold fails_next, w0; cbn [set_wfail rx_data flash0 log wfail]; eauto 6).
  (* the first image of the plan *)
  assert (exists d rest, download_plan P addr t = d :: rest /\
                         image_in_stream d F T0) as (d & rest & Hplan & Hd).
  { unfold download_plan, arrange_download_info. destruct (RdpStatus t) eqn:Er.
    - destruct (Hrdp eq_refl) as (Hrq & HrL & Hrend & _).
      assert (image_in_stream (rdp_dw_info P t) F T0) as Hrdpi.
      { unfold image_in_stream.
        cbn [rdp_dw_info ImgOffset ImageLen DwImgId sig_len]. fold T0. lia. }
      destruct (_ <? _); eexists _, _; split; try reflexivity; assumption.
    - eexists _, _. split; [reflexivity|exact Hota]. }
  unfold download_new_fw_from_server, download_core. rewrite Hplan.
  cbn [download_images].
  assert (exists s'' sched'' w'',
            download_image P d false sched (dl_init P t sig) w
            = Some (ImgWriteFail s'' sched'' w'')) as (s'' & sched'' & w'' & Hrun).
  { destruct (download_image_stream P HP F T0 HT0 Hlen d false sched 0
                (dl_init P t sig) w0 Hd)
      as (s' & sched' & w0' & p' & es' & rb' & Hrun0 & H1 & H2 & H3 & H4 & H5 & H6
          & H7 & H8 & H9); auto; try lia.
    { cbn [dl_init TempLen]. fold (headers_len t). fold T0. lia. }
    { destruct Hd as (Hd1 & _). lia. }
    destruct (phase_done F T0 _ _ _ _ _ Hd H5 H6) as (_ & _ & Hsw & _).
    assert (es' <> []) as Hne.
    { intros ->. inversion Hsw as [Hz|]. destruct Hd as (_ & Hd2 & _). lia. }
    unfold download_image in *. cbv zeta in *. cbn [andb] in *.
    apply (dl_reads_fails P d _ _ _ _ _ _ _ _ Hfn Hrun0).
    rewrite H7, length_app. destruct es'; [contradiction|cbn [length]; lia]. }
  rewrite Hrun. reflexivity.
Qed.

(** Witness of [download_write_failure_unassigned]: the first write of
    the demonstration image fails. *)
Lemma download_write_failure_unassigned_witness :
  download_new_fw_from_server amebaz 0x08080000 reads_of_7 demo_target_hdr
    (repeat x00 9) (set_wfail [true] (demo_world demo_stream)) = None.
Proof.
  apply (download_write_failure_unassigned amebaz 0x08080000 demo_target_hdr
           (repeat x00 9) reads_of_7 (set_wfail [true] (demo_world demo_stream)) []).
  - exact amebaz_wf.
  - vm_compute. repeat split; try discriminate.
  - vm_compute. lia.
  - vm_compute. repeat split.
  - reflexivity.
Defined.

(* ----------------------------------------------------------------- *)
(** *** [parse_http_response] *)

Lemma byte_at_app_l (a b : list byte) (i : Z) :
  0 <= i < Z.of_nat (length a) -> byte_at (a ++ b) i = byte_at a i.
Proof.
  intros H. unfold byte_at.
  destruct (0 <=? i); [|reflexivity].
  apply nth_error_app1. lia.
Qed.

Lemma byte_at_app_r (a b : list byte) (i : Z) :
  Z.of_nat (length a) <= i -> byte_at (a ++ b) i = byte_at b (i - Z.of_nat (length a)).
Proof.
  intros H. unfold byte_at.
  replace (0 <=? i) with true by (symmetry; apply Z.leb_le; lia).
  replace (0 <=? i - Z.of_nat (length a)) with true by (symmetry; apply Z.leb_le; lia).
  rewrite nth_error_app2 by lia. f_equal. lia.
Qed.

Lemma byte_at_cons_0 (c : byte) (l : list byte) : byte_at (c :: l) 0 = Some c.
Proof. reflexivity. Qed.

Lemma byte_at_Forall (Q : byte -> Prop) (a : list byte) (i : Z) :
  Forall Q a -> 0 <= i < Z.of_nat (length a) ->
  exists c, byte_at a i = Some c /\ Q c.
Proof.
  intros HF H. unfold byte_at.
  replace (0 <=? i) with true by (symmetry; apply Z.leb_le; lia).
  destruct (nth_error a (Z.to_nat i)) as [c|] eqn:E.
  - exists c. split; [reflexivity|].
    rewrite Forall_forall in HF. apply HF. eapply nth_error_In; eauto.
  - apply nth_error_None in E. lia.
Qed.

(** Where the prefix [pre] ends, the response goes on with [suf]. *)
Lemma byte_at_mid (pre suf : list byte) (i k : Z) :
  i = Z.of_nat (length pre) + k -> 0 <= k ->
  byte_at (pre ++ suf) i = byte_at suf k.
Proof.
  intros -> Hk. rewrite byte_at_app_r by lia. f_equal. lia.
Qed.

Lemma eqb_CR_false (c : byte) : c <> CR -> Byte.eqb c "013" = false.
Proof.
  intros H. destruct (Byte.eqb c "013") eqn:E; [|reflexivity].
  apply Byte.byte_dec_bl in E. contradiction.
Qed.

Lemma crlf_at_other (R : list byte) (i : Z) (c : byte) :
  byte_at R i = Some c -> c <> CR -> crlf_at R i = Some false.
Proof.
  intros H Hc. unfold crlf_at. rewrite H. cbn [bind].
  rewrite eqb_CR_false by assumption. reflexivity.
Qed.

Lemma header_end_at_other (R : list byte) (i : Z) (c : byte) :
  byte_at R i = Some c -> c <> CR -> header_end_at R i = Some false.
Proof.
  intros H Hc. unfold header_end_at. rewrite H. cbn [bind].
  rewrite eqb_CR_false by assumption. reflexivity.
Qed.

(** The loop walks over characters that are no CR. *)
Lemma cl_loop_skip (R : list byte) (r : http_response_result_t) (p : Z) :
  forall (k n : nat) (i : Z),
  (forall j, i <= j < i + Z.of_nat k ->
     exists c, byte_at R j = Some c /\ c <> CR) ->
  0 <= i -> i + Z.of_nat k < 2 ^ 32 ->
  content_length_loop (k + n) i p R r
  = content_length_loop n (i + Z.of_nat k) p R r.
Proof.
  induction k as [|k IH]; intros n i H Hi Hk.
  - cbn [Nat.add]. f_equal. cbn. lia.
  - destruct (H i) as (c & Hc & Hne); [lia|].
    cbn [Nat.add content_length_loop].
    rewrite (crlf_at_other R i c Hc Hne). cbn [bind].
    rewrite (header_end_at_other R i c Hc Hne). cbn [bind].
    rewrite u32_small by lia.
    rewrite IH.
    + f_equal. lia.
    + intros j Hj. apply H. lia.
    + lia.
    + lia.
Qed.

Lemma header_end_at_no (R : list byte) (i : Z) (c : byte) :
  0 <= i -> i + 2 < 2 ^ 32 ->
  byte_at R i = Some CR -> byte_at R (i + 1) = Some LF ->
  byte_at R (i + 2) = Some c -> c <> CR ->
  header_end_at R i = Some false.
Proof.
  intros Hi Hb H0 H1 H2 Hc. unfold header_end_at.
  rewrite H0. cbn [bind]. change (Byte.eqb CR "013") with true. cbn [negb].
  rewrite u32_small by lia. rewrite H1. cbn [bind].
  change (Byte.eqb LF "010") with true. cbn [negb].
  rewrite u32_small by lia. rewrite H2. cbn [bind].
  rewrite eqb_CR_false by assumption. reflexivity.
Qed.

Lemma header_end_at_yes (R : list byte) (i : Z) :
  0 <= i -> i + 3 < 2 ^ 32 ->
  byte_at R i = Some CR -> byte_at R (i + 1) = Some LF ->
  byte_at R (i + 2) = Some CR -> byte_at R (i + 3) = Some LF ->
  header_end_at R i = Some true.
Proof.
  intros Hi Hb H0 H1 H2 H3. unfold header_end_at.
  rewrite H0. cbn [bind]. change (Byte.eqb CR "013") with true. cbn [negb].
  rewrite u32_small by lia. rewrite H1. cbn [bind].
  change (Byte.eqb LF "010") with true. cbn [negb].
  rewrite u32_small by lia. rewrite H2. cbn [bind].
  change (Byte.eqb CR "013") with true. cbn [negb].
  rewrite u32_small by lia. rewrite H3. reflexivity.
Qed.

Lemma crlf_at_yes (R : list byte) (i : Z) :
  0 <= i -> i + 1 < 2 ^ 32 ->
  byte_at R i = Some CR -> byte_at R (i + 1) = Some LF ->
  crlf_at R i = Some true.
Proof.
  intros Hi Hb H0 H1. unfold crlf_at.
  rewrite H0. cbn [bind]. change (Byte.eqb CR "013") with true. cbn [negb].
  rewrite u32_small by lia. rewrite H1. reflexivity.
Qed.

(** The end of a line that is not the last one. *)
Lemma cl_loop_eol_next (R : list byte) (r r' : http_response_result_t)
    (p i : Z) (c : byte) (n : nat) :
  0 <= i -> i + 2 < 2 ^ 32 ->
  byte_at R i = Some CR -> byte_at R (i + 1) = Some LF ->
  byte_at R (i + 2) = Some c -> c <> CR ->
  content_length_line R p i r = Some r' ->
  content_length_loop (2 + n) i p R r
  = content_length_loop n (i + 2) (i + 2) R r'.
Proof.
  intros Hi Hb H0 H1 H2 Hc Hl.
  cbn [Nat.add content_length_loop].
  rewrite (crlf_at_yes R i) by (assumption || lia). cbn [bind].
  rewrite Hl. cbn [bind].
  rewrite (header_end_at_no R i c) by (assumption || lia). cbn [bind].
  rewrite !u32_small by lia.
  rewrite (crlf_at_other R (i + 1) LF H1) by discriminate. cbn [bind].
  rewrite (header_end_at_other R (i + 1) LF H1) by discriminate. cbn [bind].
  rewrite u32_small by lia. f_equal. lia.
Qed.

(** The end of the last line: the end of the header. *)
Lemma cl_loop_eol_end (R : list byte) (r r' : http_response_result_t)
    (p i : Z) (n : nat) :
  0 <= i -> i + 4 < 2 ^ 32 ->
  byte_at R i = Some CR -> byte_at R (i + 1) = Some LF ->
  byte_at R (i + 2) = Some CR -> byte_at R (i + 3) = Some LF ->
  content_length_line R p i r = Some r' ->
  content_length_loop (S n) i p R r
  = Some (if parse_status r' =? 2 then ClHeaderEnd (set_header_end (i + 4) r')
          else ClFail r').
Proof.
  intros Hi Hb H0 H1 H2 H3 Hl.
  cbn [content_length_loop].
  rewrite (crlf_at_yes R i) by (assumption || lia). cbn [bind].
  rewrite Hl. cbn [bind].
  rewrite (header_end_at_yes R i) by (assumption || lia). cbn [bind].
  rewrite !u32_small by lia. destruct (parse_status r' =? 2); reflexivity.
Qed.

Lemma lines_length_cons (l : list byte) (ls : list (list byte)) :
  Z.of_nat (length (concat (map (fun l => l ++ crlf) (l :: ls))))
  = Z.of_nat (length l) + 2
    + Z.of_nat (length (concat (map (fun l => l ++ crlf) ls))).
Proof.
  cbn [map concat]. rewrite !length_app. cbn [length crlf]. lia.
Qed.

(** The loop over the lines of a header up to the empty line. *)
Lemma cl_loop_lines (R post : list byte) :
  forall (lines : list (list byte)) (pre : list byte)
         (r r' : http_response_result_t) (n : nat),
  R = pre ++ concat (map (fun l => l ++ crlf) lines) ++ crlf ++ post ->
  lines <> [] -> Forall header_line lines ->
  lines_effect R (Z.of_nat (length pre)) lines r = Some r' ->
  Z.of_nat (length pre)
    + Z.of_nat (length (concat (map (fun l => l ++ crlf) lines))) + 2 < 2 ^ 32 ->
  (length (concat (map (fun l => l ++ crlf) lines)) <= n)%nat ->
  content_length_loop n (Z.of_nat (length pre)) (Z.of_nat (length pre)) R r
  = Some (if parse_status r' =? 2
          then ClHeaderEnd
                 (set_header_end
                    (Z.of_nat (length pre)
                     + Z.of_nat (length (concat (map (fun l => l ++ crlf) lines)))
                     + 2) r')
          else ClFail r').
Proof.
  induction lines as [|l ls IH]; intros pre r r' n HR Hne HF He Hb Hn;
    [congruence|].
  pose proof (lines_length_cons l ls) as Hlen.
  set (rest := concat (map (fun l => l ++ crlf) ls)) in *.
  assert (HR' : R = pre ++ l ++ CR :: LF :: rest ++ crlf ++ post).
  { rewrite HR. cbn [map concat]. fold rest. rewrite <- !app_assoc. reflexivity. }
  inversion HF as [|? ? [Hl Hcr] HF']; subst.
  cbn [lines_effect] in He.
  destruct (content_length_line _ _ _ r) as [r1|] eqn:E1; [|discriminate].
  cbn [bind] in He.
  set (R := pre ++ concat (map (fun l => l ++ crlf) (l :: ls)) ++ crlf ++ post) in *.
  set (p := Z.of_nat (length pre)) in *.
  assert (Hskip : forall j, p <= j < p + Z.of_nat (length l) ->
            exists c, byte_at R j = Some c /\ c <> CR).
  { intros j Hj. rewrite HR'.
    rewrite (byte_at_mid pre _ j (j - p)) by (unfold p; lia).
    rewrite byte_at_app_l by lia.
    apply byte_at_Forall; [assumption|lia]. }
  assert (H0 : byte_at R (p + Z.of_nat (length l)) = Some CR).
  { rewrite HR'. rewrite app_assoc.
    rewrite (byte_at_mid (pre ++ l) _ _ 0); [reflexivity| |lia].
    rewrite length_app. unfold p. lia. }
  assert (H1 : byte_at R (p + Z.of_nat (length l) + 1) = Some LF).
  { rewrite HR'. rewrite app_assoc.
    rewrite (byte_at_mid (pre ++ l) _ _ 1); [reflexivity| |lia].
    rewrite length_app. unfold p. lia. }
  assert (Hrest : forall k, 0 <= k ->
            byte_at R (p + Z.of_nat (length l) + 2 + k)
            = byte_at (rest ++ crlf ++ post) k).
  { intros k Hk. rewrite HR'.
    replace (pre ++ l ++ CR :: LF :: rest ++ crlf ++ post)
      with ((pre ++ l ++ [CR; LF]) ++ rest ++ crlf ++ post)
      by (rewrite <- !app_assoc; reflexivity).
    apply byte_at_mid; [|assumption].
    rewrite !length_app. cbn [length]. unfold p. lia. }
  replace n with (length l + (n - length l))%nat by lia.
  rewrite cl_loop_skip by (assumption || lia).
  destruct ls as [|l2 ls].
  - (* the last line *)
    cbn [map concat] in rest. subst rest.
    cbn [lines_effect] in He. injection He as <-.
    destruct (n - length l)%nat as [|n'] eqn:En.
    { cbn [length] in Hlen. lia. }
    rewrite (cl_loop_eol_end R r r1 p _ n'); try assumption; try lia.
    + cbn [length] in Hlen. rewrite Hlen.
      replace (p + Z.of_nat (length l) + 4)
        with (p + (Z.of_nat (length l) + 2 + Z.of_nat 0) + 2) by lia.
      reflexivity.
    + replace (p + Z.of_nat (length l) + 2)
        with (p + Z.of_nat (length l) + 2 + 0) by lia.
      rewrite Hrest by lia. reflexivity.
    + replace (p + Z.of_nat (length l) + 3)
        with (p + Z.of_nat (length l) + 2 + 1) by lia.
      rewrite Hrest by lia. reflexivity.
  - (* another line follows *)
    inversion HF' as [|? ? [Hl2 Hcr2] HF'']; subst.
    destruct l2 as [|c l2]; [congruence|].
    assert (Hc : c <> CR) by (inversion Hcr2; assumption).
    replace (n - length l)%nat with (2 + (n - length l - 2))%nat by lia.
    rewrite (cl_loop_eol_next R r r1 p _ c); try assumption; try lia.
    + specialize (IH (pre ++ l ++ crlf) r1 r' (n - length l - 2)%nat).
      replace (Z.of_nat (length (pre ++ l ++ crlf)))
        with (p + Z.of_nat (length l) + 2) in IH
        by (rewrite !length_app; cbn [length crlf]; unfold p; lia).
      rewrite IH.
      * rewrite Hlen. fold rest.
        replace (p + Z.of_nat (length l) + 2 + Z.of_nat (length rest) + 2)
          with (p + (Z.of_nat (length l) + 2 + Z.of_nat (length rest)) + 2) by lia.
        reflexivity.
      * rewrite HR'. rewrite <- !app_assoc. reflexivity.
      * discriminate.
      * assumption.
      * exact He.
      * fold rest. lia.
      * fold rest. lia.
    + replace (p + Z.of_nat (length l) + 2)
        with (p + Z.of_nat (length l) + 2 + 0) by lia.
      rewrite Hrest by lia. reflexivity.
Qed.

Lemma load_bytes_mid (pre suf : list byte) (n : nat) :
  (n <= length suf)%nat ->
  load_bytes (pre ++ suf) (Z.of_nat (length pre)) n = Some (firstn n suf).
Proof.
  intros H. unfold load_bytes.
  replace (0 <=? Z.of_nat (length pre)) with true by (symmetry; apply Z.leb_le; lia).
  replace (Z.of_nat (length pre) + Z.of_nat n <=? Z.of_nat (length (pre ++ suf)))
    with true by (symmetry; apply Z.leb_le; rewrite length_app; lia).
  cbn [andb]. rewrite Nat2Z.id.
  rewrite skipn_app, skipn_all, Nat.sub_diag. reflexivity.
Qed.

(** A line that a CR ends starts with a pattern free of CR when its first
    characters are the pattern. *)
Lemma firstn_line_eq (l post pat : list byte) :
  Forall (fun c => c <> CR) pat ->
  firstn (length pat) (l ++ CR :: post) = pat <-> firstn (length pat) l = pat.
Proof.
  intros Hpat. rewrite firstn_app.
  destruct (Nat.le_gt_cases (length pat) (length l)) as [Hle|Hgt].
  - replace (length pat - length l)%nat with O by lia.
    rewrite firstn_O, app_nil_r. reflexivity.
  - rewrite (firstn_all2 (n := length pat) l) by lia.
    destruct (length pat - length l)%nat as [|k] eqn:Ek; [lia|].
    cbn [firstn]. split; intros H.
    + exfalso. rewrite Forall_forall in Hpat. apply (Hpat CR); [|reflexivity].
      rewrite <- H. apply in_or_app. right. left. reflexivity.
    + exfalso. rewrite <- H in Hgt. lia.
Qed.

Lemma memcmp_eq_line (pre l post : list byte) (s : string) :
  Forall (fun c => c <> CR) (list_byte_of_string s) ->
  String.length s = length (list_byte_of_string s) ->
  (length (list_byte_of_string s) <= length (l ++ CR :: post))%nat ->
  memcmp_eq (pre ++ l ++ CR :: post) (Z.of_nat (length pre)) s
  = Some (if list_eq_dec Byte.byte_eq_dec
               (firstn (length (list_byte_of_string s)) l) (list_byte_of_string s)
          then true else false).
Proof.
  intros Hs Hlen Hfit. unfold memcmp_eq.
  rewrite Hlen. rewrite load_bytes_mid by assumption. cbn [bind].
  pose proof (firstn_line_eq l post (list_byte_of_string s) Hs) as Hiff.
  destruct (list_eq_dec _ (firstn _ (l ++ CR :: post)) _) as [e|ne];
    destruct (list_eq_dec _ (firstn _ l) _) as [e'|ne']; try reflexivity.
  - exfalso. apply ne'. apply Hiff. exact e.
  - exfalso. apply ne. apply Hiff. exact e'.
Qed.

(** A line counts when it starts with one of the two spellings. *)
Lemma content_length_line_spec (pre l post : list byte) (q : Z)
    (r : http_response_result_t) :
  Forall (fun c => c <> CR) l ->
  (14 <= length (l ++ CR :: post))%nat ->
  content_length_line (pre ++ l ++ CR :: post) (Z.of_nat (length pre)) q r
  = if is_content_length l
    then v <- content_length_value (pre ++ l ++ CR :: post) (Z.of_nat (length pre)) q ;;
         Some (set_parse_status 2 (set_body_len v r))
    else Some r.
Proof.
  intros Hl Hfit. unfold content_length_line, is_content_length.
  rewrite !memcmp_eq_line;
    try assumption; try reflexivity;
    try (repeat constructor; discriminate).
  cbn [bind].
  change (length (list_byte_of_string "CONTENT-LENGTH")) with 14%nat.
  change (length (list_byte_of_string "Content-Length")) with 14%nat.
  destruct (list_eq_dec _ (firstn 14 l) (list_byte_of_string "CONTENT-LENGTH"));
    cbn [bind orb]; [reflexivity|].
  destruct (list_eq_dec _ (firstn 14 l) (list_byte_of_string "Content-Length"));
    reflexivity.
Qed.

Lemma eqb_byte_false (c d : byte) : c <> d -> Byte.eqb c d = false.
Proof.
  intros H. destruct (Byte.eqb c d) eqn:E; [|reflexivity].
  apply Byte.byte_dec_bl in E. contradiction.
Qed.

Lemma eqb_byte_refl (c : byte) : Byte.eqb c c = true.
Proof. apply Byte.byte_dec_lb. reflexivity. Qed.

Lemma skip_separators_spec (R : list byte) (q : Z) :
  forall (k n : nat) (j : Z) (d : byte),
  (forall x, j <= x < j + Z.of_nat k ->
     exists c, byte_at R x = Some c /\ (c = ":"%byte \/ c = " "%byte)) ->
  byte_at R (j + Z.of_nat k) = Some d -> d <> ":"%byte -> d <> " "%byte ->
  0 <= j -> j + Z.of_nat k < q -> q < 2 ^ 31 -> (k < n)%nat ->
  skip_separators n j q R = Some (j + Z.of_nat k).
Proof.
  induction k as [|k IH]; intros n j d H Hd Hd1 Hd2 Hj Hq Hb Hn;
    (destruct n as [|n]; [lia|]); cbn [skip_separators].
  - rewrite u32_small by lia.
    replace (j <? q) with true by (symmetry; apply Z.ltb_lt; lia).
    rewrite Z.add_0_r in Hd. rewrite Hd. cbn [bind].
    rewrite (eqb_byte_false d ":"), (eqb_byte_false d " ") by assumption.
    cbn [orb]. f_equal. cbn. lia.
  - rewrite u32_small by lia.
    replace (j <? q) with true by (symmetry; apply Z.ltb_lt; lia).
    destruct (H j) as (c & Hc & Hsep); [lia|]. rewrite Hc. cbn [bind].
    replace (Byte.eqb c ":" || Byte.eqb c " ") with true
      by (destruct Hsep as [-> | ->]; reflexivity).
    rewrite s32_small by lia.
    rewrite (IH n (j + 1) d); try assumption; try lia.
    + f_equal. lia.
    + intros x Hx. apply H. lia.
    + rewrite <- Hd. f_equal. lia.
Qed.

Lemma trim_spaces_spec (R : list byte) (j1 : Z) :
  forall (k n : nat) (j2 : Z),
  (forall x, j2 - Z.of_nat k < x <= j2 -> byte_at R x = Some " "%byte) ->
  (j1 < j2 - Z.of_nat k ->
   exists d, byte_at R (j2 - Z.of_nat k) = Some d /\ d <> " "%byte) ->
  j1 <= j2 - Z.of_nat k -> - 2 ^ 31 < j1 -> j2 < 2 ^ 31 -> (k < n)%nat ->
  trim_spaces n j1 j2 R = Some (j2 - Z.of_nat k).
Proof.
  induction k as [|k IH]; intros n j2 H Hd Hj Hlo Hb Hn;
    (destruct n as [|n]; [lia|]); cbn [trim_spaces].
  - rewrite Z.sub_0_r in *.
    destruct (j2 >? j1) eqn:E.
    + rewrite Z.gtb_ltb in E. apply Z.ltb_lt in E.
      destruct (Hd E) as (d & Hd' & Hne). rewrite Hd'. cbn [bind].
      rewrite (eqb_byte_false d " ") by assumption. reflexivity.
    + reflexivity.
  - replace (j2 >? j1) with true
      by (symmetry; rewrite Z.gtb_ltb; apply Z.ltb_lt; lia).
    rewrite (H j2) by lia. cbn [bind].
    change (Byte.eqb " " " ") with true. cbn iota.
    rewrite s32_small by lia.
    rewrite (IH n (j2 - 1)); try lia.
    + f_equal. lia.
    + intros x Hx. apply H. lia.
    + intros Hlt. replace (j2 - 1 - Z.of_nat k) with (j2 - Z.of_nat (S k)) by lia.
      apply Hd. lia.
Qed.

Lemma is_digit_digit_of (c : byte) :
  is_digit c -> digit_of c = Some (byte_val c - 48).
Proof.
  intros [H1 H2]. unfold digit_of.
  replace (48 <=? byte_val c) with true by (symmetry; apply Z.leb_le; lia).
  replace (byte_val c <=? 57) with true by (symmetry; apply Z.leb_le; lia).
  reflexivity.
Qed.

Lemma is_digit_not (c d : byte) :
  is_digit c -> ~ is_digit d -> Byte.eqb c d = false.
Proof.
  intros Hc Hd. apply eqb_byte_false. intros ->. contradiction.
Qed.

Lemma is_digit_isspace (c : byte) : is_digit c -> isspace c = false.
Proof.
  intros [H1 H2]. unfold isspace.
  replace (byte_val c =? 32) with false by (symmetry; apply Z.eqb_neq; lia).
  replace (byte_val c <=? 13) with false by (symmetry; apply Z.leb_gt; lia).
  rewrite andb_false_r. reflexivity.
Qed.

Lemma atoi_digits_spec (z : list byte) :
  forall (ds : list byte) (acc : Z),
  Forall is_digit ds ->
  atoi_digits (ds ++ x00 :: z) acc
  = Some (fold_left (fun acc c => 10 * acc + (byte_val c - 48)) ds acc).
Proof.
  induction ds as [|c ds IH]; intros acc HF.
  - reflexivity.
  - inversion HF; subst. cbn [app atoi_digits fold_left].
    rewrite is_digit_digit_of by assumption. apply IH. assumption.
Qed.

Lemma fold_digits_nonneg (ds : list byte) :
  forall acc, Forall is_digit ds -> 0 <= acc ->
  0 <= fold_left (fun acc c => 10 * acc + (byte_val c - 48)) ds acc.
Proof.
  induction ds as [|c ds IH]; intros acc HF Hacc; [exact Hacc|].
  inversion HF as [|? ? [H1 H2] HF']; subst. cbn [fold_left]. apply IH; [assumption|lia].
Qed.

(** [atoi] of a string of digits is the number they denote. *)
Lemma atoi_digits_string (ds z : list byte) :
  ds <> [] -> Forall is_digit ds -> dec_val ds < 2 ^ 31 ->
  atoi (ds ++ x00 :: z) = Some (dec_val ds).
Proof.
  intros Hne HF Hv. destruct ds as [|c ds]; [congruence|].
  inversion HF as [|? ? Hc HF']; subst.
  unfold atoi. cbn [app atoi_skip].
  rewrite (is_digit_isspace c Hc). cbn [bind].
  assert (Hminus : ~ is_digit "-") by (intros [H1 H2]; vm_compute in H1; congruence).
  assert (Hplus : ~ is_digit "+") by (intros [H1 H2]; vm_compute in H1; congruence).
  rewrite (is_digit_not c "-"), (is_digit_not c "+") by assumption.
  change (c :: ds ++ x00 :: z) with ((c :: ds) ++ x00 :: z).
  rewrite atoi_digits_spec by assumption. cbn [bind]. fold (dec_val (c :: ds)).
  pose proof (fold_digits_nonneg (c :: ds) 0 HF ltac:(lia)) as Hnn.
  fold (dec_val (c :: ds)) in Hnn.
  replace (- 2 ^ 31 <=? dec_val (c :: ds)) with true by (symmetry; apply Z.leb_le; lia).
  replace (dec_val (c :: ds) <? 2 ^ 31) with true by (symmetry; apply Z.ltb_lt; lia).
  reflexivity.
Qed.

Lemma byte_at_in (A B C : list byte) (i k : Z) :
  i = Z.of_nat (length A) + k -> 0 <= k < Z.of_nat (length B) ->
  byte_at (A ++ B ++ C) i = byte_at B k.
Proof.
  intros Hi Hk. rewrite (byte_at_mid A _ i k) by lia.
  apply byte_at_app_l. assumption.
Qed.

Lemma byte_at_last (l : list byte) :
  l <> [] -> byte_at l (Z.of_nat (length l) - 1) = Some (last l x00).
Proof.
  intros Hne. destruct (exists_last Hne) as (l' & c & ->).
  rewrite last_last, length_app. cbn [length].
  rewrite (byte_at_mid l' [c] _ 0) by lia. reflexivity.
Qed.

Lemma load_bytesZ_mid (A B C : list byte) :
  load_bytesZ (A ++ B ++ C) (Z.of_nat (length A)) (Z.of_nat (length B)) = Some B.
Proof.
  unfold load_bytesZ.
  replace (Z.of_nat (length B) <? 0) with false by (symmetry; apply Z.ltb_ge; lia).
  rewrite Nat2Z.id. rewrite load_bytes_mid by (rewrite length_app; lia).
  rewrite firstn_app, Nat.sub_diag, firstn_all, firstn_O, app_nil_r. reflexivity.
Qed.

(** The value of a line [name: digits], with any mix of colons and spaces
    before the digits and any number of spaces behind them. *)
Lemma content_length_value_spec (pre name seps digits trail post : list byte) :
  let l := name ++ seps ++ digits ++ trail in
  let R := pre ++ l ++ CR :: post in
  length name = 14%nat ->
  Forall (fun c => c = ":"%byte \/ c = " "%byte) seps ->
  digits <> [] -> Forall is_digit digits -> (length digits <= 11)%nat ->
  dec_val digits < 2 ^ 31 ->
  Forall (fun c => c = " "%byte) trail ->
  Z.of_nat (length R) < 2 ^ 31 ->
  content_length_value R (Z.of_nat (length pre))
    (Z.of_nat (length pre) + Z.of_nat (length l))
  = Some (dec_val digits).
Proof.
  intros l R Hname Hseps Hne Hdig Hlen Hval Htrail HR.
  set (p := Z.of_nat (length pre)).
  set (ns := Z.of_nat (length seps)).
  set (nd := Z.of_nat (length digits)).
  set (nt := Z.of_nat (length trail)).
  assert (Hl : Z.of_nat (length l) = 14 + ns + nd + nt).
  { unfold l, ns, nd, nt. rewrite !length_app. lia. }
  assert (HRl : Z.of_nat (length R) = p + 14 + ns + nd + nt + 1 + Z.of_nat (length post)).
  { unfold R. rewrite !length_app. cbn [length]. fold p. lia. }
  assert (Hnd : 1 <= nd <= 11).
  { unfold nd. destruct digits; [congruence|]. cbn [length] in *. lia. }
  assert (Hseps' : forall x, p + 14 <= x < p + 14 + ns ->
            exists c, byte_at R x = Some c /\ (c = ":"%byte \/ c = " "%byte)).
  { intros x Hx. unfold R, l.
    replace (pre ++ (name ++ seps ++ digits ++ trail) ++ CR :: post)
      with ((pre ++ name) ++ seps ++ (digits ++ trail ++ CR :: post))
      by (rewrite <- !app_assoc; reflexivity).
    rewrite (byte_at_in _ seps _ x (x - (p + 14)))
      by (try rewrite length_app; unfold p, ns in *; lia).
    apply byte_at_Forall; [assumption|unfold ns in *; lia]. }
  assert (Hdigs : forall x, p + 14 + ns <= x < p + 14 + ns + nd ->
            exists c, byte_at R x = Some c /\ is_digit c).
  { intros x Hx. unfold R, l.
    replace (pre ++ (name ++ seps ++ digits ++ trail) ++ CR :: post)
      with ((pre ++ name ++ seps) ++ digits ++ (trail ++ CR :: post))
      by (rewrite <- !app_assoc; reflexivity).
    rewrite (byte_at_in _ digits _ x (x - (p + 14 + ns)))
      by (try rewrite !length_app; unfold p, ns, nd in *; lia).
    apply byte_at_Forall; [assumption|unfold nd in *; lia]. }
  assert (Htr : forall x, p + 14 + ns + nd <= x < p + 14 + ns + nd + nt ->
            byte_at R x = Some " "%byte).
  { intros x Hx. unfold R, l.
    replace (pre ++ (name ++ seps ++ digits ++ trail) ++ CR :: post)
      with ((pre ++ name ++ seps ++ digits) ++ trail ++ (CR :: post))
      by (rewrite <- !app_assoc; reflexivity).
    rewrite (byte_at_in _ trail _ x (x - (p + 14 + ns + nd)))
      by (try rewrite !length_app; unfold p, ns, nd, nt in *; lia).
    destruct (byte_at_Forall _ trail (x - (p + 14 + ns + nd)) Htrail) as (c & Hc & ->);
      [unfold nt in *; lia|exact Hc]. }
  assert (Hnotsep : forall d, is_digit d -> d <> ":"%byte /\ d <> " "%byte).
  { intros d Hd. split; intros ->; unfold is_digit in Hd; vm_compute in Hd;
      destruct Hd as [H1 H2]; congruence. }
  unfold content_length_value. fold p. rewrite Hl.
  rewrite (u32_small (p + 14)) by (unfold p; lia).
  rewrite (s32_small (p + 14)) by (unfold p; lia).
  rewrite (u32_small (p + (14 + ns + nd + nt) - 1)) by (unfold p, ns, nt; lia).
  rewrite (s32_small (p + (14 + ns + nd + nt) - 1)) by (unfold p, ns, nt; lia).
  destruct (Hdigs (p + 14 + ns)) as (d0 & Hd0 & Hd0'); [lia|].
  destruct (Hnotsep d0 Hd0') as [Hd01 Hd02].
  rewrite (skip_separators_spec R _ (length seps) _ (p + 14) d0);
    try assumption; try (fold ns; unfold p, nt in *; lia).
  cbn [bind]. fold ns.
  replace (trim_spaces _ _ _ R) with (Some (p + (14 + ns + nd + nt) - 1 - Z.of_nat (length trail))).
  2:{ symmetry. apply trim_spaces_spec; fold nt; try (unfold p, ns, nt in *; lia).
      - intros x Hx. apply Htr. lia.
      - intros _. destruct (Hdigs (p + (14 + ns + nd + nt) - 1 - nt)) as (d & Hd & Hd');
          [lia|]. exists d. split; [exact Hd|]. apply Hnotsep. exact Hd'. }
  cbn [bind]. fold nt.
  replace (p + (14 + ns + nd + nt) - 1 - nt - (p + 14 + ns) + 1) with nd by lia.
  rewrite (s32_small nd) by lia.
  replace (nd <? 0) with false by (symmetry; apply Z.ltb_ge; lia).
  replace (12 <? nd) with false by (symmetry; apply Z.ltb_ge; lia).
  cbn [orb].
  replace (load_bytesZ R (p + 14 + ns) nd) with (Some digits).
  2:{ symmetry. unfold R, l.
      replace (pre ++ (name ++ seps ++ digits ++ trail) ++ CR :: post)
        with ((pre ++ name ++ seps) ++ digits ++ (trail ++ CR :: post))
        by (rewrite <- !app_assoc; reflexivity).
      replace (p + 14 + ns) with (Z.of_nat (length (pre ++ name ++ seps)))
        by (rewrite !length_app; unfold p, ns; lia).
      apply load_bytesZ_mid. }
  cbn [bind].
  replace (12 - Z.to_nat nd)%nat with (S (11 - Z.to_nat nd)) by lia.
  cbn [repeat]. rewrite atoi_digits_string by assumption. cbn [bind].
  rewrite u32_small; [reflexivity|].
  pose proof (fold_digits_nonneg digits 0 Hdig ltac:(lia)) as Hnn.
  fold (dec_val digits) in Hnn. lia.
Qed.

(** The first loop walks over characters that are no space. *)
Lemma scan_status_skip (R : list byte) (p m : Z) :
  forall (k n : nat) (i : Z),
  (forall j, i <= j < i + Z.of_nat k ->
     exists c, byte_at R j = Some c /\ c <> " "%byte) ->
  0 <= i -> i + Z.of_nat k < 2 ^ 32 ->
  scan_status (k + n) i p m R = scan_status n (i + Z.of_nat k) p m R.
Proof.
  induction k as [|k IH]; intros n i H Hi Hk.
  - cbn [Nat.add]. f_equal. cbn. lia.
  - destruct (H i) as (c & Hc & Hne); [lia|].
    cbn [Nat.add scan_status]. rewrite Hc. cbn [bind].
    rewrite (eqb_byte_false c " ") by assumption.
    rewrite u32_small by lia.
    rewrite IH.
    + f_equal. lia.
    + intros j Hj. apply H. lia.
    + lia.
    + lia.
Qed.

Lemma status_stage_200 (version tail : list byte) (response_len : Z)
    (result : http_response_result_t) :
  let R := version ++ list_byte_of_string " 200 " ++ tail in
  version <> [] -> Forall (fun c => c <> " "%byte) version ->
  Z.of_nat (length version) + 5 <= response_len ->
  Z.of_nat (length R) < 2 ^ 32 ->
  status_stage R response_len result
  = Some (inr (set_parse_status 1 (set_status_code 200 result))).
Proof.
  intros R Hne Hv Hlen HR.
  set (p := Z.of_nat (length version)).
  assert (Hp : 0 < p) by (unfold p; destruct version; [congruence|cbn [length]; lia]).
  assert (HRl : Z.of_nat (length R) = p + 5 + Z.of_nat (length tail)).
  { unfold R. rewrite !length_app. cbn [length list_byte_of_string]. fold p.
    change (length (list_byte_of_string " 200 ")) with 5%nat. lia. }
  assert (Hat : forall k, 0 <= k ->
            byte_at R (p + k) = byte_at (list_byte_of_string " 200 " ++ tail) k).
  { intros k Hk. unfold R. apply byte_at_mid; [reflexivity|assumption]. }
  assert (A0 : byte_at R p = Some " "%byte)
    by (rewrite <- (Z.add_0_r p), Hat by lia; reflexivity).
  assert (A1 : byte_at R (p + 1) = Some "2"%byte) by (rewrite Hat by lia; reflexivity).
  assert (A2 : byte_at R (p + 1 + 1) = Some "0"%byte)
    by (replace (p + 1 + 1) with (p + 2) by lia; rewrite Hat by lia; reflexivity).
  assert (A3 : byte_at R (p + 1 + 1 + 1) = Some "0"%byte)
    by (replace (p + 1 + 1 + 1) with (p + 3) by lia; rewrite Hat by lia; reflexivity).
  assert (A4 : byte_at R (p + 1 + 1 + 1 + 1) = Some " "%byte)
    by (replace (p + 1 + 1 + 1 + 1) with (p + 4) by lia; rewrite Hat by lia; reflexivity).
  unfold status_stage.
  replace (Z.to_nat response_len)
    with (length version + (1 + (3 + (1 + (Z.to_nat response_len - length version - 5)))))%nat
    by (unfold p in *; lia).
  rewrite scan_status_skip; try (fold p; lia).
  2:{ intros j Hj. unfold R. rewrite byte_at_app_l by lia.
      apply byte_at_Forall; [assumption|lia]. }
  fold p. rewrite Z.add_0_l.
  cbn [Nat.add scan_status].
  rewrite A0. cbn [bind].
  change (Byte.eqb " " " ") with true. cbn iota.
  change (u32 (0 + 1)) with 1. change (1 =? 1) with true. cbn iota.
  rewrite (u32_small (p + 1)) by lia.
  rewrite A1. cbn [bind]. change (Byte.eqb "2" " ") with false. cbn iota.
  rewrite (u32_small (p + 1 + 1)) by lia.
  rewrite A2. cbn [bind]. change (Byte.eqb "0" " ") with false. cbn iota.
  rewrite (u32_small (p + 1 + 1 + 1)) by lia.
  rewrite A3. cbn [bind]. change (Byte.eqb "0" " ") with false. cbn iota.
  rewrite (u32_small (p + 1 + 1 + 1 + 1)) by lia.
  rewrite A4. cbn [bind]. change (Byte.eqb " " " ") with true. cbn iota.
  change (u32 (1 + 1)) with 2. change (1 =? 2) with false. change (2 =? 2) with true.
  cbn iota. cbn [bind].
  replace (p =? 0) with false by (symmetry; apply Z.eqb_neq; lia).
  replace (p + 1 + 1 + 1 + 1 =? 0) with false by (symmetry; apply Z.eqb_neq; lia).
  replace (u32 (p + 1 + 1 + 1 + 1 - p)) with 4
    by (replace (p + 1 + 1 + 1 + 1 - p) with 4 by lia; reflexivity).
  cbn [orb negb Z.eqb Pos.eqb].
  replace (load_bytes R (p + 1) 3) with (Some (list_byte_of_string "200")).
  2:{ symmetry. unfold R.
      replace (version ++ list_byte_of_string " 200 " ++ tail)
        with ((version ++ [" "%byte]) ++ list_byte_of_string "200" ++ (" "%byte :: tail))
        by (rewrite <- !app_assoc; reflexivity).
      replace (p + 1) with (Z.of_nat (length (version ++ [" "%byte])))
        by (rewrite length_app; cbn [length]; unfold p; lia).
      rewrite load_bytes_mid; [reflexivity|].
      rewrite length_app. change (length (list_byte_of_string "200")) with 3%nat. lia. }
  reflexivity.
Qed.

Lemma lines_text_cons (l : list byte) (ls : list (list byte)) :
  lines_text (l :: ls) = l ++ CR :: LF :: lines_text ls.
Proof. unfold lines_text. cbn [map concat]. rewrite <- app_assoc. reflexivity. Qed.

Lemma lines_text_app (a b : list (list byte)) :
  lines_text (a ++ b) = lines_text a ++ lines_text b.
Proof. unfold lines_text. rewrite map_app, concat_app. reflexivity. Qed.

(** Lines of other headers leave the result as it is. *)
Lemma lines_effect_plain (R post : list byte) :
  forall (lines : list (list byte)) (pre : list byte) (r : http_response_result_t),
  R = pre ++ lines_text lines ++ post ->
  Forall (fun l => Forall (fun c => c <> CR) l) lines ->
  Forall (fun l => is_content_length l = false) lines ->
  (12 <= length post)%nat ->
  lines_effect R (Z.of_nat (length pre)) lines r = Some r.
Proof.
  induction lines as [|l ls IH]; intros pre r HR Hcr Hcl Hpost; [reflexivity|].
  apply Forall_cons_iff in Hcr as [Hl Hcr].
  apply Forall_cons_iff in Hcl as [Hc Hcl].
  assert (HR' : R = pre ++ l ++ CR :: (LF :: lines_text ls ++ post)).
  { rewrite HR, lines_text_cons. rewrite <- app_assoc. reflexivity. }
  cbn [lines_effect].
  rewrite HR' at 1.
  rewrite content_length_line_spec; [|assumption|].
  2:{ rewrite length_app. cbn [length]. rewrite length_app. lia. }
  rewrite Hc. cbn [bind].
  replace (Z.of_nat (length pre) + Z.of_nat (length l) + 2)
    with (Z.of_nat (length (pre ++ l ++ crlf)))
    by (rewrite !length_app; cbn [length crlf]; lia).
  apply IH; try assumption.
  rewrite HR'. rewrite <- !app_assoc. reflexivity.
Qed.

Lemma lines_effect_app (R : list byte) :
  forall (a b : list (list byte)) (p : Z) (r : http_response_result_t),
  lines_effect R p (a ++ b) r
  = r' <- lines_effect R p a r ;;
    lines_effect R (p + Z.of_nat (length (lines_text a))) b r'.
Proof.
  induction a as [|l a IH]; intros b p r.
  - cbn [app lines_effect bind lines_text map concat length]. f_equal. lia.
  - cbn [app lines_effect].
    destruct (content_length_line R p (p + Z.of_nat (length l)) r) as [r1|];
      [|reflexivity].
    cbn [bind]. rewrite IH.
    destruct (lines_effect R _ a r1) as [r2|]; [|reflexivity].
    cbn [bind]. f_equal. rewrite lines_text_cons, length_app. cbn [length]. lia.
Qed.

(** A complete header in the first packet: what the lines make of the
    result decides. *)
Lemma parse_header_lines (HEADER_BAK_LEN : Z) (junk : option (list byte))
    (version reason : list byte) (lines : list (list byte)) (rest : list byte)
    (response_len : Z) (result r2 : http_response_result_t) :
  let status_line := version ++ list_byte_of_string " 200 " ++ reason in
  let header := header_block status_line lines in
  let response := header ++ rest in
  version <> [] -> Forall (fun c => c <> " "%byte) version ->
  Forall (fun c => c <> CR) status_line ->
  Forall header_line lines ->
  Z.of_nat (length header) <= response_len ->
  Z.of_nat (length response) < 2 ^ 31 ->
  parse_status result = 0 ->
  lines_effect response 0 (status_line :: lines)
    (set_parse_status 1 (set_status_code 200 result)) = Some r2 ->
  parse_http_response HEADER_BAK_LEN junk response response_len result
  = Some (if parse_status r2 =? 2
          then (4, set_header_end (Z.of_nat (length header)) r2)
          else (-1, r2)).
Proof.
  intros status_line header response Hne Hsp Hcr Hlines Hlen Hresp H0 He.
  assert (Hhl : Z.of_nat (length header)
                = Z.of_nat (length (lines_text (status_line :: lines))) + 2).
  { unfold header, header_block. rewrite lines_text_cons.
    fold (lines_text lines). rewrite !length_app. cbn [length crlf]. lia. }
  assert (Hsl : Z.of_nat (length version) + 5 <= Z.of_nat (length status_line)).
  { unfold status_line. rewrite !length_app.
    change (length (list_byte_of_string " 200 ")) with 5%nat. lia. }
  assert (Hll : Z.of_nat (length status_line) + 2
                <= Z.of_nat (length (lines_text (status_line :: lines)))).
  { rewrite lines_text_cons, length_app. cbn [length]. lia. }
  assert (Hrl : Z.of_nat (length header) <= Z.of_nat (length response)).
  { unfold response. rewrite length_app. lia. }
  unfold parse_http_response. rewrite H0. change (0 =? 0) with true. cbn iota.
  replace response
    with (version ++ list_byte_of_string " 200 "
          ++ (reason ++ crlf ++ lines_text lines ++ crlf ++ rest)).
  2:{ unfold response, header, header_block, status_line, lines_text.
      rewrite <- !app_assoc. reflexivity. }
  rewrite status_stage_200; try assumption; try lia.
  2:{ replace (version ++ list_byte_of_string " 200 "
               ++ (reason ++ crlf ++ lines_text lines ++ crlf ++ rest))
        with response; [lia|].
      unfold response, header, header_block, status_line, lines_text.
      rewrite <- !app_assoc. reflexivity. }
  replace (version ++ list_byte_of_string " 200 "
           ++ (reason ++ crlf ++ lines_text lines ++ crlf ++ rest))
    with response.
  2:{ unfold response, header, header_block, status_line, lines_text.
      rewrite <- !app_assoc. reflexivity. }
  cbn [bind].
  change (parse_status (set_parse_status 1 (set_status_code 200 result))) with 1.
  change (3 =? 1) with false. cbn iota. cbn [bind].
  change (parse_status (set_parse_status 1 (set_status_code 200 result))) with 1.
  change (1 =? 1) with true. cbn iota.
  unfold content_length_stage.
  pose proof (cl_loop_lines response rest (status_line :: lines) []
                (set_parse_status 1 (set_status_code 200 result)) r2
                (Z.to_nat response_len)) as Hloop.
  cbn [length app] in Hloop. change (Z.of_nat 0) with 0 in Hloop.
  fold (lines_text (status_line :: lines)) in Hloop.
  rewrite Hloop; clear Hloop.
  - cbn [bind]. rewrite Z.add_0_l, <- Hhl.
    destruct (parse_status r2 =? 2) eqn:E2; [|reflexivity].
    cbn [set_header_end parse_status]. reflexivity.
  - unfold response, header, header_block. rewrite lines_text_cons.
    fold (lines_text lines). rewrite <- !app_assoc. reflexivity.
  - discriminate.
  - constructor; [|assumption]. split; [|assumption].
    unfold status_line. destruct version; [congruence|discriminate].
  - exact He.
  - lia.
  - lia.
Qed.

Lemma header_line_cr_free (lines : list (list byte)) :
  Forall header_line lines -> Forall (fun l => Forall (fun c => c <> CR) l) lines.
Proof. apply Forall_impl. intros l [_ H]. exact H. Qed.

(** X13: a response whose header is complete and has one Content-Length
    line gives 4, the length of the header and the number of the line. *)
Theorem parse_http_response_complete (HEADER_BAK_LEN : Z) (junk : option (list byte))
    (version reason : list byte) (before after : list (list byte))
    (name seps digits trail rest : list byte)
    (response_len : Z) (result : http_response_result_t) :
  let status_line := version ++ list_byte_of_string " 200 " ++ reason in
  let cl := name ++ seps ++ digits ++ trail in
  let header := header_block status_line (before ++ cl :: after) in
  version <> [] -> Forall (fun c => c <> " "%byte) version ->
  Forall (fun c => c <> CR) status_line ->
  is_content_length status_line = false ->
  Forall header_line before -> Forall (fun l => is_content_length l = false) before ->
  Forall header_line after -> Forall (fun l => is_content_length l = false) after ->
  name = list_byte_of_string "CONTENT-LENGTH"
  \/ name = list_byte_of_string "Content-Length" ->
  Forall (fun c => c = ":"%byte \/ c = " "%byte) seps ->
  digits <> [] -> Forall is_digit digits -> (length digits <= 11)%nat ->
  dec_val digits < 2 ^ 31 ->
  Forall (fun c => c = " "%byte) trail ->
  (10 <= length rest)%nat ->
  Z.of_nat (length header) <= response_len ->
  Z.of_nat (length (header ++ rest)) < 2 ^ 31 ->
  parse_status result = 0 ->
  parse_http_response HEADER_BAK_LEN junk (header ++ rest) response_len result
  = Some (4, {| status_code := 200;
                header_len := Z.of_nat (length header);
                body := Some (Z.of_nat (length header));
                body_len := dec_val digits;
                header_bak := header_bak result;
                parse_status := 4 |}).
Proof.
  intros status_line cl header Hne Hsp Hcr Hscl Hb Hbcl Ha Hacl Hname Hseps
    Hdne Hdig Hdlen Hdval Htrail Hrest Hlen Hresp H0.
  assert (Hnl : length name = 14%nat) by (destruct Hname as [-> | ->]; reflexivity).
  assert (Hncr : Forall (fun c => c <> CR) name).
  { destruct Hname as [-> | ->]; repeat constructor; discriminate. }
  assert (Hclcr : Forall (fun c => c <> CR) cl).
  { unfold cl. repeat (apply Forall_app; split); try assumption.
    - eapply Forall_impl; [|exact Hseps]. intros c [-> | ->]; discriminate.
    - eapply Forall_impl; [|exact Hdig]. intros c Hc ->.
      unfold is_digit in Hc. vm_compute in Hc. destruct Hc as [H1 H2]. congruence.
    - eapply Forall_impl; [|exact Htrail]. intros c ->. discriminate. }
  assert (Hclne : cl <> []).
  { unfold cl. destruct Hname as [-> | ->]; discriminate. }
  assert (Hiscl : is_content_length cl = true).
  { unfold cl. destruct Hname as [-> | ->]; reflexivity. }
  set (r1 := set_parse_status 1 (set_status_code 200 result)).
  set (response := header ++ rest) in *.
  assert (HR : response
               = lines_text (status_line :: before) ++ cl ++ CR
                 :: (LF :: lines_text after ++ crlf ++ rest)).
  { unfold response, header, header_block. fold (lines_text (before ++ cl :: after)).
    rewrite lines_text_app, !lines_text_cons. rewrite <- !app_assoc. reflexivity. }
  assert (He : lines_effect response 0 (status_line :: before ++ cl :: after) r1
               = Some (set_parse_status 2 (set_body_len (dec_val digits) r1))).
  { change (status_line :: before ++ cl :: after)
      with ((status_line :: before) ++ cl :: after).
    rewrite lines_effect_app.
    rewrite (lines_effect_plain response
               (lines_text (cl :: after) ++ crlf ++ rest) (status_line :: before) []).
    - cbn [bind]. rewrite Z.add_0_l. cbn [lines_effect].
      rewrite HR at 1. rewrite content_length_line_spec; [|assumption|].
      2:{ rewrite length_app. unfold cl. rewrite length_app, Hnl. lia. }
      rewrite Hiscl. rewrite <- HR.
      pose proof (content_length_value_spec (lines_text (status_line :: before))
                    name seps digits trail
                    (LF :: lines_text after ++ crlf ++ rest)) as Hv.
      cbv zeta in Hv. fold cl in Hv. rewrite <- HR in Hv.
      rewrite Hv by assumption. cbn [bind].
      replace (Z.of_nat (length (lines_text (status_line :: before)))
               + Z.of_nat (length cl) + 2)
        with (Z.of_nat (length (lines_text (status_line :: before) ++ cl ++ crlf)))
        by (rewrite !length_app; cbn [length crlf]; lia).
      apply (lines_effect_plain response (crlf ++ rest)).
      + rewrite HR. rewrite <- !app_assoc. reflexivity.
      + apply header_line_cr_free. assumption.
      + assumption.
      + rewrite length_app. cbn [length crlf]. lia.
    - cbn [app]. rewrite HR, !lines_text_cons. rewrite <- !app_assoc. reflexivity.
    - constructor; [assumption|]. apply header_line_cr_free. assumption.
    - constructor; assumption.
    - rewrite length_app, lines_text_cons, length_app. unfold cl.
      rewrite length_app, Hnl. lia. }
  pose proof (parse_header_lines HEADER_BAK_LEN junk version reason
                (before ++ cl :: after) rest response_len result
                (set_parse_status 2 (set_body_len (dec_val digits) r1))) as Hp.
  cbv zeta in Hp. fold status_line in Hp. fold header in Hp. fold response in Hp.
  rewrite Hp; try assumption.
  - reflexivity.
  - apply Forall_app. split; [assumption|].
    constructor; [|assumption]. split; assumption.
Qed.

(** X14: a complete header without a line that starts with
    "CONTENT-LENGTH" or "Content-Length" is refused, whatever else it
    holds. *)
Theorem parse_http_response_no_content_length (HEADER_BAK_LEN : Z)
    (junk : option (list byte)) (version reason : list byte)
    (lines : list (list byte)) (rest : list byte)
    (response_len : Z) (result : http_response_result_t) :
  let status_line := version ++ list_byte_of_string " 200 " ++ reason in
  let header := header_block status_line lines in
  version <> [] -> Forall (fun c => c <> " "%byte) version ->
  Forall (fun c => c <> CR) status_line ->
  is_content_length status_line = false ->
  Forall header_line lines -> Forall (fun l => is_content_length l = false) lines ->
  (10 <= length rest)%nat ->
  Z.of_nat (length header) <= response_len ->
  Z.of_nat (length (header ++ rest)) < 2 ^ 31 ->
  parse_status result = 0 ->
  option_map fst
    (parse_http_response HEADER_BAK_LEN junk (header ++ rest) response_len result)
  = Some (-1).
Proof.
  intros status_line header Hne Hsp Hcr Hscl Hl Hlcl Hrest Hlen Hresp H0.
  set (r1 := set_parse_status 1 (set_status_code 200 result)).
  pose proof (parse_header_lines HEADER_BAK_LEN junk version reason
                lines rest response_len result r1) as Hp.
  cbv zeta in Hp. fold status_line in Hp. fold header in Hp.
  rewrite Hp; try assumption.
  - reflexivity.
  - apply (lines_effect_plain (header ++ rest) (crlf ++ rest) (status_line :: lines) []).
    + unfold header, header_block. rewrite lines_text_cons.
      fold (lines_text lines). cbn [app]. rewrite <- !app_assoc. reflexivity.
    + constructor; [assumption|]. apply header_line_cr_free. assumption.
    + constructor; assumption.
    + rewrite length_app. cbn [length crlf]. lia.
Qed.

(** Witness of [parse_http_response_complete]: a header of 72 bytes. *)
Lemma parse_http_response_complete_witness :
  parse_http_response 32 None
    (header_block
       (list_byte_of_string "HTTP/1.1" ++ list_byte_of_string " 200 "
        ++ list_byte_of_string "OK")
       ([list_byte_of_string "Server: x"]
        ++ (list_byte_of_string "Content-Length" ++ list_byte_of_string ": "
            ++ list_byte_of_string "1234" ++ list_byte_of_string " ")
        :: [list_byte_of_string "Connection: close"])
     ++ repeat x00 10) 72 zero_result
  = Some (4, {| status_code := 200; header_len := 72; body := Some 72;
                body_len := 1234; header_bak := None; parse_status := 4 |}).
Proof.
  etransitivity; [apply (parse_http_response_complete 32 None
           (list_byte_of_string "HTTP/1.1") (list_byte_of_string "OK")
           [list_byte_of_string "Server: x"]
           [list_byte_of_string "Connection: close"]
           (list_byte_of_string "Content-Length") (list_byte_of_string ": ")
           (list_byte_of_string "1234") (list_byte_of_string " ")
           (repeat x00 10) 72 zero_result)|vm_compute; reflexivity].
  - discriminate.
  - simpl. repeat constructor; discriminate.
  - simpl. repeat constructor; discriminate.
  - reflexivity.
  - repeat constructor; simpl; try discriminate.
  - repeat constructor.
  - repeat constructor; simpl; try discriminate.
  - repeat constructor.
  - right. reflexivity.
  - simpl. constructor; [left; reflexivity|].
    constructor; [right; reflexivity|]. constructor.
  - discriminate.
  - simpl. repeat constructor; vm_compute; intros H; discriminate H.
  - simpl. lia.
  - vm_compute. reflexivity.
  - simpl. repeat constructor.
  - simpl. lia.
  - vm_compute. intros H. discriminate H.
  - vm_compute. reflexivity.
  - reflexivity.
Defined.

(** Witness of [parse_http_response_no_content_length]: the length in
    lower case. *)
Lemma parse_http_response_no_content_length_witness :
  option_map fst
    (parse_http_response 32 None
       (header_block
          (list_byte_of_string "HTTP/1.1" ++ list_byte_of_string " 200 "
           ++ list_byte_of_string "OK")
          [list_byte_of_string "content-length: 1234"]
        ++ repeat x00 10) 41 zero_result)
  = Some (-1).
Proof.
  apply (parse_http_response_no_content_length 32 None
           (list_byte_of_string "HTTP/1.1") (list_byte_of_string "OK")
           [list_byte_of_string "content-length: 1234"]
           (repeat x00 10) 41 zero_result).
  - discriminate.
  - simpl. repeat constructor; discriminate.
  - simpl. repeat constructor; discriminate.
  - reflexivity.
  - repeat constructor; simpl; try discriminate.
  - repeat constructor.
  - simpl. lia.
  - vm_compute. intros H. discriminate H.
  - vm_compute. reflexivity.
  - reflexivity.
Defined.

Lemma byte_val_inj (x y : byte) : byte_val x = byte_val y -> x = y.
Proof.
  unfold byte_val. intros H. apply N2Z.inj in H.
  pose proof (Byte.of_to_N x) as Hx. pose proof (Byte.of_to_N y) as Hy.
  rewrite H in Hx. congruence.
Qed.

Lemma digit_of_some (b : byte) (d : Z) :
  digit_of b = Some d -> 0 <= d <= 9 /\ byte_val b = d + 48.
Proof.
  unfold digit_of. destruct (48 <=? byte_val b) eqn:E1; [|discriminate].
  destruct (byte_val b <=? 57) eqn:E2; [|discriminate].
  cbn [andb]. intros [= <-]. apply Z.leb_le in E1, E2. lia.
Qed.

(** What the first loop finds: the first two spaces. *)
Lemma scan_status_spec (R : list byte) :
  forall (n : nat) (i p m p' q' : Z),
  scan_status n i p m R = Some (p', q') -> q' <> 0 ->
  0 <= i -> i + Z.of_nat n < 2 ^ 32 -> m = 0 \/ m = 1 ->
  byte_at R q' = Some " "%byte /\ i <= q' < i + Z.of_nat n
  /\ (m = 1 -> p' = p /\ forall j, i <= j < q' -> byte_at R j <> Some " "%byte)
  /\ (m = 0 ->
      byte_at R p' = Some " "%byte /\ i <= p' < q'
      /\ (forall j, i <= j < p' -> byte_at R j <> Some " "%byte)
      /\ (forall j, p' < j < q' -> byte_at R j <> Some " "%byte)).
Proof.
  induction n as [|n IH]; intros i p m p' q' H Hq Hi Hn Hm.
  - cbn [scan_status] in H. injection H as <- <-. congruence.
  - cbn [scan_status] in H.
    destruct (byte_at R i) as [c|] eqn:Ec; [|discriminate]. cbn [bind] in H.
    destruct (Byte.eqb c " ") eqn:Esp.
    + apply Byte.byte_dec_bl in Esp. subst c.
      destruct Hm as [-> | ->].
      * change (u32 (0 + 1)) with 1 in H. change (1 =? 1) with true in H. cbn iota in H.
        rewrite u32_small in H by lia.
        destruct (IH (i + 1) i 1 p' q' H Hq) as (A & B & C & _); try lia.
        destruct (C eq_refl) as [-> C'].
        split; [exact A|]. split; [lia|]. split; [intros; lia|]. intros _.
        split; [exact Ec|]. split; [lia|]. split; [intros; lia|].
        intros j Hj. apply C'. lia.
      * change (u32 (1 + 1)) with 2 in H. change (1 =? 2) with false in H.
        change (2 =? 2) with true in H. cbn iota in H.
        injection H as <- <-.
        split; [exact Ec|]. split; [lia|]. split.
        -- intros _. split; [reflexivity|]. intros; lia.
        -- intros; lia.
    + rewrite u32_small in H by lia.
      destruct (IH (i + 1) p m p' q' H Hq) as (A & B & C & D); try lia; try assumption.
      assert (Hi' : byte_at R i <> Some " "%byte).
      { rewrite Ec. intros [= ->]. cbn in Esp. discriminate. }
      split; [exact A|]. split; [lia|]. split.
      * intros Hm1. destruct (C Hm1) as [-> C']. split; [reflexivity|].
        intros j Hj. destruct (Z.eq_dec j i) as [-> |]; [exact Hi'|]. apply C'. lia.
      * intros Hm0. destruct (D Hm0) as (D1 & D2 & D3 & D4).
        split; [exact D1|]. split; [lia|]. split; [|exact D4].
        intros j Hj. destruct (Z.eq_dec j i) as [-> |]; [exact Hi'|]. apply D3. lia.
Qed.

(** Three characters that [atoi] reads as 200 are "200". *)
Lemma atoi_200 (a b c : byte) (v : Z) :
  atoi ([a; b; c] ++ [x00]) = Some v -> u32 v = 200 ->
  [a; b; c] = list_byte_of_string "200".
Proof.
  intros H Hv.
  assert (Hd : forall x d, digit_of x = Some d -> 0 <= d <= 9 /\ byte_val x = d + 48)
    by apply digit_of_some.
  unfold atoi in H. cbn [app atoi_skip] in H.
  change (isspace x00) with false in H.
  assert (Hfin : forall w : Z,
            (if (- 2 ^ 31 <=? w) && (w <? 2 ^ 31) then Some w else None) = Some v ->
            w = 200).
  { intros w Hw. destruct (- 2 ^ 31 <=? w) eqn:E1; [|discriminate].
    destruct (w <? 2 ^ 31) eqn:E2; [|discriminate]. cbn [andb] in Hw.
    injection Hw as ->. apply Z.leb_le in E1. apply Z.ltb_lt in E2.
    unfold u32, modulus in Hv.
    pose proof (Z.div_mod v (2 ^ 32) ltac:(lia)) as Hdm. lia. }
  destruct (isspace a) eqn:Sa; [destruct (isspace b) eqn:Sb;
    [destruct (isspace c) eqn:Sc|]|]; cbn [bind] in H;
  repeat match type of H with
    | context [Byte.eqb x00 ?y] => change (Byte.eqb x00 y) with false in H; cbn iota in H
    | context [Byte.eqb ?x ?y] => destruct (Byte.eqb x y) eqn:?; cbn iota in H
    end;
  cbn [atoi_digits] in H;
  change (digit_of x00) with (@None Z) in H; cbn iota in H;
  repeat match type of H with
    | context [digit_of ?x] =>
        let d := fresh "d" in let E := fresh "E" in
        destruct (digit_of x) as [d|] eqn:E;
        [apply Hd in E|]; cbn iota in H; cbn [bind] in H
    end;
  cbn [bind] in H;
  try (apply Hfin in H; exfalso; lia).
  apply Hfin in H.
  assert (Hds : d = 2 /\ d0 = 0 /\ d1 = 0) by lia.
  destruct Hds as (-> & -> & ->).
  destruct E as [_ E], E0 as [_ E0], E1 as [_ E1].
  rewrite (byte_val_inj a "2" E), (byte_val_inj b "0" E0), (byte_val_inj c "0" E1).
  reflexivity.
Qed.

Lemma content_length_line_status (R : list byte) (p q : Z)
    (r r' : http_response_result_t) :
  content_length_line R p q r = Some r' -> status_code r' = status_code r.
Proof.
  unfold content_length_line. intros H.
  destruct (memcmp_eq R p "CONTENT-LENGTH") as [m1|]; [|discriminate].
  cbn [bind] in H.
  destruct (if m1 then Some true else memcmp_eq R p "Content-Length") as [m2|];
    [|discriminate].
  cbn [bind] in H. destruct m2.
  - destruct (content_length_value R p q) as [v|]; [|discriminate].
    cbn [bind] in H. injection H as <-. reflexivity.
  - injection H as <-. reflexivity.
Qed.

Lemma content_length_loop_status (R : list byte) :
  forall (n : nat) (i p : Z) (r : http_response_result_t) (x : cl_exit),
  content_length_loop n i p R r = Some x ->
  match x with
  | ClEnd r' | ClHeaderEnd r' | ClFail r' => status_code r' = status_code r
  end.
Proof.
  induction n as [|n IH]; intros i p r x H.
  - injection H as <-. reflexivity.
  - cbn [content_length_loop] in H.
    destruct (crlf_at R i) as [eol|]; [|discriminate]. cbn [bind] in H.
    assert (Hstep : exists p1 r1,
              (if eol
               then r0 <- content_length_line R p i r ;; Some (u32 (i + 2), r0)
               else Some (p, r)) = Some (p1, r1)
              /\ status_code r1 = status_code r).
    { destruct eol.
      - destruct (content_length_line R p i r) as [r0|] eqn:E; [|discriminate].
        exists (u32 (i + 2)), r0. split; [reflexivity|].
        eapply content_length_line_status; eassumption.
      - exists p, r. split; reflexivity. }
    destruct Hstep as (p1 & r1 & Hs & Hsc). rewrite Hs in H. cbn [bind] in H.
    destruct (header_end_at R i) as [e|]; [|discriminate]. cbn [bind] in H.
    destruct e.
    + destruct (parse_status r1 =? 2); injection H as <-; exact Hsc.
    + apply IH in H. destruct x; congruence.
Qed.

(** X15: a first packet is taken further only when the three characters
    between its first two spaces are "200"; any other status, and a status
    line of another shape, end in -1. *)
Theorem parse_http_response_status (HEADER_BAK_LEN : Z) (junk : option (list byte))
    (response : list byte) (response_len : Z)
    (result r' : http_response_result_t) (ret : Z) :
  parse_status result = 0 -> 0 <= response_len < 2 ^ 32 ->
  parse_http_response HEADER_BAK_LEN junk response response_len result
  = Some (ret, r') ->
  ret <> -1 ->
  exists p,
    0 < p /\ p + 4 < response_len
    /\ (forall j, 0 <= j < p -> byte_at response j <> Some " "%byte)
    /\ byte_at response p = Some " "%byte
    /\ load_bytes response (p + 1) 3 = Some (list_byte_of_string "200")
    /\ byte_at response (p + 4) = Some " "%byte
    /\ status_code r' = 200.
Proof.
  intros H0 Hlen H Hret.
  unfold parse_http_response in H. rewrite H0 in H.
  change (0 =? 0) with true in H. cbn iota in H.
  unfold status_stage in H.
  destruct (scan_status (Z.to_nat response_len) 0 0 0 response) as [[p q]|] eqn:Es;
    [|discriminate].
  cbn [bind] in H.
  destruct (p =? 0) eqn:Ep.
  { cbn [orb bind] in H. injection H as <- <-. congruence. }
  destruct (q =? 0) eqn:Eq.
  { cbn [orb bind] in H. injection H as <- <-. congruence. }
  destruct (u32 (q - p) =? 4) eqn:Eqp.
  2:{ cbn [orb negb bind] in H. injection H as <- <-. congruence. }
  cbn [orb negb] in H.
  apply Z.eqb_neq in Ep, Eq. apply Z.eqb_eq in Eqp.
  destruct (scan_status_spec response _ 0 0 0 p q Es Eq) as (A & B & _ & D);
    try lia.
  destruct (D eq_refl) as (D1 & D2 & D3 & D4).
  rewrite u32_small in Eqp by lia.
  assert (q = p + 4) as -> by lia.
  destruct (load_bytes response (p + 1) 3) as [status|] eqn:El; [|discriminate].
  cbn [bind] in H.
  pose proof (load_bytes_length _ _ _ _ El) as Hsl.
  destruct status as [|a [|b [|c [|]]]]; try discriminate Hsl.
  destruct (atoi ([a; b; c] ++ [x00])) as [code|] eqn:Ea; [|discriminate].
  cbn [bind] in H.
  change (status_code (set_status_code (u32 code) result)) with (u32 code) in H.
  destruct (u32 code =? 200) eqn:Ec.
  2:{ injection H as <- <-. congruence. }
  apply Z.eqb_eq in Ec.
  rewrite (atoi_200 a b c code Ea Ec) in *.
  exists p. repeat split; try assumption; try lia.
  (* the later stages leave the status code as it is *)
  cbn [bind] in H.
  change (parse_status (set_parse_status 1 (set_status_code (u32 code) result)))
    with 1 in H.
  change (3 =? 1) with false in H. cbn iota in H. cbn [bind] in H.
  change (parse_status (set_parse_status 1 (set_status_code (u32 code) result)))
    with 1 in H.
  change (1 =? 1) with true in H. cbn iota in H.
  unfold content_length_stage in H.
  destruct (content_length_loop _ 0 0 response _) as [x|] eqn:Ex; [|discriminate].
  cbn [bind] in H.
  apply content_length_loop_status in Ex.
  change (status_code (set_parse_status 1 (set_status_code (u32 code) result)))
    with (u32 code) in Ex.
  destruct x as [r1|r1|r1].
  - destruct (1 =? parse_status r1).
    + destruct (save_header_bak _ _ _ _); [|discriminate].
      cbn [bind] in H. injection H as <- <-. cbn. congruence.
    + destruct (2 =? parse_status r1).
      * destruct (save_header_bak _ _ _ _); [|discriminate].
        cbn [bind] in H. injection H as <- <-. cbn. congruence.
      * injection H as <- <-. congruence.
  - injection H as <- <-. congruence.
  - injection H as <- <-. congruence.
Qed.

(** Witness of [parse_http_response_status]: the header of 72 bytes. *)
Lemma parse_http_response_status_witness :
  exists p,
    0 < p /\ p + 4 < 72
    /\ (forall j, 0 <= j < p ->
        byte_at (header_block
          (list_byte_of_string "HTTP/1.1 200 OK")
          [list_byte_of_string "Server: x";
           list_byte_of_string "Content-Length: 1234 ";
           list_byte_of_string "Connection: close"] ++ repeat x00 10) j
        <> Some " "%byte)
    /\ byte_at (header_block
          (list_byte_of_string "HTTP/1.1 200 OK")
          [list_byte_of_string "Server: x";
           list_byte_of_string "Content-Length: 1234 ";
           list_byte_of_string "Connection: close"] ++ repeat x00 10) p
       = Some " "%byte
    /\ load_bytes (header_block
          (list_byte_of_string "HTTP/1.1 200 OK")
          [list_byte_of_string "Server: x";
           list_byte_of_string "Content-Length: 1234 ";
           list_byte_of_string "Connection: close"] ++ repeat x00 10) (p + 1) 3
       = Some (list_byte_of_string "200")
    /\ byte_at (header_block
          (list_byte_of_string "HTTP/1.1 200 OK")
          [list_byte_of_string "Server: x";
           list_byte_of_string "Content-Length: 1234 ";
           list_byte_of_string "Connection: close"] ++ repeat x00 10) (p + 4)
       = Some " "%byte
    /\ status_code {| status_code := 200; header_len := 72; body := Some 72;
                      body_len := 1234; header_bak := None; parse_status := 4 |}
       = 200.
Proof.
  apply (parse_http_response_status 32 None _ 72 zero_result _ 4).
  - reflexivity.
  - vm_compute. split; [intros H; discriminate H|reflexivity].
  - vm_compute. reflexivity.
  - discriminate.
Defined.

Lemma save_header_bak_short (HEADER_BAK_LEN : Z) (junk : option (list byte))
    (response : list byte) (response_len : Z) :
  response_len < HEADER_BAK_LEN ->
  save_header_bak HEADER_BAK_LEN junk response response_len = None.
Proof.
  intros H. unfold save_header_bak.
  destruct junk as [block|]; [|reflexivity]. cbn [bind].
  destruct (negb _); [reflexivity|].
  destruct (strlen block) as [k|]; [|reflexivity]. cbn [bind].
  unfold load_bytesZ, load_bytes.
  destruct (HEADER_BAK_LEN <? 0); [reflexivity|].
  replace (0 <=? response_len - HEADER_BAK_LEN) with false
    by (symmetry; apply Z.leb_gt; lia).
  reflexivity.
Qed.

(** X16: a first packet with the status line and without a CR that is
    shorter than [HEADER_BAK_LEN] has no defined result: the bytes kept for
    the next packet are copied from before the response. *)
Theorem parse_http_response_short_packet (HEADER_BAK_LEN : Z)
    (junk : option (list byte)) (version tail : list byte)
    (response_len : Z) (result : http_response_result_t) :
  let response := version ++ list_byte_of_string " 200 " ++ tail in
  version <> [] -> Forall (fun c => c <> " "%byte) version ->
  Forall (fun c => c <> CR) (firstn (Z.to_nat response_len) response) ->
  Z.of_nat (length version) + 5 <= response_len <= Z.of_nat (length response) ->
  Z.of_nat (length response) < 2 ^ 32 ->
  parse_status result = 0 ->
  response_len < HEADER_BAK_LEN ->
  parse_http_response HEADER_BAK_LEN junk response response_len result = None.
Proof.
  intros response Hne Hsp Hcr Hlen Hresp H0 Hshort.
  unfold parse_http_response. rewrite H0. change (0 =? 0) with true. cbn iota.
  fold response.
  unfold response at 1. rewrite status_stage_200; try assumption; try lia.
  fold response. cbn [bind].
  change (parse_status (set_parse_status 1 (set_status_code 200 result))) with 1.
  change (3 =? 1) with false. cbn iota. cbn [bind].
  change (parse_status (set_parse_status 1 (set_status_code 200 result))) with 1.
  change (1 =? 1) with true. cbn iota.
  unfold content_length_stage.
  replace (Z.to_nat response_len) with (Z.to_nat response_len + 0)%nat at 1 by lia.
  rewrite cl_loop_skip; try lia.
  - cbn [content_length_loop bind].
    change (parse_status (set_parse_status 1 (set_status_code 200 result))) with 1.
    change (1 =? 1) with true. cbn iota.
    rewrite save_header_bak_short by assumption. reflexivity.
  - intros j Hj.
    rewrite <- (firstn_skipn (Z.to_nat response_len) response).
    rewrite byte_at_app_l by (rewrite length_firstn; lia).
    apply byte_at_Forall; [assumption|]. rewrite length_firstn. lia.
Qed.

(** Witness of [parse_http_response_short_packet]: a first packet of 15
    bytes, [HEADER_BAK_LEN] being 32. *)
Lemma parse_http_response_short_packet_witness :
  parse_http_response 32 (Some (repeat x00 33))
    (list_byte_of_string "HTTP/1.1" ++ list_byte_of_string " 200 "
     ++ list_byte_of_string "OK" ++ repeat x00 497) 15 zero_result
  = None.
Proof.
  apply (parse_http_response_short_packet 32 (Some (repeat x00 33))
           (list_byte_of_string "HTTP/1.1")
           (list_byte_of_string "OK" ++ repeat x00 497) 15 zero_result).
  - discriminate.
  - simpl. repeat constructor; discriminate.
  - simpl. repeat constructor; discriminate.
  - vm_compute. split; intros H; discriminate H.
  - vm_compute. reflexivity.
  - reflexivity.
  - reflexivity.
Defined.

Lemma content_length_line_parse_status (R : list byte) (p q : Z)
    (r r' : http_response_result_t) :
  content_length_line R p q r = Some r' ->
  parse_status r = 1 \/ parse_status r = 2 ->
  (parse_status r' = 1 \/ parse_status r' = 2)
  /\ header_bak r' = header_bak r.
Proof.
  unfold content_length_line. intros H Hr.
  destruct (memcmp_eq R p "CONTENT-LENGTH") as [m1|]; [|discriminate].
  cbn [bind] in H.
  destruct (if m1 then Some true else memcmp_eq R p "Content-Length") as [m2|];
    [|discriminate].
  cbn [bind] in H. destruct m2.
  - destruct (content_length_value R p q) as [v|]; [|discriminate].
    cbn [bind] in H. injection H as <-. split; [right|]; reflexivity.
  - injection H as <-. split; [exact Hr|reflexivity].
Qed.

(** How the loop of the last stage leaves the parse status. *)
Lemma content_length_loop_parse_status (R : list byte) :
  forall (n : nat) (i p : Z) (r : http_response_result_t) (x : cl_exit),
  content_length_loop n i p R r = Some x ->
  parse_status r = 1 \/ parse_status r = 2 ->
  match x with
  | ClEnd r' =>
      (parse_status r' = 1 \/ parse_status r' = 2) /\ header_bak r' = header_bak r
  | ClHeaderEnd r' =>
      parse_status r' = 4 /\ body r' = Some (header_len r')
      /\ header_bak r' = header_bak r
  | ClFail r' => True
  end.
Proof.
  induction n as [|n IH]; intros i p r x H Hr.
  - injection H as <-. split; [exact Hr|reflexivity].
  - cbn [content_length_loop] in H.
    destruct (crlf_at R i) as [eol|]; [|discriminate]. cbn [bind] in H.
    assert (Hstep : exists p1 r1,
              (if eol
               then r0 <- content_length_line R p i r ;; Some (u32 (i + 2), r0)
               else Some (p, r)) = Some (p1, r1)
              /\ (parse_status r1 = 1 \/ parse_status r1 = 2)
              /\ header_bak r1 = header_bak r).
    { destruct eol.
      - destruct (content_length_line R p i r) as [r0|] eqn:E; [|discriminate].
        exists (u32 (i + 2)), r0. split; [reflexivity|].
        eapply content_length_line_parse_status; eassumption.
      - exists p, r. split; [reflexivity|]. split; [exact Hr|reflexivity]. }
    destruct Hstep as (p1 & r1 & Hs & Hps & Hbak). rewrite Hs in H. cbn [bind] in H.
    destruct (header_end_at R i) as [e|]; [|discriminate]. cbn [bind] in H.
    destruct e.
    + destruct (parse_status r1 =? 2); injection H as <-; [|exact I].
      split; [reflexivity|]. split; [reflexivity|exact Hbak].
    + apply IH in H; [|exact Hps]. destruct x; [| |exact I].
      * destruct H as [H1 H2]. split; [exact H1|congruence].
      * destruct H as (H1 & H2 & H3). split; [exact H1|]. split; [exact H2|congruence].
Qed.

Lemma strlen_range (s : list byte) :
  forall k, strlen s = Some k -> 0 <= k < Z.of_nat (length s).
Proof.
  induction s as [|b s IH]; intros k H; [discriminate|].
  cbn [strlen] in H. destruct (Byte.eqb b x00).
  - injection H as <-. cbn [length]. lia.
  - destruct (strlen s) as [k'|]; [|discriminate]. injection H as <-.
    specialize (IH k' eq_refl). cbn [length]. lia.
Qed.

(** What [save_header_bak] hands over: a block of [HEADER_BAK_LEN + 1]
    bytes that starts with the last [HEADER_BAK_LEN] bytes of the response. *)
Lemma save_header_bak_spec (HEADER_BAK_LEN : Z) (junk : option (list byte))
    (response : list byte) (response_len : Z) (bak : list byte) :
  save_header_bak HEADER_BAK_LEN junk response response_len = Some bak ->
  Z.of_nat (length bak) = HEADER_BAK_LEN + 1
  /\ load_bytesZ response (response_len - HEADER_BAK_LEN) HEADER_BAK_LEN
     = Some (firstn (Z.to_nat HEADER_BAK_LEN) bak).
Proof.
  unfold save_header_bak. intros H.
  destruct junk as [block|]; [|discriminate]. cbn [bind] in H.
  destruct (Z.of_nat (length block) =? HEADER_BAK_LEN + 1) eqn:El; [|discriminate].
  cbn [negb] in H. apply Z.eqb_eq in El.
  destruct (strlen block) as [k|] eqn:Ek; [|discriminate]. cbn [bind] in H.
  destruct (load_bytesZ response _ _) as [tail|] eqn:Et; [|discriminate].
  cbn [bind] in H.
  apply strlen_range in Ek.
  assert (Htl : Z.of_nat (length tail) = HEADER_BAK_LEN).
  { unfold load_bytesZ in Et. destruct (HEADER_BAK_LEN <? 0) eqn:En; [discriminate|].
    apply Z.ltb_ge in En. apply load_bytes_length in Et. lia. }
  pose proof (store_bytes_length _ _ _ _ H) as Hlen.
  split.
  - rewrite Hlen, length_app, repeat_length, length_skipn.
    lia.
  - f_equal. unfold store_bytes in H.
    destruct (_ && _); [|discriminate]. injection H as <-.
    cbn [Z.to_nat firstn app]. rewrite firstn_app.
    replace (Z.to_nat HEADER_BAK_LEN) with (length tail) by lia.
    rewrite firstn_all, Nat.sub_diag, firstn_O, app_nil_r. reflexivity.
Qed.

Lemma content_length_stage_contract (HEADER_BAK_LEN : Z) (junk : option (list byte))
    (response : list byte) (response_len : Z)
    (result r' : http_response_result_t) (ret : Z) :
  parse_status result = 1 ->
  content_length_stage HEADER_BAK_LEN junk response response_len result
  = Some (ret, r') ->
  ret = -1
  \/ (ret = 4 /\ parse_status r' = 4 /\ body r' = Some (header_len r'))
  \/ ((ret = 1 \/ ret = 3) /\ parse_status r' = ret
      /\ exists bak, header_bak r' = Some bak
         /\ Z.of_nat (length bak) = HEADER_BAK_LEN + 1
         /\ load_bytesZ response (response_len - HEADER_BAK_LEN) HEADER_BAK_LEN
            = Some (firstn (Z.to_nat HEADER_BAK_LEN) bak)).
Proof.
  intros H1 H. unfold content_length_stage in H.
  destruct (content_length_loop _ 0 0 response result) as [x|] eqn:Ex; [|discriminate].
  cbn [bind] in H.
  apply content_length_loop_parse_status in Ex; [|left; exact H1].
  destruct x as [r|r|r].
  - destruct Ex as [[E|E] _]; rewrite E in H.
    + change (1 =? 1) with true in H. cbn iota in H.
      destruct (save_header_bak _ _ _ _) as [bak|] eqn:Eb; [|discriminate].
      cbn [bind] in H. injection H as <- <-.
      apply save_header_bak_spec in Eb. destruct Eb as [Eb1 Eb2].
      right. right. cbn [set_header_bak parse_status header_bak]. rewrite E.
      split; [left; reflexivity|]. split; [reflexivity|].
      exists bak. auto.
    + change (1 =? 2) with false in H. change (2 =? 2) with true in H. cbn iota in H.
      destruct (save_header_bak _ _ _ _) as [bak|] eqn:Eb; [|discriminate].
      cbn [bind] in H. injection H as <- <-.
      apply save_header_bak_spec in Eb. destruct Eb as [Eb1 Eb2].
      right. right. cbn [set_header_bak set_parse_status parse_status header_bak].
      split; [right; reflexivity|]. split; [reflexivity|].
      exists bak. auto.
  - destruct Ex as (E1 & E2 & _). injection H as <- <-.
    right. left. rewrite E1. auto.
  - injection H as <- <-. left. reflexivity.
Qed.

(** X17: the results the comment of [parse_http_response] promises.
    Started with parse status 0, 1 or 3, it returns -1, 1, 3 or 4 and
    nothing else; 4 comes with [body] at [header_len]; 1 and 3 come with
    a block of [HEADER_BAK_LEN + 1] bytes in [header_bak] that starts with
    the last [HEADER_BAK_LEN] bytes of the response.  The parse status is
    never left at 2, on which the header loop of [http_update_ota] would
    spin. *)
Theorem parse_http_response_contract (HEADER_BAK_LEN : Z) (junk : option (list byte))
    (response : list byte) (response_len : Z)
    (result r' : http_response_result_t) (ret : Z) :
  parse_status result = 0 \/ parse_status result = 1 \/ parse_status result = 3 ->
  parse_http_response HEADER_BAK_LEN junk response response_len result
  = Some (ret, r') ->
  ret = -1
  \/ (ret = 4 /\ parse_status r' = 4 /\ body r' = Some (header_len r'))
  \/ ((ret = 1 \/ ret = 3) /\ parse_status r' = ret
      /\ exists bak, header_bak r' = Some bak
         /\ Z.of_nat (length bak) = HEADER_BAK_LEN + 1
         /\ load_bytesZ response (response_len - HEADER_BAK_LEN) HEADER_BAK_LEN
            = Some (firstn (Z.to_nat HEADER_BAK_LEN) bak)).
Proof.
  intros Hs H. unfold parse_http_response in H.
  destruct Hs as [E|[E|E]]; rewrite E in H.
  - change (0 =? 0) with true in H. cbn iota in H.
    unfold status_stage in H.
    destruct (scan_status _ 0 0 0 response) as [[p q]|]; [|discriminate].
    cbn [bind] in H.
    destruct ((p =? 0) || (q =? 0) || negb (u32 (q - p) =? 4)).
    { cbn [bind] in H. injection H as <- <-. left. reflexivity. }
    destruct (load_bytes response (p + 1) 3) as [status|]; [|discriminate].
    cbn [bind] in H.
    destruct (atoi (status ++ [x00])) as [code|]; [|discriminate].
    cbn [bind] in H.
    destruct (status_code (set_status_code (u32 code) result) =? 200).
    2:{ cbn [bind] in H. injection H as <- <-. left. reflexivity. }
    cbn [bind] in H.
    change (parse_status (set_parse_status 1 (set_status_code (u32 code) result)))
      with 1 in H.
    change (3 =? 1) with false in H. cbn iota in H. cbn [bind] in H.
    change (parse_status (set_parse_status 1 (set_status_code (u32 code) result)))
      with 1 in H.
    change (1 =? 1) with true in H. cbn iota in H.
    eapply content_length_stage_contract; [|exact H]. reflexivity.
  - change (0 =? 1) with false in H. cbn iota in H. cbn [bind] in H.
    rewrite E in H.
    change (3 =? 1) with false in H. cbn iota in H. cbn [bind] in H.
    rewrite E in H. change (1 =? 1) with true in H. cbn iota in H.
    eapply content_length_stage_contract; eassumption.
  - change (0 =? 3) with false in H. cbn iota in H. cbn [bind] in H.
    rewrite E in H. change (3 =? 3) with true in H. cbn iota in H.
    unfold header_end_stage in H.
    destruct (find_header_end _ 0 response) as [e|]; [|discriminate].
    cbn [bind] in H. destruct e as [header_end|].
    + cbn [bind set_header_end parse_status] in H.
      change (1 =? 4) with false in H. cbn iota in H. injection H as <- <-.
      right. left. auto.
    + destruct (save_header_bak _ _ _ _) as [bak|] eqn:Eb; [|discriminate].
      cbn [bind set_header_bak parse_status] in H. rewrite E in H.
      change (1 =? 3) with false in H. cbn iota in H. injection H as <- <-.
      apply save_header_bak_spec in Eb. destruct Eb as [Eb1 Eb2].
      right. right. split; [right; reflexivity|]. split; [exact E|].
      exists bak. auto.
Qed.

(** Witness of [parse_http_response_contract]: a first packet of 40 bytes
    without the end of the header gives 1. *)
Lemma parse_http_response_contract_witness :
  exists r',
    parse_http_response 32 (Some (repeat x01 32 ++ [x00]))
      (list_byte_of_string "HTTP/1.1 200 OK" ++ crlf
       ++ list_byte_of_string "Server: some server" ++ crlf
       ++ list_byte_of_string "Co" ++ repeat x00 472) 40 zero_result
    = Some (1, r')
    /\ (1 = -1
        \/ (1 = 4 /\ parse_status r' = 4 /\ body r' = Some (header_len r'))
        \/ ((1 = 1 \/ 1 = 3) /\ parse_status r' = 1
            /\ exists bak, header_bak r' = Some bak
               /\ Z.of_nat (length bak) = 32 + 1
               /\ load_bytesZ
                    (list_byte_of_string "HTTP/1.1 200 OK" ++ crlf
                     ++ list_byte_of_string "Server: some server" ++ crlf
                     ++ list_byte_of_string "Co" ++ repeat x00 472) (40 - 32) 32
                  = Some (firstn (Z.to_nat 32) bak))).
Proof.
  eexists. split.
  - vm_compute. reflexivity.
  - apply (parse_http_response_contract 32 (Some (repeat x01 32 ++ [x00]))
             (list_byte_of_string "HTTP/1.1 200 OK" ++ crlf
              ++ list_byte_of_string "Server: some server" ++ crlf
              ++ list_byte_of_string "Co" ++ repeat x00 472) 40 zero_result).
    + left. reflexivity.
    + vm_compute. reflexivity.
Defined.

(* ----------------------------------------------------------------- *)
(** *** [restore_ota_file_hdr] *)

(** For a count an [int] holds, the loop is the receive loop of the local
    update. *)
Lemma restore_loop_recv_loop : forall (sched : list Z) (TempLen : Z)
    (alloc : list byte) (pos : Z) (w : world),
  0 <= TempLen < 2 ^ 31 ->
  restore_loop sched TempLen alloc pos w = recv_loop sched TempLen alloc pos w.
Proof.
  induction sched as [|n sched IH]; intros TempLen alloc pos w HT.
  - cbn [restore_loop recv_loop].
    destruct (TempLen =? 0); destruct (TempLen >? 0); reflexivity.
  - cbn [restore_loop recv_loop].
    destruct (TempLen =? 0) eqn:E0.
    + apply Z.eqb_eq in E0. subst. reflexivity.
    + apply Z.eqb_neq in E0.
      replace (TempLen >? 0) with true
        by (symmetry; rewrite Z.gtb_ltb; apply Z.ltb_lt; lia).
      rewrite (u32_small TempLen) by lia.
      destruct (read (Some n) TempLen w) as [[r d] w1] eqn:Er.
      apply read_spec in Er.
      destruct Er as (_ & _ & _ & _ & [(Hn & -> & ->)|(Hn & Hr & Hd)]);
        [reflexivity|].
      assert (Hrange : 0 <= r <= TempLen).
      { rewrite Hr, Hd, length_firstn. lia. }
      destruct (r <? 0); [reflexivity|]. destruct (r =? 0); [reflexivity|].
      destruct (store_bytes alloc pos d) as [alloc'|]; [|reflexivity].
      cbn [bind]. rewrite s32_small, u32_small by lia. apply IH. lia.
Qed.

(** X18: [restore_ota_file_hdr] when no read fails: with [writelen] bytes
    of the [len] it wants in the buffer already, it reads the missing
    [len - writelen] bytes to [buf], whatever the sizes of the reads, and
    returns 0; it also returns 0 when the peer closes before they are in.
    With [len] bytes or more in the buffer it reads nothing and returns
    the surplus. *)
Theorem restore_ota_file_hdr_received (writelen len : Z) (alloc : list byte)
    (pos : Z) (sched : list Z) (w : world) :
  Forall (fun n => 0 < n) sched ->
  0 <= writelen < 2 ^ 31 -> 0 <= len < 2 ^ 31 -> 0 <= pos ->
  pos + (len - writelen) <= Z.of_nat (length alloc) ->
  let need := Z.max 0 (len - writelen) in
  let m := Z.min need (Z.of_nat (length (rx_data w))) in
  m <= Z.of_nat (length sched) ->
  exists sched' w',
    restore_ota_file_hdr writelen len alloc pos sched w
    = Some (Z.max 0 (writelen - len),
            firstn (Z.to_nat pos) alloc ++ firstn (Z.to_nat m) (rx_data w)
            ++ skipn (Z.to_nat (pos + m)) alloc,
            sched', w') /\
    rx_data w' = skipn (Z.to_nat m) (rx_data w) /\
    log w' = log w /\ flash0 w' = flash0 w.
Proof.
  intros Hs Hw Hl Hpos Hfit need m Hm.
  unfold restore_ota_file_hdr.
  destruct (writelen <? len) eqn:E.
  - apply Z.ltb_lt in E.
    rewrite s32_small by lia.
    rewrite restore_loop_recv_loop by lia.
    assert (need = len - writelen) as Hneed by (unfold need; lia).
    destruct (recv_loop_received sched (len - writelen) alloc pos w Hs)
      as (k & w' & Hrun & _ & Hrx & Hlog & Hfl & _); try lia.
    exists (skipn k sched), w'. rewrite Hrun. cbn [bind].
    replace (Z.max 0 (writelen - len)) with 0 by lia.
    unfold m. rewrite Hneed. auto.
  - apply Z.ltb_ge in E.
    assert (m = 0) as -> by (unfold m, need; lia).
    exists sched, w. rewrite s32_small by lia.
    replace (Z.max 0 (writelen - len)) with (writelen - len) by lia.
    cbn [Z.to_nat firstn app skipn]. rewrite Z.add_0_r, firstn_skipn. auto.
Qed.

(** Witness of [restore_ota_file_hdr_received]: 10 of 16 bytes are in the
    buffer and the 6 that miss come in two reads. *)
Lemma restore_ota_file_hdr_received_witness :
  exists sched' w',
    restore_ota_file_hdr 10 16 (repeat x00 64) 40 [4; 4; 4; 4; 4; 4]
      (world_of erased_flash (repeat x01 20))
    = Some (0, repeat x00 40 ++ repeat x01 6 ++ repeat x00 18, sched', w') /\
    rx_data w' = repeat x01 14.
Proof.
  destruct (restore_ota_file_hdr_received 10 16 (repeat x00 64) 40 [4; 4; 4; 4; 4; 4]
              (world_of erased_flash (repeat x01 20)))
    as (sched' & w' & Hrun & Hrx & _).
  - repeat constructor.
  - lia.
  - lia.
  - lia.
  - vm_compute. intros H. discriminate H.
  - vm_compute. intros H. discriminate H.
  - exists sched', w'. split; [exact Hrun|exact Hrx].
Defined.

(* ----------------------------------------------------------------- *)
(** *** [http_update_ota]: the loop that reads the header *)

(** The parse status a call that does not return -1 leaves. *)
Lemma parse_http_response_parse_status (HEADER_BAK_LEN : Z)
    (junk : option (list byte)) (response : list byte) (response_len : Z)
    (result r' : http_response_result_t) (ret : Z) :
  parse_status result = 0 \/ parse_status result = 1 \/ parse_status result = 3 ->
  parse_http_response HEADER_BAK_LEN junk response response_len result
  = Some (ret, r') ->
  ret <> -1 ->
  parse_status r' = 1 \/ parse_status r' = 3 \/ parse_status r' = 4.
Proof.
  assert (Hstage : forall r0, parse_status r0 = 1 ->
            content_length_stage HEADER_BAK_LEN junk response response_len r0
            = Some (ret, r') ->
            ret <> -1 ->
            parse_status r' = 1 \/ parse_status r' = 3 \/ parse_status r' = 4).
  { intros r0 H1 H Hret.
    destruct (content_length_stage_contract _ _ _ _ _ _ _ H1 H)
      as [E|[(_ & E & _)|([E|E] & E' & _)]]; [contradiction| | |];
      rewrite ?E', ?E; auto. }
  intros Hs H Hret. unfold parse_http_response in H.
  destruct Hs as [E|[E|E]]; rewrite E in H.
  - change (0 =? 0) with true in H. cbn iota in H.
    destruct (status_stage response response_len result) as [[[ret0 r0]|r0]|] eqn:Es;
      [| |discriminate]; cbn [bind] in H.
    { injection H as <- <-. unfold status_stage in Es.
      destruct (scan_status _ 0 0 0 response) as [[p q]|]; [|discriminate].
      cbn [bind] in Es.
      destruct ((p =? 0) || (q =? 0) || negb (u32 (q - p) =? 4)).
      { injection Es as <- _. contradiction. }
      destruct (load_bytes response (p + 1) 3); [|discriminate]. cbn [bind] in Es.
      destruct (atoi _); [|discriminate]. cbn [bind] in Es.
      destruct (_ =? 200); [discriminate|]. injection Es as <- _. contradiction. }
    assert (parse_status r0 = 1) as E1.
    { unfold status_stage in Es.
      destruct (scan_status _ 0 0 0 response) as [[p q]|]; [|discriminate].
      cbn [bind] in Es.
      destruct ((p =? 0) || (q =? 0) || negb (u32 (q - p) =? 4)); [discriminate|].
      destruct (load_bytes response (p + 1) 3); [|discriminate]. cbn [bind] in Es.
      destruct (atoi _); [|discriminate]. cbn [bind] in Es.
      destruct (_ =? 200); [|discriminate]. injection Es as <-. reflexivity. }
    rewrite E1 in H. change (3 =? 1) with false in H. cbn iota in H.
    cbn [bind] in H. rewrite E1 in H. change (1 =? 1) with true in H. cbn iota in H.
    eapply Hstage; eassumption.
  - change (0 =? 1) with false in H. cbn iota in H. cbn [bind] in H.
    rewrite E in H.
    change (3 =? 1) with false in H. cbn iota in H. cbn [bind] in H.
    rewrite E in H. change (1 =? 1) with true in H. cbn iota in H.
    eapply Hstage; eassumption.
  - change (0 =? 3) with false in H. cbn iota in H. cbn [bind] in H.
    rewrite E in H. change (3 =? 3) with true in H. cbn iota in H.
    unfold header_end_stage in H.
    destruct (find_header_end _ 0 response) as [e|]; [|discriminate].
    cbn [bind] in H. destruct e as [header_end|].
    + cbn [bind set_header_end parse_status] in H.
      change (1 =? 4) with false in H. cbn iota in H. injection H as <- <-.
      right. right. reflexivity.
    + destruct (save_header_bak _ _ _ _) as [bak|]; [|discriminate].
      cbn [bind set_header_bak parse_status] in H. rewrite E in H.
      change (1 =? 3) with false in H. cbn iota in H. injection H as <- <-.
      right. left. exact E.
Qed.

(** X19: the loop of [http_update_ota] that reads the response header
    never meets the parse status 2, the one value below 4 for which it has
    no branch and would go round without a read.  Entered with status 0, 1
    or 3, it reads a packet in every round, for [parse_http_response]
    leaves 1, 3 or 4 whenever it does not return -1; and it is left either
    to [update_ota_exit] or with parse status 4, behind a packet at
    least. *)
Theorem http_header_loop_never_spins (C : http_consts) (P : platform) (env : http_env) :
  forall (sched : list Z) (k : nat) (alloc : list byte) (idx : Z)
         (rsp_result : http_response_result_t) (w : world) (h : header_result),
  parse_status rsp_result = 0 \/ parse_status rsp_result = 1
  \/ parse_status rsp_result = 3 ->
  http_read_header C P env sched k alloc idx rsp_result w = Some h ->
  match h with
  | HeaderSpin => False
  | HeaderExit _ _ => True
  | HeaderDone _ _ r sched' _ =>
      parse_status r = 4 /\ (length sched' < length sched)%nat
  end.
Proof.
  assert (Hnext : forall junk response response_len result ret r',
            parse_status result = 0 \/ parse_status result = 1
            \/ parse_status result = 3 ->
            parse_http_response (HEADER_BAK_LEN C) junk response response_len result
            = Some (ret, r') ->
            (ret =? -1) = false ->
            parse_status r' = 1 \/ parse_status r' = 3 \/ parse_status r' = 4).
  { intros junk response response_len result ret r' Hs Hp Hret.
    apply Z.eqb_neq in Hret.
    exact (parse_http_response_parse_status _ _ _ _ _ _ _ Hs Hp Hret). }
  assert (Hgen : forall (sched : list Z) (k : nat) (alloc : list byte) (idx : Z)
            (rsp : http_response_result_t) (w : world) (h : header_result),
            parse_status rsp = 0 \/ parse_status rsp = 1 \/ parse_status rsp = 3
            \/ parse_status rsp = 4 ->
            http_read_header C P env sched k alloc idx rsp w = Some h ->
            match h with
            | HeaderSpin => False
            | HeaderExit _ _ => True
            | HeaderDone _ _ r sched' _ =>
                parse_status r = 4 /\
                (parse_status rsp = 4 /\ sched' = sched
                 \/ (length sched' < length sched)%nat)
            end).
  { induction sched as [|n sched IH]; intros k alloc idx rsp w h Hs.
    - cbn [http_read_header].
      destruct Hs as [E|[E|[E|E]]]; rewrite E; cbn [negb Z.geb Z.compare Pos.compare
        Pos.compare_cont Z.eqb Pos.eqb orb];
        repeat match goal with
        | |- (_ <- ?m ;; _) = _ -> _ => destruct m; cbn [bind]; [|discriminate]
        | |- (if ?c then _ else _) = _ -> _ => destruct c
        | |- None = _ -> _ => discriminate
        | |- Some _ = _ -> _ => intros [= <-]; auto
        end.
    - cbn [http_read_header].
      assert (Hstep : forall k' a' i' r' w' h',
                parse_status r' = 1 \/ parse_status r' = 3 \/ parse_status r' = 4 ->
                http_read_header C P env sched k' a' i' r' w' = Some h' ->
                match h' with
                | HeaderSpin => False
                | HeaderExit _ _ => True
                | HeaderDone _ _ r sched' _ =>
                    parse_status r = 4 /\
                    (parse_status rsp = 4 /\ sched' = n :: sched
                     \/ (length sched' < length (n :: sched))%nat)
                end).
      { intros k' a' i' r' w' h' Hs' Hrun.
        assert (parse_status r' = 0 \/ parse_status r' = 1 \/ parse_status r' = 3
                \/ parse_status r' = 4) as Hs'' by tauto.
        specialize (IH k' a' i' r' w' h' Hs'' Hrun).
        destruct h' as [? ?|? ? r s' ?|]; [exact I| |exact IH].
        destruct IH as [H4 [[_ ->]|Hlt]]; (split; [exact H4|right; cbn [length]; lia]). }
      destruct Hs as [E|[E|[E|E]]]; intros Hrun; rewrite E in Hrun;
        cbn [negb Z.geb Z.compare Pos.compare Pos.compare_cont Z.eqb Pos.eqb orb]
          in Hrun; revert Hrun.
      + destruct (store_bytes alloc 0 _) as [a1|]; cbn [bind]; [|discriminate].
        destruct (read (Some n) (BUF_SIZE P) w) as [[rb d] w1].
        destruct (rb <=? 0); [intros [= <-]; exact I|].
        destruct (store_bytes a1 0 d) as [a2|]; cbn [bind]; [|discriminate].
        destruct (parse_http_response _ _ a2 _ zero_result) as [[ret r']|] eqn:Ep;
          cbn [bind]; [|discriminate].
        destruct (ret =? -1) eqn:Eret; [intros [= <-]; exact I|].
        apply Hstep. eapply Hnext; [|exact Ep|exact Eret]. left. reflexivity.
      + destruct (store_bytes alloc 0 _) as [a1|]; cbn [bind]; [|discriminate].
        destruct (header_bak rsp) as [bak|]; cbn [bind]; [|discriminate].
        destruct (load_bytesZ bak 0 _) as [d0|]; cbn [bind]; [|discriminate].
        destruct (store_bytes a1 0 d0) as [a2|]; cbn [bind]; [|discriminate].
        destruct (_ <? 0); [discriminate|].
        destruct (read (Some n) _ w) as [[rb d] w1].
        destruct (rb <=? 0); [intros [= <-]; exact I|].
        destruct (store_bytes a2 _ d) as [a3|]; cbn [bind]; [|discriminate].
        destruct (parse_http_response _ _ a3 _ _) as [[ret r']|] eqn:Ep;
          cbn [bind]; [|discriminate].
        destruct (ret =? -1) eqn:Eret; [intros [= <-]; exact I|].
        apply Hstep. eapply Hnext; [|exact Ep|exact Eret]. right. left. exact E.
      + destruct (store_bytes alloc 0 _) as [a1|]; cbn [bind]; [|discriminate].
        destruct (header_bak rsp) as [bak|]; cbn [bind]; [|discriminate].
        destruct (load_bytesZ bak 0 _) as [d0|]; cbn [bind]; [|discriminate].
        destruct (store_bytes a1 0 d0) as [a2|]; cbn [bind]; [|discriminate].
        destruct (_ <? 0); [discriminate|].
        destruct (read (Some n) _ w) as [[rb d] w1].
        destruct (rb <=? 0); [intros [= <-]; exact I|].
        destruct (store_bytes a2 _ d) as [a3|]; cbn [bind]; [|discriminate].
        destruct (parse_http_response _ _ a3 _ _) as [[ret r']|] eqn:Ep;
          cbn [bind]; [|discriminate].
        destruct (ret =? -1) eqn:Eret; [intros [= <-]; exact I|].
        apply Hstep. eapply Hnext; [|exact Ep|exact Eret]. right. right. exact E.
      + intros [= <-]. split; [exact E|left; auto]. }
  intros sched k alloc idx rsp w h Hs Hrun.
  assert (parse_status rsp = 0 \/ parse_status rsp = 1 \/ parse_status rsp = 3
          \/ parse_status rsp = 4) as Hs' by tauto.
  specialize (Hgen sched k alloc idx rsp w h Hs' Hrun).
  destruct h as [? ?|? ? r s' ?|]; [exact I| |exact Hgen].
  destruct Hgen as [H4 [[E4 _]|Hlt]]; [lia|]. split; assumption.
Qed.

(** Witness of [http_header_loop_never_spins]: the response of the
    demonstration server comes in one packet, and the loop is left with
    parse status 4. *)
Lemma http_header_loop_never_spins_witness :
  exists alloc idx r sched' w',
    http_read_header amebaz_http amebaz http_env_ok [512] 0 (repeat "165"%byte 512) 0
      zero_result (demo_world http_demo_response)
    = Some (HeaderDone alloc idx r sched' w') /\
    parse_status r = 4.
Proof.
  eexists _, _, _, _, _. split; [vm_compute; reflexivity|].
  refine (proj1 (http_header_loop_never_spins amebaz_http amebaz http_env_ok [512] 0
                   (repeat "165"%byte 512) 0 zero_result
                   (demo_world http_demo_response) (HeaderDone _ _ _ _ _)
                   (or_introl eq_refl) _)).
  vm_compute. reflexivity.
Defined.

(* ----------------------------------------------------------------- *)
(** *** [http_update_ota]: what it does to the flash and what it returns *)

Lemma u32_s32 (z : Z) : u32 (s32 z) = u32 z.
Proof.
  unfold s32, u32, modulus. cbv zeta.
  destruct (z mod 2 ^ 32 <? 2 ^ 31).
  - apply Z.mod_mod. lia.
  - rewrite Zminus_mod, Z.mod_same, Z.sub_0_r, !Z.mod_mod by lia. reflexivity.
Qed.

Lemma read_frame (entry : option Z) (max_len : Z) (w : world) (r : Z)
    (d : list byte) (w' : world) :
  read entry max_len w = (r, d, w') ->
  log w' = log w /\ flash0 w' = flash0 w /\ wfail w' = wfail w.
Proof.
  destruct entry as [n|].
  - intros H. apply read_spec in H. destruct H as (H1 & H2 & H3 & _). auto.
  - cbn [read]. intros [= _ _ <-]. auto.
Qed.

Lemma restore_loop_frame : forall (sched : list Z) (TempLen : Z) (alloc : list byte)
    (pos : Z) (w : world) ok b s w',
  restore_loop sched TempLen alloc pos w = Some (ok, b, s, w') ->
  log w' = log w /\ flash0 w' = flash0 w.
Proof.
  induction sched as [|n sched IH]; intros TempLen alloc pos w ok b s w';
    cbn [restore_loop]; destruct (TempLen =? 0); try (intros [= _ _ _ <-]; auto; fail).
  destruct (read (Some n) (u32 TempLen) w) as [[rb data] w1] eqn:Er.
  apply read_frame in Er. destruct Er as (Hl & Hf & _).
  destruct (rb <? 0); [intros [= _ _ _ <-]; auto|].
  destruct (rb =? 0); [intros [= _ _ _ <-]; auto|].
  unfold bind. destruct (store_bytes _ _ _); [|discriminate].
  intros H. apply IH in H. destruct H. split; congruence.
Qed.

Lemma restore_ota_file_hdr_frame (writelen len : Z) (alloc : list byte) (pos : Z)
    (sched : list Z) (w : world) r b s w' :
  restore_ota_file_hdr writelen len alloc pos sched w = Some (r, b, s, w') ->
  log w' = log w /\ flash0 w' = flash0 w.
Proof.
  unfold restore_ota_file_hdr. destruct (writelen <? len).
  - destruct (restore_loop _ _ _ _ _) as [[[[ok b1] s1] w1]|] eqn:E; [|discriminate].
    cbn [bind]. apply restore_loop_frame in E.
    destruct ok; intros [= _ _ _ <-]; exact E.
  - intros [= _ _ _ <-]. auto.
Qed.

Lemma http_read_socket_frame (socket : Z) (buf : list byte) (buf_len : Z)
    (entry : option Z) (w : world) r b w' :
  http_read_socket socket buf buf_len entry w = Some (r, b, w') ->
  log w' = log w /\ flash0 w' = flash0 w.
Proof.
  unfold http_read_socket. destruct (socket <? 0); [intros [= _ _ <-]; auto|].
  destruct (if buf_len <? 0 then None else _) as [zeros|]; [|discriminate].
  cbn [bind]. destruct (store_bytes buf 0 zeros) as [b0|]; [|discriminate].
  cbn [bind]. destruct (read entry buf_len w) as [[rb d] w1] eqn:Er.
  apply read_frame in Er. destruct Er as (Hl & Hf & _).
  destruct (rb <=? 0); [intros [= _ _ <-]; auto|].
  destruct (store_bytes b0 0 d); [|discriminate]. cbn [bind].
  intros [= _ _ <-]. auto.
Qed.

Lemma http_read_header_frame (C : http_consts) (P : platform) (env : http_env) :
  forall (sched : list Z) (k : nat) (alloc : list byte) (idx : Z)
         (rsp_result : http_response_result_t) (w : world) (h : header_result),
  http_read_header C P env sched k alloc idx rsp_result w = Some h ->
  match h with
  | HeaderExit _ w' | HeaderDone _ _ _ _ w' =>
      log w' = log w /\ flash0 w' = flash0 w
  | HeaderSpin => True
  end.
Proof.
  induction sched as [|n sched IH]; intros k alloc idx rsp w h;
    cbn [http_read_header].
  - destruct (negb _); [intros [= <-]; auto|].
    destruct (0 =? parse_status rsp).
    { destruct (store_bytes _ _ _); [|discriminate]. cbn [bind].
      intros [= <-]. auto. }
    destruct (_ || _); [|intros [= <-]; exact I].
    destruct (store_bytes _ _ _); [|discriminate]. cbn [bind].
    destruct (header_bak rsp); [|discriminate]. cbn [bind].
    destruct (load_bytesZ _ _ _); [|discriminate]. cbn [bind].
    destruct (store_bytes _ _ _); [|discriminate]. cbn [bind].
    destruct (_ <? 0); [discriminate|]. intros [= <-]. auto.
  - destruct (negb _); [intros [= <-]; auto|].
    destruct (0 =? parse_status rsp).
    { destruct (store_bytes _ _ _) as [a1|]; [|discriminate]. cbn [bind].
      destruct (read (Some n) (BUF_SIZE P) w) as [[rb d] w1] eqn:Er.
      apply read_frame in Er. destruct Er as (Hl & Hf & _).
      destruct (rb <=? 0); [intros [= <-]; auto|].
      destruct (store_bytes a1 0 d) as [a2|]; [|discriminate]. cbn [bind].
      destruct (parse_http_response _ _ _ _ _) as [[ret r']|]; [|discriminate].
      cbn [bind]. destruct (ret =? -1); [intros [= <-]; auto|].
      intros H. apply IH in H. destruct h; [| |exact I];
        destruct H; split; congruence. }
    destruct (_ || _); [|intros [= <-]; exact I].
    destruct (store_bytes _ _ _) as [a1|]; [|discriminate]. cbn [bind].
    destruct (header_bak rsp); [|discriminate]. cbn [bind].
    destruct (load_bytesZ _ _ _); [|discriminate]. cbn [bind].
    destruct (store_bytes _ _ _) as [a2|]; [|discriminate]. cbn [bind].
    destruct (_ <? 0); [discriminate|].
    destruct (read (Some n) _ w) as [[rb d] w1] eqn:Er.
    apply read_frame in Er. destruct Er as (Hl & Hf & _).
    destruct (rb <=? 0); [intros [= <-]; auto|].
    destruct (store_bytes a2 _ d) as [a3|]; [|discriminate]. cbn [bind].
    destruct (parse_http_response _ _ _ _ _) as [[ret r']|]; [|discriminate].
    cbn [bind]. destruct (ret =? -1); [intros [= <-]; auto|].
    intros H. apply IH in H. destruct h; [| |exact I];
      destruct H; split; congruence.
Qed.

Lemma http_file_header_frame (env : http_env) (idx0 : Z) (alloc : list byte)
    (idx : Z) (rsp : http_response_result_t) (sched : list Z) (w : world)
    (f : stage (list byte * Z * update_ota_target_hdr)) :
  http_file_header env idx0 alloc idx rsp sched w = Some f ->
  match f with
  | StageExit w' | StageNext _ _ w' => log w' = log w /\ flash0 w' = flash0 w
  end.
Proof.
  unfold http_file_header. cbv zeta.
  destruct (restore_ota_file_hdr _ 16 _ _ _ _) as [[[[wl a1] s1] w1]|] eqn:E1;
    [|discriminate].
  cbn [bind]. apply restore_ota_file_hdr_frame in E1.
  destruct (wl <? 0); [intros [= <-]; exact E1|].
  destruct (load32 a1 _); [|discriminate]. cbn [bind].
  destruct (load32 a1 _) as [hn|]; [|discriminate]. cbn [bind].
  destruct (load_bytes a1 _ 4); [|discriminate]. cbn [bind].
  destruct (load32 a1 _) as [hl|]; [|discriminate]. cbn [bind].
  destruct (restore_ota_file_hdr _ _ _ _ _ _) as [[[[wl2 a2] s2] w2]|] eqn:E2;
    [|discriminate].
  cbn [bind]. apply restore_ota_file_hdr_frame in E2.
  assert (log w2 = log w /\ flash0 w2 = flash0 w) as Hfr
    by (destruct E1, E2; split; congruence).
  destruct (wl2 <? 0); [intros [= <-]; exact Hfr|].
  destruct (get_ota_tartget_header _ _ _ _) as [[ok t]|]; [|discriminate].
  cbn [bind]. destruct (ok =? 0); intros [= <-]; exact Hfr.
Qed.

Lemma http_signature_loop_frame : forall (sched : list Z) (sock : Z)
    (alloc : list byte) (writelen SigCnt : Z) (sig : list byte) (w : world)
    (s : stage (list byte * Z * Z * list byte)),
  http_signature_loop sched sock alloc writelen SigCnt sig w = Some s ->
  match s with
  | StageExit w' | StageNext _ _ w' => log w' = log w /\ flash0 w' = flash0 w
  end.
Proof.
  induction sched as [|n sched IH]; intros sock alloc writelen SigCnt sig w s;
    cbn [http_signature_loop]; (destruct (SigCnt <? 8); [|intros [= <-]; auto]);
    (destruct (http_read_socket _ _ _ _ _) as [[[wl a1] w1]|] eqn:Er; [|discriminate]);
    cbn [bind]; apply http_read_socket_frame in Er;
    (destruct (wl <? 0); [intros [= <-]; exact Er|]);
    (destruct (load_bytesZ a1 0 wl); [|discriminate]); cbn [bind];
    (destruct (store_bytes sig SigCnt _); [|discriminate]); cbn [bind].
  - discriminate.
  - intros H. apply IH in H. destruct s; destruct H, Er; split; congruence.
Qed.

Lemma image_write_step (address n size : Z) (d : list byte) (es : list event) (len : Z) :
  image_writes OTA_IMAG address es n -> u32 n = u32 size ->
  Z.of_nat (length d) = u32 len ->
  image_writes OTA_IMAG address
    (EvWrite (ByImage OTA_IMAG) (u32 (address + size)) d :: es)
    (n + Z.of_nat (length d))
  /\ u32 (n + Z.of_nat (length d)) = u32 (size + len).
Proof.
  intros Hiw Hn Hd. split.
  - replace (u32 (address + size)) with (u32 (address + n)).
    + constructor. exact Hiw.
    + rewrite <- (u32_add_r address n), <- (u32_add_r address size), Hn. reflexivity.
  - rewrite Hd, u32_add_r, <- u32_add_l, Hn, u32_add_l. reflexivity.
Qed.

(** The packets behind the first one: each write goes right behind the
    bytes written so far. *)
Lemma http_packets_effect (P : platform) (sock address : Z) :
  forall (sched : list Z) (alloc : list byte)
         (writelen total remain size : Z) (w : world)
         (r : stage (list byte * Z * Z * Z)) (es : list event) (n : Z),
  http_packets sched P sock address alloc writelen total remain size w = Some r ->
  image_writes OTA_IMAG address es n -> u32 n = u32 size ->
  exists dl n',
    image_writes OTA_IMAG address (events_of OTA_IMAG dl ++ es) n'
    /\ Forall is_image_event dl
    /\ match r with
       | StageExit w' => log w' = dl ++ log w /\ flash0 w' = flash0 w
       | StageNext (_, _, _, size') _ w' =>
           log w' = dl ++ log w /\ flash0 w' = flash0 w /\ u32 n' = u32 size'
       end.
Proof.
  induction sched as [|e sched IH]; intros alloc writelen total remain size w r es n;
    cbn [http_packets];
    (destruct (remain =? 0);
     [intros [= <-] Hiw Hn; exists [], n; cbn [events_of filter app]; auto|]);
    (destruct (http_read_socket _ _ _ _ _) as [[[wl a1] w1]|] eqn:Er; [|discriminate]);
    cbn [bind]; apply http_read_socket_frame in Er; destruct Er as [Hl1 Hf1];
    (destruct (wl <? 0);
     [intros [= <-] Hiw Hn; exists [], n; cbn [events_of filter app]; auto|]);
    set (remain1 := s32 (remain - wl));
    (destruct (if remain1 <=? 0 then (s32 (wl - s32 (- remain1)), 0) else (wl, remain1))
       as [wl' remain'] eqn:Ewl);
    (destruct (load_bytesZ a1 0 (u32 wl')) as [d|] eqn:Ed; [|discriminate]);
    cbn [bind]; apply load_bytesZ_spec in Ed; destruct Ed as (_ & _ & _ & Hdl & _);
    (destruct (flash_stream_write _ _ d w1) as [rw w2] eqn:Ew);
    apply flash_stream_write_spec in Ew; destruct Ew as (_ & Hf2 & Hw2).
  - destruct (rw <? 0) eqn:Erw; [|discriminate].
    intros [= <-] Hiw Hn. destruct Hw2 as [[-> _]|[_ Hw2]]; [discriminate|].
    exists [EvWriteFail (ByImage OTA_IMAG) (u32 (address + size)) d], n. cbn [events_of filter by_image app].
    split; [exact Hiw|]. split; [repeat constructor|].
    split; [rewrite Hw2, Hl1; reflexivity|congruence].
  - destruct (rw <? 0) eqn:Erw.
    + intros [= <-] Hiw Hn. destruct Hw2 as [[-> _]|[_ Hw2]]; [discriminate|].
      exists [EvWriteFail (ByImage OTA_IMAG) (u32 (address + size)) d], n. cbn [events_of filter by_image app].
      split; [exact Hiw|]. split; [repeat constructor|].
      split; [rewrite Hw2, Hl1; reflexivity|congruence].
    + intros H Hiw Hn. destruct Hw2 as [[_ Hw2]|[-> _]]; [|discriminate].
      destruct (image_write_step address n size d es wl' Hiw Hn Hdl) as [Hiw' Hn'].
      destruct (IH _ _ _ _ _ _ _ _ _ H Hiw') as (dl & n' & Hdl' & Hall & Hr).
      { rewrite Hn', u32_s32. reflexivity. }
      exists (dl ++ [EvWrite (ByImage OTA_IMAG) (u32 (address + size)) d]), n'.
      split.
      { rewrite events_of_app. cbn [events_of filter by_image img_kind_eqb app].
        rewrite <- app_assoc. exact Hdl'. }
      split; [apply Forall_app; split; [exact Hall|repeat constructor]|].
      destruct r as [w'|[[[? ?] ?] size'] ? w'].
      * destruct Hr as [Hl Hf]. split; [|congruence].
        rewrite Hl, Hw2, Hl1, <- app_assoc. reflexivity.
      * destruct Hr as (Hl & Hf & Hs). split; [|split; [congruence|exact Hs]].
        rewrite Hl, Hw2, Hl1, <- app_assoc. reflexivity.
Qed.

(** The first packet of the image and the packets behind it. *)
Lemma http_image_effect (P : platform) (sock address : Z) (t : update_ota_target_hdr)
    (alloc : list byte) (buf writelen total remain size : Z) (sig : list byte)
    (sched : list Z) (w : world) (r : stage (list byte * Z))
    (es : list event) (n : Z) :
  http_image P sock address t alloc buf writelen total remain size sig sched w
  = Some r ->
  image_writes OTA_IMAG address es n -> u32 n = u32 size ->
  exists dl n',
    image_writes OTA_IMAG address (events_of OTA_IMAG dl ++ es) n'
    /\ Forall is_image_event dl
    /\ match r with
       | StageExit w' => log w' = dl ++ log w /\ flash0 w' = flash0 w
       | StageNext (_, size') _ w' =>
           log w' = dl ++ log w /\ flash0 w' = flash0 w /\ u32 n' = u32 size'
       end.
Proof.
  unfold http_image. cbv zeta. intros H Hiw Hn.
  set (TempCnt := u32 (total - Offset (FileImgHdr t))) in *.
  set (SigCnt := if TempCnt <? 8 then TempCnt else 8) in *.
  destruct (load_bytesZ alloc (buf + writelen - TempCnt) SigCnt) as [d0|];
    [|discriminate].
  cbn [bind] in H. destruct (store_bytes sig 0 d0) as [sig1|]; [|discriminate].
  cbn [bind] in H.
  (* the first packet: what it leaves for the loop behind it *)
  assert (Hfirst : forall first,
            (if (SigCnt <? 8) || (u32 (TempCnt - 8) =? 0)
             then
               s <- http_signature_loop sched sock alloc writelen SigCnt sig1 w ;;
               match s with
               | StageExit w0 => Some (StageExit w0)
               | StageNext (alloc0, writelen0, _, http_signature) sched0 w0 =>
                   Some (StageNext
                           (alloc0, writelen0,
                            s32 (u32 (total + u32 (8 - TempCnt))), remain, size,
                            http_signature) sched0 w0)
               end
             else
               d <- load_bytesZ alloc (buf + writelen - TempCnt + 8)
                      (u32 (TempCnt - 8)) ;;
               (let '(r0, w0) :=
                  flash_stream_write (ByImage OTA_IMAG) (u32 (address + size)) d w in
                if r0 <? 0 then Some (StageExit w0)
                else
                  Some (StageNext
                          (alloc, writelen, total,
                           s32 (remain - s32 (u32 (size + u32 (TempCnt - 8)))),
                           s32 (u32 (size + u32 (TempCnt - 8))), sig1) sched w0)))
            = Some first ->
            exists dl n',
              image_writes OTA_IMAG address (events_of OTA_IMAG dl ++ es) n'
              /\ Forall is_image_event dl
              /\ match first with
                 | StageExit w' => log w' = dl ++ log w /\ flash0 w' = flash0 w
                 | StageNext (_, _, _, _, size', _) _ w' =>
                     log w' = dl ++ log w /\ flash0 w' = flash0 w
                     /\ u32 n' = u32 size'
                 end).
  { intros first Hf. destruct (_ || _).
    - destruct (http_signature_loop _ _ _ _ _ _ _) as [s|] eqn:Es; [|discriminate].
      cbn [bind] in Hf. apply http_signature_loop_frame in Es.
      exists [], n. cbn [events_of filter app].
      split; [exact Hiw|]. split; [constructor|].
      destruct s as [w0|[[[a0 wl0] sc0] sg0] s0 w0]; injection Hf as <-.
      + exact Es.
      + destruct Es. auto.
    - destruct (load_bytesZ alloc _ (u32 (TempCnt - 8))) as [d|] eqn:Ed;
        [|discriminate].
      cbn [bind] in Hf. apply load_bytesZ_spec in Ed.
      destruct Ed as (_ & _ & _ & Hdl & _).
      destruct (flash_stream_write _ _ d w) as [rw w0] eqn:Ew.
      apply flash_stream_write_spec in Ew. destruct Ew as (_ & Hf0 & Hw0).
      destruct (rw <? 0) eqn:Erw; injection Hf as <-.
      + destruct Hw0 as [[-> _]|[_ Hw0]]; [discriminate|].
        exists [EvWriteFail (ByImage OTA_IMAG) (u32 (address + size)) d], n.
        cbn [events_of filter by_image app].
        split; [exact Hiw|]. split; [repeat constructor|]. auto.
      + destruct Hw0 as [[_ Hw0]|[-> _]]; [|discriminate].
        destruct (image_write_step address n size d es (TempCnt - 8) Hiw Hn Hdl)
          as [Hiw' Hn'].
        exists [EvWrite (ByImage OTA_IMAG) (u32 (address + size)) d],
               (n + Z.of_nat (length d)).
        cbn [events_of filter by_image img_kind_eqb app].
        split; [exact Hiw'|]. split; [repeat constructor|].
        split; [exact Hw0|]. split; [exact Hf0|].
        rewrite Hn', u32_s32, u32_idem, u32_add_r. reflexivity. }
  match type of H with
  | (first <- ?m ;; _) = _ => destruct m as [first|] eqn:Ef; [|discriminate]
  end.
  cbn [bind] in H. destruct (Hfirst first eq_refl) as (dl1 & n1 & Hiw1 & Hall1 & Hr1).
  clear Hfirst Ef.
  destruct first as [w1|[[[[[a1 wl1] tot1] rem1] size1] sig2] s1 w1].
  - injection H as <-. exists dl1, n1. auto.
  - destruct Hr1 as (Hl1 & Hf1 & Hn1).
    destruct (http_packets s1 P sock address a1 wl1 tot1 rem1 size1 w1) as [s|] eqn:Ep;
      [|discriminate].
    cbn [bind] in H.
    destruct (http_packets_effect P sock address _ _ _ _ _ _ _ _ _ _ Ep Hiw1 Hn1)
      as (dl2 & n2 & Hiw2 & Hall2 & Hr2).
    exists (dl2 ++ dl1), n2.
    split; [rewrite events_of_app, <- app_assoc; exact Hiw2|].
    split; [apply Forall_app; split; assumption|].
    destruct s as [w2|[[[a2 wl2] tot2] size2] s2 w2]; injection H as <-.
    + destruct Hr2 as [Hl2 Hf2]. split; [|congruence].
      rewrite Hl2, Hl1, <- app_assoc. reflexivity.
    + destruct Hr2 as (Hl2 & Hf2 & Hn2). split; [|split; [congruence|exact Hn2]].
      rewrite Hl2, Hl1, <- app_assoc. reflexivity.
Qed.

(** The download: the writes for the image go one behind the other from
    [address] on. *)
Lemma http_download_effect (P : platform) (sock address : Z)
    (t : update_ota_target_hdr) :
  forall (sched : list Z) (alloc : list byte)
         (buf writelen total remain size : Z) (sig : list byte) (w : world)
         (r : stage (list byte * Z)) (es : list event) (n : Z),
  http_download sched P sock address t alloc buf writelen total remain size sig w
  = Some r ->
  image_writes OTA_IMAG address es n -> u32 n = u32 size ->
  exists dl n',
    image_writes OTA_IMAG address (events_of OTA_IMAG dl ++ es) n'
    /\ Forall is_image_event dl
    /\ match r with
       | StageExit w' => log w' = dl ++ log w /\ flash0 w' = flash0 w
       | StageNext (_, size') _ w' =>
           log w' = dl ++ log w /\ flash0 w' = flash0 w /\ u32 n' = u32 size'
       end.
Proof.
  induction sched as [|e sched IH];
    intros alloc buf writelen total remain size sig w r es n;
    cbn [http_download];
    (destruct (u32 total >? Offset (FileImgHdr t));
     [intros H Hiw Hn; eapply http_image_effect; eassumption|]);
    (destruct (remain =? 0);
     [intros [= <-] Hiw Hn; exists [], n; cbn [events_of filter app]; auto|]);
    (destruct (http_read_socket _ _ _ _ _) as [[[wl a1] w1]|] eqn:Er; [|discriminate]);
    cbn [bind]; apply http_read_socket_frame in Er; destruct Er as [Hl1 Hf1];
    (destruct (wl <? 0);
     [intros [= <-] Hiw Hn; exists [], n; cbn [events_of filter app]; auto|]).
  - discriminate.
  - intros H Hiw Hn.
    destruct (IH _ _ _ _ _ _ _ _ _ _ _ H Hiw Hn) as (dl & n' & Hiw' & Hall & Hr).
    exists dl, n'. split; [exact Hiw'|]. split; [exact Hall|].
    destruct r as [w'|[? size'] ? w'].
    + destruct Hr. split; congruence.
    + destruct Hr as (? & ? & ?). repeat split; congruence.
Qed.

Lemma erase_ota_target_flash_log (P : platform) (addr len : Z) (w : world) :
  exists er,
    log (erase_ota_target_flash P addr len w) = er ++ log w
    /\ flash0 (erase_ota_target_flash P addr len w) = flash0 w
    /\ Forall is_erase_event er /\ er <> [].
Proof.
  unfold erase_ota_target_flash. cbv zeta. set (k := Z.to_nat _).
  assert (0 < k)%nat as Hk.
  { unfold k. pose proof (u32_range (len - 1)) as H.
    assert (0 <= u32 (len - 1) / 4096 < 2 ^ 20) as Hd
      by (split; [apply Z.div_pos; lia|apply Z.div_lt_upper_bound; lia]).
    rewrite u32_small by lia. lia. }
  destruct (erase_sectors_log k (addr - SPI_FLASH_BASE P) 0 w)
    as (er & Hl & Hf & Hall & Hlast).
  exists er. repeat split; try assumption.
  destruct (Hlast Hk) as (er' & ->). destruct er'; discriminate.
Qed.

(** The erasure and the download: erasures, then the writes of the image
    from the 9th byte of the target on. *)
Lemma http_erase_and_download_effect (C : http_consts) (P : platform)
    (sock idx addr : Z) (alloc : list byte) (i : Z) (rsp : http_response_result_t)
    (writelen : Z) (t : update_ota_target_hdr) (sched : list Z) (w : world)
    (r : stage (list byte * Z)) :
  http_erase_and_download C P sock idx addr alloc i rsp writelen t sched w = Some r ->
  exists er dl n,
    Forall is_erase_event er /\ Forall is_image_event dl
    /\ image_writes OTA_IMAG (u32 (addr - SPI_FLASH_BASE P + 8))
         (events_of OTA_IMAG dl) n
    /\ (dl <> [] -> er <> [])
    /\ match r with
       | StageExit w' => log w' = dl ++ er ++ log w /\ flash0 w' = flash0 w
       | StageNext (_, size') _ w' =>
           log w' = dl ++ er ++ log w /\ flash0 w' = flash0 w
           /\ u32 n = u32 size' /\ er <> []
       end.
Proof.
  unfold http_erase_and_download. cbv zeta.
  destruct (_ && _).
  { intros [= <-]. exists [], [], 0. cbn [events_of filter app].
    split; [constructor|]. split; [constructor|]. split; [constructor|].
    split; [intros H; exact H|]. split; reflexivity. }
  destruct (2 ^ 19 <? _); [discriminate|].
  intros H.
  destruct (erase_ota_target_flash_log P addr (ImgLen (FileImgHdr t)) w)
    as (er & Hl & Hf & Her & Hne).
  destruct (http_download_effect _ _ _ _ _ _ _ _ _ _ _ _ _ _ [] 0 H)
    as (dl & n & Hiw & Hall & Hr); [constructor|reflexivity|].
  rewrite app_nil_r in Hiw.
  exists er, dl, n.
  split; [exact Her|]. split; [exact Hall|]. split; [exact Hiw|].
  split; [intros _; exact Hne|].
  destruct r as [w'|[sig size'] s' w'].
  - destruct Hr as [Hl' Hf']. split; [|congruence].
    rewrite Hl', Hl. reflexivity.
  - destruct Hr as (Hl' & Hf' & Hn').
    split; [rewrite Hl', Hl; reflexivity|].
    split; [congruence|]. split; [exact Hn'|exact Hne].
Qed.

(** The verification of the [u32 n] bytes written and the commit. *)
Lemma http_verify_shape (P : platform) (env : http_env) (idx addr : Z)
    (t : update_ota_target_hdr) (size n : Z) (sig : list byte) (w : world)
    (ret : Z) (w' : world) :
  u32 n = u32 size ->
  http_verify P idx addr t size sig w = Some (ret, w') ->
  exists commit,
    log w' = commit ++ log w /\ flash0 w' = flash0 w /\ commit <> []
    /\ http_commit_shape P env idx addr n ret (cur_flash w) commit.
Proof.
  intros Hn. unfold http_verify, http_commit_shape. rewrite <- Hn. cbv zeta.
  destruct (verify_ota_checksum _ P addr (u32 n) sig t (cur_flash w)) as [v|] eqn:Ev;
    [|discriminate].
  cbn [bind].
  destruct (verify_ota_checksum_bool _ _ _ _ _ _ _ _ Ev) as [-> | ->];
    cbn [Z.eqb negb].
  - intros [= <- <-]. exists [EvErase (u32 (addr - SPI_FLASH_BASE P))].
    split; [reflexivity|]. split; [reflexivity|]. split; [discriminate|].
    right. left. split; [reflexivity|]. split; [reflexivity|].
    exists sig, t. exact Ev.
  - unfold change_ota_signature.
    destruct (load_bytes sig 0 8) as [sig8|] eqn:Es; [|discriminate].
    cbn [bind].
    assert (sig8 = firstn 8 sig) as ->.
    { unfold load_bytes in Es. destruct (_ && _); [|discriminate].
      injection Es as <-. reflexivity. }
    destruct (flash_stream_write BySignature _ (firstn 8 sig) w) as [rw w1] eqn:Ew.
    apply flash_stream_write_spec in Ew. destruct Ew as (_ & Hf1 & Hw1).
    destruct (rw <? 0) eqn:Erw; cbn [bind]; intros [= <- <-].
    + destruct Hw1 as [[-> _]|[_ Hw1]]; [discriminate|].
      exists [EvWriteFail BySignature (u32 (addr - SPI_FLASH_BASE P)) (firstn 8 sig)].
      split; [exact Hw1|]. split; [exact Hf1|]. split; [discriminate|].
      right. right. exists sig, t. auto.
    + destruct Hw1 as [[_ Hw1]|[-> _]]; [|discriminate].
      exists [EvOtaChange idx;
              EvWrite BySignature (u32 (addr - SPI_FLASH_BASE P)) (firstn 8 sig)].
      split; [cbn [emit log]; rewrite Hw1; reflexivity|].
      split; [exact Hf1|]. split; [discriminate|].
      right. right. exists sig, t. auto.
Qed.

Lemma update_ota_prepare_addr_frame (C : http_consts) (P : platform)
    (idx0 : Z) (w : world) (addr idx : Z) (w1 : world) :
  update_ota_prepare_addr C P idx0 w = (addr, idx, w1) ->
  flash0 w1 = flash0 w /\ (addr = 0xFFFFFFFF -> w1 = w).
Proof.
  unfold update_ota_prepare_addr. cbv zeta. rewrite Z.leb_refl.
  destruct (negb (u32 (OTA2_ADDR C) mod 4096 =? 0)) eqn:Eal;
    [intros [= <- <- <-]; auto|].
  destruct (_ =? OTA_INDEX_2).
  - destruct (_ && _); [|intros [= <- <- <-]; auto].
    unfold ota_write_ota2_addr.
    destruct (negb _ && negb _); intros [= <- <- <-]; split; auto;
      intros E; rewrite E in Eal; vm_compute in Eal; discriminate Eal.
  - intros [= <- <- <-]. split; [reflexivity|]. intros _. reflexivity.
Qed.

(** X20: the order of an HTTP update and what its return value tells.
    With a request that [write] took, [http_update_ota] returns -1 with
    nothing done (no buffer, no connection, no legal address), or it does
    this to the flash behind [update_ota_prepare_addr]: it erases the
    target, then writes the image one piece behind the other from the 9th
    byte of the target on, then verifies the bytes written and commits.
    The 8 bytes of the signature are written last and the bank is switched
    only behind a signature write that succeeded.  The return value is the
    value of [write] (not -1) for every failure before the verification, -1
    for a verification that failed, and 0 for one that succeeded, also when
    the signature could not be written. *)
Theorem http_update_ota_ordering (C : http_consts) (P : platform) (env : http_env)
    (sched : list Z) (w : world) (ret : Z) (w' : world) :
  0 < http_write env ->
  http_update_ota C P env sched w = Some (HttpReturn ret w') ->
  flash0 w' = flash0 w /\
  ((ret = -1 /\ w' = w) \/
   exists idx addr w1 er dl n commit,
     update_ota_prepare_addr C P (http_index0 env) w = (addr, idx, w1)
     /\ addr <> 0xFFFFFFFF
     /\ log w' = commit ++ dl ++ er ++ log w1
     /\ Forall is_erase_event er /\ Forall is_image_event dl
     /\ image_writes OTA_IMAG (u32 (addr - SPI_FLASH_BASE P + 8))
          (events_of OTA_IMAG dl) n
     /\ (dl <> [] -> er <> []) /\ (commit <> [] -> er <> [])
     /\ http_commit_shape P env idx addr n ret
          (flash_after (rev (dl ++ er)) (cur_flash w1)) commit).
Proof.
  intros Hwr. unfold http_update_ota.
  destruct (http_alloc env) as [alloc|]; [|intros [= <- <-]; auto].
  destruct (negb _); [discriminate|].
  destruct (_ =? -1); [intros [= <- <-]; auto|].
  destruct (update_ota_prepare_addr C P (http_index0 env) w) as [[addr idx] w1] eqn:Ep.
  destruct (update_ota_prepare_addr_frame _ _ _ _ _ _ _ Ep) as [Hf1 Hsame].
  destruct (addr =? 4294967295) eqn:Ea.
  { apply Z.eqb_eq in Ea. intros [= <- <-]. rewrite (Hsame Ea). auto. }
  apply Z.eqb_neq in Ea.
  destruct (negb (http_request env)); [discriminate|].
  replace (http_write env <? 0) with false by (symmetry; apply Z.ltb_ge; lia).
  (* a failure before the verification *)
  assert (Hexit : forall er dl n w2,
            Forall is_erase_event er -> Forall is_image_event dl ->
            image_writes OTA_IMAG (u32 (addr - SPI_FLASH_BASE P + 8))
              (events_of OTA_IMAG dl) n ->
            (dl <> [] -> er <> []) ->
            log w2 = dl ++ er ++ log w1 -> flash0 w2 = flash0 w1 ->
            flash0 w2 = flash0 w /\
            ((http_write env = -1 /\ w2 = w) \/
             exists idx' addr' w1' er' dl' n' commit,
               (addr, idx, w1) = (addr', idx', w1')
               /\ addr' <> 0xFFFFFFFF
               /\ log w2 = commit ++ dl' ++ er' ++ log w1'
               /\ Forall is_erase_event er' /\ Forall is_image_event dl'
               /\ image_writes OTA_IMAG (u32 (addr' - SPI_FLASH_BASE P + 8))
                    (events_of OTA_IMAG dl') n'
               /\ (dl' <> [] -> er' <> []) /\ (commit <> [] -> er' <> [])
               /\ http_commit_shape P env idx' addr' n' (http_write env)
                    (flash_after (rev (dl' ++ er')) (cur_flash w1')) commit)).
  { intros er dl n w2 Her Hdl Hiw Hne Hl Hf. split; [congruence|]. right.
    exists idx, addr, w1, er, dl, n, [].
    split; [reflexivity|]. split; [exact Ea|]. split; [exact Hl|].
    split; [exact Her|]. split; [exact Hdl|]. split; [exact Hiw|].
    split; [exact Hne|]. split; [intros H; contradiction|].
    left. auto. }
  assert (Hquiet : forall w2, log w2 = log w1 -> flash0 w2 = flash0 w1 ->
            flash0 w2 = flash0 w /\
            ((http_write env = -1 /\ w2 = w) \/
             exists idx' addr' w1' er' dl' n' commit,
               (addr, idx, w1) = (addr', idx', w1')
               /\ addr' <> 0xFFFFFFFF
               /\ log w2 = commit ++ dl' ++ er' ++ log w1'
               /\ Forall is_erase_event er' /\ Forall is_image_event dl'
               /\ image_writes OTA_IMAG (u32 (addr' - SPI_FLASH_BASE P + 8))
                    (events_of OTA_IMAG dl') n'
               /\ (dl' <> [] -> er' <> []) /\ (commit <> [] -> er' <> [])
               /\ http_commit_shape P env idx' addr' n' (http_write env)
                    (flash_after (rev (dl' ++ er')) (cur_flash w1')) commit)).
  { intros w2 Hl Hf. apply (Hexit [] [] 0); auto; constructor. }
  destruct (http_read_header C P env sched 0 alloc 0 zero_result w1) as [h|] eqn:Eh;
    cbn [bind]; [|discriminate].
  apply http_read_header_frame in Eh.
  destruct h as [s2 w2|a2 i2 rsp s2 w2|]; [| |discriminate].
  { destruct Eh as [Hl2 Hf2]. intros [= <- <-]. apply Hquiet; assumption. }
  destruct Eh as [Hl2 Hf2].
  destruct (0 =? body_len rsp).
  { intros [= <- <-]. apply Hquiet; assumption. }
  destruct (http_file_header env idx a2 i2 rsp s2 w2) as [f|] eqn:Ef;
    cbn [bind]; [|discriminate].
  apply http_file_header_frame in Ef.
  destruct f as [w3|[[a3 wl] t] s3 w3].
  { destruct Ef as [Hl3 Hf3]. intros [= <- <-]. apply Hquiet; congruence. }
  destruct Ef as [Hl3 Hf3].
  destruct (http_erase_and_download C P _ idx addr a3 i2 rsp wl t s3 w3) as [d|] eqn:Ed;
    cbn [bind]; [|discriminate].
  apply http_erase_and_download_effect in Ed.
  destruct Ed as (er & dl & n & Her & Hdl & Hiw & Hne & Hr).
  destruct d as [w4|[sig size] s4 w4].
  { destruct Hr as [Hl4 Hf4]. intros [= <- <-].
    apply (Hexit er dl n); try assumption; [|congruence].
    rewrite Hl4, Hl3, Hl2. reflexivity. }
  destruct Hr as (Hl4 & Hf4 & Hn & Hner).
  destruct (http_verify P idx addr t size sig w4) as [[r5 w5]|] eqn:Ev;
    cbn [bind]; [|discriminate].
  destruct (http_verify_shape P env idx addr t size n sig w4 r5 w5 Hn Ev)
    as (commit & Hl5 & Hf5 & Hcne & Hshape).
  intros [= <- <-]. split; [congruence|]. right.
  exists idx, addr, w1, er, dl, n, commit.
  assert (Hlog4 : log w4 = (dl ++ er) ++ log w1)
    by (rewrite Hl4, Hl3, Hl2, <- app_assoc; reflexivity).
  split; [reflexivity|]. split; [exact Ea|].
  split; [rewrite Hl5, Hlog4, <- app_assoc; reflexivity|].
  split; [exact Her|]. split; [exact Hdl|]. split; [exact Hiw|].
  split; [exact Hne|]. split; [intros _; exact Hner|].
  rewrite <- (cur_flash_extend w1 w4 (dl ++ er) Hlog4) by congruence.
  exact Hshape.
Qed.

(** Witness of [http_update_ota_ordering]: the demonstration image comes
    in one packet and is written, the write of the signature fails, and
    the call returns 0. *)
Lemma http_update_ota_ordering_witness :
  exists w',
    http_update_ota amebaz_http amebaz http_env_ok (repeat 512 20)
      (set_wfail [false; true] (demo_world http_demo_response))
    = Some (HttpReturn 0 w')
    /\ flash0 w' = flash0 (set_wfail [false; true] (demo_world http_demo_response))
    /\ ((0 = -1 /\ w' = set_wfail [false; true] (demo_world http_demo_response)) \/
        exists idx addr w1 er dl n commit,
          update_ota_prepare_addr amebaz_http amebaz (http_index0 http_env_ok)
            (set_wfail [false; true] (demo_world http_demo_response))
          = (addr, idx, w1)
          /\ addr <> 0xFFFFFFFF
          /\ log w' = commit ++ dl ++ er ++ log w1
          /\ Forall is_erase_event er /\ Forall is_image_event dl
          /\ image_writes OTA_IMAG (u32 (addr - SPI_FLASH_BASE amebaz + 8))
               (events_of OTA_IMAG dl) n
          /\ (dl <> [] -> er <> []) /\ (commit <> [] -> er <> [])
          /\ http_commit_shape amebaz http_env_ok idx addr n 0
               (flash_after (rev (dl ++ er)) (cur_flash w1)) commit).
Proof.
  assert (Hret : option_map (fun r => match r with
                                      | HttpReturn ret _ => ret
                                      | HttpHang => 1
                                      end)
                   (http_update_ota amebaz_http amebaz http_env_ok (repeat 512 20)
                      (set_wfail [false; true] (demo_world http_demo_response)))
                 = Some 0) by (vm_compute; reflexivity).
  destruct (http_update_ota amebaz_http amebaz http_env_ok (repeat 512 20)
              (set_wfail [false; true] (demo_world http_demo_response)))
    as [[ret w'|]|] eqn:E; try discriminate Hret.
  cbn [option_map] in Hret. injection Hret as ->.
  exists w'. split; [reflexivity|].
  apply (http_update_ota_ordering amebaz_http amebaz http_env_ok (repeat 512 20)
           (set_wfail [false; true] (demo_world http_demo_response)) 0 w').
  - reflexivity.
  - exact E.
Defined.

(* ----------------------------------------------------------------- *)
(** *** [update_ota_prepare_addr] *)



(* ----------------------------------------------------------------- *)
(** *** [http_update_ota]: the download of a good stream *)

(** A call of [http_read_socket] that is granted [n] bytes while data are
    left: it takes the bytes the stream has next, [buf_len] at most, to
    the front of the buffer. *)
Lemma http_read_socket_data (sock : Z) (alloc : list byte) (buf_len n : Z) (w : world) :
  0 <= sock -> 0 < buf_len <= Z.of_nat (length alloc) -> 0 < n ->
  rx_data w <> [] ->
  let k := Z.min (Z.min n buf_len) (Z.of_nat (length (rx_data w))) in
  exists alloc' w',
    http_read_socket sock alloc buf_len (Some n) w = Some (k, alloc', w')
    /\ 0 < k
    /\ length alloc' = length alloc
    /\ firstn (Z.to_nat k) alloc' = firstn (Z.to_nat k) (rx_data w)
    /\ rx_data w' = skipn (Z.to_nat k) (rx_data w)
    /\ log w' = log w /\ flash0 w' = flash0 w /\ wfail w' = wfail w.
Proof.
  intros Hs Hb Hn Hrx k.
  assert (0 < Z.of_nat (length (rx_data w))) as Hlen
    by (destruct (rx_data w); [congruence|cbn [length]; lia]).
  unfold http_read_socket.
  replace (sock <? 0) with false by (symmetry; apply Z.ltb_ge; lia).
  replace (buf_len <? 0) with false by (symmetry; apply Z.ltb_ge; lia).
  cbn [bind].
  rewrite store_bytes_eq by (rewrite ?repeat_length; lia). cbn [bind].
  set (alloc0 := firstn (Z.to_nat 0) alloc ++ _).
  assert (length alloc0 = length alloc) as Hl0.
  { unfold alloc0. rewrite !length_app, length_firstn, repeat_length, length_skipn. lia. }
  destruct (read (Some n) buf_len w) as [[r d] w1] eqn:Er.
  apply read_spec in Er.
  destruct Er as (Hl & Hf & Hw & Hsplit & [(Hneg & _)|(_ & Hr & Hd)]); [lia|].
  assert (r = k) as Hrk by (rewrite Hr, Hd, length_firstn; unfold k; lia).
  replace (r <=? 0) with false by (symmetry; apply Z.leb_gt; unfold k in Hrk; lia).
  rewrite store_bytes_eq by lia. cbn [bind].
  eexists _, w1. split; [rewrite Hrk; reflexivity|].
  split; [unfold k; lia|].
  assert (length d = Z.to_nat k) as Hdk by lia.
  assert (d = firstn (Z.to_nat k) (rx_data w)) as Hdv.
  { rewrite <- Hdk. rewrite Hd at 2. rewrite firstn_self. exact Hd. }
  split; [rewrite !length_app, length_firstn, length_skipn; lia|].
  split.
  - cbn [Z.to_nat firstn app]. rewrite firstn_app, Hdk, Nat.sub_diag, firstn_O, app_nil_r.
    rewrite <- Hdk, firstn_all. rewrite Hdk. exact Hdv.
  - split; [|auto].
    apply (app_inv_head d). rewrite <- Hsplit. rewrite Hdv at 1.
    symmetry. apply firstn_skipn.
Qed.

Lemma http_packets_done (sched : list Z) (P : platform) (sock address : Z)
    (alloc : list byte) (wl total size : Z) (w : world) :
  http_packets sched P sock address alloc wl total 0 size w
  = Some (StageNext (alloc, wl, total, size) sched w).
Proof. destruct sched; reflexivity. Qed.

Lemma load_front (alloc : list byte) (n : Z) :
  0 <= n <= Z.of_nat (length alloc) ->
  load_bytesZ alloc 0 n = Some (firstn (Z.to_nat n) alloc).
Proof.
  intros H. unfold load_bytesZ, load_bytes.
  replace (n <? 0) with false by (symmetry; apply Z.ltb_ge; lia).
  replace (0 + Z.of_nat (Z.to_nat n) <=? Z.of_nat (length alloc)) with true
    by (symmetry; apply Z.leb_le; lia).
  reflexivity.
Qed.

Lemma firstn_front (alloc rx : list byte) (k m : nat) :
  firstn k alloc = firstn k rx -> (m <= k)%nat -> firstn m alloc = firstn m rx.
Proof.
  intros H Hm.
  rewrite <- (Nat.min_l m k Hm), <- !firstn_firstn, H. reflexivity.
Qed.

Lemma write_succeeds (who : origin) (a : Z) (d : list byte) (w : world) :
  wfail w = [] ->
  flash_stream_write who a d w = (1, emit (EvWrite who a d) w).
Proof. intros H. unfold flash_stream_write. rewrite H. reflexivity. Qed.

Lemma stream_writes_step (k : img_kind) (base : Z) (src : list byte)
    (es : list event) (n m n' : Z) (d : list byte) :
  stream_writes k base src es n ->
  d = slice src n m -> m = Z.of_nat (length d) -> n' = n + m ->
  stream_writes k base src (EvWrite (ByImage k) (u32 (base + n)) d :: es) n'.
Proof.
  intros H Hd Hm ->. subst m. constructor; assumption.
Qed.

Lemma http_signature_loop_done (sched : list Z) (sock : Z) (alloc : list byte)
    (wl : Z) (sig : list byte) (w : world) :
  http_signature_loop sched sock alloc wl 8 sig w
  = Some (StageNext (alloc, wl, 8, sig) sched w).
Proof. destruct sched; reflexivity. Qed.

Lemma load_slice (l : list byte) (a n : Z) :
  0 <= a -> 0 <= n -> a + n <= Z.of_nat (length l) ->
  load_bytesZ l a n = Some (slice l a n).
Proof.
  intros Ha Hn H. unfold load_bytesZ, load_bytes, slice.
  replace (n <? 0) with false by (symmetry; apply Z.ltb_ge; lia).
  replace (0 <=? a) with true by (symmetry; apply Z.leb_le; lia).
  replace (a + Z.of_nat (Z.to_nat n) <=? Z.of_nat (length l)) with true
    by (symmetry; apply Z.leb_le; lia).
  reflexivity.
Qed.

Lemma http_download_image (sched : list Z) (P : platform) (sock address : Z)
    (t : update_ota_target_hdr) (alloc : list byte)
    (buf wl total remain size : Z) (sig0 : list byte) (w : world) :
  Offset (FileImgHdr t) < total < 2 ^ 31 -> 0 <= Offset (FileImgHdr t) ->
  http_download sched P sock address t alloc buf wl total remain size sig0 w
  = http_image P sock address t alloc buf wl total remain size sig0 sched w.
Proof.
  intros H H0.
  destruct sched; cbn [http_download]; rewrite u32_small by lia;
    replace (total >? Offset (FileImgHdr t)) with true
      by (symmetry; apply Z.gtb_lt; lia); reflexivity.
Qed.

Section HttpStream.
Variable P : platform.
Hypothesis HP : wf_platform P.
Variables (sock address : Z) (F : list byte) (off len : Z).
Hypothesis Hsock : 0 <= sock.
Hypothesis Hoff : 0 <= off.
Hypothesis Hlen : 8 < len.
Hypothesis Hin : off + len <= Z.of_nat (length F).
Hypothesis HF : Z.of_nat (length F) < 2 ^ 31.
Hypothesis Hbuf8 : 8 <= BUF_SIZE P.

(** The packets behind the first one of the image: the payload from byte
    [size] on is written, and not a byte more than the image has. *)
Lemma http_packets_streamed : forall (sched : list Z) (alloc : list byte)
    (wl total size : Z) (w : world) (es l0 : list event),
  Forall (fun n => 0 < n) sched ->
  Z.of_nat (length (rx_data w)) <= Z.of_nat (length sched) ->
  Z.of_nat (length alloc) = BUF_SIZE P ->
  0 <= size <= len - 8 ->
  rx_data w = skipn (Z.to_nat (off + 8 + size)) F ->
  wfail w = [] ->
  stream_writes OTA_IMAG address (skipn (Z.to_nat (off + 8)) F) es size ->
  log w = es ++ l0 ->
  exists alloc' wl' total' sched' w' es',
    http_packets sched P sock address alloc wl total (len - 8 - size) size w
    = Some (StageNext (alloc', wl', total', len - 8) sched' w')
    /\ stream_writes OTA_IMAG address (skipn (Z.to_nat (off + 8)) F) es' (len - 8)
    /\ log w' = es' ++ l0 /\ flash0 w' = flash0 w /\ wfail w' = [].
Proof.
  unfold wf_platform in HP.
  induction sched as [|n sched IH];
    intros alloc wl total size w es l0 Hpos Hfit Hal Hsize Hrx Hwf Hsw Hlog.
  - assert (size = len - 8) as ->.
    { rewrite Hrx, length_skipn in Hfit. cbn [length] in Hfit. lia. }
    rewrite Z.sub_diag. rewrite http_packets_done.
    exists alloc, wl, total, [], w, es. auto.
  - destruct (Z.eq_dec size (len - 8)) as [-> |Hne].
    { rewrite Z.sub_diag. rewrite http_packets_done.
      exists alloc, wl, total, (n :: sched), w, es. auto. }
    inversion Hpos as [|? ? Hn Hpos']; subst.
    set (remain := len - 8 - size) in *.
    assert (0 < remain) as Hrem by (unfold remain; lia).
    assert (Z.of_nat (length (rx_data w)) = Z.of_nat (length F) - (off + 8 + size))
      as Hav by (rewrite Hrx, length_skipn; lia).
    assert (rx_data w <> []) as Hne0
      by (intros E; rewrite E in Hav; cbn [length] in Hav; unfold remain in Hrem; lia).
    cbn [http_packets hd_error].
    replace (remain =? 0) with false by (symmetry; apply Z.eqb_neq; lia).
    destruct (http_read_socket_data sock alloc (BUF_SIZE P) n w)
      as (a1 & w1 & Hrun & Hk & Hal1 & Hfront & Hrx1 & Hl1 & Hf1 & Hw1);
      try assumption; try lia.
    set (k := Z.min (Z.min n (BUF_SIZE P)) (Z.of_nat (length (rx_data w)))) in *.
    rewrite Hrun. cbn [bind].
    replace (k <? 0) with false by (symmetry; apply Z.ltb_ge; lia).
    assert (k <= BUF_SIZE P) as Hkb by (unfold k; lia).
    rewrite (s32_small (remain - k)) by (unfold remain; lia).
    destruct (remain - k <=? 0) eqn:Etrim.
    + (* the packet holds the end of the image *)
      apply Z.leb_le in Etrim.
      rewrite (s32_small (- (remain - k))) by lia.
      replace (k - - (remain - k)) with remain by lia.
      rewrite (s32_small remain) by (unfold remain; lia).
      rewrite (u32_small remain) by (unfold remain; lia).
      rewrite load_front by lia. cbn [bind].
      rewrite write_succeeds by congruence.
      change (1 <? 0) with false. cbn iota.
      rewrite http_packets_done.
      replace (s32 (size + remain)) with (len - 8)
        by (rewrite s32_small; unfold remain; lia).
      eexists _, _, _, _, _,
        (EvWrite (ByImage OTA_IMAG) (u32 (address + size))
           (firstn (Z.to_nat remain) a1) :: es).
      split; [reflexivity|].
      assert (Hd : firstn (Z.to_nat remain) a1
                   = slice (skipn (Z.to_nat (off + 8)) F) size remain).
      { rewrite (firstn_front a1 (rx_data w) (Z.to_nat k) (Z.to_nat remain) Hfront)
          by lia.
        rewrite Hrx, slice_skipn by lia. unfold slice. reflexivity. }
      split.
      * apply (stream_writes_step _ _ _ _ _ remain); [exact Hsw|exact Hd| |].
        -- rewrite length_firstn. lia.
        -- unfold remain. lia.
      * cbn [emit log flash0 wfail]. rewrite Hl1, Hlog.
        split; [reflexivity|]. split; congruence.
    + (* the whole packet is payload *)
      apply Z.leb_gt in Etrim.
      rewrite (u32_small k) by lia.
      rewrite load_front by lia. cbn [bind].
      rewrite write_succeeds by congruence.
      change (1 <? 0) with false. cbn iota.
      rewrite (s32_small (size + k)) by (unfold remain in *; lia).
      assert (Hd : firstn (Z.to_nat k) a1
                   = slice (skipn (Z.to_nat (off + 8)) F) size k).
      { rewrite Hfront, Hrx, slice_skipn by lia. unfold slice. reflexivity. }
      replace (remain - k) with (len - 8 - (size + k)) by (unfold remain; lia).
      destruct (IH a1 k (s32 (total + k)) (size + k)
                  (emit (EvWrite (ByImage OTA_IMAG) (u32 (address + size))
                           (firstn (Z.to_nat k) a1)) w1)
                  (EvWrite (ByImage OTA_IMAG) (u32 (address + size))
                     (firstn (Z.to_nat k) a1) :: es) l0)
        as (a2 & wl2 & t2 & s2 & w2 & es2 & Hrun2 & Hsw2 & Hl2 & Hf2 & Hw2);
        try assumption.
      * cbn [emit rx_data]. rewrite Hrx1, length_skipn. cbn [length] in Hfit. lia.
      * lia.
      * unfold remain in *. lia.
      * cbn [emit rx_data]. rewrite Hrx1, Hrx, skipn_skipn. f_equal. lia.
      * cbn [emit wfail]. congruence.
      * apply (stream_writes_step _ _ _ _ _ k); [exact Hsw|exact Hd| |reflexivity].
        rewrite length_firstn. lia.
      * cbn [emit log]. rewrite Hl1, Hlog. reflexivity.
      * exists a2, wl2, t2, s2, w2, es2. split; [exact Hrun2|].
        split; [exact Hsw2|]. split; [exact Hl2|].
        split; [rewrite Hf2; cbn [emit flash0]; exact Hf1|exact Hw2].
Qed.



(** The rest of the signature: the loop ends with the 8 bytes at [off]
    of the stream, and nothing behind them is taken from the socket. *)
Lemma http_signature_loop_streamed : forall (sched : list Z) (alloc : list byte)
    (wl sc : Z) (sig : list byte) (w : world),
  Forall (fun n => 0 < n) sched ->
  Z.of_nat (length (rx_data w)) <= Z.of_nat (length sched) ->
  Z.of_nat (length alloc) = BUF_SIZE P ->
  0 <= sc <= 8 ->
  length sig = 9%nat ->
  firstn (Z.to_nat sc) sig = slice F off sc ->
  rx_data w = skipn (Z.to_nat (off + sc)) F ->
  exists alloc' wl' sig' sched' w',
    http_signature_loop sched sock alloc wl sc sig w
    = Some (StageNext (alloc', wl', 8, sig') sched' w')
    /\ Z.of_nat (length alloc') = BUF_SIZE P
    /\ length sig' = 9%nat
    /\ firstn 8 sig' = slice F off 8
    /\ rx_data w' = skipn (Z.to_nat (off + 8)) F
    /\ Forall (fun n => 0 < n) sched'
    /\ Z.of_nat (length (rx_data w')) <= Z.of_nat (length sched')
    /\ log w' = log w /\ flash0 w' = flash0 w /\ wfail w' = wfail w.
Proof.
  unfold wf_platform in HP.
  induction sched as [|n sched IH];
    intros alloc wl sc sig w Hpos Hfit Hal Hsc Hsig Hfront Hrx.
  - exfalso. rewrite Hrx, length_skipn in Hfit. cbn [length] in Hfit. lia.
  - destruct (Z.eq_dec sc 8) as [-> |Hne].
    { rewrite http_signature_loop_done.
      exists alloc, wl, sig, (n :: sched), w.
      repeat (split; [first [reflexivity|assumption]|]). reflexivity. }
    inversion Hpos as [|? ? Hn Hpos']; subst.
    assert (Z.of_nat (length (rx_data w)) = Z.of_nat (length F) - (off + sc))
      as Hav by (rewrite Hrx, length_skipn; lia).
    assert (rx_data w <> []) as Hne0
      by (intros E; rewrite E in Hav; cbn [length] in Hav; lia).
    cbn [http_signature_loop hd_error].
    replace (sc <? 8) with true by (symmetry; apply Z.ltb_lt; lia).
    rewrite (u32_small (8 - sc)), (s32_small (8 - sc)) by lia.
    destruct (http_read_socket_data sock alloc (8 - sc) n w)
      as (a1 & w1 & Hrun & Hk & Hal1 & Hfr & Hrx1 & Hl1 & Hf1 & Hw1);
      try assumption; try lia.
    set (k := Z.min (Z.min n (8 - sc)) (Z.of_nat (length (rx_data w)))) in *.
    rewrite Hrun. cbn [bind].
    replace (k <? 0) with false by (symmetry; apply Z.ltb_ge; lia).
    assert (k <= 8 - sc) as Hk8 by (unfold k; lia).
    rewrite load_front by lia. cbn [bind].
    assert (Hlen_d : length (firstn (Z.to_nat k) a1) = Z.to_nat k)
      by (rewrite length_firstn; lia).
    rewrite store_bytes_eq by (rewrite ?Hlen_d; lia). cbn [bind].
    rewrite (u32_small (sc + k)) by lia.
    destruct (IH a1 k (sc + k)
                (firstn (Z.to_nat sc) sig ++ firstn (Z.to_nat k) a1
                 ++ skipn (Z.to_nat sc + length (firstn (Z.to_nat k) a1)) sig) w1)
      as (a2 & wl2 & sig2 & s2 & w2 & Hrun2 & Hal2 & Hs2 & Hsig2 & Hrx2
          & Hpos2 & Hfit2 & Hl2 & Hf2 & Hw2); try assumption.
    + rewrite Hrx1, length_skipn. cbn [length] in Hfit. lia.
    + lia.
    + lia.
    + rewrite Hlen_d, !length_app, Hlen_d, length_firstn, length_skipn. lia.
    + rewrite app_assoc, firstn_app.
      rewrite length_app, length_firstn, Hlen_d.
      replace (Z.to_nat (sc + k) - (Init.Nat.min (Z.to_nat sc) (length sig) + Z.to_nat k))%nat
        with 0%nat by lia.
      rewrite firstn_O, app_nil_r, firstn_all2
        by (rewrite length_app, length_firstn, Hlen_d; lia).
      rewrite Hfront, Hfr, Hrx.
      change (firstn (Z.to_nat k) (skipn (Z.to_nat (off + sc)) F))
        with (slice F (off + sc) k).
      apply slice_app; lia.
    + rewrite Hrx1, Hrx, skipn_skipn. f_equal. lia.
    + exists a2, wl2, sig2, s2, w2. split; [exact Hrun2|].
      repeat (split; [first [assumption|congruence]|]). congruence.
Qed.

Variable t : update_ota_target_hdr.
Hypothesis Hoffeq : Offset (FileImgHdr t) = off.


(** What the buffer holds of the stream: [wl] bytes at [buf], the last
    of which is byte [total - 1] of the stream. *)
Lemma load_stream (alloc : list byte) (buf wl total i m : Z) :
  Z.of_nat (length alloc) = BUF_SIZE P ->
  0 <= buf -> buf + wl <= BUF_SIZE P -> 0 <= total - wl ->
  slice alloc buf wl = slice F (total - wl) wl ->
  0 <= i -> 0 <= m -> i + m <= wl ->
  load_bytesZ alloc (buf + i) m = Some (slice F (total - wl + i) m).
Proof.
  intros Hal Hb Hbw Ht Hs Hi Hm Him.
  rewrite load_slice by lia. f_equal.
  rewrite <- (slice_slice alloc buf wl i m), Hs by lia.
  apply slice_slice; lia.
Qed.

(** The first packet that reaches the image, and the packets behind it. *)
Lemma http_image_streamed (sched : list Z) (alloc : list byte)
    (buf wl total : Z) (sig0 : list byte) (w : world) :
  Forall (fun n => 0 < n) sched ->
  Z.of_nat (length (rx_data w)) <= Z.of_nat (length sched) ->
  Z.of_nat (length alloc) = BUF_SIZE P ->
  0 <= buf -> buf + wl <= BUF_SIZE P ->
  off < total -> total - wl <= off -> 0 <= total - wl ->
  slice alloc buf wl = slice F (total - wl) wl ->
  rx_data w = skipn (Z.to_nat total) F ->
  length sig0 = 9%nat -> wfail w = [] ->
  total - off <= len ->
  exists sig sched' w' es,
    http_image P sock address t alloc buf wl total (len - 8) 0 sig0 sched w
    = Some (StageNext (sig, len - 8) sched' w')
    /\ firstn 8 sig = slice F off 8
    /\ stream_writes OTA_IMAG address (skipn (Z.to_nat (off + 8)) F) es (len - 8)
    /\ log w' = es ++ log w /\ flash0 w' = flash0 w /\ wfail w' = [].
Proof.
  unfold wf_platform in HP.
  intros Hpos Hfit Hal Hb Hbw Hreach Hstart Ht Hs Hrx Hsig Hwf Hover.
  unfold http_image. rewrite Hoffeq.
  rewrite (u32_small (total - off)) by lia.
  set (TempCnt := total - off) in *.
  set (SigCnt := if TempCnt <? 8 then TempCnt else 8).
  assert (0 < SigCnt <= 8 /\ SigCnt <= TempCnt) as HSig
    by (unfold SigCnt; destruct (TempCnt <? 8) eqn:E;
        [apply Z.ltb_lt in E|apply Z.ltb_ge in E]; unfold TempCnt in *; lia).
  replace (buf + wl - TempCnt) with (buf + (wl - TempCnt)) by lia.
  rewrite (load_stream alloc buf wl total (wl - TempCnt) SigCnt)
    by (try assumption; unfold TempCnt in *; lia).
  replace (total - wl + (wl - TempCnt)) with off by (unfold TempCnt; lia).
  cbn [bind].
  assert (Z.of_nat (length (slice F off SigCnt)) = SigCnt) as Hld.
  { apply slice_length; lia. }
  rewrite store_bytes_eq by lia. cbn [bind].
  change (Z.to_nat 0) with 0%nat. rewrite firstn_O, Nat.add_0_l. cbn [app].
  set (sig1 := slice F off SigCnt ++ skipn (length (slice F off SigCnt)) sig0).
  assert (length sig1 = 9%nat) as Hsig1
    by (unfold sig1; rewrite length_app, length_skipn; lia).
  assert (firstn (Z.to_nat SigCnt) sig1 = slice F off SigCnt) as Hfr1.
  { unfold sig1. rewrite firstn_app.
    replace (Z.to_nat SigCnt - length (slice F off SigCnt))%nat with 0%nat by lia.
    rewrite firstn_O, app_nil_r. apply firstn_all2. lia. }
  destruct (Z_le_gt_dec TempCnt 8) as [Hle|Hgt].
  - (* the packet ends inside the signature *)
    assert (SigCnt = TempCnt) as HSC by (unfold SigCnt; destruct (TempCnt <? 8) eqn:E;
        [reflexivity|apply Z.ltb_ge in E; lia]).
    replace ((SigCnt <? 8) || (u32 (TempCnt - 8) =? 0)) with true.
    2:{ symmetry. apply orb_true_iff.
        destruct (Z.eq_dec TempCnt 8) as [E|E];
          [right; rewrite E; reflexivity|left; apply Z.ltb_lt; lia]. }
    destruct (http_signature_loop_streamed sched alloc wl SigCnt sig1 w)
      as (a1 & wl1 & sig2 & s1 & w1 & Hrun1 & Hal1 & Hs2 & Hsig2 & Hrx1
          & Hpos1 & Hfit1 & Hl1 & Hf1 & Hw1); try assumption; try lia.
    { rewrite Hrx. f_equal. unfold TempCnt in *. lia. }
    rewrite Hrun1. cbn [bind].
    destruct (http_packets_streamed s1 a1 wl1
                (s32 (u32 (total + u32 (8 - TempCnt)))) 0 w1 [] (log w))
      as (a2 & wl2 & t2 & s2 & w2 & es2 & Hrun2 & Hsw2 & Hl2 & Hf2 & Hw2);
      try assumption; try lia.
    { rewrite Hrx1. f_equal. lia. }
    { congruence. }
    { constructor. }
    rewrite Z.sub_0_r in Hrun2. rewrite Hrun2. cbn [bind].
    exists sig2, s2, w2, es2. split; [reflexivity|].
    split; [exact Hsig2|]. split; [exact Hsw2|]. split; [exact Hl2|].
    split; [congruence|exact Hw2].
  - (* the packet holds the signature and the start of the payload *)
    assert (SigCnt = 8) as HSC by (unfold SigCnt; destruct (TempCnt <? 8) eqn:E;
        [apply Z.ltb_lt in E; lia|reflexivity]).
    rewrite (u32_small (TempCnt - 8)) by (unfold TempCnt in *; lia).
    replace ((SigCnt <? 8) || (TempCnt - 8 =? 0)) with false.
    2:{ symmetry. apply orb_false_iff. split;
          [apply Z.ltb_ge; lia|apply Z.eqb_neq; lia]. }
    replace (buf + (wl - TempCnt) + 8) with (buf + (wl - TempCnt + 8)) by lia.
    rewrite (load_stream alloc buf wl total (wl - TempCnt + 8) (TempCnt - 8))
      by (try assumption; unfold TempCnt in *; lia).
    replace (total - wl + (wl - TempCnt + 8)) with (off + 8) by (unfold TempCnt; lia).
    cbn [bind].
    rewrite write_succeeds by assumption.
    change (1 <? 0) with false. cbn iota.
    rewrite Z.add_0_l, (u32_small (TempCnt - 8)), (s32_small (TempCnt - 8))
      by (unfold TempCnt in *; lia).
    rewrite (s32_small (len - 8 - (TempCnt - 8))) by (unfold TempCnt in *; lia).
    cbn [bind].
    assert (Z.of_nat (length (slice F (off + 8) (TempCnt - 8))) = TempCnt - 8) as Hld2.
    { apply slice_length; unfold TempCnt in *; lia. }
    destruct (http_packets_streamed sched alloc wl total (TempCnt - 8)
                (emit (EvWrite (ByImage OTA_IMAG) (u32 (address + 0))
                         (slice F (off + 8) (TempCnt - 8))) w)
                [EvWrite (ByImage OTA_IMAG) (u32 (address + 0))
                   (slice F (off + 8) (TempCnt - 8))] (log w))
      as (a2 & wl2 & t2 & s2 & w2 & es2 & Hrun2 & Hsw2 & Hl2 & Hf2 & Hw2);
      try assumption; try lia.
    { cbn [emit rx_data]. rewrite Hrx. f_equal. unfold TempCnt. lia. }
    { apply (stream_writes_step _ _ _ _ _ (TempCnt - 8)).
      - constructor.
      - rewrite slice_skipn by lia. f_equal. lia.
      - lia.
      - lia. }
    { reflexivity. }
    rewrite Hrun2. cbn [bind].
    exists sig1, s2, w2, es2.
    split; [reflexivity|].
    split; [rewrite HSC in Hfr1; exact Hfr1|].
    split; [exact Hsw2|]. split; [exact Hl2|].
    split; [rewrite Hf2; reflexivity|exact Hw2].
Qed.


(** The packets before the image are dropped: the download starts at
    byte [off] of the stream wherever the packets end. *)
Lemma http_download_skips : forall (sched : list Z) (alloc : list byte)
    (buf wl total : Z) (sig0 : list byte) (w : world),
  Forall (fun n => 0 < n) sched ->
  Z.of_nat (length (rx_data w)) <= Z.of_nat (length sched) ->
  Z.of_nat (length alloc) = BUF_SIZE P ->
  0 <= buf -> 0 <= wl -> buf + wl <= BUF_SIZE P ->
  total - wl <= off -> 0 <= total - wl -> total <= Z.of_nat (length F) ->
  slice alloc buf wl = slice F (total - wl) wl ->
  rx_data w = skipn (Z.to_nat total) F ->
  length sig0 = 9%nat -> wfail w = [] ->
  Z.of_nat (length F) = off + len \/ BUF_SIZE P <= len ->
  exists sig sched' w' es,
    http_download sched P sock address t alloc buf wl total (len - 8) 0 sig0 w
    = Some (StageNext (sig, len - 8) sched' w')
    /\ firstn 8 sig = slice F off 8
    /\ stream_writes OTA_IMAG address (skipn (Z.to_nat (off + 8)) F) es (len - 8)
    /\ log w' = es ++ log w /\ flash0 w' = flash0 w /\ wfail w' = [].
Proof.
  unfold wf_platform in HP.
  induction sched as [|n sched IH];
    intros alloc buf wl total sig0 w Hpos Hfit Hal Hb Hwl Hbw Hstart Ht Htot Hs Hrx
      Hsig Hwf Hover;
    (destruct (Z_lt_ge_dec off total) as [Hreach|Hbefore];
     [rewrite http_download_image by (rewrite ?Hoffeq; lia);
      apply http_image_streamed; try assumption; lia|]).
  - exfalso. rewrite Hrx, length_skipn in Hfit. cbn [length] in Hfit. lia.
  - apply Forall_cons_iff in Hpos as [Hn Hpos'].
    assert (Z.of_nat (length (rx_data w)) = Z.of_nat (length F) - total)
      as Hav by (rewrite Hrx, length_skipn; lia).
    assert (rx_data w <> []) as Hne0
      by (intros E; rewrite E in Hav; cbn [length] in Hav; lia).
    cbn [http_download hd_error]. rewrite Hoffeq.
    rewrite (u32_small total) by lia.
    replace (total >? off) with false by (symmetry; rewrite Z.gtb_ltb; apply Z.ltb_ge; lia).
    replace (len - 8 =? 0) with false by (symmetry; apply Z.eqb_neq; lia).
    destruct (http_read_socket_data sock alloc (BUF_SIZE P) n w)
      as (a1 & w1 & Hrun & Hk & Hal1 & Hfr & Hrx1 & Hl1 & Hf1 & Hw1);
      try assumption; try lia.
    set (k := Z.min (Z.min n (BUF_SIZE P)) (Z.of_nat (length (rx_data w)))) in *.
    rewrite Hrun. cbn [bind].
    replace (k <? 0) with false by (symmetry; apply Z.ltb_ge; lia).
    assert (k <= BUF_SIZE P) as Hkb by (unfold k; lia).
    assert (k <= Z.of_nat (length (rx_data w))) as Hka by (unfold k; lia).
    rewrite (s32_small (total + k)) by lia.
    destruct (IH a1 0 k (total + k) sig0 w1)
      as (sig & s2 & w2 & es & Hrun2 & Hsig2 & Hsw & Hl2 & Hf2 & Hw2);
      try assumption; try lia.
    + rewrite Hrx1, length_skipn. cbn [length] in Hfit. lia.
    + replace (total + k - k) with total by lia.
      unfold slice at 1. change (Z.to_nat 0) with 0%nat. cbn [skipn].
      rewrite Hfr, Hrx. reflexivity.
    + rewrite Hrx1, Hrx, skipn_skipn. f_equal. lia.
    + congruence.
    + exists sig, s2, w2, es. split; [exact Hrun2|].
      split; [exact Hsig2|]. split; [exact Hsw|].
      split; [congruence|]. split; [congruence|exact Hw2].
Qed.

End HttpStream.

(** The download on a good stream, with what the later stages need: the
    writes that are left to fail are none. *)
Lemma http_download_good (P : platform) (sock address : Z)
    (t : update_ota_target_hdr) (alloc : list byte) (buf writelen : Z)
    (sig0 : list byte) (sched : list Z) (w : world) :
  let F := slice alloc buf writelen ++ rx_data w in
  let off := Offset (FileImgHdr t) in
  let len := ImgLen (FileImgHdr t) in
  wf_platform P -> 8 <= BUF_SIZE P -> 0 <= sock ->
  Z.of_nat (length alloc) = BUF_SIZE P ->
  0 <= buf -> 0 <= writelen -> buf + writelen <= BUF_SIZE P ->
  length sig0 = 9%nat ->
  0 <= off -> 8 < len ->
  off + len <= Z.of_nat (length F) < 2 ^ 31 ->
  Z.of_nat (length F) = off + len \/ BUF_SIZE P <= len ->
  Forall (fun n => 0 < n) sched ->
  Z.of_nat (length (rx_data w)) <= Z.of_nat (length sched) ->
  wfail w = [] ->
  exists sig sched' w' es,
    http_download sched P sock address t alloc buf writelen writelen (len - 8) 0
      sig0 w
    = Some (StageNext (sig, len - 8) sched' w')
    /\ firstn 8 sig = slice F off 8
    /\ stream_writes OTA_IMAG address (skipn (Z.to_nat (off + 8)) F) es (len - 8)
    /\ log w' = es ++ log w /\ flash0 w' = flash0 w /\ wfail w' = [].
Proof.
  intros F off len HP H8 Hsock Hal Hb Hwl Hbw Hsig Hoff Hlen [Hin HF] Hover Hpos Hfit Hwf.
  assert (Z.of_nat (length (slice alloc buf writelen)) = writelen) as Hl
    by (apply slice_length; lia).
  destruct (http_download_skips P HP sock address F off len Hsock Hoff Hlen Hin HF H8
              t eq_refl sched alloc buf writelen writelen sig0 w)
    as (sig & s2 & w2 & es & Hrun & Hsig2 & Hsw & Hl2 & Hf2 & Hw2);
    try assumption; try lia.
  - unfold F. rewrite length_app. lia.
  - rewrite Z.sub_diag. unfold F, slice at 2. change (Z.to_nat 0) with 0%nat.
    cbn [skipn]. rewrite firstn_app.
    replace (Z.to_nat writelen - length (slice alloc buf writelen))%nat with 0%nat by lia.
    rewrite firstn_O, app_nil_r. symmetry. apply firstn_all2. lia.
  - unfold F. rewrite skipn_app.
    replace (Z.to_nat writelen - length (slice alloc buf writelen))%nat with 0%nat by lia.
    rewrite skipn_all2 by lia. reflexivity.
  - exists sig, s2, w2, es. auto 10.
Qed.

(** X22. The download of [http_update_ota] on a good stream.  [alloc]
    holds the first [writelen] bytes of the file at [buf]; the rest
    comes from the socket in packets of any size.  When no read and no
    write fails and the first packet that reaches the image does not go
    beyond it (the file ends with the image, or the image fills a
    buffer), the loop ends with the 8 bytes at [Offset] as the signature
    and has written the [ImgLen - 8] bytes behind them, in order and
    without a gap, from [address] on; [http_size] is [ImgLen - 8]. *)
Theorem http_download_streamed (P : platform) (sock address : Z)
    (t : update_ota_target_hdr) (alloc : list byte) (buf writelen : Z)
    (sig0 : list byte) (sched : list Z) (w : world) :
  let F := slice alloc buf writelen ++ rx_data w in
  let off := Offset (FileImgHdr t) in
  let len := ImgLen (FileImgHdr t) in
  wf_platform P -> 8 <= BUF_SIZE P -> 0 <= sock ->
  Z.of_nat (length alloc) = BUF_SIZE P ->
  0 <= buf -> 0 <= writelen -> buf + writelen <= BUF_SIZE P ->
  length sig0 = 9%nat ->
  0 <= off -> 8 < len ->
  off + len <= Z.of_nat (length F) < 2 ^ 31 ->
  Z.of_nat (length F) = off + len \/ BUF_SIZE P <= len ->
  Forall (fun n => 0 < n) sched ->
  Z.of_nat (length (rx_data w)) <= Z.of_nat (length sched) ->
  wfail w = [] ->
  exists sig sched' w' es,
    http_download sched P sock address t alloc buf writelen writelen (len - 8) 0
      sig0 w
    = Some (StageNext (sig, len - 8) sched' w')
    /\ firstn 8 sig = slice F off 8
    /\ stream_writes OTA_IMAG address (skipn (Z.to_nat (off + 8)) F) es (len - 8)
    /\ log w' = es ++ log w /\ flash0 w' = flash0 w.
Proof.
  intros F off len HP H8 Hsock Hal Hb Hwl Hbw Hsig Hoff Hlen Hin Hover Hpos Hfit Hwf.
  destruct (http_download_good P sock address t alloc buf writelen sig0 sched w)
    as (sig & s2 & w2 & es & Hrun & Hsig2 & Hsw & Hl2 & Hf2 & _); try assumption.
  exists sig, s2, w2, es. auto.
Qed.

(** Witness of [http_download_streamed]: the first 40 bytes of the
    file the server holds are in the buffer and the other 100 come in reads
    of 30 bytes. *)
Lemma http_download_streamed_witness :
  exists sig sched' w' es,
    http_download (repeat 30 100) amebaz 3 0x80008 demo_target_hdr
      (repeat x00 51 ++ firstn 40 (skipn 12 demo_file) ++ repeat x00 421) 51 40 40
      (ImgLen (FileImgHdr demo_target_hdr) - 8) 0 (repeat x00 9)
      (demo_world (skipn 52 demo_file))
    = Some (StageNext (sig, ImgLen (FileImgHdr demo_target_hdr) - 8) sched' w')
    /\ firstn 8 sig = list_byte_of_string "81958711"
    /\ ImgLen (FileImgHdr demo_target_hdr) - 8 = 100
    /\ stream_writes OTA_IMAG 0x80008 demo_payload es 100.
Proof.
  destruct (http_download_streamed amebaz 3 0x80008 demo_target_hdr
              (repeat x00 51 ++ firstn 40 (skipn 12 demo_file) ++ repeat x00 421) 51 40
              (repeat x00 9) (repeat 30 100) (demo_world (skipn 52 demo_file)))
    as (sig & sched' & w' & es & Hrun & Hsig & Hsw & _).
  - vm_compute. split; reflexivity.
  - vm_compute. intros H. discriminate H.
  - lia.
  - reflexivity.
  - lia.
  - lia.
  - vm_compute. intros H. discriminate H.
  - reflexivity.
  - vm_compute. intros H. discriminate H.
  - vm_compute. reflexivity.
  - vm_compute. split; [intros H; discriminate H|reflexivity].
  - left. vm_compute. reflexivity.
  - apply Forall_forall. intros x Hx. apply repeat_spec in Hx. subst x. lia.
  - vm_compute. intros H. discriminate H.
  - reflexivity.
  - exists sig, sched', w', es. split; [exact Hrun|].
    split; [rewrite Hsig; vm_compute; reflexivity|].
    split; [vm_compute; reflexivity|].
    exact Hsw.
Defined.

(* ----------------------------------------------------------------- *)
(** *** [http_update_ota]: a first packet that goes beyond the image *)

(** With no data left, [http_read_socket] returns -2 whatever the
    schedule says. *)
Lemma http_read_socket_closed (sock : Z) (alloc : list byte) (buf_len : Z)
    (entry : option Z) (w : world) :
  0 <= sock -> 0 <= buf_len <= Z.of_nat (length alloc) -> rx_data w = [] ->
  exists alloc' w',
    http_read_socket sock alloc buf_len entry w = Some (-2, alloc', w')
    /\ log w' = log w /\ flash0 w' = flash0 w.
Proof.
  intros Hs Hb Hrx. unfold http_read_socket.
  replace (sock <? 0) with false by (symmetry; apply Z.ltb_ge; lia).
  replace (buf_len <? 0) with false by (symmetry; apply Z.ltb_ge; lia).
  cbn [bind].
  rewrite store_bytes_eq by (rewrite ?repeat_length; lia). cbn [bind].
  destruct entry as [n|].
  - unfold read, deliver. rewrite Hrx.
    destruct (n <? 0); [eexists _, _; split; [reflexivity|split; reflexivity]|].
    rewrite firstn_nil. cbn [length Z.of_nat Z.leb Z.compare].
    eexists _, _. split; [reflexivity|split; reflexivity].
  - eexists _, _. split; [reflexivity|split; reflexivity].
Qed.

Lemma load_beyond (l : list byte) (n : Z) :
  Z.of_nat (length l) < n -> load_bytesZ l 0 n = None.
Proof.
  intros H. unfold load_bytesZ, load_bytes.
  replace (n <? 0) with false by (symmetry; apply Z.ltb_ge; lia).
  replace (0 + Z.of_nat (Z.to_nat n) <=? Z.of_nat (length l)) with false
    by (symmetry; apply Z.leb_gt; lia).
  rewrite andb_false_r. reflexivity.
Qed.

(** X23. An image that ends inside the first packet that reaches it
    ([Offset + ImgLen] below the count of bytes received) is never
    installed.  That packet is written to its end, beyond the image, and
    [RemainBytes] becomes negative.  The next read is then either
    refused, and the function leaves through [update_ota_exit] with the
    image in the flash but not verified; or it brings data, and the
    count passed to [flash_stream_write] is the negative [RemainBytes]
    taken as an unsigned length: the write reads far behind the buffer
    (undefined behaviour, [None]). *)
Theorem http_download_overshoot (P : platform) (sock address : Z)
    (t : update_ota_target_hdr) (alloc : list byte) (buf writelen : Z)
    (sig0 : list byte) (sched : list Z) (w : world) :
  let off := Offset (FileImgHdr t) in
  let len := ImgLen (FileImgHdr t) in
  let run := http_download sched P sock address t alloc buf writelen writelen
               (len - 8) 0 sig0 w in
  0 < BUF_SIZE P <= 2 ^ 30 -> 0 <= sock ->
  Z.of_nat (length alloc) = BUF_SIZE P ->
  0 <= buf -> buf + writelen <= BUF_SIZE P ->
  length sig0 = 9%nat ->
  0 <= off -> 8 < len -> off + len < writelen ->
  wfail w = [] ->
  (rx_data w = [] ->
   exists w', run = Some (StageExit w')
     /\ log w' = EvWrite (ByImage OTA_IMAG) (u32 (address + 0))
                   (slice alloc (buf + off + 8) (writelen - off - 8)) :: log w)
  /\ (rx_data w <> [] -> (exists n, hd_error sched = Some n /\ 0 < n) ->
      run = None).
Proof.
  intros off len run HP Hsock Hal Hb Hbw Hsig Hoff Hlen Hover Hwf.
  assert (run = s <- http_packets sched P sock address alloc writelen writelen
                  (len - (writelen - off)) (writelen - off - 8)
                  (emit (EvWrite (ByImage OTA_IMAG) (u32 (address + 0))
                     (slice alloc (buf + off + 8) (writelen - off - 8))) w)
 ;;
                match s with
                   | StageExit w => Some (StageExit w)
                   | StageNext (_, _, _, http_size) sched w =>
                       Some (StageNext
                               (slice alloc (buf + off) 8
                                ++ skipn 8 sig0, http_size) sched w)
                   end) as Hrun.
  { unfold run. rewrite http_download_image by (fold off; lia).
    unfold http_image. fold off. fold len.
    rewrite (u32_small (writelen - off)) by lia.
    replace (writelen - off <? 8) with false by (symmetry; apply Z.ltb_ge; lia).
    rewrite load_slice by lia. cbn [bind].
    assert (Z.of_nat (length (slice alloc (buf + writelen - (writelen - off)) 8)) = 8)
      as Hl8 by (apply slice_length; lia).
    rewrite store_bytes_eq by lia. cbn [bind].
    rewrite (u32_small (writelen - off - 8)) by lia.
    replace ((8 <? 8) || (writelen - off - 8 =? 0)) with false
      by (symmetry; apply orb_false_iff; split;
          [reflexivity|apply Z.eqb_neq; lia]).
    rewrite load_slice by lia. cbn [bind].
    rewrite write_succeeds by assumption.
    change (1 <? 0) with false. cbn iota.
    rewrite Z.add_0_l, (u32_small (writelen - off - 8)),
      (s32_small (writelen - off - 8)) by lia.
    rewrite (s32_small (len - 8 - (writelen - off - 8))) by lia.
    cbn [bind].
    replace (buf + writelen - (writelen - off) + 8) with (buf + off + 8) by lia.
    replace (buf + writelen - (writelen - off)) with (buf + off) in * by lia.
    replace (len - 8 - (writelen - off - 8)) with (len - (writelen - off)) by lia.
    change (Z.to_nat 0) with 0%nat. rewrite firstn_O, Nat.add_0_l. cbn [app].
    replace (length (slice alloc (buf + off) 8)) with 8%nat by lia.
    reflexivity. }
  rewrite Hrun. clear Hrun.
  set (w1 := emit _ w).
  set (remain := len - (writelen - off)).
  assert (- 2 ^ 31 < remain < 0) as Hrem by (unfold remain; lia).
  split.
  - intros Hrx.
    destruct (http_read_socket_closed sock alloc (BUF_SIZE P) (hd_error sched) w1)
      as (a1 & w2 & Hread & Hl2 & _); try assumption; try lia.
    exists w2.
    destruct sched; cbn [http_packets];
      (replace (remain =? 0) with false by (symmetry; apply Z.eqb_neq; lia));
      rewrite Hread; cbn [bind];
      (split; [reflexivity|rewrite Hl2; reflexivity]).
  - intros Hrx (n & Hhd & Hn).
    destruct sched as [|n0 sched]; [discriminate Hhd|].
    cbn [hd_error] in Hhd. injection Hhd as ->.
    cbn [http_packets hd_error].
    replace (remain =? 0) with false by (symmetry; apply Z.eqb_neq; lia).
    destruct (http_read_socket_data sock alloc (BUF_SIZE P) n w1)
      as (a1 & w2 & Hread & Hk & Hal1 & _); try assumption; try lia.
    set (k := Z.min (Z.min n (BUF_SIZE P)) (Z.of_nat (length (rx_data w1)))) in *.
    assert (k <= BUF_SIZE P) as Hkb by (unfold k; lia).
    rewrite Hread. cbn [bind].
    replace (k <? 0) with false by (symmetry; apply Z.ltb_ge; lia).
    rewrite (s32_small (remain - k)) by lia.
    replace (remain - k <=? 0) with true by (symmetry; apply Z.leb_le; lia).
    rewrite (s32_small (- (remain - k))) by lia.
    replace (k - - (remain - k)) with remain by lia.
    rewrite (s32_small remain) by lia.
    assert (u32 remain = remain + 2 ^ 32) as ->.
    { unfold u32, modulus. symmetry. apply (Z.mod_unique _ _ (-1)); lia. }
    rewrite load_beyond by lia. reflexivity.
Qed.

(** Witness of [http_download_overshoot]: the buffer holds the whole
    file of 140 bytes and 10 bytes more, and the socket has data. *)
Lemma http_download_overshoot_witness :
  http_download [20] amebaz 3 0x80008 demo_target_hdr
    (skipn 12 demo_file ++ repeat x01 372) 0 150 150
    (ImgLen (FileImgHdr demo_target_hdr) - 8) 0 (repeat x00 9)
    (demo_world (repeat x01 20))
  = None.
Proof.
  destruct (http_download_overshoot amebaz 3 0x80008 demo_target_hdr
              (skipn 12 demo_file ++ repeat x01 372) 0 150 (repeat x00 9) [20]
              (demo_world (repeat x01 20))) as [_ H].
  - vm_compute. split; [reflexivity|intros H; discriminate H].
  - lia.
  - reflexivity.
  - lia.
  - vm_compute. intros H. discriminate H.
  - reflexivity.
  - vm_compute. intros H. discriminate H.
  - vm_compute. reflexivity.
  - vm_compute. reflexivity.
  - reflexivity.
  - apply H.
    + discriminate.
    + exists 20. split; [reflexivity|lia].
Defined.

(* ----------------------------------------------------------------- *)
(** *** [http_update_ota]: a good stream is installed *)

Lemma erase_ota_target_flash_frame (P : platform) (addr len : Z) (w : world) :
  rx_data (erase_ota_target_flash P addr len w) = rx_data w /\
  wfail (erase_ota_target_flash P addr len w) = wfail w.
Proof.
  unfold erase_ota_target_flash.
  generalize (Z.to_nat (u32 (u32 (len - 1) / 4096 + 1))) as n.
  generalize 0 as i. intros i n. revert i w.
  induction n as [|n IH]; intros i w; [split; reflexivity|].
  cbn [erase_sectors]. destruct (IH (i + 1) (flash_erase_sector
    (u32 (addr - SPI_FLASH_BASE P + i * 4096)) w)) as [H1 H2].
  rewrite H1, H2. split; reflexivity.
Qed.

(** X24. The download and the commit of [http_update_ota] on a good
    stream (lines 1617-1745).  The buffer holds the first [wl] bytes of
    the file behind the response header and the socket has the rest; the
    file holds the image of the target header, without RDP image; no read
    and no write fails, and the first packet that reaches the image does
    not go beyond it.  Then the download ends with [http_size] at
    [ImgLen - 8], and the verification decides: for an image the verifier
    takes the result is 0, the target reads back as the image of the file,
    signature and payload, and the last two events are the write of the
    signature and the bank switch; for any other the result is -1, the
    first sector of the target is erased last and the bank is not
    switched. *)
Theorem http_update_installs_image (C : http_consts) (P : platform)
    (sock http_ota_target_index addr : Z) (alloc : list byte) (idx : Z)
    (rsp_result : http_response_result_t) (writelen : Z)
    (t : update_ota_target_hdr) (sched : list Z) (w : world) :
  let hl := header_len rsp_result in
  let wl := if writelen >? 0 then s32 (u32 (idx - hl))
            else s32 (u32 (HdrNum (FileHdr t) * ImgHdrLen (FileImgHdr t) + 8)) in
  let F := slice alloc hl wl ++ rx_data w in
  let off := Offset (FileImgHdr t) in
  let len := ImgLen (FileImgHdr t) in
  let img := slice F off len in
  let dst := u32 (addr - SPI_FLASH_BASE P) in
  let we := erase_ota_target_flash P addr len w in
  wf_platform P -> 8 <= BUF_SIZE P -> custom_signature_ok P ->
  8 <= IMAGE_HEADER_LEN P -> IMAGE_HEADER_LEN P + 32 <= len ->
  RdpStatus t = false ->
  0 <= sock -> Z.of_nat (length alloc) = BUF_SIZE P ->
  0 <= hl -> 0 <= wl -> hl + wl <= BUF_SIZE P ->
  0 <= off -> off + len <= Z.of_nat (length F) < 2 ^ 31 ->
  Z.of_nat (length F) = off + len \/ BUF_SIZE P <= len ->
  (http_ota_target_index = OTA_INDEX_1 -> len <= u32 (OTA2_ADDR C - OTA1_ADDR P)) ->
  Forall (fun n => 0 < n) sched ->
  Z.of_nat (length (rx_data w)) <= Z.of_nat (length sched) ->
  wfail w = [] ->
  exists sig sched' wd ret w' dl,
    http_erase_and_download C P sock http_ota_target_index addr alloc idx rsp_result
      writelen t sched w
    = Some (StageNext (sig, len - 8) sched' wd) /\
    http_verify P http_ota_target_index addr t (len - 8) sig wd = Some (ret, w') /\
    Forall is_image_event dl /\
    ((ret = 0 /\ image_accepted P t img /\
      flash_stream_read (cur_flash w') dst (Z.to_nat len) = img /\
      log w' = EvOtaChange http_ota_target_index
               :: EvWrite BySignature dst (firstn 8 img) :: dl ++ log we) \/
     (ret = -1 /\ ~ image_accepted P t img /\
      log w' = EvErase dst :: dl ++ log we)).
Proof.
  intros hl wl F off len img dst we HP H8 Hcus Hihl Hihl2 Hrdp Hsock Hal Hhl Hwl Hbw
    Hoff [Hin HF] Hover Hbank Hpos Hfit Hwf.
  assert (8 < len) as Hlen by lia.
  destruct (erase_ota_target_flash_frame P addr len w) as [Hrxe Hwfe].
  fold we in Hrxe, Hwfe.
  destruct (http_download_good P sock (u32 (addr - SPI_FLASH_BASE P + 8)) t alloc hl wl
              (repeat x00 9) sched we)
    as (sg & sched' & wd & es & Hrun & Hsg & Hsw & Hlog & Hfl0 & Hwfd);
    try assumption; try (rewrite Hrxe; assumption); try (rewrite Hrxe; split; assumption).
  { reflexivity. }
  { congruence. }
  rewrite Hrxe in Hsg, Hsw. fold F off len in Hrun, Hsg, Hsw.
  destruct (stream_writes_image _ _ _ _ _ Hsw) as [Hiw _].
  destruct (image_writes_events _ _ _ _ Hiw) as (Hev & _).
  unfold wf_platform in HP.
  assert (8 <= length sg)%nat as Hsgl.
  { assert (Z.of_nat (length (firstn 8 sg)) = 8) as H
      by (rewrite Hsg; apply slice_length; lia).
    rewrite length_firstn in H. lia. }
  set (mid := cur_flash wd).
  assert (mid = flash_after (rev es) (cur_flash we)) as Hmid
    by (apply cur_flash_extend; assumption).
  assert (flash_stream_read mid (u32 (addr - SPI_FLASH_BASE P + 8)) (Z.to_nat (len - 8))
          = slice F (off + 8) (len - 8)) as Hpay.
  { rewrite Hmid, (stream_writes_flash _ _ _ _ _ Hsw) by lia.
    rewrite slice_skipn by lia. f_equal. lia. }
  assert (img = firstn 8 sg ++ slice F (off + 8) (len - 8)) as Himg.
  { rewrite Hsg. unfold img. rewrite slice_app by lia. f_equal. lia. }
  assert (firstn 8 img = firstn 8 sg) as Hsig8.
  { rewrite Himg, firstn_app, firstn_firstn, length_firstn.
    replace (8 - Nat.min 8 (length sg))%nat with O by lia.
    rewrite firstn_O, app_nil_r. reflexivity. }
  assert (flash_stream_read mid (u32 (addr + IMAGE_HEADER_LEN P - SPI_FLASH_BASE P)) 32
          = slice img (IMAGE_HEADER_LEN P) 32) as Hcs.
  { rewrite flash_stream_read_u32.
    replace (addr + IMAGE_HEADER_LEN P - SPI_FLASH_BASE P)
      with (addr - SPI_FLASH_BASE P + 8 + (IMAGE_HEADER_LEN P - 8)) by lia.
    rewrite <- flash_stream_read_u32_add.
    change 32%nat with (Z.to_nat 32).
    rewrite <- (flash_stream_read_slice mid _ _ 32 (Z.to_nat (len - 8))) by lia.
    rewrite Hpay, slice_slice by lia. unfold img. rewrite slice_slice by lia.
    f_equal. lia. }
  destruct (custom_signature_defined P mid addr Hcus) as [d Hd].
  assert (d = false <->
          (CONFIG_CUSTOM_SIGNATURE P = true ->
           strcmp (slice img (IMAGE_HEADER_LEN P) 32) (cus_sig_demo P) = Some 0)) as Hdiff.
  { unfold custom_signature_differs in Hd.
    destruct (CONFIG_CUSTOM_SIGNATURE P) eqn:Ec.
    - rewrite Hcs in Hd.
      destruct (strcmp (slice img (IMAGE_HEADER_LEN P) 32) (cus_sig_demo P))
        as [c|]; [|discriminate].
      cbn [bind] in Hd. injection Hd as <-.
      destruct (c =? 0) eqn:E0; cbn [negb].
      + apply Z.eqb_eq in E0. subst c. tauto.
      + apply Z.eqb_neq in E0. split; [discriminate|].
        intros H. specialize (H eq_refl). congruence.
    - injection Hd as <-. split; [discriminate|reflexivity]. }
  (* the download *)
  assert (http_erase_and_download C P sock http_ota_target_index addr alloc idx
            rsp_result writelen t sched w
          = Some (StageNext (sg, len - 8) sched' wd)) as Hdl.
  { unfold http_erase_and_download. fold len hl.
    replace ((http_ota_target_index =? OTA_INDEX_1)
             && (len >? u32 (OTA2_ADDR C - OTA1_ADDR P))) with false.
    2:{ symmetry. apply andb_false_iff.
        destruct (Z.eq_dec http_ota_target_index OTA_INDEX_1) as [E|E].
        - right. rewrite Z.gtb_ltb. apply Z.ltb_ge. auto.
        - left. apply Z.eqb_neq. exact E. }
    rewrite (u32_small (len - 1)) by lia.
    assert (0 <= (len - 1) / 4096 < 2 ^ 19) as Hblk.
    { split; [apply Z.div_pos; lia|apply Z.div_lt_upper_bound; lia]. }
    rewrite (u32_small ((len - 1) / 4096 + 1)) by lia.
    replace (2 ^ 19 <? (len - 1) / 4096 + 1) with false
      by (symmetry; apply Z.ltb_ge; lia).
    fold we. fold wl.
    rewrite (u32_small (len - 8)), (s32_small (len - 8)) by lia.
    rewrite Z.add_0_l, (s32_small wl) by lia.
    exact Hrun. }
  (* the verification *)
  exists sg, sched', wd.
  unfold http_verify. rewrite (u32_small (len - 8)) by lia. fold mid.
  rewrite (verify_ota_checksum_primary P addr (len - 8) sg t mid d)
    by (auto; lia).
  cbn [bind]. unfold written_region. rewrite Hpay.
  rewrite byte_sum_app_comm, <- Himg.
  destruct d.
  - exists (-1), (flash_erase_sector (u32 (addr - SPI_FLASH_BASE P)) wd), es.
    cbn [Z.eqb negb]. split; [exact Hdl|]. split; [reflexivity|].
    split; [exact Hev|]. right.
    split; [reflexivity|]. split.
    + intros [_ Hacc]. apply Hdiff in Hacc. discriminate Hacc.
    + cbn [flash_erase_sector emit log]. rewrite Hlog. reflexivity.
  - destruct (byte_sum img =? Checksum (FileImgHdr t)) eqn:Esum.
    + apply Z.eqb_eq in Esum. cbn [Z.eqb negb].
      unfold change_ota_signature.
      destruct (load_bytes_defined sg 0 8) as [s8 Hs8]; [lia|lia|].
      rewrite Hs8. cbn [bind].
      assert (s8 = firstn 8 sg) as -> by
        (unfold load_bytes in Hs8; destruct (_ && _); [|discriminate];
         injection Hs8 as <-; reflexivity).
      unfold flash_stream_write. rewrite Hwfd. cbn [Z.ltb Z.compare bind Z.eqb].
      eexists 0, _, es. split; [exact Hdl|]. split; [reflexivity|].
      split; [exact Hev|]. left.
      split; [reflexivity|]. split; [split; [exact Esum|apply Hdiff; reflexivity]|].
      split.
      * rewrite !cur_flash_emit. cbn [apply_event]. fold mid. fold dst.
        replace (Z.to_nat len) with (8 + Z.to_nat (len - 8))%nat by lia.
        rewrite flash_stream_read_app. rewrite Himg. f_equal.
        -- assert (length (firstn 8 sg) = 8%nat) as Hl8
             by (rewrite length_firstn; lia).
           rewrite <- Hl8 at 2. apply flash_write_read. rewrite Hl8. lia.
        -- rewrite <- Hpay. change (Z.of_nat 8) with 8.
           rewrite (flash_stream_read_u32 mid (addr - SPI_FLASH_BASE P + 8)).
           rewrite <- (flash_stream_read_u32_add mid (addr - SPI_FLASH_BASE P) 8).
           fold dst.
           apply flash_stream_read_ext. intros j Hj.
           apply write_bytes_other. intros i Hi.
           rewrite length_firstn in Hi.
           replace (dst + 8 + j) with (dst + i + (8 - i + j)) by lia.
           intros E. symmetry in E. revert E. apply u32_shift_ne. lia.
      * cbn [emit log]. rewrite Hlog, Hsig8. reflexivity.
    + apply Z.eqb_neq in Esum. cbn [Z.eqb negb].
      exists (-1), (flash_erase_sector (u32 (addr - SPI_FLASH_BASE P)) wd), es.
      split; [exact Hdl|]. split; [reflexivity|]. split; [exact Hev|]. right.
      split; [reflexivity|]. split.
      * intros [Hacc _]. contradiction.
      * cbn [flash_erase_sector emit log]. rewrite Hlog. reflexivity.
Qed.

(** Witness of [http_update_installs_image]: the response header of 51
    bytes and the first 40 bytes of the file are in the buffer, the other
    100 bytes come in reads of 30 bytes, and the image ends up at bank 2. *)
Lemma http_update_installs_image_witness :
  exists sig sched' wd w',
    http_erase_and_download amebaz_http amebaz 3 OTA_INDEX_2 0x08080000
      (repeat x00 51 ++ firstn 40 (skipn 12 demo_file) ++ repeat x00 421) 91
      (set_header_end 51 zero_result) 24 demo_target_hdr (repeat 30 100)
      (demo_world (skipn 52 demo_file))
    = Some (StageNext (sig, ImgLen (FileImgHdr demo_target_hdr) - 8) sched' wd) /\
    http_verify amebaz OTA_INDEX_2 0x08080000 demo_target_hdr
      (ImgLen (FileImgHdr demo_target_hdr) - 8) sig wd = Some (0, w') /\
    flash_stream_read (cur_flash w') 0x80000 108 = demo_stream.
Proof.
  assert (image_accepted amebaz demo_target_hdr demo_stream) as Hacc.
  { split; [vm_compute; reflexivity|]. intros _. vm_compute. reflexivity. }
  destruct (http_update_installs_image amebaz_http amebaz 3 OTA_INDEX_2 0x08080000
              (repeat x00 51 ++ firstn 40 (skipn 12 demo_file) ++ repeat x00 421) 91
              (set_header_end 51 zero_result) 24 demo_target_hdr (repeat 30 100)
              (demo_world (skipn 52 demo_file)))
    as (sig & sched' & wd & ret & w' & dl & Hdl & Hver & _
        & [(-> & _ & Hread & _)|(_ & Hno & _)]).
  - exact amebaz_wf.
  - vm_compute. intros H. discriminate H.
  - exact amebaz_custom_signature_ok.
  - vm_compute. intros H. discriminate H.
  - vm_compute. intros H. discriminate H.
  - reflexivity.
  - lia.
  - reflexivity.
  - vm_compute. intros H. discriminate H.
  - vm_compute. intros H. discriminate H.
  - vm_compute. intros H. discriminate H.
  - vm_compute. intros H. discriminate H.
  - vm_compute. split; [intros H; discriminate H|reflexivity].
  - left. vm_compute. reflexivity.
  - intros H. discriminate H.
  - apply Forall_forall. intros x Hx. apply repeat_spec in Hx. subst x. lia.
  - vm_compute. intros H. discriminate H.
  - reflexivity.
  - exists sig, sched', wd, w'. split; [exact Hdl|]. split; [exact Hver|exact Hread].
  - exfalso. apply Hno. exact Hacc.
Defined.
